(* ===== verification/_CoqProject ===== *)
-Q . S2P
Prelude.v
JsString.v
EventLoop.v
Dedup.v
NotifClient.v
InboxPage.v
EmailService.v
InboxView.v
InboxSession.v
FiveMinHost.v
FiveMinPage.v
Generator.v
FiveMinInbox.v
Locale.v
StorageWf.v
InboxRender.v
FiveMinRender.v
FiveMinPageView.v
HomePage.v
Routing.v
EmailModal.v
Header.v
LanguageMenu.v
AppFlows.v
Frame.v
