(* ===== verification/Prelude.v ===== *)
(** * DisposableMail: a verification development

    The repository (sendbun/DisposableMail) is a Next.js temporary-email
    site.  Most of it is presentation; the logic that decides what the
    user sees and what is sent to the server lives in

    - [src/lib/email-service.ts]: account creation with API fallbacks,
      the strong-password generator, the per-site localStorage keys and
      records, the 24-hour and 5-minute expiry rules, the two
      initialisation flows and the clean-up of expired accounts;
    - [src/app/[locale]/inbox/page.tsx]: the inbox host, which throttles
      inbox loads (2 s), debounces refreshes (1 s), deduplicates
      new-email notifications (5 s window, keyed by "from-subject-time"
      strings), polls the notification client's status every 2 s and
      re-authenticates on each poll, and filters, pages and deletes
      messages (with [src/components/email-detail-modal.tsx]);
    - [src/app/[locale]/5-minutes-temporary-email/inbox/page.tsx]: the
      same host for 5-minute accounts, with an account poll and a
      countdown that removes the expired account;
    - [src/app/[locale]/5-minutes-temporary-email/page.tsx] and
      [src/components/email-generator.tsx]: the pages that create,
      restore and replace accounts;
    - [layout.tsx], [language-switcher.tsx], [footer.tsx], [header.tsx]:
      the locale fallback, the language switch and the links;
    - [src/app/[locale]/page.tsx]: the home page, static content around
      the generator, with one relative link.

    The pages call the email service for storage and accounts, and the
    notification client ([EmailNotificationClient], from
    [@/lib/email-notification-client], not among the sources) for
    real-time messages; the client is modelled from the spec (section
    4.1) and marked so in the manifest.  Every page that writes
    localStorage goes through the service; the inboxes read it at every
    render; the links between the pages go through the URL resolution
    of the browser.

    ** Files (in dependency order) and what they model

    - [Prelude] (this file): the scope [dm_scope], the hint databases
      [dm] and [dm_rw], the tactics [invc], [case_if], [bool_to_prop] and
      generic lemmas on [existsb] and [filter].
    - [JsString]: the JavaScript string operations the code relies on
      ([split] on one character, [includes], [toLowerCase], [padStart],
      truthiness [||] of optional strings, the regex sanitisation of the
      site key) with their algebra (split/join round trip, pieces never
      contain the separator, ...).
    - [EventLoop]: the browser's timer queue ([setTimeout],
      [clearTimeout], due callbacks run earliest first); [advance] takes
      fuel and [advance_spec] shows one unit per pending timer suffices;
      [advance_sim] carries a simulation between two callback handlers
      through a run.
    - [Dedup]: the notification key and duplicate test of
      [handleNewEmail] and the spec's abstract (from, subject) window.
    - [NotifClient]: the client as a record and one function per
      operation and transport callback, the reachable states, the class
      [NotificationApi] with its laws that the host is proved against.
    - [InboxPage]: the host's state [Page] (React state and refs),
      [loadEmails] split into request and completion, [debouncedRefresh],
      [handleNewEmail] over the event loop, the status poll, handler
      registration and the unmount cleanup.
    - [EmailService]: the service, with localStorage as a [gmap].
    - [InboxView]: the account the page reads, the search filter and its
      sender helpers, page change, the message modal, deletion.
    - [InboxSession]: the inbox page composed as React runs it, a
      session of page, timers and client driven by notifications, the
      clock, fetch completions and page clicks; a click that changes
      [currentPage] re-runs the handler effect (its cleanup, then its
      body) and the account check, because [loadEmails] and then
      [debouncedRefresh] change identity ([rerun_effects]).
    - [FiveMinHost]: the 5-minute inbox's copies of the host handlers,
      and the setoid ([page_equiv], [host_equiv], [Proper] instances)
      under which the two hosts are equivalent.
    - [FiveMinPage] (Module [FiveMin]), [Generator] (Module
      [Generator]): the account pages.
    - [FiveMinInbox]: the 5-minute inbox's account poll and countdown.
    - [Locale]: the locale fallback, the language switch, the header's
      navigation.
    - [StorageWf]: every page action that writes localStorage as the
      step relation [app_step] (with writes of other scripts), and the
      well-formedness [storage_wf] of the two records, kept by all.
    - [InboxRender]: the inbox's render as a [View] (WebSocket labels,
      count, list rows, pagination bar), pagination clicks on the
      rendered bar, the header buttons ([copyEmailAddress],
      [refreshEmailAccount]) and runs of UI events ([ui_run]).
    - [FiveMinRender]: the 5-minute inbox's render with its timer badge,
      its own [refreshEmailAccount], [handleRefresh] and clipboard
      handlers; its copies of the regular inbox's code are the regular
      definitions.
    - [FiveMinPageView] (Module [FiveMinView]): the 5-minute page's
      render and copy handler.
    - [HomePage]: the home page as a list of nodes.
    - [EmailModal]: the email detail dialog's render, its props as the
      inboxes pass them, and its invariant over the inbox's events.
    - [Routing]: URL resolution for [Link href] and [router.push], the
      routes of src/app, and every link of the pages.
    - [Header]: the header's mobile sheet and theme toggle as a state
      machine, its render, and the abstract specification [Header.Spec]
      it refines.
    - [LanguageMenu]: the floating switcher's and the footer's language
      menus, and the route each item leads to (after the trailing-slash
      redirect of Next.js).
    - [AppFlows]: the composition of the pages through localStorage:
      the generator's mount read back by the inbox, the 5-minute page's
      mount read back by the 5-minute inbox.
    - [Frame]: the layout around every page (its metadata, the header,
      footer, toaster and floating switcher on the provider's locale)
      and the footer's render, whose links are [Routing.footer_links]
      and whose social icons lead nowhere.

    ** What the theorems show (claims C1-C40 of the manifest)

    - Deduplication (C1-C3): the host over the event loop refines the
      spec's 5-second window for hyphen-free senders and subjects; a
      notification without subject is never suppressed.
    - Client and host (C4-C10): an invariant of all reachable states, a
      REST-only URL never connects, reconnects stop after the maximum,
      the unmount silences the client, re-authentication on every poll,
      the throttle and the debounce.
    - The page as a session (C11-C14): through any run from the mount
      every pending refresh timer is the one [refreshTimeoutRef] holds; a
      page click cancels the pending refresh, empties the recent set and
      re-registers the handler once; a click inside the debounce window
      and the throttle loses the refresh and never loads the new page;
      stale responses overwrite newer ones.
    - Equivalence, storage shape and composition (C15-C18): the 5-minute
      host is equivalent to the regular one under [host_equiv], which
      compares deduplication and loading (the same notifications dropped,
      the same requests sent at the same times); every
      reachable storage is well formed; what the generator shows is what
      the inbox opens (or, when creation fails, a made-up address the
      inbox does not know); the 5-minute page and its inbox show the
      same address and the same seconds left.
    - Email service (C19-C22): password composition, the regular
      initialisation by what is stored (a young account reused, otherwise
      a new one or an error), the storage
      round trip and key separation, the last second where the countdown
      is 0 but the account is not expired.
    - 5-minute flows (C23-C29): "new email" returns the same account,
      repeated expiry toasts, the frozen demo countdown, the inbox link
      showing the regular account; the 5-minute inbox never removes the
      account early, removes it within the remaining seconds plus one
      tick with one toast, and its polling stops.
    - Inbox view and dialog (C30-C37): the search filter, the render
      crash on a sender-less email, the throttled page change, the page
      number staying positive through every UI event, throttled "next"
      clicks adding one each and going past the last page on stale data, the dialog closing after any delete,
      the dialog naming senders unlike the list, and the dialog open only
      with a message (and then deletable) through every UI event.
    - Links, locale, header (C38-C40): where every link leads (the home
      page's call to action and the expiry redirect lose the locale,
      four footer links have no page); on every page under a supported
      locale both language menus highlight it and lead to the same page
      in the other language; the header refines its specification except
      for a first theme click on a dark system, which changes nothing.

    Other theorems of the files are not claims: the 5-minute host's own
    window refinement ([five_handleNewEmail_window]), the 5-minute
    initialisation on every branch ([initialize5MinEmailAccount_spec]),
    the timer badge never showing "NaN:NaN" ([timer_badge_time_left]),
    the menus on an unsupported locale segment, which lead nowhere or
    back to English ([unsupported_locale_menus]), a notification
    announced twice around a page click
    ([page_click_forgets_duplicates]), the concrete lost refresh
    ([page_click_loses_refresh]), the layout's two identical
    language menus and the inert social icons ([frame_spec],
    [social_icons_inert]), the generator
    restoring accounts of any age ([initializeAccount_restores_any_age]),
    the confusion of
    hyphenated subjects ([key_matches_confuses_subjects]), the session
    sent on open ([open_sends_session]), the single registered handler
    ([register_handler_once]), the delete handler overwriting a newer
    load ([delete_overwrites_newer_load]), the bar's range for fresh
    pagination ([pager_click_in_range]), the "No WS" label of a REST-only
    client ([rest_client_shows_no_ws]), the 5-minute inbox's countdown
    in a reachable storage ([inbox_timeLeft_defined]), the 5-minute
    page's card ([render_countdown]), the home page's content
    ([home_page_content]), the language switch round trip
    ([language_switch_roundtrip]), opening and closing the dialog
    ([dialog_open_close]), the header's render ([render_header]), account
    creation and clean-up ([createEmailAccount_spec],
    [cleanupExpiredAccounts_spec]), and others.

    ** Bounds and fuel

    [EventLoop.advance] is given one more unit of fuel than there are
    pending timers ([InboxPage.tick], [FiveMinHost.five_tick]); callbacks
    of the modelled timers schedule no new timer, so this is enough
    ([advance_spec]).  The polling and countdown runs ([poll_run],
    [countdown_run], [FiveMin.ticks]) are indexed by the number of
    interval firings, and the theorems quantify over it.  Times are
    JavaScript millisecond timestamps kept as [Z], which the code only
    adds, subtracts, compares and floor-divides; [timeLeft] of the
    5-minute inbox is [option Z], [None] for [NaN].

    ** Not modelled

    Styling, icons and layout classes; locale date formatting (only the
    branch [formatDate] takes is kept); system notifications (the page
    asks for the permission, [requests_permission], and never uses it);
    the name generator outside src/ (its output is an input of the
    initialisations and of [generateProfessionalEmailAccount]); the
    translation files and [i18n.ts], outside src/ (texts are their keys,
    locales a parameter); the theme provider's storage (the stored theme
    is an input of [Header]); the loading flag of the message dialog,
    since loading a message is one step; the server behind the API calls
    (responses are inputs); the 5-minute inbox as one session (its
    handlers, account poll and countdown are modelled on their own
    states, [FiveMinHost] and [FiveMinInbox]; its handler effect has the
    same deps and cleanup as the regular one, lines 245-320, and the
    [InboxSession] results carry over by [five_notify_all_equiv] only
    for the notification part); the [InboxResponse] and [MailHeaders]
    interfaces, which no code reads as declared (the page reads
    [result.success] and keeps only the [from] headers, [Email]).  The
    rest of src/ is imports, type
    declarations modelled once for the three copies, and markup. *)

From stdpp Require Export base list option strings pretty.
From Stdlib Require Export Ascii ZArith Lia.

Declare Scope dm_scope.
Delimit Scope dm_scope with dm.

Create HintDb dm discriminated.
Create Rewrite HintDb dm_rw.

(** stdpp makes [String.append] opaque to [simpl]; the models compute
    with concatenated strings, so let it reduce on constructors. *)
#[global] Arguments String.append : simpl nomatch.

(** ** Tactics *)

Ltac invc H := inversion H; subst; clear H.

(** Case on the first boolean [if] of the goal, naming the equation. *)
Ltac case_if :=
  match goal with
  | |- context [if ?b then _ else _] =>
      let E := fresh "Eif" in destruct b eqn:E
  end.

(** Turn boolean tests of the usual kinds into propositions. *)
Ltac bool_to_prop :=
  repeat match goal with
  | H : (_ && _)%bool = true |- _ => apply andb_true_iff in H as [? ?]
  | H : (_ || _)%bool = false |- _ => apply orb_false_iff in H as [? ?]
  | H : (_ && _)%bool = false |- _ => apply andb_false_iff in H as [?|?]
  | H : (_ || _)%bool = true |- _ => apply orb_true_iff in H as [?|?]
  | H : negb _ = true |- _ => apply negb_true_iff in H
  | H : negb _ = false |- _ => apply negb_false_iff in H
  | H : String.eqb _ _ = true |- _ => apply String.eqb_eq in H
  | H : String.eqb _ _ = false |- _ => apply String.eqb_neq in H
  | H : Z.ltb _ _ = true |- _ => apply Z.ltb_lt in H
  | H : Z.ltb _ _ = false |- _ => apply Z.ltb_ge in H
  | H : Z.leb _ _ = true |- _ => apply Z.leb_le in H
  | H : Z.leb _ _ = false |- _ => apply Z.leb_gt in H
  | H : Nat.ltb _ _ = true |- _ => apply Nat.ltb_lt in H
  | H : Nat.ltb _ _ = false |- _ => apply Nat.ltb_ge in H
  end.

(** ** Generic lemmas *)

Lemma existsb_filter_false {A} (p q : A -> bool) (l : list A) :
  existsb p l = false -> existsb p (List.filter q l) = false.
Proof.
  induction l as [|x l IH]; simpl; [done|].
  intros [Hx Hl]%orb_false_iff. destruct (q x); simpl; rewrite ?Hx; auto.
Qed.

Lemma existsb_all_false {A} (f : A -> bool) (l : list A) :
  (forall x, In x l -> f x = false) -> existsb f l = false.
Proof.
  induction l as [|x l IH]; simpl; [done|]. intros H.
  rewrite (H x (or_introl eq_refl)), IH; auto.
Qed.

Lemma existsb_ext_in {A} (f g : A -> bool) (l : list A) :
  (forall x, In x l -> f x = g x) -> existsb f l = existsb g l.
Proof.
  induction l as [|x l IH]; simpl; [done|]. intros H.
  rewrite (H x (or_introl eq_refl)), IH; auto.
Qed.

Lemma existsb_map' {A B} (f : B -> bool) (g : A -> B) (l : list A) :
  existsb f (map g l) = existsb (fun x => f (g x)) l.
Proof. induction l as [|x l IH]; simpl; congruence. Qed.

Lemma filter_all_false {A} (f : A -> bool) (l : list A) :
  (forall x, In x l -> f x = false) -> List.filter f l = [].
Proof.
  induction l as [|x l IH]; simpl; [done|]. intros H.
  rewrite (H x (or_introl eq_refl)). auto.
Qed.

#[export] Hint Resolve existsb_all_false existsb_ext_in filter_all_false : dm.
#[export] Hint Rewrite @existsb_map' : dm_rw.
