(* ===== verification/JsString.v ===== *)
(** * JsString: the JavaScript string operations the sources use

    [String.prototype.split] with a one-character separator, the [join]
    that inverts it, [includes], [toLowerCase] on ASCII letters,
    [padStart] with a one-character pad, the truthiness [||] of an
    optional string, and the character-class replacement
    [.replace(/[^a-zA-Z0-9-]/g, '-')] of [getSiteKey].  Each is an
    executable [Fixpoint] or [Definition]; the lemmas are the algebra the
    component proofs use. *)

From S2P Require Import Prelude.

(** ** Characters *)

Definition hyphen : ascii := "-"%char.

Fixpoint has_char (c : ascii) (s : string) : bool :=
  match s with
  | EmptyString => false
  | String d s' => Ascii.eqb d c || has_char c s'
  end.

Definition in_range (lo hi : nat) (c : ascii) : bool :=
  (lo <=? nat_of_ascii c) && (nat_of_ascii c <=? hi).

Definition is_upper (c : ascii) : bool := in_range 65 90 c.
Definition is_lower (c : ascii) : bool := in_range 97 122 c.
Definition is_digit (c : ascii) : bool := in_range 48 57 c.

(** ** [s.split(sep)] for a one-character [sep] *)

(** JavaScript: [''.split('-')] is [['']], ['a-b'.split('-')] is
    [['a','b']], ['-'.split('-')] is [['','']]. *)
Fixpoint js_split (sep : ascii) (s : string) : list string :=
  match s with
  | EmptyString => [EmptyString]
  | String c s' =>
      let rest := js_split sep s' in
      if Ascii.eqb c sep then EmptyString :: rest
      else match rest with
           | [] => [String c EmptyString]
           | w :: ws => String c w :: ws
           end
  end.

(** [arr.join(sep)]. *)
Definition js_join (sep : ascii) (l : list string) : string :=
  String.concat (String sep EmptyString) l.

(** ** [s.includes(sub)] *)

Fixpoint js_includes (s sub : string) : bool :=
  String.prefix sub s ||
  match s with
  | EmptyString => false
  | String _ s' => js_includes s' sub
  end.

(** ** [s.toLowerCase()] on ASCII *)

Definition ascii_lower (c : ascii) : ascii :=
  if is_upper c then ascii_of_nat (nat_of_ascii c + 32) else c.

Fixpoint js_toLowerCase (s : string) : string :=
  match s with
  | EmptyString => EmptyString
  | String c s' => String (ascii_lower c) (js_toLowerCase s')
  end.

(** ** [s.padStart(n, c)] with a one-character pad *)

Fixpoint repeat_char (c : ascii) (k : nat) : string :=
  match k with
  | O => EmptyString
  | S k' => String c (repeat_char c k')
  end.

Definition js_padStart (n : nat) (c : ascii) (s : string) : string :=
  repeat_char c (n - String.length s) +:+ s.

(** ** Truthiness: [v || d] where [v] may be [undefined], [null] or a
    string; the empty string is falsy. *)

Definition js_or (v : option string) (d : string) : string :=
  match v with
  | Some s => if String.eqb s EmptyString then d else s
  | None => d
  end.

Infix "|||" := js_or (at level 50, left associativity) : dm_scope.

(** ** [.replace(/[^a-zA-Z0-9-]/g, '-')] *)

Definition is_key_char (c : ascii) : bool :=
  is_upper c || is_lower c || is_digit c || Ascii.eqb c hyphen.

Fixpoint sanitize_key (s : string) : string :=
  match s with
  | EmptyString => EmptyString
  | String c s' => String (if is_key_char c then c else hyphen) (sanitize_key s')
  end.

Fixpoint all_chars (p : ascii -> bool) (s : string) : bool :=
  match s with
  | EmptyString => true
  | String c s' => p c && all_chars p s'
  end.

(** ** Lemmas *)

Lemma js_split_cons_nosep sep c s :
  Ascii.eqb c sep = false ->
  exists w ws, js_split sep s = w :: ws /\
               js_split sep (String c s) = String c w :: ws.
Proof.
  intros Hc. destruct s as [|d s]; simpl; rewrite Hc.
  - by eexists _, _.
  - destruct (Ascii.eqb d sep); [by eexists _, _|].
    destruct (js_split sep s); by eexists _, _.
Qed.

Lemma js_split_not_nil sep s : js_split sep s <> [].
Proof.
  destruct s as [|c s]; simpl; [done|].
  destruct (Ascii.eqb c sep); [done|]. by destruct (js_split sep s).
Qed.

(** A string without the separator is one piece. *)
Lemma js_split_nosep sep a :
  has_char sep a = false -> js_split sep a = [a].
Proof.
  induction a as [|c a IH]; simpl; [done|].
  intros [Hc Ha]%orb_false_iff. rewrite Hc, IH; done.
Qed.

(** Splitting [a ++ sep ++ b] with [a] free of [sep] gives [a] first. *)
Lemma js_split_app sep a b :
  has_char sep a = false ->
  js_split sep (a +:+ String sep b) = a :: js_split sep b.
Proof.
  induction a as [|c a IH]; simpl.
  - by rewrite Ascii.eqb_refl.
  - intros [Hc Ha]%orb_false_iff. rewrite Hc, (IH Ha). done.
Qed.

(** No piece of a split contains the separator. *)
Lemma js_split_pieces sep s :
  Forall (fun w => has_char sep w = false) (js_split sep s).
Proof.
  induction s as [|c s IH]; simpl; [by constructor|].
  destruct (Ascii.eqb c sep) eqn:Hc; [by constructor|].
  destruct (js_split sep s) as [|w ws] eqn:E; [by apply js_split_not_nil in E|].
  apply Forall_cons in IH as [Hw Hws]. constructor; [|done].
  simpl. by rewrite Hc, Hw.
Qed.

Lemma string_app_nil_r s : s +:+ EmptyString = s.
Proof. induction s; simpl; congruence. Qed.

Lemma string_app_assoc a b c : a +:+ (b +:+ c) = (a +:+ b) +:+ c.
Proof. induction a; simpl; congruence. Qed.

Lemma concat_cons sep w ws :
  String.concat (String sep EmptyString) (w :: ws) =
  w +:+ match ws with
        | [] => EmptyString
        | _ => String sep (String.concat (String sep EmptyString) ws)
        end.
Proof. destruct ws; simpl; [by rewrite string_app_nil_r|done]. Qed.

(** Split and join round trip: [s.split(c).join(c) === s]. *)
Lemma js_join_split sep s : js_join sep (js_split sep s) = s.
Proof.
  unfold js_join. induction s as [|c s IH]; [done|]. cbn [js_split].
  destruct (js_split sep s) as [|w ws] eqn:E; [by apply js_split_not_nil in E|].
  destruct (Ascii.eqb c sep) eqn:Hc.
  - apply Ascii.eqb_eq in Hc as ->. rewrite concat_cons, <- IH. done.
  - rewrite !concat_cons in *. simpl. by rewrite IH.
Qed.

(** Cutting at the first separator is unique. *)
Lemma app_sep_inj sep a a' b b' :
  has_char sep a = false -> has_char sep a' = false ->
  a +:+ String sep b = a' +:+ String sep b' -> a = a' /\ b = b'.
Proof.
  revert a'. induction a as [|c a IH]; intros [|c' a'] Ha Ha' E; simpl in *.
  - by injection E.
  - apply orb_false_iff in Ha' as [Hc' _]. injection E as -> _.
    by rewrite Ascii.eqb_refl in Hc'.
  - apply orb_false_iff in Ha as [Hc _]. injection E as <- _.
    by rewrite Ascii.eqb_refl in Hc.
  - apply orb_false_iff in Ha as [_ Ha], Ha' as [_ Ha']. injection E as -> E.
    destruct (IH a' Ha Ha' E) as [-> ->]. done.
Qed.

Lemma js_or_some_nonempty s d : s <> EmptyString -> js_or (Some s) d = s.
Proof. intros H. simpl. by destruct (String.eqb_spec s EmptyString). Qed.

Lemma js_or_cases v d : js_or v d = d \/ v = Some (js_or v d).
Proof.
  destruct v as [s|]; simpl; [|by left].
  destruct (String.eqb_spec s EmptyString); [left|right]; congruence.
Qed.

(** The result of [js_or] is free of [c] when both the value and the
    default are. *)
Lemma js_or_has_char c v d :
  (forall s, v = Some s -> has_char c s = false) -> has_char c d = false ->
  has_char c (js_or v d) = false.
Proof.
  intros Hv Hd. destruct v as [s|]; simpl; [|done].
  destruct (String.eqb s EmptyString); eauto.
Qed.

Lemma has_char_app c a b :
  has_char c (a +:+ b) = has_char c a || has_char c b.
Proof. induction a as [|d a IH]; simpl; [done|]. by rewrite IH, orb_assoc. Qed.

Lemma string_length_app a b : String.length (a +:+ b) = (String.length a + String.length b)%nat.
Proof. induction a as [|c a IH]; simpl; congruence. Qed.

(** Every character of a sanitised key is a key character. *)
Lemma sanitize_key_chars s : all_chars is_key_char (sanitize_key s) = true.
Proof.
  induction s as [|c s IH]; simpl; [done|]. rewrite IH, andb_true_r.
  destruct (is_key_char c) eqn:E; [done|]. reflexivity.
Qed.

Lemma sanitize_key_id s : all_chars is_key_char s = true -> sanitize_key s = s.
Proof.
  induction s as [|c s IH]; simpl; [done|].
  intros [Hc Hs]%andb_true_iff. by rewrite Hc, IH.
Qed.

Lemma sanitize_key_app a b : sanitize_key (a +:+ b) = sanitize_key a +:+ sanitize_key b.
Proof. induction a as [|c a IH]; simpl; congruence. Qed.

Lemma sanitize_key_length s : String.length (sanitize_key s) = String.length s.
Proof. induction s as [|c s IH]; simpl; congruence. Qed.

#[export] Hint Resolve js_split_nosep js_split_app js_split_not_nil : dm.
#[export] Hint Rewrite has_char_app sanitize_key_app sanitize_key_length string_length_app : dm_rw.
