(* ===== verification/EventLoop.v ===== *)
(** * EventLoop: the single-threaded timer queue of the browser

    The page and the notification client schedule work with [setTimeout]
    and cancel it with [clearTimeout].  A [loop] holds the current time,
    the next timer id and the pending timers in creation order; a timer
    carries the action its callback performs, interpreted by the
    component that scheduled it.  [advance] runs the callbacks that are
    due by a given time, earliest due time first and creation order
    among equal due times (the HTML timer ordering), setting the clock to
    each callback's due time; it takes fuel, and [advance_spec] shows
    that one unit per pending timer is enough when callbacks schedule
    nothing new. *)

From S2P Require Import Prelude.

Section EventLoop.
Context {A : Type}.

Record timer := mkTimer { tm_id : nat; tm_due : Z; tm_act : A }.

Record loop := mkLoop { lp_now : Z; lp_next : nat; lp_timers : list timer }.

(** [setTimeout(cb, delay)]: returns the new timer's id. *)
Definition setTimeout (delay : Z) (a : A) (l : loop) : nat * loop :=
  (lp_next l,
   mkLoop (lp_now l) (S (lp_next l))
          (lp_timers l ++ [mkTimer (lp_next l) (lp_now l + delay)%Z a])).

Definition remove_timer (id : nat) (ts : list timer) : list timer :=
  List.filter (fun u => negb (Nat.eqb (tm_id u) id)) ts.

(** [clearTimeout(id)]: unknown ids are ignored. *)
Definition clearTimeout (id : nat) (l : loop) : loop :=
  mkLoop (lp_now l) (lp_next l) (remove_timer id (lp_timers l)).

(** The timer that fires next: least due time, first created among
    equals. *)
Fixpoint earliest (ts : list timer) : option timer :=
  match ts with
  | [] => None
  | u :: ts' =>
      match earliest ts' with
      | Some v => if (tm_due v <? tm_due u)%Z then Some v else Some u
      | None => Some u
      end
  end.

Definition next_due (t : Z) (l : loop) : option timer :=
  match earliest (lp_timers l) with
  | Some u => if (tm_due u <=? t)%Z then Some u else None
  | None => None
  end.

(** Take a timer out of the queue to run it at its due time. *)
Definition pop (u : timer) (l : loop) : loop :=
  mkLoop (tm_due u) (lp_next l) (remove_timer (tm_id u) (lp_timers l)).

Definition set_now (t : Z) (l : loop) : loop := mkLoop t (lp_next l) (lp_timers l).

(** Run every callback due by [t], then set the clock to [t]. *)
Fixpoint advance {S} (h : A -> S -> loop -> S * loop) (fuel : nat) (t : Z)
    (s : S) (l : loop) : S * loop :=
  match fuel with
  | O => (s, l)
  | Datatypes.S f =>
      match next_due t l with
      | Some u => let '(s', l') := h (tm_act u) s (pop u l) in advance h f t s' l'
      | None => (s, set_now t l)
      end
  end.

(** ** Lemmas *)

Lemma earliest_in ts u : earliest ts = Some u -> In u ts.
Proof.
  induction ts as [|v ts IH]; simpl; [done|].
  destruct (earliest ts) as [w|]; [|intros [= ->]; by left].
  destruct (tm_due w <? tm_due v)%Z; intros [= <-]; [right; auto | by left].
Qed.

Lemma earliest_none ts : earliest ts = None -> ts = [].
Proof.
  destruct ts as [|u ts]; simpl; [done|].
  destruct (earliest ts) as [v|]; [|done]. by destruct (tm_due v <? tm_due u)%Z.
Qed.

Lemma earliest_min ts u : earliest ts = Some u -> Forall (fun v => (tm_due u <= tm_due v)%Z) ts.
Proof.
  revert u. induction ts as [|v ts IH]; intros u; simpl; [done|].
  destruct (earliest ts) as [w|] eqn:E.
  - specialize (IH w eq_refl).
    destruct (Z.ltb_spec (tm_due w) (tm_due v)); intros [= <-]; constructor; try lia.
    + done.
    + eapply Forall_impl; [exact IH|]. simpl. lia.
  - intros [= <-]. rewrite (earliest_none _ E). by constructor.
Qed.

Lemma next_due_some t l u :
  next_due t l = Some u ->
  In u (lp_timers l) /\ (tm_due u <= t)%Z /\ Forall (fun v => (tm_due u <= tm_due v)%Z) (lp_timers l).
Proof.
  unfold next_due. destruct (earliest _) as [v|] eqn:E; [|done].
  destruct (Z.leb_spec (tm_due v) t); [|done]. intros [= <-].
  split; [by apply earliest_in|]. split; [done|]. by apply earliest_min.
Qed.

(** When nothing is due, every pending timer is strictly later. *)
Lemma next_due_none t l :
  next_due t l = None -> Forall (fun v => (t < tm_due v)%Z) (lp_timers l).
Proof.
  unfold next_due. destruct (earliest _) as [v|] eqn:E.
  - destruct (Z.leb_spec (tm_due v) t); [done|]. intros _.
    eapply Forall_impl; [by apply earliest_min|]. simpl. lia.
  - intros _. by rewrite (earliest_none _ E).
Qed.

Lemma remove_timer_length id ts :
  In id (map tm_id ts) -> length (remove_timer id ts) < length ts.
Proof.
  unfold remove_timer. induction ts as [|u ts IH]; simpl; [done|]. intros Hin.
  destruct (Nat.eqb_spec (tm_id u) id) as [E|E]; simpl.
  - pose proof (List.filter_length_le (fun v => negb (Nat.eqb (tm_id v) id)) ts). lia.
  - destruct Hin as [|Hin]; [done|]. specialize (IH Hin). lia.
Qed.

Lemma pop_length u l :
  In u (lp_timers l) -> length (lp_timers (pop u l)) < length (lp_timers l).
Proof. intros Hin. apply remove_timer_length, in_map, Hin. Qed.

Section Advance.
Context {S : Type} (h : A -> S -> loop -> S * loop).

(** Invariant principle for [advance], with enough fuel: when
    callbacks add no timer and the fuel exceeds the pending timers,
    [advance] ends by setting the clock on a queue where nothing is due
    any more, and a property kept by every due callback holds there. *)
Lemma advance_spec (P : S -> loop -> Prop) fuel t s l :
  (forall a s l, length (lp_timers (h a s l).2) <= length (lp_timers l)) ->
  (forall u s l, P s l -> next_due t l = Some u -> P (h (tm_act u) s (pop u l)).1
                                                    (h (tm_act u) s (pop u l)).2) ->
  length (lp_timers l) < fuel -> P s l ->
  exists s' l', advance h fuel t s l = (s', set_now t l') /\ P s' l' /\
                next_due t l' = None.
Proof.
  intros Hh Hstep. revert s l.
  induction fuel as [|f IH]; intros s l Hlen Hp; [lia|]. simpl.
  destruct (next_due t l) as [u|] eqn:E; [|by exists s, l].
  pose proof (Hh (tm_act u) s (pop u l)) as Hl.
  specialize (Hstep u s l Hp E).
  destruct (h (tm_act u) s (pop u l)) as [s' l'] eqn:Eh. cbn [fst snd] in Hl, Hstep.
  apply IH; [|done].
  apply next_due_some in E as [Hin _]. pose proof (pop_length u l Hin). lia.
Qed.
End Advance.

(** Simulation principle for [advance]: two hosts whose callbacks keep a
    relation [R] between their states and leave the same queue run the
    same callbacks and stay related. *)
Section AdvanceSim.
Context {S1 S2 : Type} (h1 : A -> S1 -> loop -> S1 * loop) (h2 : A -> S2 -> loop -> S2 * loop)
        (R : S1 -> S2 -> Prop).
Hypothesis Hsim : forall a s1 s2 l, R s1 s2 ->
  R (h1 a s1 l).1 (h2 a s2 l).1 /\ (h1 a s1 l).2 = (h2 a s2 l).2.

Lemma advance_sim fuel t s1 s2 l :
  R s1 s2 ->
  R (advance h1 fuel t s1 l).1 (advance h2 fuel t s2 l).1 /\
  (advance h1 fuel t s1 l).2 = (advance h2 fuel t s2 l).2.
Proof.
  revert s1 s2 l. induction fuel as [|f IH]; intros s1 s2 l Hr; simpl; [done|].
  destruct (next_due t l) as [u|]; [|done].
  destruct (Hsim (tm_act u) s1 s2 (pop u l) Hr) as [Hr' Hl].
  destruct (h1 (tm_act u) s1 (pop u l)) as [s1' l1], (h2 (tm_act u) s2 (pop u l)) as [s2' l2].
  simpl in *. subst l2. by apply IH.
Qed.
End AdvanceSim.
End EventLoop.

Arguments timer : clear implicits.
Arguments loop : clear implicits.

#[export] Hint Resolve earliest_in next_due_some next_due_none pop_length : dm.
