(* ===== verification/Dedup.v ===== *)
(** * Dedup: the duplicate-notification test of the inbox pages

    [handleNewEmail] (src/app/[locale]/inbox/page.tsx, lines 260-280; the
    5-minute inbox has the same code) builds a key
    ["<from||'unknown'>-<subject||'no-subject'>-<Date.now()>"], and calls a
    notification a duplicate when some key of the recent set, split on
    ['-'], has the notification's sender and subject as its first two
    pieces.  This file models the key, the test and the payload, states
    the window the spec asks for (section 4.1 and design notes: "suppress
    duplicates with the same (from, subject) within 5 seconds") as an
    abstract test over the delivered history, and relates the two:

    - [isDuplicate_window]: when the recorded notifications have
      hyphen-free sender and subject, the code's test is exactly the
      abstract one over the recorded history;
    - [isDuplicate_hyphen_never]: a notification whose sender or defaulted
      subject contains a hyphen is never a duplicate; in particular one
      without subject (default ["no-subject"]) is never suppressed;
    - [key_matches_confuses_subjects]: different subjects can be taken for
      the same one. *)

From S2P Require Import Prelude JsString.

(** ** The payload *)

(** The inbound "new email" payload: optional [from] and [subject]; any
    other field is carried along uninterpreted. *)
Record Notification := mkNotification {
  n_from : option string;
  n_subject : option string;
  n_extra : list (string * string)
}.

Definition DEFAULT_FROM : string := "unknown".
Definition DEFAULT_SUBJECT : string := "no-subject".

(** [notification.from || 'unknown'] *)
Definition from_or_unknown (n : Notification) : string := js_or (n_from n) DEFAULT_FROM.

(** [notification.subject || 'no-subject'] *)
Definition subject_or_default (n : Notification) : string :=
  js_or (n_subject n) DEFAULT_SUBJECT.

(** [`${notification.from || 'unknown'}-${notification.subject || 'no-subject'}-${Date.now()}`] *)
Definition notificationKey (n : Notification) (now : Z) : string :=
  from_or_unknown n +:+ String hyphen (subject_or_default n +:+ String hyphen (pretty now)).

(** The callback of [.some]:
    [const [from, subject] = key.split('-').slice(0, 2)] and the two
    strict comparisons.  A missing piece is [undefined], equal to no
    string. *)
Definition key_matches (n : Notification) (key : string) : bool :=
  match take 2 (js_split hyphen key) with
  | [f; s] => String.eqb f (from_or_unknown n) && String.eqb s (subject_or_default n)
  | _ => false
  end.

(** [Array.from(recentNotificationsRef.current).some(...)] *)
Definition isDuplicate (recent : list string) (n : Notification) : bool :=
  existsb (key_matches n) recent.

(** ** The abstract window *)

Definition NOTIFICATION_DEDUP_MS : Z := 5000%Z.

(** The identity the spec deduplicates on. *)
Definition fields (n : Notification) : string * string :=
  (from_or_unknown n, subject_or_default n).

Definition same_fields (m n : Notification) : bool :=
  String.eqb (from_or_unknown m) (from_or_unknown n) &&
  String.eqb (subject_or_default m) (subject_or_default n).

(** The spec's test: some notification delivered less than 5 s ago has the
    same sender and subject. *)
Definition window_dup (delivered : list (Notification * Z)) (n : Notification) (now : Z) : bool :=
  existsb (fun '(m, t) => same_fields m n && (now - t <? NOTIFICATION_DEDUP_MS)%Z) delivered.

(** The condition under which the key encoding is faithful. *)
Definition hyphen_free (n : Notification) : bool :=
  negb (has_char hyphen (from_or_unknown n)) && negb (has_char hyphen (subject_or_default n)).

(** ** Lemmas *)

Lemma same_fields_spec m n : same_fields m n = true <-> fields m = fields n.
Proof.
  unfold same_fields, fields. rewrite andb_true_iff, !String.eqb_eq.
  split; [intros [-> ->]; done | intros [= -> ->]; done].
Qed.

(** The first two pieces of a key of a hyphen-free notification are its
    sender and subject. *)
Lemma notificationKey_pieces m t :
  hyphen_free m = true ->
  take 2 (js_split hyphen (notificationKey m t)) = [from_or_unknown m; subject_or_default m].
Proof.
  unfold hyphen_free, notificationKey.
  intros [Hf Hs]%andb_true_iff. apply negb_true_iff in Hf, Hs.
  rewrite js_split_app by done. rewrite js_split_app by done. done.
Qed.

Lemma key_matches_key m n t :
  hyphen_free m = true -> key_matches n (notificationKey m t) = same_fields m n.
Proof. intros Hm. unfold key_matches. by rewrite notificationKey_pieces. Qed.

(** A piece produced by [split('-')] never contains a hyphen, so a field
    that does is matched by no key. *)
Lemma key_matches_hyphen n key :
  has_char hyphen (from_or_unknown n) || has_char hyphen (subject_or_default n) = true ->
  key_matches n key = false.
Proof.
  intros Hn. unfold key_matches.
  pose proof (js_split_pieces hyphen key) as Hp.
  destruct (js_split hyphen key) as [|f [|s rest]]; cbn [firstn]; rewrite ?take_0; [done|done|].
  apply Forall_cons in Hp as [Hf [Hs _]%Forall_cons].
  destruct (String.eqb_spec f (from_or_unknown n)) as [->|]; [|done].
  destruct (String.eqb_spec s (subject_or_default n)) as [->|]; [|done].
  by rewrite Hf, Hs in Hn.
Qed.

(** Keys of hyphen-free notifications determine sender, subject and
    time. *)
Lemma notificationKey_inj m m' t t' :
  hyphen_free m = true -> hyphen_free m' = true ->
  notificationKey m t = notificationKey m' t' -> fields m = fields m' /\ t = t'.
Proof.
  unfold hyphen_free, notificationKey, fields.
  intros [Hf Hs]%andb_true_iff [Hf' Hs']%andb_true_iff E.
  apply negb_true_iff in Hf, Hs, Hf', Hs'.
  destruct (app_sep_inj _ _ _ _ _ Hf Hf' E) as [-> E2].
  destruct (app_sep_inj _ _ _ _ _ Hs Hs' E2) as [-> E3].
  split; [done|]. by apply (inj pretty).
Qed.

#[export] Hint Resolve notificationKey_pieces key_matches_key : dm.

(** ** Theorems *)

(** A notification whose sender or defaulted subject contains a hyphen is
    never found in the recent set, whatever the set holds. *)
Lemma isDuplicate_hyphen_never recent n :
  has_char hyphen (from_or_unknown n) || has_char hyphen (subject_or_default n) = true ->
  isDuplicate recent n = false.
Proof. intros Hn. apply existsb_all_false. intros key _. by apply key_matches_hyphen. Qed.

(** A notification without a subject (absent, [null] or empty) is
    never suppressed as a duplicate, whatever the recent set holds: its
    default subject ["no-subject"] contains the separator the key is split
    on, so the second piece of every key is at most ["no"]. *)
Theorem no_subject_never_duplicate recent n :
  n_subject n = None \/ n_subject n = Some EmptyString ->
  isDuplicate recent n = false.
Proof.
  intros Hs. apply isDuplicate_hyphen_never. apply orb_true_iff. right.
  unfold subject_or_default. by destruct Hs as [-> | ->].
Qed.

(** C2. Refinement of the spec's duplicate test: when every recorded key
    comes from a notification whose sender and subject are free of
    hyphens, the code's test on the recorded keys is exactly "some
    recorded notification has the same sender and subject". *)
Theorem isDuplicate_window (hist : list (Notification * Z)) n :
  Forall (fun p => hyphen_free (fst p) = true) hist ->
  isDuplicate (map (fun p => notificationKey (fst p) (snd p)) hist) n =
  existsb (fun p => same_fields (fst p) n) hist.
Proof.
  intros Hh. unfold isDuplicate. rewrite existsb_map'.
  apply existsb_ext_in. intros [m t] Hin. simpl.
  apply key_matches_key. exact (proj1 (List.Forall_forall _ _) Hh (m, t) Hin).
Qed.

(** The key test confuses subjects: a key recorded for subject
    ["b-c"] makes a later notification with subject ["b"] from the same
    sender a duplicate, though their subjects differ. *)
Example key_matches_confuses_subjects :
  let n1 := mkNotification (Some "a") (Some "b-c") [] in
  let n2 := mkNotification (Some "a") (Some "b") [] in
  same_fields n1 n2 = false /\ isDuplicate [notificationKey n1 1700000000000%Z] n2 = true.
Proof. vm_compute. split; reflexivity. Qed.

(** Witness of [no_subject_never_duplicate]: an event without subject is not suppressed even right
    after its own key was recorded. *)
Lemma no_subject_never_duplicate_witness :
  isDuplicate [notificationKey (mkNotification (Some "a@b.com") None []) 0%Z]
              (mkNotification (Some "a@b.com") None []) = false.
Proof. apply no_subject_never_duplicate. left. reflexivity. Defined.

(** Witness of [isDuplicate_window] on the spec's scenario payload. *)
Lemma isDuplicate_window_witness :
  isDuplicate [notificationKey (mkNotification (Some "a@b.com") (Some "Hi") []) 0%Z]
              (mkNotification (Some "a@b.com") (Some "Hi") []) = true.
Proof.
  refine (eq_trans (isDuplicate_window
            [(mkNotification (Some "a@b.com") (Some "Hi") [], 0%Z)] _ _) _).
  - constructor; [reflexivity|constructor].
  - reflexivity.
Defined.
