(* ===== verification/NotifClient.v ===== *)
(** * NotifClient: the real-time notification client

    [EmailNotificationClient] is imported by both inbox pages from
    [@/lib/email-notification-client], a file that is not among the
    sources; it is modelled here from the spec (sections 3, 4.1, 6, 7).
    The host uses it only through the operations of the class
    [NotificationApi] below, and the inbox theorems are proved against
    that class and its laws [NotificationApiLaws]; the record [Client]
    with one function per public operation and per transport callback
    is the instance.

    Modelling choices where the spec leaves freedom:
    - a URL is REST-only when it contains ["uapi.sendbun.com"], the test
      the host itself uses (inbox/page.tsx line 226);
    - the backoff delay is not fixed by the spec and is not modelled:
      a pending reconnect is a flag, and its firing is the event
      [EvReconnectTimer]; only the number of attempts matters to the
      theorems;
    - callbacks are identified by the id under which they were
      registered; dispatch returns the ids to invoke, in order. *)

From S2P Require Import Prelude JsString.

(** ** Data *)

Inductive Transport := Disconnected | Connecting | Connected.

#[export] Instance Transport_eq_dec : EqDecision Transport.
Proof. solve_decision. Defined.

(** Outbound messages. *)
Inductive ClientMsg :=
| MsgAuthenticate (accountId : string)
| MsgJoinRoom (address : string).

#[export] Instance ClientMsg_eq_dec : EqDecision ClientMsg.
Proof. solve_decision. Defined.

(** [getConnectionStatus()] *)
Record ConnectionStatus := mkStatus {
  isConnected : bool;
  reconnectAttempts : nat;
  isEnabled : bool
}.

(** ** The interface the host relies on *)

Class NotificationApi (C : Type) := {
  api_available : C -> bool;                 (** [isWebSocketAvailable()] *)
  api_status : C -> ConnectionStatus;        (** [getConnectionStatus()] *)
  api_authenticate : string -> C -> C;       (** [authenticate(id)] *)
  api_join : string -> C -> C;               (** [joinEmailRoom(address)] *)
  api_onNewEmail : nat -> C -> C;            (** [onNewEmail(cb)] *)
  api_clear : C -> C;                        (** [clearNotificationCallbacks()] *)
  api_disconnect : C -> C;                   (** [disconnect()] *)
  api_callbacks : C -> list nat;             (** the live registry *)
  api_dispatch : C -> list nat;              (** callbacks run by a new-email message *)
  api_sent : C -> list ClientMsg             (** messages sent so far *)
}.

(** What the client promises the host. *)
Class NotificationApiLaws (C : Type) `{NotificationApi C} := {
  law_status_enabled c : isEnabled (api_status c) = api_available c;
  law_clear c : api_callbacks (api_clear c) = [];
  law_on c cb : api_available c = true ->
                api_callbacks (api_onNewEmail cb c) = api_callbacks c ++ [cb];
  law_authenticate c id :
    api_sent (api_authenticate id c) =
    api_sent c ++ (if isConnected (api_status c) then [MsgAuthenticate id] else []);
  law_join c a :
    api_sent (api_join a c) =
    api_sent c ++ (if isConnected (api_status c) then [MsgJoinRoom a] else []);
  law_authenticate_status c id : api_status (api_authenticate id c) = api_status c;
  law_join_status c a : api_status (api_join a c) = api_status c;
  law_disconnect c : isConnected (api_status (api_disconnect c)) = false;
  law_dispatch c :
    api_dispatch c = if isConnected (api_status c) then api_callbacks c else [];
  law_clear_keeps c :
    api_available (api_clear c) = api_available c /\ api_status (api_clear c) = api_status c;
  law_on_keeps c cb :
    api_available (api_onNewEmail cb c) = api_available c /\
    api_status (api_onNewEmail cb c) = api_status c
}.

(** ** The client *)

Record Client := mkClient {
  c_enabled : bool;                (** not a REST-only URL *)
  c_transport : Transport;
  c_attempts : nat;                (** reconnect attempts so far *)
  c_max : nat;                     (** maximum reconnect attempts *)
  c_accountId : option string;     (** cached session identity *)
  c_address : option string;
  c_callbacks : list nat;          (** registry, in registration order *)
  c_closed : bool;                 (** [disconnect()] was called *)
  c_reconnect_pending : bool;      (** a backoff timer is scheduled *)
  c_outbox : list ClientMsg;       (** messages sent on the transport *)
  c_opens : nat                    (** transports opened so far *)
}.

Definition REST_SIGNATURE : string := "uapi.sendbun.com".

Definition is_rest_url (url : string) : bool := js_includes url REST_SIGNATURE.

(** The URL the inbox pages construct the client with
    ([process.env.NEXT_PUBLIC_WS_URL || 'ws://localhost:8001']). *)
Definition wsUrl (NEXT_PUBLIC_WS_URL : option string) : string :=
  js_or NEXT_PUBLIC_WS_URL "ws://localhost:8001".

(** [new EmailNotificationClient(url)]: a push URL opens the transport at
    once; a REST-only URL disables the client for its lifetime. *)
Definition construct (url : string) (max : nat) : Client :=
  let en := negb (is_rest_url url) in
  mkClient en (if en then Connecting else Disconnected) 0 max None None [] false false []
           (if en then 1 else 0).

(** The pages' WebSocket effect (inbox/page.tsx, lines 214-239): once
    per page, guarded by [wsInitializedRef], the client is constructed
    from [wsUrl] and the ref is set; the test for a REST-only URL that
    follows has an empty body. *)
Definition ws_init (NEXT_PUBLIC_WS_URL : option string) (max : nat) (initialized : bool)
    (client : option Client) : bool * option Client :=
  if initialized then (initialized, client)
  else (true, Some (construct (wsUrl NEXT_PUBLIC_WS_URL) max)).

Definition transport_is (t : Transport) (c : Client) : bool := bool_decide (c_transport c = t).

(** The authenticate/join pair, sent only when both are known. *)
Definition session_msgs (c : Client) : list ClientMsg :=
  match c_accountId c, c_address c with
  | Some id, Some a => [MsgAuthenticate id; MsgJoinRoom a]
  | _, _ => []
  end.

(** Field updates used by the operations below. *)
Definition with_conn (t : Transport) (attempts : nat) (pending closed : bool) (opens : nat)
    (c : Client) : Client :=
  mkClient (c_enabled c) t attempts (c_max c) (c_accountId c) (c_address c)
           (c_callbacks c) closed pending (c_outbox c) opens.

Definition with_session (id a : option string) (out : list ClientMsg) (c : Client) : Client :=
  mkClient (c_enabled c) (c_transport c) (c_attempts c) (c_max c) id a
           (c_callbacks c) (c_closed c) (c_reconnect_pending c) out (c_opens c).

Definition with_callbacks (cbs : list nat) (c : Client) : Client :=
  mkClient (c_enabled c) (c_transport c) (c_attempts c) (c_max c) (c_accountId c)
           (c_address c) cbs (c_closed c) (c_reconnect_pending c) (c_outbox c) (c_opens c).

(** Transport [open] callback: connected, attempts reset, and the cached
    session re-sent. *)
Definition on_open (c : Client) : Client :=
  if c_enabled c && negb (c_closed c) && transport_is Connecting c then
    with_session (c_accountId c) (c_address c) (c_outbox c ++ session_msgs c)
      (with_conn Connected 0 false false (c_opens c) c)
  else c.

(** Transport [close]/[error] callback: disconnected; a reconnect is
    scheduled and counted while attempts remain, otherwise the client
    gives up. *)
Definition on_close (c : Client) : Client :=
  if c_enabled c && negb (c_closed c) && negb (transport_is Disconnected c) then
    if (c_attempts c <? c_max c)%nat
    then with_conn Disconnected (S (c_attempts c)) true false (c_opens c) c
    else with_conn Disconnected (c_attempts c) false false (c_opens c) c
  else c.

(** The backoff timer fires: open a new transport. *)
Definition on_reconnect_timer (c : Client) : Client :=
  if c_reconnect_pending c && negb (c_closed c) then
    with_conn Connecting (c_attempts c) false false (S (c_opens c)) c
  else c.

(** [authenticate(accountId)]: cached; sent now only when connected. *)
Definition authenticate (id : string) (c : Client) : Client :=
  if c_enabled c then
    with_session (Some id) (c_address c)
      (c_outbox c ++ if transport_is Connected c then [MsgAuthenticate id] else []) c
  else c.

(** [joinEmailRoom(address)]: cached; sent now only when connected. *)
Definition joinEmailRoom (a : string) (c : Client) : Client :=
  if c_enabled c then
    with_session (c_accountId c) (Some a)
      (c_outbox c ++ if transport_is Connected c then [MsgJoinRoom a] else []) c
  else c.

(** [onNewEmail(cb)] *)
Definition onNewEmail (cb : nat) (c : Client) : Client :=
  if c_enabled c then with_callbacks (c_callbacks c ++ [cb]) c else c.

(** [clearNotificationCallbacks()] *)
Definition clearNotificationCallbacks (c : Client) : Client := with_callbacks [] c.

(** A "new-email" message arrives: the callbacks to invoke, in
    registration order, each with the payload. *)
Definition dispatch (c : Client) : list nat :=
  if c_enabled c && transport_is Connected c then c_callbacks c else [].

(** [disconnect()]: terminal; cancels a pending reconnect. *)
Definition disconnect (c : Client) : Client :=
  if c_enabled c then with_conn Disconnected (c_attempts c) false true (c_opens c) c else c.

(** [getConnectionStatus()]: a disabled client reports disabled and
    disconnected. *)
Definition getConnectionStatus (c : Client) : ConnectionStatus :=
  mkStatus (c_enabled c && transport_is Connected c) (c_attempts c) (c_enabled c).

(** [isWebSocketAvailable()] *)
Definition isWebSocketAvailable (c : Client) : bool := c_enabled c.

(** ** Events and reachable states *)

Inductive ClientEvent :=
| EvOpen | EvClose | EvReconnectTimer
| EvAuthenticate (id : string) | EvJoin (a : string)
| EvOnNewEmail (cb : nat) | EvClear | EvDisconnect.

Definition client_step (e : ClientEvent) (c : Client) : Client :=
  match e with
  | EvOpen => on_open c
  | EvClose => on_close c
  | EvReconnectTimer => on_reconnect_timer c
  | EvAuthenticate id => authenticate id c
  | EvJoin a => joinEmailRoom a c
  | EvOnNewEmail cb => onNewEmail cb c
  | EvClear => clearNotificationCallbacks c
  | EvDisconnect => disconnect c
  end.

Definition run (evs : list ClientEvent) (c : Client) : Client :=
  fold_left (fun c e => client_step e c) evs c.

Inductive reachable : Client -> Prop :=
| reach_init url max : reachable (construct url max)
| reach_step c e : reachable c -> reachable (client_step e c).

(** The state invariant. *)
Definition client_inv (c : Client) : Prop :=
  (c_attempts c <= c_max c)%nat /\
  (c_enabled c = false ->
     c_transport c = Disconnected /\ c_opens c = 0%nat /\ c_outbox c = [] /\
     c_reconnect_pending c = false) /\
  (c_closed c = true -> c_transport c = Disconnected /\ c_reconnect_pending c = false) /\
  (c_reconnect_pending c = true -> c_transport c = Disconnected).

(** ** Lemmas *)

Ltac unfold_client :=
  unfold client_step, on_open, on_close, on_reconnect_timer, authenticate, joinEmailRoom,
    onNewEmail, clearNotificationCallbacks, disconnect, with_conn, with_session,
    with_callbacks, transport_is in *.

(** Case on every test of an operation and close the goal. *)
Ltac client_cases :=
  unfold_client;
  repeat (case_if; bool_to_prop; try case_bool_decide; simpl in *);
  try (unfold client_inv in *; simpl in *; intuition (try congruence; try lia)).

Lemma client_step_enabled e c : c_enabled (client_step e c) = c_enabled c.
Proof. destruct e; client_cases. Qed.

Lemma client_step_max e c : c_max (client_step e c) = c_max c.
Proof. destruct e; client_cases. Qed.

Lemma run_app evs1 evs2 c : run (evs1 ++ evs2) c = run evs2 (run evs1 c).
Proof. unfold run. by rewrite fold_left_app. Qed.

Lemma run_reachable evs c : reachable c -> reachable (run evs c).
Proof.
  revert c. induction evs as [|e evs IH]; intros c Hc; simpl; [done|].
  apply IH. by constructor.
Qed.

Lemma run_enabled evs c : c_enabled (run evs c) = c_enabled c.
Proof.
  revert c. induction evs as [|e evs IH]; intros c; simpl; [done|].
  by rewrite IH, client_step_enabled.
Qed.

(** Every operation keeps the invariant. *)
Lemma client_step_inv e c : client_inv c -> client_inv (client_step e c).
Proof.
  intros Hinv. pose proof Hinv as (Hatt & Hdis & Hclosed & Hpend).
  destruct e; client_cases.
Qed.

Lemma status_disconnected c :
  c_transport c = Disconnected -> isConnected (getConnectionStatus c) = false.
Proof.
  intros Ht. unfold getConnectionStatus, transport_is. simpl. rewrite Ht.
  case_bool_decide; [done|]. by rewrite andb_false_r.
Qed.

(** A quiescent client (disconnected, no reconnect pending) stays so under
    every operation and opens no transport. *)
Definition quiescent (c : Client) : Prop :=
  c_transport c = Disconnected /\ c_reconnect_pending c = false.

Lemma client_step_quiescent e c :
  quiescent c -> quiescent (client_step e c) /\ c_opens (client_step e c) = c_opens c.
Proof. unfold quiescent. intros [Ht Hp]. destruct e; client_cases. Qed.

Lemma run_quiescent evs c :
  quiescent c -> quiescent (run evs c) /\ c_opens (run evs c) = c_opens c.
Proof.
  revert c. induction evs as [|e evs IH]; intros c Hq; simpl; [done|].
  destruct (client_step_quiescent e c Hq) as [Hq' Ho].
  destruct (IH _ Hq') as [Hq'' Ho']. split; [done|]. by rewrite Ho', Ho.
Qed.

#[export] Hint Resolve client_step_inv run_reachable run_quiescent : dm.

(** ** Theorems *)

(** C4. Invariant of the client: every reachable state satisfies
    [client_inv]: attempts never exceed the maximum, a disabled client has
    no transport, no reconnect and sends nothing, a disconnected-for-good
    client has no pending reconnect, and a pending reconnect implies a
    disconnected transport. *)
Theorem client_inv_reachable c : reachable c -> client_inv c.
Proof.
  induction 1 as [url max|c e _ IH].
  - unfold construct, client_inv; simpl. destruct (is_rest_url url); simpl; intuition lia.
  - by apply client_step_inv.
Qed.

(** C5. Spec property 1: a client built on a REST-only URL never opens a
    transport and never sends, whatever the host does. *)
Theorem disabled_never_connects url max evs :
  is_rest_url url = true ->
  let c := run evs (construct url max) in
  c_opens c = 0%nat /\ c_outbox c = [] /\ isConnected (getConnectionStatus c) = false /\
  isWebSocketAvailable c = false.
Proof.
  intros Hrest c.
  assert (Hen : c_enabled c = false) by (subst c; rewrite run_enabled; simpl; by rewrite Hrest).
  destruct (client_inv_reachable c (run_reachable _ _ (reach_init url max)))
    as (_ & Hdis & _).
  destruct (Hdis Hen) as (Ht & Ho & Hout & _).
  repeat split; auto. by apply status_disconnected.
Qed.

(** Spec property 6: after [disconnect()] no transport is ever opened
    again and the client reports disconnected, whatever follows. *)
Theorem disconnect_terminal c evs :
  c_enabled c = true ->
  let c' := run evs (disconnect c) in
  c_opens c' = c_opens c /\ isConnected (getConnectionStatus c') = false.
Proof.
  intros Hen c'.
  assert (Hq : quiescent (disconnect c)) by (unfold disconnect; rewrite Hen; split; done).
  destruct (run_quiescent evs _ Hq) as [[Ht _] Ho]. subst c'.
  split.
  - rewrite Ho. unfold disconnect. by rewrite Hen.
  - by apply status_disconnected.
Qed.

(** One failed connection attempt: the transport closes and the backoff
    timer reopens it. *)
Definition fail_cycle : list ClientEvent := [EvClose; EvReconnectTimer].

Lemma fail_cycle_step c :
  c_enabled c = true -> c_closed c = false -> c_transport c = Connecting ->
  (c_attempts c < c_max c)%nat ->
  let c' := run fail_cycle c in
  c_transport c' = Connecting /\ c_attempts c' = S (c_attempts c) /\
  c_opens c' = S (c_opens c) /\ c_closed c' = false /\ c_enabled c' = true /\
  c_max c' = c_max c.
Proof.
  intros Hen Hcl Ht Hlt. unfold run, fail_cycle. simpl. client_cases.
Qed.

Lemma fail_cycles c k :
  c_enabled c = true -> c_closed c = false -> c_transport c = Connecting ->
  (c_attempts c + k <= c_max c)%nat ->
  let c' := run (concat (repeat fail_cycle k)) c in
  c_transport c' = Connecting /\ c_attempts c' = (c_attempts c + k)%nat /\
  c_opens c' = (c_opens c + k)%nat /\ c_closed c' = false /\ c_enabled c' = true /\
  c_max c' = c_max c.
Proof.
  revert c. induction k as [|k IH]; intros c Hen Hcl Ht Hle; cbn [repeat concat].
  - rewrite !Nat.add_0_r. done.
  - rewrite run_app.
    destruct (fail_cycle_step c Hen Hcl Ht ltac:(lia)) as (Ht' & Ha' & Ho' & Hc' & He' & Hm').
    destruct (IH _ He' Hc' Ht' ltac:(lia)) as (? & ? & ? & ? & ? & ?).
    repeat split; auto; lia.
Qed.

(** A failure with no attempt left gives up: quiescent, counters kept. *)
Lemma close_at_max c :
  c_enabled c = true -> c_closed c = false -> c_transport c = Connecting ->
  c_attempts c = c_max c ->
  let c' := client_step EvClose c in
  quiescent c' /\ c_attempts c' = c_attempts c /\ c_opens c' = c_opens c.
Proof.
  intros Hen Hcl Ht Hm. unfold quiescent. client_cases.
Qed.

(** C6. Spec property 5: after the maximum number of failed reconnects and
    one more failure, the client has made [max] reconnect attempts
    (opened [1 + max] transports), reports disconnected, and never opens
    another transport whatever follows. *)
Theorem retries_exhausted url max evs :
  is_rest_url url = false ->
  let c := run (concat (repeat fail_cycle max) ++ [EvClose]) (construct url max) in
  c_attempts c = max /\ c_opens c = S max /\
  isConnected (getConnectionStatus c) = false /\
  c_opens (run evs c) = S max /\ isConnected (getConnectionStatus (run evs c)) = false.
Proof.
  intros Hrest c.
  assert (H0 : c_enabled (construct url max) = true) by (simpl; by rewrite Hrest).
  destruct (fail_cycles (construct url max) max H0 eq_refl ltac:(simpl; by rewrite Hrest)
              ltac:(simpl; lia)) as (Ht & Ha & Ho & Hc & He & Hm).
  simpl in Ha, Ho, Hm. rewrite Hrest in Ho. simpl in Ho.
  destruct (close_at_max _ He Hc Ht ltac:(lia)) as ([Htc Hp] & Ha' & Ho').
  assert (Hq : quiescent c) by (subst c; rewrite run_app; split; done).
  destruct (run_quiescent evs c Hq) as [[Ht' _] Ho''].
  subst c. rewrite run_app in *. cbn [run fold_left] in *.
  repeat split; try lia; by apply status_disconnected.
Qed.

(** Every successful open with a known session sends exactly one
    authenticate followed by one join, and resets the attempts. *)
Lemma open_sends_session_gen c id a :
  c_enabled c = true -> c_closed c = false -> c_transport c = Connecting ->
  c_accountId c = Some id -> c_address c = Some a ->
  let c' := client_step EvOpen c in
  c_outbox c' = c_outbox c ++ [MsgAuthenticate id; MsgJoinRoom a] /\
  c_attempts c' = 0%nat /\ isConnected (getConnectionStatus c') = true.
Proof.
  intros Hen Hcl Ht Hid Ha c'. subst c'. unfold getConnectionStatus, session_msgs.
  unfold_client. rewrite Hen, Hcl, Ht, Hid, Ha. simpl.
  repeat (case_bool_decide; try congruence); simpl.
  unfold session_msgs. rewrite Hid, Ha. done.
Qed.

(** Spec property 2 for the client the inbox host builds: on a push
    URL, once the host has authenticated and joined before the transport
    is up, the successful open sends exactly one authenticate followed by
    one join, and the client reports connected with its attempts reset. *)
Theorem open_sends_session env_url max id a :
  is_rest_url (wsUrl env_url) = false ->
  let c := run [EvAuthenticate id; EvJoin a] (construct (wsUrl env_url) max) in
  c_outbox (client_step EvOpen c) = [MsgAuthenticate id; MsgJoinRoom a] /\
  c_attempts (client_step EvOpen c) = 0%nat /\
  isConnected (getConnectionStatus (client_step EvOpen c)) = true.
Proof.
  intros Hr c.
  assert (Hc : c_enabled c = true /\ c_closed c = false /\ c_transport c = Connecting /\
               c_accountId c = Some id /\ c_address c = Some a /\ c_outbox c = []).
  { subst c. unfold run. simpl. unfold construct, authenticate, joinEmailRoom, transport_is.
    rewrite Hr. simpl. repeat (case_bool_decide; try congruence). done. }
  destruct Hc as (He & Hcl & Ht & Hid & Ha & Ho).
  destruct (open_sends_session_gen c id a He Hcl Ht Hid Ha) as (H1 & H2 & H3).
  rewrite H1, Ho. done.
Qed.

(** ** The client implements the interface *)

#[export] Instance Client_api : NotificationApi Client := {
  api_available := isWebSocketAvailable;
  api_status := getConnectionStatus;
  api_authenticate := authenticate;
  api_join := joinEmailRoom;
  api_onNewEmail := onNewEmail;
  api_clear := clearNotificationCallbacks;
  api_disconnect := disconnect;
  api_callbacks := c_callbacks;
  api_dispatch := dispatch;
  api_sent := c_outbox
}.

#[export] Instance Client_api_laws : NotificationApiLaws Client.
Proof.
  split; intros; simpl in *; unfold getConnectionStatus, isWebSocketAvailable in *; simpl;
    unfold_client; unfold dispatch; try done;
    destruct (c_enabled c) eqn:E; simpl in *; rewrite ?E, ?app_nil_r;
    repeat (case_bool_decide; simpl); try split; by try congruence.
Qed.

(** ** Witnesses *)

Definition push_url : string := "wss://notify.sendbun.com/ws".
Definition rest_url : string := "https://uapi.sendbun.com/api".

(** A session: construct, authenticate and join before the transport
    opens. *)
Definition session_client : Client :=
  run [EvAuthenticate "42"; EvJoin "temp@sendbun.com"] (construct push_url 3).

Lemma client_inv_reachable_witness :
  client_inv (run [EvOpen; EvClose; EvReconnectTimer] (construct push_url 3)).
Proof. apply client_inv_reachable. apply run_reachable. constructor. Defined.

Lemma disabled_never_connects_witness :
  c_opens (run [EvOpen; EvAuthenticate "42"] (construct rest_url 5)) = 0%nat.
Proof.
  exact (proj1 (disabled_never_connects rest_url 5 [EvOpen; EvAuthenticate "42"] eq_refl)).
Defined.

Lemma disconnect_terminal_witness :
  c_opens (run [EvClose; EvReconnectTimer; EvOpen] (disconnect (construct push_url 3))) = 1%nat.
Proof.
  exact (proj1 (disconnect_terminal (construct push_url 3) [EvClose; EvReconnectTimer; EvOpen]
                  eq_refl)).
Defined.

Lemma retries_exhausted_witness :
  c_opens (run [EvReconnectTimer; EvOpen]
             (run (concat (repeat fail_cycle 3) ++ [EvClose]) (construct push_url 3))) = 4%nat.
Proof.
  exact (proj1 (proj2 (proj2 (proj2 (retries_exhausted push_url 3 [EvReconnectTimer; EvOpen]
                                       eq_refl))))).
Defined.

Lemma open_sends_session_witness :
  c_outbox (client_step EvOpen (run [EvAuthenticate "42"; EvJoin "temp@sendbun.com"]
                                  (construct (wsUrl (Some push_url)) 3))) =
    [MsgAuthenticate "42"; MsgJoinRoom "temp@sendbun.com"].
Proof. exact (proj1 (open_sends_session (Some push_url) 3 "42" "temp@sendbun.com" eq_refl)). Defined.
