(* ===== verification/InboxPage.v ===== *)
(** * InboxPage: the inbox host of src/app/[locale]/inbox/page.tsx

    The page's React state ([useState], lines 103-113) and refs
    ([useRef], lines 120-125) are one record [Page]; each handler is a
    function of the page, the event loop and the values it reads
    ([Date.now()], the stored account, the fetch result).  [fetch] is
    asynchronous: [loadEmails] issues a [Request] and [loadEmails_finish]
    is the continuation run when the response arrives, so responses may
    interleave with other events.  Toasts are appended to [pg_toasts].

    Groups of theorems:
    - the throttle of [loadEmails] (at most one request per 2 s);
    - the debounce of [debouncedRefresh] (one pending refresh timer);
    - [handleNewEmail] over the event loop refines the spec's 5-second
      window for hyphen-free notifications ([handleNewEmail_window]) and
      delivers every subject-less duplicate ([no_subject_always_delivered]);
    - the status poll re-sends authenticate and join on every poll while
      connected ([poll_reauthenticates]), proved against the client
      interface [NotificationApi];
    - the cleanup on unmount silences the client ([unmount_silences]).
    The view handlers (search, page change, deletion) are in [InboxView]. *)

From S2P Require Import Prelude JsString EventLoop Dedup NotifClient.

(** ** Data (lines 34-98) *)

Record EmailAddress := mkAddress {
  ea_full : string; ea_host : string; ea_mail : string; ea_mailbox : string; ea_personal : string
}.

Record Email := mkEmail {
  em_id : Z;
  em_folder : string;
  em_is_seen : string;
  em_from_headers : list EmailAddress;   (** [mail_headers.from] *)
  em_body : string;
  em_subject : string;
  em_date : Z;
  em_have_attachments : bool
}.

Record FullEmail := mkFullEmail {
  fe_id : Z; fe_to : string; fe_from_list : list EmailAddress; fe_from : string;
  fe_body : string; fe_html : string; fe_subject : string; fe_date : Z; fe_is_seen : string
}.

Record PaginationData := mkPagination {
  pd_currentPage : Z; pd_pageSize : Z; pd_totalItems : Z; pd_totalPages : Z;
  pd_hasNextPage : bool
}.

(** The toasts the page shows. *)
Inductive Toast :=
| ToastDemoMode | ToastFailedToLoadEmails | ToastError
| ToastRefreshing (id : nat) | ToastDismiss (id : nat) | ToastRefreshed
| ToastNewEmail (from : string)
| ToastEmailDeleted | ToastDeleteFailed | ToastFailedToLoadEmail.

(** What to do when a request completes: the [.finally] of the caller. *)
Inductive Continuation := ContNone | ContRefreshToast (toast : nat) | ContManualToast (toast : nat).

Record Request := mkRequest { rq_id : nat; rq_url : string; rq_cont : Continuation }.

(** The account read from localStorage at render ([loadEmailData()],
    lines 115-117 and 157). *)
Record Env := mkEnv {
  env_accountId : option string;
  env_email : option string;
  env_domainId : option string
}.

(** Timer callbacks the page schedules. *)
Inductive TimerAction :=
| DeleteKey (key : string)     (** line 278: forget a notification key *)
| RunRefresh.                  (** line 195: the debounced refresh *)

(** ** State *)

Record Page := mkPage {
  pg_emails : list Email;
  pg_pagination : option PaginationData;
  pg_isLoading : bool;
  pg_currentPage : Z;
  pg_searchTerm : string;
  pg_filterFolder : string;
  pg_hasEmailAccount : bool;
  pg_modalOpen : bool;
  pg_fullEmail : option FullEmail;
  pg_wsStatus : ConnectionStatus;
  pg_lastLoadTime : Z;
  pg_refreshTimeout : option nat;
  pg_recent : list string;
  pg_toasts : list Toast;
  pg_requests : list Request;
  pg_nextRequest : nat
}.

(** Field updates (React setters and ref assignments). *)
Definition set_emails (v : list Email) (p : Page) : Page :=
  mkPage v (pg_pagination p) (pg_isLoading p) (pg_currentPage p) (pg_searchTerm p) (pg_filterFolder p) (pg_hasEmailAccount p) (pg_modalOpen p) (pg_fullEmail p) (pg_wsStatus p) (pg_lastLoadTime p) (pg_refreshTimeout p) (pg_recent p) (pg_toasts p) (pg_requests p) (pg_nextRequest p).
Definition set_pagination (v : option PaginationData) (p : Page) : Page :=
  mkPage (pg_emails p) v (pg_isLoading p) (pg_currentPage p) (pg_searchTerm p) (pg_filterFolder p) (pg_hasEmailAccount p) (pg_modalOpen p) (pg_fullEmail p) (pg_wsStatus p) (pg_lastLoadTime p) (pg_refreshTimeout p) (pg_recent p) (pg_toasts p) (pg_requests p) (pg_nextRequest p).
Definition set_isLoading (v : bool) (p : Page) : Page :=
  mkPage (pg_emails p) (pg_pagination p) v (pg_currentPage p) (pg_searchTerm p) (pg_filterFolder p) (pg_hasEmailAccount p) (pg_modalOpen p) (pg_fullEmail p) (pg_wsStatus p) (pg_lastLoadTime p) (pg_refreshTimeout p) (pg_recent p) (pg_toasts p) (pg_requests p) (pg_nextRequest p).
Definition set_currentPage (v : Z) (p : Page) : Page :=
  mkPage (pg_emails p) (pg_pagination p) (pg_isLoading p) v (pg_searchTerm p) (pg_filterFolder p) (pg_hasEmailAccount p) (pg_modalOpen p) (pg_fullEmail p) (pg_wsStatus p) (pg_lastLoadTime p) (pg_refreshTimeout p) (pg_recent p) (pg_toasts p) (pg_requests p) (pg_nextRequest p).
Definition set_searchTerm (v : string) (p : Page) : Page :=
  mkPage (pg_emails p) (pg_pagination p) (pg_isLoading p) (pg_currentPage p) v (pg_filterFolder p) (pg_hasEmailAccount p) (pg_modalOpen p) (pg_fullEmail p) (pg_wsStatus p) (pg_lastLoadTime p) (pg_refreshTimeout p) (pg_recent p) (pg_toasts p) (pg_requests p) (pg_nextRequest p).
Definition set_filterFolder (v : string) (p : Page) : Page :=
  mkPage (pg_emails p) (pg_pagination p) (pg_isLoading p) (pg_currentPage p) (pg_searchTerm p) v (pg_hasEmailAccount p) (pg_modalOpen p) (pg_fullEmail p) (pg_wsStatus p) (pg_lastLoadTime p) (pg_refreshTimeout p) (pg_recent p) (pg_toasts p) (pg_requests p) (pg_nextRequest p).
Definition set_hasEmailAccount (v : bool) (p : Page) : Page :=
  mkPage (pg_emails p) (pg_pagination p) (pg_isLoading p) (pg_currentPage p) (pg_searchTerm p) (pg_filterFolder p) v (pg_modalOpen p) (pg_fullEmail p) (pg_wsStatus p) (pg_lastLoadTime p) (pg_refreshTimeout p) (pg_recent p) (pg_toasts p) (pg_requests p) (pg_nextRequest p).
Definition set_modalOpen (v : bool) (p : Page) : Page :=
  mkPage (pg_emails p) (pg_pagination p) (pg_isLoading p) (pg_currentPage p) (pg_searchTerm p) (pg_filterFolder p) (pg_hasEmailAccount p) v (pg_fullEmail p) (pg_wsStatus p) (pg_lastLoadTime p) (pg_refreshTimeout p) (pg_recent p) (pg_toasts p) (pg_requests p) (pg_nextRequest p).
Definition set_fullEmail (v : option FullEmail) (p : Page) : Page :=
  mkPage (pg_emails p) (pg_pagination p) (pg_isLoading p) (pg_currentPage p) (pg_searchTerm p) (pg_filterFolder p) (pg_hasEmailAccount p) (pg_modalOpen p) v (pg_wsStatus p) (pg_lastLoadTime p) (pg_refreshTimeout p) (pg_recent p) (pg_toasts p) (pg_requests p) (pg_nextRequest p).
Definition set_wsStatus (v : ConnectionStatus) (p : Page) : Page :=
  mkPage (pg_emails p) (pg_pagination p) (pg_isLoading p) (pg_currentPage p) (pg_searchTerm p) (pg_filterFolder p) (pg_hasEmailAccount p) (pg_modalOpen p) (pg_fullEmail p) v (pg_lastLoadTime p) (pg_refreshTimeout p) (pg_recent p) (pg_toasts p) (pg_requests p) (pg_nextRequest p).
Definition set_lastLoadTime (v : Z) (p : Page) : Page :=
  mkPage (pg_emails p) (pg_pagination p) (pg_isLoading p) (pg_currentPage p) (pg_searchTerm p) (pg_filterFolder p) (pg_hasEmailAccount p) (pg_modalOpen p) (pg_fullEmail p) (pg_wsStatus p) v (pg_refreshTimeout p) (pg_recent p) (pg_toasts p) (pg_requests p) (pg_nextRequest p).
Definition set_refreshTimeout (v : option nat) (p : Page) : Page :=
  mkPage (pg_emails p) (pg_pagination p) (pg_isLoading p) (pg_currentPage p) (pg_searchTerm p) (pg_filterFolder p) (pg_hasEmailAccount p) (pg_modalOpen p) (pg_fullEmail p) (pg_wsStatus p) (pg_lastLoadTime p) v (pg_recent p) (pg_toasts p) (pg_requests p) (pg_nextRequest p).
Definition set_recent (v : list string) (p : Page) : Page :=
  mkPage (pg_emails p) (pg_pagination p) (pg_isLoading p) (pg_currentPage p) (pg_searchTerm p) (pg_filterFolder p) (pg_hasEmailAccount p) (pg_modalOpen p) (pg_fullEmail p) (pg_wsStatus p) (pg_lastLoadTime p) (pg_refreshTimeout p) v (pg_toasts p) (pg_requests p) (pg_nextRequest p).
Definition set_toasts (v : list Toast) (p : Page) : Page :=
  mkPage (pg_emails p) (pg_pagination p) (pg_isLoading p) (pg_currentPage p) (pg_searchTerm p) (pg_filterFolder p) (pg_hasEmailAccount p) (pg_modalOpen p) (pg_fullEmail p) (pg_wsStatus p) (pg_lastLoadTime p) (pg_refreshTimeout p) (pg_recent p) v (pg_requests p) (pg_nextRequest p).
Definition set_requests (v : list Request) (p : Page) : Page :=
  mkPage (pg_emails p) (pg_pagination p) (pg_isLoading p) (pg_currentPage p) (pg_searchTerm p) (pg_filterFolder p) (pg_hasEmailAccount p) (pg_modalOpen p) (pg_fullEmail p) (pg_wsStatus p) (pg_lastLoadTime p) (pg_refreshTimeout p) (pg_recent p) (pg_toasts p) v (pg_nextRequest p).
Definition set_nextRequest (v : nat) (p : Page) : Page :=
  mkPage (pg_emails p) (pg_pagination p) (pg_isLoading p) (pg_currentPage p) (pg_searchTerm p) (pg_filterFolder p) (pg_hasEmailAccount p) (pg_modalOpen p) (pg_fullEmail p) (pg_wsStatus p) (pg_lastLoadTime p) (pg_refreshTimeout p) (pg_recent p) (pg_toasts p) (pg_requests p) v.

Definition add_toast (t : Toast) (p : Page) : Page := set_toasts (pg_toasts p ++ [t]) p.

(** [Set.prototype.add] and [Set.prototype.delete] on a set kept in
    insertion order. *)
Definition set_add (k : string) (s : list string) : list string :=
  if existsb (String.eqb k) s then s else s ++ [k].

Definition set_delete (k : string) (s : list string) : list string :=
  List.filter (fun x => negb (String.eqb x k)) s.

(** A JavaScript string value used as a condition: [undefined] and [""]
    are falsy. *)
Definition js_present (v : option string) : option string :=
  match v with
  | Some s => if String.eqb s EmptyString then None else Some s
  | None => None
  end.

(** ** [loadEmails] (lines 129-187) *)

Definition LOAD_THROTTLE_MS : Z := 2000%Z.

Definition emails_url (id : string) (p : Page) : string :=
  "/api/emails?emailAccountId=" +:+ id +:+ "&folder=" +:+ pg_filterFolder p +:+
  "&page=" +:+ pretty (pg_currentPage p).

(** The caller's [.finally] once the load is over. *)
Definition run_cont (k : Continuation) (p : Page) : Page :=
  match k with
  | ContNone => p
  | ContRefreshToast t | ContManualToast t => add_toast ToastRefreshed (add_toast (ToastDismiss t) p)
  end.

(** The synchronous part of [loadEmails]: the account guard, the throttle,
    and the request.  When nothing is requested the returned promise is
    already settled and the caller's [.finally] runs at once. *)
Definition loadEmails (env : Env) (now : Z) (k : Continuation) (p : Page) : Page :=
  match js_present (env_accountId env) with
  | None => run_cont k p
  | Some id =>
      if (now - pg_lastLoadTime p <? LOAD_THROTTLE_MS)%Z then run_cont k p
      else
        let r := mkRequest (pg_nextRequest p) (emails_url id p) k in
        set_nextRequest (S (pg_nextRequest p))
          (set_requests (pg_requests p ++ [r]) (set_isLoading true (set_lastLoadTime now p)))
  end.

(** The response of the fetch. *)
Inductive FetchResult :=
| FetchSuccess (data : option (list Email)) (pagination : option PaginationData)
| FetchFailure
| FetchThrew.

Definition is_mock (env : Env) : bool :=
  match env_domainId env with Some d => String.eqb d "mock" | None => false end.

Definition remove_request (id : nat) (rs : list Request) : list Request :=
  List.filter (fun r => negb (Nat.eqb (rq_id r) id)) rs.

(** The code after [await]: the three outcomes, the [finally] that clears
    [isLoading], then the caller's continuation. *)
Definition loadEmails_finish (env : Env) (r : Request) (res : FetchResult) (p : Page) : Page :=
  let p := set_requests (remove_request (rq_id r) (pg_requests p)) p in
  let p :=
    match res with
    | FetchSuccess data pg => set_pagination pg (set_emails (default [] data) p)
    | FetchFailure =>
        add_toast (if is_mock env then ToastDemoMode else ToastFailedToLoadEmails)
          (set_pagination None (set_emails [] p))
    | FetchThrew =>
        add_toast (if is_mock env then ToastDemoMode else ToastError)
          (set_pagination None (set_emails [] p))
    end in
  run_cont (rq_cont r) (set_isLoading false p).

(** ** [debouncedRefresh] (lines 190-212) *)

Definition REFRESH_DEBOUNCE_MS : Z := 1000%Z.

Definition debouncedRefresh (p : Page) (l : loop TimerAction) : Page * loop TimerAction :=
  let l := match pg_refreshTimeout p with Some id => clearTimeout id l | None => l end in
  let '(id, l) := setTimeout REFRESH_DEBOUNCE_MS RunRefresh l in
  (set_refreshTimeout (Some id) p, l).

(** The debounced callback: the "refreshing" toast, then [loadEmails]. *)
Definition refresh_fire (env : Env) (p : Page) (now : Z) : Page :=
  let t := length (pg_toasts p) in
  loadEmails env now (ContRefreshToast t) (add_toast (ToastRefreshing t) p).

(** ** [handleNewEmail] (lines 260-290) *)

Definition handleNewEmail (n : Notification) (p : Page) (l : loop TimerAction)
    : Page * loop TimerAction :=
  if isDuplicate (pg_recent p) n then (p, l)
  else
    let key := notificationKey n (lp_now l) in
    let p := set_recent (set_add key (pg_recent p)) p in
    let '(_, l) := setTimeout NOTIFICATION_DEDUP_MS (DeleteKey key) l in
    let p := add_toast (ToastNewEmail (js_or (n_from n) "Unknown")) p in
    debouncedRefresh p l.

(** The timer callbacks. *)
Definition on_timer (env : Env) (a : TimerAction) (p : Page) (l : loop TimerAction)
    : Page * loop TimerAction :=
  match a with
  | DeleteKey k => (set_recent (set_delete k (pg_recent p)) p, l)
  | RunRefresh => (refresh_fire env p (lp_now l), l)
  end.

(** Let the clock reach [t], running the callbacks due by then. *)
Definition tick (env : Env) (t : Z) (p : Page) (l : loop TimerAction) : Page * loop TimerAction :=
  advance (on_timer env) (S (length (lp_timers l))) t p l.

(** A "new email" message arrives at time [t]. *)
Definition notify (env : Env) (n : Notification) (t : Z) (p : Page) (l : loop TimerAction)
    : Page * loop TimerAction :=
  let '(p, l) := tick env t p l in handleNewEmail n p l.

(** ** The deduplication window: invariant *)

(** The keys whose deletion timer is pending, in creation order. *)
Fixpoint pending_keys (ts : list (timer TimerAction)) : list string :=
  match ts with
  | [] => []
  | u :: ts => match tm_act u with
               | DeleteKey k => k :: pending_keys ts
               | RunRefresh => pending_keys ts
               end
  end.

Lemma pending_keys_app (ts1 ts2 : list (timer TimerAction)) :
  pending_keys (ts1 ++ ts2) = pending_keys ts1 ++ pending_keys ts2.
Proof. induction ts1 as [|u ts IH]; simpl; [done|]. destruct (tm_act u); by rewrite IH. Qed.

Lemma pending_keys_in k (ts : list (timer TimerAction)) :
  In k (pending_keys ts) <-> exists u, In u ts /\ tm_act u = DeleteKey k.
Proof.
  induction ts as [|u ts IH]; simpl; [split; [done|by intros (? & [] & _)]|].
  destruct (tm_act u) as [k'|] eqn:E; simpl; rewrite IH; split.
  - intros [->|(v & Hv & Ha)]; [by exists u; auto|by exists v; auto].
  - intros (v & [->|Hv] & Ha); [left; congruence|right; by exists v].
  - intros (v & Hv & Ha). by exists v; auto.
  - intros (v & [->|Hv] & Ha); [congruence|by exists v].
Qed.

(** Removing a timer that is not a deletion leaves the keys alone. *)
Lemma pending_keys_remove_refresh id (ts : list (timer TimerAction)) :
  Forall (fun u => tm_id u = id -> tm_act u = RunRefresh) ts ->
  pending_keys (remove_timer id ts) = pending_keys ts.
Proof.
  unfold remove_timer. induction ts as [|u ts IH]; simpl; [done|].
  intros [Hu Hts]%Forall_cons. destruct (Nat.eqb_spec (tm_id u) id) as [E|E]; simpl.
  - rewrite (Hu E). auto.
  - destruct (tm_act u); rewrite IH; auto.
Qed.

Lemma set_delete_notin k s : ~ In k s -> set_delete k s = s.
Proof.
  unfold set_delete. induction s as [|x s IH]; simpl; [done|]. intros Hn.
  destruct (String.eqb_spec x k); [naive_solver|]. simpl. rewrite IH; naive_solver.
Qed.

Lemma remove_timer_notin id (ts : list (timer TimerAction)) : ~ In id (map tm_id ts) -> remove_timer id ts = ts.
Proof.
  unfold remove_timer. induction ts as [|u ts IH]; simpl; [done|]. intros Hn.
  destruct (Nat.eqb_spec (tm_id u) id); [naive_solver|]. simpl. rewrite IH; naive_solver.
Qed.

(** Running a deletion timer removes its key from the pending keys. *)
Lemma pending_keys_pop (u : timer TimerAction) k ts :
  List.NoDup (map tm_id ts) -> List.NoDup (pending_keys ts) -> In u ts -> tm_act u = DeleteKey k ->
  pending_keys (remove_timer (tm_id u) ts) = set_delete k (pending_keys ts).
Proof.
  induction ts as [|v ts IH]; simpl; [done|].
  intros Hids Hkeys Hin Ha. apply NoDup_cons_iff in Hids as [Hv Hids].
  unfold remove_timer in *; simpl. destruct Hin as [->|Hin].
  - rewrite Nat.eqb_refl, Ha. simpl. rewrite Ha in Hkeys. apply NoDup_cons_iff in Hkeys as [Hk Hkeys].
    unfold set_delete. simpl. rewrite String.eqb_refl. simpl.
    fold (set_delete k (pending_keys ts)). rewrite set_delete_notin by done.
    fold (remove_timer (tm_id u) ts). by rewrite remove_timer_notin.
  - assert (tm_id v <> tm_id u) as Hne.
    { intros E. apply Hv. rewrite E. by apply in_map. }
    apply Nat.eqb_neq in Hne. rewrite Hne. simpl.
    assert (Hk : In k (pending_keys ts)) by (apply pending_keys_in; by exists u).
    destruct (tm_act v) as [k'|].
    + apply NoDup_cons_iff in Hkeys as [Hk' Hkeys].
      unfold set_delete. simpl. destruct (String.eqb_spec k' k) as [->|]; [done|]. simpl.
      f_equal. by apply IH.
    + by apply IH.
Qed.

Lemma in_remove_timer (v : timer TimerAction) id ts :
  In v (remove_timer id ts) <-> In v ts /\ tm_id v <> id.
Proof.
  unfold remove_timer. rewrite filter_In, negb_true_iff, Nat.eqb_neq. done.
Qed.

Lemma nodup_map_filter {X Y} (g : X -> Y) (f : X -> bool) (l : list X) :
  List.NoDup (map g l) -> List.NoDup (map g (List.filter f l)).
Proof.
  induction l as [|x l IH]; simpl; [done|]. intros [Hx Hl]%NoDup_cons_iff.
  destruct (f x); simpl; [|auto]. constructor; [|auto].
  intros Hin. apply Hx. apply in_map_iff in Hin as (y & <- & Hy).
  apply filter_In in Hy as [Hy _]. by apply in_map.
Qed.

Lemma nodup_ids_eq (ts : list (timer TimerAction)) u v :
  List.NoDup (map tm_id ts) -> In u ts -> In v ts -> tm_id u = tm_id v -> u = v.
Proof.
  induction ts as [|w ts IH]; simpl; [done|]. intros [Hw Hts]%NoDup_cons_iff Hu Hv E.
  destruct Hu as [<-|Hu], Hv as [<-|Hv]; [done| | |auto].
  - exfalso. apply Hw. rewrite E. by apply in_map.
  - exfalso. apply Hw. rewrite <- E. by apply in_map.
Qed.

(** The invariant relating the recent set and the deletion timers to the
    history [delivered] of accepted notifications. *)
Record dedup_inv (delivered : list (Notification * Z)) (p : Page) (l : loop TimerAction)
    : Prop := {
  di_recent : pg_recent p = pending_keys (lp_timers l);
  di_nodup : List.NoDup (pg_recent p);
  di_ids : List.NoDup (map tm_id (lp_timers l));
  di_fresh : forall u, In u (lp_timers l) -> (tm_id u < lp_next l)%nat;
  di_hf : forall m t, In (m, t) delivered -> hyphen_free m = true;
  di_sound : forall u k, In u (lp_timers l) -> tm_act u = DeleteKey k ->
    exists m t, In (m, t) delivered /\ k = notificationKey m t /\
                tm_due u = (t + NOTIFICATION_DEDUP_MS)%Z;
  di_complete : forall m t, In (m, t) delivered ->
    (lp_now l < t + NOTIFICATION_DEDUP_MS)%Z -> In (notificationKey m t) (pg_recent p);
  di_future : forall u, In u (lp_timers l) -> (lp_now l <= tm_due u)%Z;
  di_refresh : forall id, pg_refreshTimeout p = Some id ->
    (id < lp_next l)%nat /\
    forall u, In u (lp_timers l) -> tm_id u = id -> tm_act u = RunRefresh
}.

Arguments di_recent {_ _ _} _.
Arguments di_nodup {_ _ _} _.
Arguments di_ids {_ _ _} _.
Arguments di_fresh {_ _ _} _.
Arguments di_hf {_ _ _} _.
Arguments di_sound {_ _ _} _.
Arguments di_complete {_ _ _} _.
Arguments di_future {_ _ _} _.
Arguments di_refresh {_ _ _} _.

Lemma loadEmails_refs env now k p :
  pg_recent (loadEmails env now k p) = pg_recent p /\
  pg_refreshTimeout (loadEmails env now k p) = pg_refreshTimeout p.
Proof.
  unfold loadEmails, run_cont, add_toast.
  destruct (js_present _); [case_if|]; destruct k; done.
Qed.

Lemma refresh_fire_refs env p now :
  pg_recent (refresh_fire env p now) = pg_recent p /\
  pg_refreshTimeout (refresh_fire env p now) = pg_refreshTimeout p.
Proof.
  unfold refresh_fire.
  by destruct (loadEmails_refs env now (ContRefreshToast (length (pg_toasts p)))
                 (add_toast (ToastRefreshing (length (pg_toasts p))) p)) as [-> ->].
Qed.

(** Every due callback keeps the invariant. *)
Lemma dedup_inv_timer env D p l t u :
  dedup_inv D p l -> next_due t l = Some u ->
  dedup_inv D (on_timer env (tm_act u) p (pop u l)).1 (on_timer env (tm_act u) p (pop u l)).2.
Proof.
  intros Hi Hnd. apply next_due_some in Hnd as (Hu & Ht & Hmin).
  assert (Hsub : forall v, In v (lp_timers (pop u l)) -> In v (lp_timers l) /\ tm_id v <> tm_id u)
    by (intros v; apply in_remove_timer).
  assert (Hids : List.NoDup (map tm_id (lp_timers (pop u l))))
    by (apply nodup_map_filter, (di_ids Hi)).
  destruct (tm_act u) as [k|] eqn:Ha; cbn [on_timer fst snd].
  - split; simpl.
    + rewrite (di_recent Hi). symmetry. apply pending_keys_pop; [apply Hi|rewrite <- (di_recent Hi); apply Hi|done|done].
    + apply List.NoDup_filter, Hi.
    + done.
    + intros v Hv. apply Hsub in Hv as [Hv _]. by apply Hi.
    + apply Hi.
    + intros v k' Hv. apply Hsub in Hv as [Hv _]. by apply Hi.
    + intros m t0 Hin Hlt. unfold set_delete. apply filter_In. split.
      * apply (di_complete Hi); [done|]. pose proof (di_future Hi u Hu). lia.
      * apply negb_true_iff, String.eqb_neq. intros E.
        destruct (di_sound Hi u k Hu Ha) as (m' & t' & Hin' & -> & Hdue).
        destruct (notificationKey_inj m m' t0 t') as [_ ->];
          [by eapply Hi|by eapply Hi|done|]. lia.
    + intros v Hv. apply Hsub in Hv as [Hv _]. by apply (proj1 (List.Forall_forall _ _) Hmin).
    + intros id Hid. destruct (di_refresh Hi id Hid) as [Hlt Hr]. split; [done|].
      intros v Hv. apply Hsub in Hv as [Hv _]. by apply Hr.
  - destruct (refresh_fire_refs env p (lp_now (pop u l))) as [Hr Ht'].
    split; rewrite ?Hr, ?Ht'.
    + rewrite (di_recent Hi). symmetry. apply pending_keys_remove_refresh.
      apply List.Forall_forall. intros v Hv E. by rewrite (nodup_ids_eq _ v u (di_ids Hi)).
    + apply Hi.
    + done.
    + intros v Hv. apply Hsub in Hv as [Hv _]. by apply Hi.
    + apply Hi.
    + intros v k' Hv. apply Hsub in Hv as [Hv _]. by apply Hi.
    + intros m t0 Hin Hlt. apply (di_complete Hi); [done|].
      pose proof (di_future Hi u Hu). simpl in Hlt. lia.
    + intros v Hv. apply Hsub in Hv as [Hv _]. by apply (proj1 (List.Forall_forall _ _) Hmin).
    + intros id Hid. destruct (di_refresh Hi id Hid) as [Hlt Hr']. split; [done|].
      intros v Hv. apply Hsub in Hv as [Hv _]. by apply Hr'.
Qed.

(** The "new email" toasts shown so far: the observable effect of an
    accepted notification. *)
Definition new_email_toasts (p : Page) : list string :=
  omap (fun t => match t with ToastNewEmail f => Some f | _ => None end) (pg_toasts p).

Lemma refresh_fire_news env p now :
  new_email_toasts (refresh_fire env p now) = new_email_toasts p.
Proof.
  unfold refresh_fire, loadEmails, run_cont, add_toast, new_email_toasts.
  destruct (js_present _); [case_if|]; simpl; rewrite ?omap_app; simpl; by rewrite ?app_nil_r.
Qed.

Lemma dedup_inv_set_now D p l t :
  dedup_inv D p l -> (lp_now l <= t)%Z -> next_due t l = None -> dedup_inv D p (set_now t l).
Proof.
  intros Hi Ht Hnd. apply next_due_none in Hnd.
  split; simpl; try apply Hi.
  - intros m t0 Hin Hlt. apply (di_complete Hi); [done|lia].
  - intros u Hu. pose proof (proj1 (List.Forall_forall _ _) Hnd u Hu). cbv beta in *. lia.
Qed.

(** Letting the clock reach [t] keeps the invariant, leaves no callback
    due, and shows no "new email" toast. *)
Lemma tick_inv env D t p l :
  dedup_inv D p l -> (lp_now l <= t)%Z ->
  let r := tick env t p l in
  dedup_inv D r.1 r.2 /\ lp_now r.2 = t /\
  (forall u, In u (lp_timers r.2) -> (t < tm_due u)%Z) /\
  new_email_toasts r.1 = new_email_toasts p.
Proof.
  intros Hi Ht. unfold tick.
  destruct (advance_spec (on_timer env)
              (fun p' l' => dedup_inv D p' l' /\ (lp_now l' <= t)%Z /\
                            new_email_toasts p' = new_email_toasts p)
              (S (length (lp_timers l))) t p l)
    as (p' & l' & E & (Hi' & Hnow & Hn) & Hnd).
  - intros a s l0. destruct a; simpl; lia.
  - intros u s l0 (Hi0 & _ & Hs) Hnd. split; [by eapply dedup_inv_timer|].
    pose proof (next_due_some _ _ _ Hnd) as (_ & Hdue & _).
    destruct (tm_act u); simpl; split; auto. by rewrite refresh_fire_news.
  - lia.
  - done.
  - rewrite E. simpl. split; [by apply dedup_inv_set_now|]. split; [done|]. split; [|done].
    intros u Hu. apply next_due_none in Hnd. exact (proj1 (List.Forall_forall _ _) Hnd u Hu).
Qed.

(** When nothing is due, the code's test on the recent set is the spec's
    window test on the delivered history. *)
Lemma isDuplicate_inv D p l n :
  dedup_inv D p l -> (forall u, In u (lp_timers l) -> (lp_now l < tm_due u)%Z) ->
  isDuplicate (pg_recent p) n = window_dup D n (lp_now l).
Proof.
  intros Hi Hfut. apply Bool.eq_true_iff_eq. unfold isDuplicate, window_dup. split.
  - intros (k & Hk & Hm)%existsb_exists. rewrite (di_recent Hi) in Hk.
    apply pending_keys_in in Hk as (u & Hu & Ha).
    destruct (di_sound Hi u k Hu Ha) as (m & t & Hin & -> & Hdue).
    apply existsb_exists. exists (m, t). split; [done|].
    rewrite key_matches_key in Hm by (by eapply di_hf). rewrite Hm. simpl.
    apply Z.ltb_lt. pose proof (Hfut u Hu). lia.
  - intros ([m t] & Hin & Hw)%existsb_exists. apply andb_true_iff in Hw as [Hs Hlt].
    apply Z.ltb_lt in Hlt. apply existsb_exists. exists (notificationKey m t).
    split; [apply (di_complete Hi); [done|lia]|].
    rewrite key_matches_key by (by eapply di_hf). done.
Qed.

(** ** [debouncedRefresh] in closed form *)

Definition clear_opt (o : option nat) (ts : list (timer TimerAction)) : list (timer TimerAction) :=
  match o with Some id => remove_timer id ts | None => ts end.

Lemma debouncedRefresh_eq p l :
  debouncedRefresh p l =
  (set_refreshTimeout (Some (lp_next l)) p,
   mkLoop (lp_now l) (S (lp_next l))
     (clear_opt (pg_refreshTimeout p) (lp_timers l) ++
      [mkTimer (lp_next l) (lp_now l + REFRESH_DEBOUNCE_MS) RunRefresh])).
Proof. unfold debouncedRefresh. by destruct (pg_refreshTimeout p). Qed.

Lemma in_clear_opt o ts v : In v (clear_opt o ts) -> In v ts.
Proof. destruct o; simpl; [|done]. intros Hv. by apply in_remove_timer in Hv as [? _]. Qed.

Lemma in_clear_opt_keep o ts v :
  In v ts -> (forall id, o = Some id -> tm_id v <> id) -> In v (clear_opt o ts).
Proof. destruct o as [id|]; simpl; [|done]. intros Hv Hn. apply in_remove_timer; eauto. Qed.

Lemma nodup_clear_opt o (ts : list (timer TimerAction)) :
  List.NoDup (map tm_id ts) -> List.NoDup (map tm_id (clear_opt o ts)).
Proof. destruct o; simpl; [apply nodup_map_filter|done]. Qed.

Lemma pending_keys_clear_opt o ts :
  (forall id, o = Some id -> Forall (fun u => tm_id u = id -> tm_act u = RunRefresh) ts) ->
  pending_keys (clear_opt o ts) = pending_keys ts.
Proof. destruct o as [id|]; simpl; [|done]. intros H. by apply pending_keys_remove_refresh, H. Qed.

Lemma nodup_snoc {X} (l : list X) x : List.NoDup l -> ~ In x l -> List.NoDup (l ++ [x]).
Proof.
  induction l as [|y l IH]; simpl; intros Hl Hx.
  - constructor; [intros []|constructor].
  - apply NoDup_cons_iff in Hl as [Hy Hl]. constructor; [|apply IH; naive_solver].
    rewrite in_app_iff. intros [?|[<-|[]]]; naive_solver.
Qed.

(** [handleNewEmail] keeps the invariant, recording the notification in
    the history exactly when the spec's window does not hold it. *)
Lemma handle_inv D p l n :
  dedup_inv D p l -> (forall u, In u (lp_timers l) -> (lp_now l < tm_due u)%Z) ->
  hyphen_free n = true ->
  let dup := window_dup D n (lp_now l) in
  let r := handleNewEmail n p l in
  dedup_inv (if dup then D else D ++ [(n, lp_now l)]) r.1 r.2 /\ lp_now r.2 = lp_now l /\
  new_email_toasts r.1 =
    new_email_toasts p ++ (if dup then [] else [js_or (n_from n) "Unknown"]).
Proof.
  intros Hi Hfut Hn dup r. subst dup r. rewrite <- (isDuplicate_inv D p l n Hi Hfut).
  unfold handleNewEmail. destruct (isDuplicate (pg_recent p) n) eqn:Hd.
  { by rewrite app_nil_r. }
  set (key := notificationKey n (lp_now l)).
  assert (Hkey : ~ In key (pg_recent p)).
  { intros Hin. enough (existsb (key_matches n) (pg_recent p) = true) by
      (unfold isDuplicate in Hd; congruence).
    apply existsb_exists. exists key. split; [done|]. unfold key.
    rewrite key_matches_key by done. unfold same_fields. by rewrite !String.eqb_refl. }
  assert (Hadd : set_add key (pg_recent p) = pg_recent p ++ [key]).
  { unfold set_add. replace (existsb (String.eqb key) (pg_recent p)) with false; [done|].
    symmetry. apply existsb_all_false. intros x Hx. apply String.eqb_neq. congruence. }
  unfold setTimeout. cbv beta iota. rewrite debouncedRefresh_eq. cbn [fst snd lp_now lp_next lp_timers].
  set (Del := mkTimer (lp_next l) (lp_now l + NOTIFICATION_DEDUP_MS)%Z (DeleteKey key)).
  set (R := mkTimer (S (lp_next l)) (lp_now l + REFRESH_DEBOUNCE_MS)%Z RunRefresh).
  set (o := pg_refreshTimeout (add_toast (ToastNewEmail (js_or (n_from n) "Unknown"))
                                 (set_recent (set_add key (pg_recent p)) p))).
  assert (Ho : o = pg_refreshTimeout p) by reflexivity.
  assert (Hin : forall v, In v (clear_opt o (lp_timers l ++ [Del]) ++ [R]) ->
                          In v (lp_timers l) \/ v = Del \/ v = R).
  { intros v [Hv%in_clear_opt|[<-|[]]]%in_app_iff; [|by auto].
    apply in_app_iff in Hv as [Hv|[<-|[]]]; auto. }
  assert (Hfresh := di_fresh Hi).
  assert (Hdel : In Del (clear_opt o (lp_timers l ++ [Del]))).
  { apply in_clear_opt_keep; [apply in_app_iff; right; by left|].
    intros id Hid. rewrite Ho in Hid. destruct (di_refresh Hi id Hid) as [Hlt _]. simpl. lia. }
  split; [|split; [done|]].
  - split; cbn [pg_recent pg_refreshTimeout set_refreshTimeout add_toast set_toasts set_recent
                lp_now lp_next lp_timers].
    + rewrite Hadd, pending_keys_app, pending_keys_clear_opt, pending_keys_app, (di_recent Hi).
      { simpl. by rewrite app_nil_r. }
      intros id Hid. rewrite Ho in Hid. destruct (di_refresh Hi id Hid) as [Hlt Hr].
      apply List.Forall_forall. intros u [Hu|[<-|[]]]%in_app_iff; [by apply Hr|].
      simpl. lia.
    + rewrite Hadd. apply nodup_snoc; [apply Hi|done].
    + rewrite map_app. apply nodup_snoc.
      * apply nodup_clear_opt. rewrite map_app. apply nodup_snoc; [apply Hi|].
        intros (u & Hu & Hu')%in_map_iff. pose proof (Hfresh u Hu'). simpl in *. lia.
      * intros (u & Hu & Hu')%in_map_iff. apply in_clear_opt, in_app_iff in Hu' as [Hu'|[<-|[]]].
        -- pose proof (Hfresh u Hu'). simpl in *. lia.
        -- simpl in *. lia.
    + intros u [Hu|[Hv|Hv]]%Hin; subst; [pose proof (Hfresh u Hu)|..]; simpl; lia.
    + intros m t [Hm|[[= <- <-]|[]]]%in_app_iff; [by eapply (di_hf Hi)|done].
    + intros u k [Hu|[Hv|Hv]]%Hin Ha; subst.
      * destruct (di_sound Hi u k Hu Ha) as (m & t & Hm & -> & Hdue).
        exists m, t. rewrite in_app_iff. auto.
      * injection Ha as <-. exists n, (lp_now l). rewrite in_app_iff. simpl. auto.
      * done.
    + intros m t [Hm|[[= <- <-]|[]]]%in_app_iff Hlt; rewrite Hadd, in_app_iff.
      * left. by apply (di_complete Hi).
      * right. by left.
    + intros u [Hu|[Hv|Hv]]%Hin; subst; [pose proof (Hfut u Hu)|..]; simpl; unfold NOTIFICATION_DEDUP_MS, REFRESH_DEBOUNCE_MS; lia.
    + intros id [= <-]. split; [lia|].
      intros u [Hu|[Hv|Hv]]%Hin; subst; simpl; [pose proof (Hfresh u Hu); lia|lia|done].
  - unfold new_email_toasts. simpl. by rewrite omap_app.
Qed.

(** ** Runs over a trace of notifications *)

(** The page as mounted: nothing loaded, no timer, an empty recent set. *)
Definition initial_page : Page :=
  mkPage [] None true 1%Z "" "inbox,spam" false false None (mkStatus false 0 false)
         0%Z None [] [] [] 0.

(** The event loop at time [t0]; browser timer ids start at 1. *)
Definition initial_loop (t0 : Z) : loop TimerAction := mkLoop t0 1 [].

(** Notifications arriving at the given times, in order. *)
Fixpoint notify_all (env : Env) (evs : list (Notification * Z)) (p : Page)
    (l : loop TimerAction) : Page * loop TimerAction :=
  match evs with
  | [] => (p, l)
  | (n, t) :: evs => let '(p, l) := notify env n t p l in notify_all env evs p l
  end.

(** The spec's behaviour: a notification is delivered unless one with the
    same sender and subject was delivered less than 5 s before. *)
Fixpoint window_run (delivered : list (Notification * Z)) (evs : list (Notification * Z))
    : list Notification :=
  match evs with
  | [] => []
  | (n, t) :: evs =>
      if window_dup delivered n t then window_run delivered evs
      else n :: window_run (delivered ++ [(n, t)]) evs
  end.

(** Times never go backwards. *)
Fixpoint times_from (t0 : Z) (evs : list (Notification * Z)) : bool :=
  match evs with
  | [] => true
  | (_, t) :: evs => (t0 <=? t)%Z && times_from t evs
  end.

Lemma initial_inv t0 : dedup_inv [] initial_page (initial_loop t0).
Proof. split; simpl; try done; by constructor. Qed.

Lemma notify_all_window env D evs p l :
  dedup_inv D p l -> times_from (lp_now l) evs = true ->
  forallb (fun e => hyphen_free e.1) evs = true ->
  new_email_toasts (notify_all env evs p l).1 =
  new_email_toasts p ++ map (fun n => js_or (n_from n) "Unknown") (window_run D evs).
Proof.
  revert D p l. induction evs as [|[n t] evs IH]; intros D p l Hi Ht Hhf; simpl.
  { by rewrite app_nil_r. }
  apply andb_true_iff in Ht as [Ht Hts]. apply Z.leb_le in Ht.
  apply andb_true_iff in Hhf as [Hn Hhf]. simpl in Hn.
  unfold notify. destruct (tick_inv env D t p l Hi Ht) as (Hi1 & Hnow1 & Hfut1 & Hn1).
  destruct (tick env t p l) as [p1 l1]. simpl in *.
  rewrite <- Hnow1 in Hfut1.
  destruct (handle_inv D p1 l1 n Hi1 Hfut1 Hn) as (Hi2 & Hnow2 & Hn2).
  destruct (handleNewEmail n p1 l1) as [p2 l2]. simpl in *.
  rewrite IH with (D := if window_dup D n (lp_now l1) then D else D ++ [(n, lp_now l1)]);
    [|done|by rewrite Hnow2, Hnow1|done].
  rewrite Hn2, Hn1, Hnow1. destruct (window_dup D n t); simpl; by rewrite <- app_assoc.
Qed.

Lemma tick_news env t p l : new_email_toasts (tick env t p l).1 = new_email_toasts p.
Proof.
  unfold tick.
  destruct (advance_spec (on_timer env) (fun p' _ => new_email_toasts p' = new_email_toasts p)
              (S (length (lp_timers l))) t p l) as (p' & l' & -> & Hn & _); [| |lia|done|done].
  - intros a s l0. destruct a; simpl; lia.
  - intros u s l0 Hs _. destruct (tm_act u); simpl; [done|]. by rewrite refresh_fire_news.
Qed.

Lemma handleNewEmail_news_accept n p l :
  isDuplicate (pg_recent p) n = false ->
  new_email_toasts (handleNewEmail n p l).1 = new_email_toasts p ++ [js_or (n_from n) "Unknown"].
Proof.
  intros Hd. unfold handleNewEmail. rewrite Hd. unfold setTimeout. cbv beta iota.
  rewrite debouncedRefresh_eq. unfold new_email_toasts. simpl. by rewrite omap_app.
Qed.

(** ** Theorems of the deduplication *)

(** C1. Refinement of the spec's 5-second window by the page: for
    notifications whose sender and subject contain no hyphen, arriving at
    non-decreasing times, the "new email" toasts the page shows (one per
    accepted notification, before its debounced refresh) are exactly the
    notifications the abstract window [window_run] delivers, in order.
    The deletion timers of the recent set, the debounce timers and the
    inbox loads they trigger all run on the modelled event loop. *)
Theorem handleNewEmail_window env t0 evs :
  times_from t0 evs = true -> forallb (fun e => hyphen_free e.1) evs = true ->
  new_email_toasts (notify_all env evs initial_page (initial_loop t0)).1 =
  map (fun n => js_or (n_from n) "Unknown") (window_run [] evs).
Proof.
  intros Ht Hhf. by rewrite (notify_all_window env [] evs _ _ (initial_inv t0) Ht Hhf).
Qed.

(** C3. Whatever the page's state and however close together they arrive,
    notifications without a subject are all delivered: each one shows a
    "new email" toast and schedules a refresh, although the spec suppresses
    the repeats within 5 seconds. *)
Theorem no_subject_always_delivered env evs p l :
  forallb (fun e => bool_decide (n_subject e.1 = None)) evs = true ->
  new_email_toasts (notify_all env evs p l).1 =
  new_email_toasts p ++ map (fun e => js_or (n_from e.1) "Unknown") evs.
Proof.
  revert p l. induction evs as [|[n t] evs IH]; intros p l Hs; simpl; [by rewrite app_nil_r|].
  apply andb_true_iff in Hs as [Hn Hs]. apply bool_decide_eq_true in Hn. simpl in Hn.
  unfold notify. pose proof (tick_news env t p l) as Ht.
  destruct (tick env t p l) as [p1 l1]. simpl in Ht.
  pose proof (handleNewEmail_news_accept n p1 l1
                (no_subject_never_duplicate _ n (or_introl Hn))) as Hh.
  destruct (handleNewEmail n p1 l1) as [p2 l2]. simpl in Hh.
  rewrite IH by done. rewrite Hh, Ht. by rewrite <- app_assoc.
Qed.

(** The spec's scenario (section 8, item 7): one notification at 0 s, the
    same at 2 s, the same at 6 s. *)
Definition scenario (n : Notification) : list (Notification * Z) :=
  [(n, 0%Z); (n, 2000%Z); (n, 6000%Z)].

Definition hi_mail : Notification := mkNotification (Some "a@b.com") (Some "Hi") [].
Definition no_subject_mail : Notification := mkNotification (Some "a@b.com") None [].

(** Witness of [handleNewEmail_window]: on the spec's scenario the page shows two toasts. *)
Lemma handleNewEmail_window_witness :
  times_from 0 (scenario hi_mail) = true /\
  forallb (fun e => hyphen_free e.1) (scenario hi_mail) = true /\
  new_email_toasts (notify_all (mkEnv (Some "42") (Some "temp@x.com") None)
                     (scenario hi_mail) initial_page (initial_loop 0)).1 = ["a@b.com"; "a@b.com"].
Proof.
  split; [reflexivity|]. split; [reflexivity|].
  rewrite handleNewEmail_window by reflexivity. reflexivity.
Defined.

(** Witness of [no_subject_always_delivered]: without a subject the three copies are all delivered,
    while the spec's window delivers two. *)
Lemma no_subject_always_delivered_witness :
  new_email_toasts (notify_all (mkEnv (Some "42") (Some "temp@x.com") None)
                     (scenario no_subject_mail) initial_page (initial_loop 0)).1 =
    ["a@b.com"; "a@b.com"; "a@b.com"] /\
  length (window_run [] (scenario no_subject_mail)) = 2.
Proof.
  split; [|reflexivity].
  rewrite no_subject_always_delivered by reflexivity. reflexivity.
Defined.

(** ** Throttle of [loadEmails] *)

(** C9. The throttle: a call less than 2 s after the last load issues no
    request and keeps the last load time; a call with an account at
    least 2 s after it issues exactly one request, for the current folder
    and page, marks the inbox as loading and records the time. *)
Theorem loadEmails_throttle env now k p :
  ((now - pg_lastLoadTime p < LOAD_THROTTLE_MS)%Z ->
     pg_requests (loadEmails env now k p) = pg_requests p /\
     pg_lastLoadTime (loadEmails env now k p) = pg_lastLoadTime p) /\
  (forall id, js_present (env_accountId env) = Some id ->
     (pg_lastLoadTime p + LOAD_THROTTLE_MS <= now)%Z ->
     pg_requests (loadEmails env now k p) =
       pg_requests p ++ [mkRequest (pg_nextRequest p) (emails_url id p) k] /\
     pg_lastLoadTime (loadEmails env now k p) = now /\
     pg_isLoading (loadEmails env now k p) = true).
Proof.
  unfold loadEmails. split.
  - intros Hlt. destruct (js_present _); [|by destruct k].
    apply Z.ltb_lt in Hlt. rewrite Hlt. by destruct k.
  - intros id -> Hle. replace (now - pg_lastLoadTime p <? LOAD_THROTTLE_MS)%Z with false
      by (symmetry; apply Z.ltb_ge; lia). done.
Qed.

(** ** Debounce *)

Definition refresh_ids (ts : list (timer TimerAction)) : list nat :=
  map tm_id (List.filter (fun u => match tm_act u with RunRefresh => true | _ => false end) ts).

(** Clearing the ref's timer leaves no refresh timer, when every
    pending refresh timer is the ref's. *)
Lemma clear_opt_no_refresh o ts :
  (forall u, In u ts -> tm_act u = RunRefresh -> o = Some (tm_id u)) ->
  forall u, In u (clear_opt o ts) -> tm_act u <> RunRefresh.
Proof.
  intros Hr u Hu Ha. destruct o as [id|]; simpl in Hu.
  - apply in_remove_timer in Hu as [Hu Hne]. specialize (Hr u Hu Ha). congruence.
  - specialize (Hr u Hu Ha). congruence.
Qed.

(** C10. The debounce: when every pending refresh timer is the one the ref
    remembers, [debouncedRefresh] leaves exactly one pending refresh
    timer, the new one, due 1 s from now. *)
Theorem debouncedRefresh_single p l :
  (forall u, In u (lp_timers l) -> tm_act u = RunRefresh -> pg_refreshTimeout p = Some (tm_id u)) ->
  let r := debouncedRefresh p l in
  refresh_ids (lp_timers r.2) = [lp_next l] /\ pg_refreshTimeout r.1 = Some (lp_next l) /\
  In (mkTimer (lp_next l) (lp_now l + REFRESH_DEBOUNCE_MS)%Z RunRefresh) (lp_timers r.2).
Proof.
  intros Hr r. subst r. rewrite debouncedRefresh_eq. simpl.
  split; [|split; [done|apply in_app_iff; right; by left]].
  unfold refresh_ids. rewrite List.filter_app, map_app. simpl.
  replace (map tm_id (List.filter _ (clear_opt (pg_refreshTimeout p) (lp_timers l)))) with (@nil nat);
    [done|].
  rewrite filter_all_false; [done|]. intros u Hu.
  destruct (tm_act u) eqn:Ha; [done|]. exfalso. exact (clear_opt_no_refresh _ _ Hr u Hu Ha).
Qed.

(** ** The page and the notification client *)

Section WithClient.
Context {C : Type} `{NotificationApiLaws C}.

(** The id under which [handleNewEmail] is registered. *)
Definition HANDLE_NEW_EMAIL : nat := 0.

(** Lines 292-294: clear the registry, then register the handler. *)
Definition register_handler (c : C) : C := api_onNewEmail HANDLE_NEW_EMAIL (api_clear c).

(** [updateConnectionStatus] (lines 242-257): copy the status into the
    page, and while connected re-send authenticate and join. *)
Definition updateConnectionStatus (env : Env) (p : Page) (c : C) : Page * C :=
  let st := api_status c in
  let p := set_wsStatus (mkStatus (isConnected st) (reconnectAttempts st) (isEnabled st)) p in
  match js_present (env_accountId env), js_present (env_email env) with
  | Some id, Some em =>
      if isConnected st && isEnabled st then (p, api_join em (api_authenticate id c)) else (p, c)
  | _, _ => (p, c)
  end.

Fixpoint poll_n (k : nat) (env : Env) (p : Page) (c : C) : Page * C :=
  match k with
  | O => (p, c)
  | S k => let '(p, c) := updateConnectionStatus env p c in poll_n k env p c
  end.

(** C8. Every 2-second status poll of a connected client re-sends the
    authenticate and join pair: after [k] polls the client has sent [k]
    more pairs, not one per connection as the spec's property 2 says. *)
Theorem poll_reauthenticates env p c k id em :
  isConnected (api_status c) = true -> api_available c = true ->
  js_present (env_accountId env) = Some id -> js_present (env_email env) = Some em ->
  api_sent (poll_n k env p c).2 =
    api_sent c ++ concat (repeat [MsgAuthenticate id; MsgJoinRoom em] k).
Proof.
  intros Hc Ha Hid Hem. revert p c Hc Ha. induction k as [|k IH]; intros p c Hc Ha; simpl.
  { by rewrite app_nil_r. }
  unfold updateConnectionStatus. rewrite Hid, Hem, Hc, law_status_enabled, Ha. simpl.
  assert (Hst : api_status (api_join em (api_authenticate id c)) = api_status c)
    by (by rewrite law_join_status, law_authenticate_status).
  rewrite IH.
  - rewrite law_join, law_authenticate_status, Hc, law_authenticate, Hc.
    by rewrite <- !app_assoc.
  - by rewrite Hst.
  - by rewrite <- law_status_enabled, Hst, law_status_enabled.
Qed.

(** Spec property 4: however many times the effect re-registers the
    handler (clear, then [onNewEmail]), a new-email message on a
    connected client runs [handleNewEmail] exactly once. *)
Theorem register_handler_once c k :
  api_available c = true -> isConnected (api_status c) = true ->
  api_dispatch (Nat.iter (S k) register_handler c) = [HANDLE_NEW_EMAIL].
Proof.
  intros Ha Hc. rewrite law_dispatch.
  assert (Hs : forall j, api_status (Nat.iter j register_handler c) = api_status c /\
                         api_available (Nat.iter j register_handler c) = true).
  { induction j as [|j [IHs IHa]]; [done|]. rewrite Nat.iter_succ.
    set (c' := Nat.iter j register_handler c) in *. unfold register_handler.
    destruct (law_on_keeps (api_clear c') HANDLE_NEW_EMAIL) as [-> ->].
    destruct (law_clear_keeps c') as [-> ->]. done. }
  destruct (Hs (S k)) as [Hs' _]. rewrite Hs', Hc, Nat.iter_succ.
  destruct (Hs k) as [_ Hk]. set (c' := Nat.iter k register_handler c) in *.
  unfold register_handler. rewrite law_on, law_clear; [done|].
  destruct (law_clear_keeps c') as [-> _]. done.
Qed.
End WithClient.

(** ** Cleanup on unmount *)

(** The cleanup of the handler effect (lines 300-311): the refresh timer
    is cleared, the client's callbacks too, and the recent set emptied. *)
Definition effect_cleanup (p : Page) (l : loop TimerAction) (c : Client)
    : Page * loop TimerAction * Client :=
  let l := match pg_refreshTimeout p with Some id => clearTimeout id l | None => l end in
  (set_recent [] p, l, clearNotificationCallbacks c).

(** The cleanup of the unmount effect (lines 316-325). *)
Definition unmount_cleanup (p : Page) (l : loop TimerAction) (c : Client)
    : Page * loop TimerAction * Client :=
  let c := disconnect c in
  let l := match pg_refreshTimeout p with Some id => clearTimeout id l | None => l end in
  (set_recent [] p, l, c).

(** Unmounting runs both, in declaration order. *)
Definition unmount (p : Page) (l : loop TimerAction) (c : Client)
    : Page * loop TimerAction * Client :=
  let '(p, l, c) := effect_cleanup p l c in unmount_cleanup p l c.

(** C7. Spec property 6 for the host: after the page unmounts, the
    recent set is empty and, whatever the client receives afterwards, it
    opens no transport, reports disconnected and dispatches no
    notification to the page. *)
Theorem unmount_silences p l c evs :
  c_enabled c = true ->
  let '(p', _, c') := unmount p l c in
  pg_recent p' = [] /\ c_opens (run evs c') = c_opens c /\
  isConnected (getConnectionStatus (run evs c')) = false /\ dispatch (run evs c') = [].
Proof.
  intros Hen. unfold unmount, effect_cleanup, unmount_cleanup. cbn zeta.
  set (c1 := clearNotificationCallbacks c).
  assert (Hq : quiescent (disconnect c1)) by (unfold disconnect; subst c1; simpl; rewrite Hen; split; done).
  destruct (run_quiescent evs _ Hq) as [[Ht _] Ho].
  split; [done|]. split.
  - rewrite Ho. unfold disconnect. subst c1. simpl. by rewrite Hen.
  - split; [by apply status_disconnected|]. unfold dispatch, transport_is. rewrite Ht.
    case_bool_decide; [done|]. by rewrite andb_false_r.
Qed.

(** ** Concurrent loads *)

Definition demo_env : Env := mkEnv (Some "42") (Some "temp@x.com") None.

Definition mail (id : Z) (subject : string) : Email :=
  mkEmail id "inbox" "0" [mkAddress "a@b.com" "b.com" "a@b.com" "a" "A"] "" subject 0 false.

(** C14. Responses are applied in arrival order, whatever the order of
    the requests: with an account, two loads at least [LOAD_THROTTLE_MS]
    apart both send a request; when the newer response arrives first,
    [isLoading] is already false while the older request is still in
    flight, and when the older response arrives last the page shows the
    older response's emails and pagination. *)
Theorem loadEmails_stale_response env id now1 now2 p d0 d1 pg0 pg1 :
  js_present (env_accountId env) = Some id ->
  (pg_lastLoadTime p + LOAD_THROTTLE_MS <= now1)%Z -> (now1 + LOAD_THROTTLE_MS <= now2)%Z ->
  let p2 := loadEmails env now2 ContNone (loadEmails env now1 ContNone p) in
  let r0 := mkRequest (pg_nextRequest p) (emails_url id p) ContNone in
  let r1 := mkRequest (S (pg_nextRequest p)) (emails_url id p) ContNone in
  let p3 := loadEmails_finish env r1 (FetchSuccess d1 pg1) p2 in
  let p4 := loadEmails_finish env r0 (FetchSuccess d0 pg0) p3 in
  pg_requests p2 = pg_requests p ++ [r0; r1] /\
  pg_isLoading p3 = false /\ pg_requests p3 = remove_request (S (pg_nextRequest p)) (pg_requests p) ++ [r0] /\
  pg_emails p4 = default [] d0 /\ pg_pagination p4 = pg0.
Proof.
  intros Hid H1 H2. cbn zeta. unfold loadEmails. rewrite Hid.
  rewrite (proj2 (Z.ltb_ge (now1 - pg_lastLoadTime p) LOAD_THROTTLE_MS) ltac:(lia)).
  cbn [pg_lastLoadTime set_nextRequest set_requests set_isLoading set_lastLoadTime].
  rewrite (proj2 (Z.ltb_ge (now2 - now1) LOAD_THROTTLE_MS) ltac:(lia)).
  split; [simpl; by rewrite <- app_assoc|]. split; [done|]. split; [|done].
  simpl. unfold remove_request. rewrite <- app_assoc, List.filter_app. simpl.
  rewrite (proj2 (Nat.eqb_neq _ _) (Nat.neq_succ_diag_r _)), Nat.eqb_refl. done.
Qed.

(** ** Witnesses *)

Lemma unmount_silences_witness :
  let '(p', _, c') := unmount initial_page (initial_loop 0) (construct push_url 3) in
  pg_recent p' = [] /\ c_opens (run [EvClose; EvReconnectTimer; EvOpen] c') = c_opens (construct push_url 3) /\
  isConnected (getConnectionStatus (run [EvClose; EvReconnectTimer; EvOpen] c')) = false /\
  dispatch (run [EvClose; EvReconnectTimer; EvOpen] c') = [].
Proof. exact (unmount_silences initial_page (initial_loop 0) (construct push_url 3) _ eq_refl). Defined.

Lemma loadEmails_stale_response_witness :
  let p2 := loadEmails demo_env 1003000 ContNone (loadEmails demo_env 1000000 ContNone initial_page) in
  let r0 := mkRequest (pg_nextRequest initial_page) (emails_url "42" initial_page) ContNone in
  let r1 := mkRequest (S (pg_nextRequest initial_page)) (emails_url "42" initial_page) ContNone in
  let p3 := loadEmails_finish demo_env r1 (FetchSuccess (Some [mail 2 "new"]) None) p2 in
  let p4 := loadEmails_finish demo_env r0 (FetchSuccess (Some [mail 1 "old"]) None) p3 in
  pg_requests p2 = pg_requests initial_page ++ [r0; r1] /\
  pg_isLoading p3 = false /\
  pg_requests p3 = remove_request (S (pg_nextRequest initial_page)) (pg_requests initial_page) ++ [r0] /\
  pg_emails p4 = default [] (Some [mail 1 "old"]) /\ pg_pagination p4 = None.
Proof.
  exact (loadEmails_stale_response demo_env "42" 1000000 1003000 initial_page
           (Some [mail 1 "old"]) (Some [mail 2 "new"]) None None eq_refl
           ltac:(unfold LOAD_THROTTLE_MS; simpl; lia) ltac:(unfold LOAD_THROTTLE_MS; lia)).
Defined.

(** A connected client with a session, and the page after one load. *)
Definition connected_client : Client := client_step EvOpen session_client.

Definition loaded_page : Page := loadEmails demo_env 1000000 ContNone initial_page.

Lemma loadEmails_throttle_witness :
  pg_requests (loadEmails demo_env 1001000 ContNone loaded_page) = pg_requests loaded_page /\
  pg_lastLoadTime (loadEmails demo_env 1003000 ContNone loaded_page) = 1003000%Z.
Proof.
  split.
  - apply (proj1 (loadEmails_throttle demo_env 1001000 ContNone loaded_page)). vm_compute. reflexivity.
  - apply (proj2 (loadEmails_throttle demo_env 1003000 ContNone loaded_page) "42");
      [reflexivity|vm_compute; discriminate].
Defined.

Lemma debouncedRefresh_single_witness :
  let r := debouncedRefresh initial_page (initial_loop 0) in
  refresh_ids (lp_timers (debouncedRefresh r.1 r.2).2) = [2%nat].
Proof.
  refine (eq_trans (proj1 (debouncedRefresh_single _ _ _)) eq_refl).
  intros u Hu Ha. vm_compute in Hu. destruct Hu as [<-|[]]. reflexivity.
Defined.

Lemma poll_reauthenticates_witness :
  c_outbox (poll_n 2 demo_env initial_page connected_client).2 =
    c_outbox connected_client ++
      [MsgAuthenticate "42"; MsgJoinRoom "temp@x.com"; MsgAuthenticate "42"; MsgJoinRoom "temp@x.com"].
Proof.
  exact (poll_reauthenticates demo_env initial_page connected_client 2 "42" "temp@x.com"
           eq_refl eq_refl eq_refl eq_refl).
Defined.

Lemma register_handler_once_witness :
  dispatch (Nat.iter 3 register_handler connected_client) = [HANDLE_NEW_EMAIL].
Proof. exact (register_handler_once connected_client 2 eq_refl eq_refl). Defined.
