(* ===== verification/EmailService.v ===== *)
(** * EmailService: src/lib/email-service.ts

    The account records, the per-site localStorage keys and records, the
    password generator, the API calls with their fallbacks, the expiry
    tests and the two initialisation flows with the clean-ups.

    Effects are explicit: [window] is [option Window] ([None] on the
    server, where every storage function returns early); localStorage is
    a [gmap] from key to the stored text, a text being either the JSON of
    a record or something that does not parse; [Date.now()] is an
    argument in milliseconds; each [Math.random()] is a rational draw;
    each [fetch] is an argument describing its outcome.  ISO date strings
    are kept as the millisecond values they denote ([toISOString] and
    [new Date(...)] are inverse on the dates the code builds). *)

From S2P Require Import Prelude JsString.
From stdpp Require Import gmap.
From Stdlib Require Import QArith_base Qround.
Local Close Scope Q_scope.

(** ** Data (lines 4-32) *)

Record Domain := mkDomain {
  dm_id : Z; dm_name : string; dm_accounts : Z; dm_total_emails : string; dm_memory : string
}.

Record EmailAccount := mkAccount {
  acc_id : string;
  acc_email : string;
  acc_password : string;
  acc_created_at : Z;               (** [created_at], an ISO date *)
  acc_domain_id : string;
  acc_expires_at : option Z;        (** 5-minute accounts only *)
  acc_is_5min : option bool
}.

(** [SiteEmailData] and [FiveMinEmailData] have the same shape. *)
Record SiteEmailData := mkSiteData {
  sd_domains : list Domain;
  sd_currentAccount : option EmailAccount;
  sd_lastUpdated : Z
}.

(** ** Site keys (lines 35-55) *)

Record Window := mkWindow { win_hostname : string }.

(** [getSiteKey()] *)
Definition getSiteKey (w : option Window) : string :=
  match w with
  | None => "tempmail-default"
  | Some w => sanitize_key ("tempmail-" +:+ win_hostname w)
  end.

(** [getFiveMinSiteKey()] *)
Definition getFiveMinSiteKey (w : option Window) : string :=
  match w with
  | None => "tempmail-5min-default"
  | Some w => sanitize_key ("tempmail-5min-" +:+ win_hostname w)
  end.

(** ** localStorage (lines 196-259) *)

(** What [localStorage] holds under a key: the JSON text of a record, or
    text [JSON.parse] rejects. *)
Inductive Stored := StoredJson (d : SiteEmailData) | StoredGarbage (text : string).

Abbreviation Storage := (gmap string Stored).

(** [saveEmailData] and [saveFiveMinEmailData]: [localStorage.setItem]
    under the key, nothing on the server. *)
Definition save_at (key : option Window -> string) (w : option Window) (d : SiteEmailData)
    (st : Storage) : Storage :=
  match w with None => st | Some _ => <[key w := StoredJson d]> st end.

(** [loadEmailData] and [loadFiveMinEmailData]: [null] on the server, when
    the key is absent, or when the text does not parse. *)
Definition load_at (key : option Window -> string) (w : option Window) (st : Storage)
    : option SiteEmailData :=
  match w with
  | None => None
  | Some _ => match st !! key w with
              | Some (StoredJson d) => Some d
              | _ => None
              end
  end.

(** [clearEmailData] and [clearFiveMinEmailData]. *)
Definition clear_at (key : option Window -> string) (w : option Window) (st : Storage) : Storage :=
  match w with None => st | Some _ => delete (key w) st end.

Definition saveEmailData := save_at getSiteKey.
Definition loadEmailData := load_at getSiteKey.
Definition clearEmailData := clear_at getSiteKey.
Definition saveFiveMinEmailData := save_at getFiveMinSiteKey.
Definition loadFiveMinEmailData := load_at getFiveMinSiteKey.
Definition clearFiveMinEmailData := clear_at getFiveMinSiteKey.

(** ** Random draws *)

(** A value of [Math.random()], in [0, 1). *)
Abbreviation Draw := Q.

Definition draw_ok (r : Draw) : Prop := (0 <= r < 1)%Q.

(** [Math.floor(Math.random() * n)] *)
Definition rand_index (r : Draw) (n : nat) : Z :=
  Qfloor (r * inject_Z (Z.of_nat n))%Q.

(** [s[i]] as a string: the character, or [undefined] (which [+=] turns
    into the text "undefined") out of range. *)
Definition char_at (s : string) (i : Z) : string :=
  if (0 <=? i)%Z then
    match String.get (Z.to_nat i) s with
    | Some c => String c EmptyString
    | None => "undefined"
    end
  else "undefined".

(** ** [generateStrongPassword] (lines 58-80) *)

Definition lowercase : string := "abcdefghijklmnopqrstuvwxyz".
Definition uppercase : string := "ABCDEFGHIJKLMNOPQRSTUVWXYZ".
Definition numbers : string := "0123456789".
Definition symbols : string := "!@#$%^&*()_+-=[]{}|;:,.<>?".
Definition allChars : string := lowercase +:+ uppercase +:+ numbers +:+ symbols.

(** [chars[Math.floor(Math.random() * chars.length)]] *)
Definition pick (chars : string) (r : Draw) : string :=
  char_at chars (rand_index r (String.length chars)).

(** The loop [for (let i = 4; i < 12; i++)], the i-th draw for the i-th
    character. *)
Fixpoint fill (rnd : nat -> Draw) (i k : nat) (acc : string) : string :=
  match k with
  | O => acc
  | S k => fill rnd (S i) k (acc +:+ pick allChars (rnd i))
  end.

(** The twelve characters before the shuffle: one of each class, then
    eight from all of them; [rnd i] is the value of the i-th call of
    [Math.random()]. *)
Definition password_prefix (rnd : nat -> Draw) : string :=
  fill rnd 4 8 (pick lowercase (rnd 0%nat) +:+ pick uppercase (rnd 1%nat) +:+
                pick numbers (rnd 2%nat) +:+ pick symbols (rnd 3%nat)).

(** [.sort(() => Math.random() - 0.5)]: the order the engine uses is not
    fixed by the language when the comparator is inconsistent; modelled
    as an insertion sort whose comparisons are the successive draws
    ([a] goes after [b] when the comparator is positive). *)
Fixpoint insert_by (rnd : nat -> Draw) (i : nat) (x : ascii) (ys : list ascii)
    : list ascii * nat :=
  match ys with
  | [] => ([x], i)
  | y :: ys' =>
      if negb (Qle_bool (rnd i) (1 # 2)) then
        let '(zs, j) := insert_by rnd (S i) x ys' in (y :: zs, j)
      else (x :: y :: ys', S i)
  end.

Fixpoint sort_by (rnd : nat -> Draw) (i : nat) (xs : list ascii) : list ascii * nat :=
  match xs with
  | [] => ([], i)
  | x :: xs => let '(ys, j) := sort_by rnd i xs in insert_by rnd j x ys
  end.

(** [password.split('').sort(...).join('')], the shuffle's draws coming
    after the twelve of the characters. *)
Definition generateStrongPassword (rnd : nat -> Draw) : string :=
  String.string_of_list_ascii (sort_by rnd 12 (String.list_ascii_of_string (password_prefix rnd))).1.

(** ** Lemmas on the generator *)

Lemma rand_index_bounds r n :
  draw_ok r -> (0 < n)%nat -> (0 <= rand_index r n < Z.of_nat n)%Z.
Proof.
  intros [H0 H1] Hn. unfold rand_index.
  assert (Hn' : (0 < inject_Z (Z.of_nat n))%Q)
    by (change 0%Q with (inject_Z 0); rewrite <- Zlt_Qlt; lia).
  split.
  - rewrite <- (Qfloor_Z 0). apply Qfloor_resp_le.
    apply Qmult_le_0_compat; [done|]. by apply Qlt_le_weak.
  - rewrite Zlt_Qlt. eapply Qle_lt_trans; [apply Qfloor_le|].
    rewrite <- (Qmult_1_l (inject_Z (Z.of_nat n))) at 2. by apply Qmult_lt_compat_r.
Qed.

Lemma string_get_in (s : string) i c :
  String.get i s = Some c -> In c (String.list_ascii_of_string s).
Proof.
  revert i. induction s as [|d s IH]; intros [|i]; simpl; try done.
  - intros [= ->]. by left.
  - intros H. right. by eapply IH.
Qed.

Lemma string_get_lt (s : string) i : (i < String.length s)%nat -> exists c, String.get i s = Some c.
Proof.
  revert i. induction s as [|d s IH]; intros [|i] Hi; simpl in *; try lia; eauto.
  apply IH. lia.
Qed.

(** With a draw in [0, 1) and a non-empty alphabet, [pick] gives one
    character of the alphabet. *)
Lemma pick_in chars r :
  draw_ok r -> (0 < String.length chars)%nat ->
  exists c, pick chars r = String c EmptyString /\ In c (String.list_ascii_of_string chars).
Proof.
  intros Hr Hn. unfold pick, char_at.
  destruct (rand_index_bounds r _ Hr Hn) as [Hlo Hhi].
  replace (0 <=? _)%Z with true by (symmetry; by apply Z.leb_le).
  destruct (string_get_lt chars (Z.to_nat (rand_index r (String.length chars)))) as [c Hc]; [lia|].
  rewrite Hc. exists c. split; [done|]. by eapply string_get_in.
Qed.

Lemma list_ascii_app a b :
  String.list_ascii_of_string (a +:+ b) =
  String.list_ascii_of_string a ++ String.list_ascii_of_string b.
Proof. induction a as [|c a IH]; simpl; [done|]. by rewrite IH. Qed.

Lemma insert_by_perm rnd i x ys : Permutation (insert_by rnd i x ys).1 (x :: ys).
Proof.
  revert i. induction ys as [|y ys IH]; intros i; simpl; [done|].
  destruct (negb _); [|done].
  specialize (IH (S i)). destruct (insert_by rnd (S i) x ys) as [zs j]. simpl in *.
  rewrite IH. apply perm_swap.
Qed.

(** The shuffle only reorders. *)
Lemma sort_by_perm rnd i xs : Permutation (sort_by rnd i xs).1 xs.
Proof.
  induction xs as [|x xs IH]; simpl; [done|].
  destruct (sort_by rnd i xs) as [ys j] eqn:E. simpl in IH.
  rewrite insert_by_perm. by rewrite IH.
Qed.

Lemma fill_chars rnd i k acc :
  (forall j, draw_ok (rnd j)) ->
  exists cs, String.list_ascii_of_string (fill rnd i k acc) = String.list_ascii_of_string acc ++ cs /\
             length cs = k.
Proof.
  intros Hd. revert i acc. induction k as [|k IH]; intros i acc; simpl.
  - exists []. by rewrite app_nil_r.
  - destruct (IH (S i) (acc +:+ pick allChars (rnd i))) as (cs & -> & Hl).
    destruct (pick_in allChars (rnd i) (Hd i)) as (c & -> & _); [vm_compute; lia|].
    exists (c :: cs). rewrite list_ascii_app, <- app_assoc. simpl. auto.
Qed.

Definition is_symbol (c : ascii) : bool := has_char c symbols.

Lemma in_all_chars p s c :
  all_chars p s = true -> In c (String.list_ascii_of_string s) -> p c = true.
Proof.
  induction s as [|d s IH]; simpl; [done|]. intros [Hd Hs]%andb_true_iff [<-|Hc]; auto.
Qed.

Lemma in_has_char s c : In c (String.list_ascii_of_string s) -> has_char c s = true.
Proof.
  induction s as [|d s IH]; simpl; [done|]. intros [<-|Hc].
  - by rewrite Ascii.eqb_refl.
  - rewrite IH; [apply orb_true_r|done].
Qed.

(** C19. The generated password has twelve characters and, whatever the
    shuffle does, contains a lowercase letter, an uppercase letter, a
    digit and one of the symbols, provided every [Math.random()] value
    lies in [0, 1). *)
Theorem generateStrongPassword_spec rnd :
  (forall i, draw_ok (rnd i)) ->
  let pw := String.list_ascii_of_string (generateStrongPassword rnd) in
  length pw = 12%nat /\
  (exists c, In c pw /\ is_lower c = true) /\ (exists c, In c pw /\ is_upper c = true) /\
  (exists c, In c pw /\ is_digit c = true) /\ (exists c, In c pw /\ is_symbol c = true).
Proof.
  intros Hd pw.
  assert (Hperm : Permutation pw (String.list_ascii_of_string (password_prefix rnd))).
  { subst pw. unfold generateStrongPassword.
    rewrite String.list_ascii_of_string_of_list_ascii. apply sort_by_perm. }
  unfold password_prefix in Hperm.
  destruct (pick_in lowercase (rnd 0%nat) (Hd _)) as (c0 & E0 & H0); [vm_compute; lia|].
  destruct (pick_in uppercase (rnd 1%nat) (Hd _)) as (c1 & E1 & H1); [vm_compute; lia|].
  destruct (pick_in numbers (rnd 2%nat) (Hd _)) as (c2 & E2 & H2); [vm_compute; lia|].
  destruct (pick_in symbols (rnd 3%nat) (Hd _)) as (c3 & E3 & H3); [vm_compute; lia|].
  rewrite E0, E1, E2, E3 in Hperm.
  destruct (fill_chars rnd 4 8 (String c0 "" +:+ String c1 "" +:+ String c2 "" +:+ String c3 "") Hd)
    as (cs & Ecs & Hlen). rewrite Ecs in Hperm.
  simpl in Hperm.
  assert (Hin : forall c, In c [c0; c1; c2; c3] -> In c pw).
  { intros c Hc. apply (Permutation_in _ (Permutation_sym Hperm)). cbn [In] in Hc |- *. tauto. }
  split; [rewrite (Permutation_length Hperm); simpl; by rewrite Hlen|].
  split; [exists c0; split; [apply Hin; simpl; auto|by eapply (in_all_chars is_lower lowercase)]|].
  split; [exists c1; split; [apply Hin; simpl; auto|by eapply (in_all_chars is_upper uppercase)]|].
  split; [exists c2; split; [apply Hin; simpl; auto|by eapply (in_all_chars is_digit numbers)]|].
  exists c3. split; [apply Hin; simpl; auto|]. by apply in_has_char.
Qed.

(** ** [loadDomains] (lines 83-109) *)

(** [result.data]: an array of domains, or an object whose [domains]
    field may be missing. *)
Inductive DomainsData := DataArray (ds : list Domain) | DataObject (domains : option (list Domain)).

Inductive DomainsResponse :=
| DomainsOk (data : DomainsData)      (** [result.success] *)
| DomainsFailed                       (** [!result.success] *)
| DomainsThrew.                       (** fetch or JSON error *)

(** What [loadDomains] resolves to: an array, or (for an object without
    [domains]) that object, which is not an array. *)
Inductive DomainsResult := DList (ds : list Domain) | DNotArray.

Definition fallback_domains : list Domain :=
  [mkDomain 1 "sendbun.com" 0 "0" "0"; mkDomain 2 "mailbun.cc" 0 "0" "0";
   mkDomain 3 "tempmail.org" 0 "0" "0"].

(** [result.data.domains || result.data]; an array is truthy even when
    empty. *)
Definition loadDomains (resp : DomainsResponse) : DomainsResult :=
  match resp with
  | DomainsOk (DataArray ds) => DList ds
  | DomainsOk (DataObject (Some ds)) => DList ds
  | DomainsOk (DataObject None) => DNotArray
  | DomainsFailed | DomainsThrew => DList fallback_domains
  end.

(** ** [createEmailAccount] (lines 112-172) *)

Inductive CreateResponse :=
| CreateOk (id : option string) (email : option string) (domain_id : option string)
    (** [result.data]: [id?.toString()], [email], [domain_id] *)
| CreateFailed
| CreateThrew.

Definition FIVE_MINUTES_MS : Z := 300000%Z.

Definition expiry_for (is5Min : bool) (now : Z) : option Z :=
  if is5Min then Some (now + FIVE_MINUTES_MS)%Z else None.

Definition createEmailAccount (email password : string) (is5Min : bool) (now : Z)
    (resp : CreateResponse) : EmailAccount :=
  match resp with
  | CreateOk id em did =>
      mkAccount (js_or id (pretty now)) (js_or em email) password now (js_or did "")
                (expiry_for is5Min now) (Some is5Min)
  | CreateFailed | CreateThrew =>
      mkAccount (pretty now) email password now "mock" (expiry_for is5Min now) (Some is5Min)
  end.

(** [deleteEmailAccount] (lines 175-193): every outcome resolves to
    [true]. *)
Inductive DeleteResponse := DeleteOk | DeleteFailed | DeleteThrew.

Definition deleteEmailAccount (resp : DeleteResponse) : bool :=
  match resp with DeleteOk => true | DeleteFailed => true | DeleteThrew => true end.

(** ** Expiry (lines 262-273) *)

Definition isAccountExpired (a : EmailAccount) (now : Z) : bool :=
  match acc_expires_at a with None => false | Some e => (e <? now)%Z end.

Definition getTimeRemaining (a : EmailAccount) (now : Z) : Z :=
  match acc_expires_at a with None => 0 | Some e => Z.max 0 ((e - now) / 1000) end.

(** ** Initialisation (lines 276-357) *)

(** What one run of an initialisation reads from the outside world. *)
Record InitInputs := mkInputs {
  in_now : Z;
  in_domains : DomainsResponse;
  in_domain_draw : Draw;               (** the draw choosing the domain *)
  in_username : string;                (** the name generator's result *)
  in_pw_rnd : nat -> Draw;             (** the draws of the password *)
  in_create : CreateResponse
}.

Inductive InitError :=
| NoDomainsAvailable                   (** [throw new Error('No domains available')] *)
| DomainTypeError.                     (** [randomDomain.name] on [undefined] *)

Definition MAX_AGE_MS : Z := 86400000%Z.

(** Steps shared by both flows after the stored account was rejected:
    domains, random domain, address and password, creation, save. *)
Definition create_and_save (save : option Window -> SiteEmailData -> Storage -> Storage)
    (is5Min : bool) (w : option Window) (st : Storage) (inp : InitInputs)
    : (EmailAccount + InitError) * Storage :=
  match loadDomains (in_domains inp) with
  | DNotArray => (inr DomainTypeError, st)
  | DList [] => (inr NoDomainsAvailable, st)
  | DList ds =>
      match ds !! Z.to_nat (rand_index (in_domain_draw inp) (length ds)) with
      | None => (inr DomainTypeError, st)
      | Some d =>
          let email := in_username inp +:+ "@" +:+ dm_name d in
          let acc := createEmailAccount email (generateStrongPassword (in_pw_rnd inp)) is5Min
                       (in_now inp) (in_create inp) in
          (inl acc, save w (mkSiteData ds (Some acc) (in_now inp)) st)
      end
  end.

(** [initializeEmailAccount]: a stored account younger than 24 hours is
    returned as it is. *)
Definition initializeEmailAccount (w : option Window) (st : Storage) (inp : InitInputs)
    : (EmailAccount + InitError) * Storage :=
  match loadEmailData w st with
  | Some (mkSiteData _ (Some a) _) =>
      if (in_now inp - acc_created_at a <? MAX_AGE_MS)%Z then (inl a, st)
      else create_and_save saveEmailData false w st inp
  | _ => create_and_save saveEmailData false w st inp
  end.

(** [initialize5MinEmailAccount]: a stored account that has not expired is
    returned as it is. *)
Definition initialize5MinEmailAccount (w : option Window) (st : Storage) (inp : InitInputs)
    : (EmailAccount + InitError) * Storage :=
  match loadFiveMinEmailData w st with
  | Some (mkSiteData _ (Some a) _) =>
      if negb (isAccountExpired a (in_now inp)) then (inl a, st)
      else create_and_save saveFiveMinEmailData true w st inp
  | _ => create_and_save saveFiveMinEmailData true w st inp
  end.

(** ** Clean-up (lines 360-386) *)

(** One half of [cleanupExpiredAccounts]: delete an expired account on
    the server, then forget it locally. *)
Definition cleanup_at (load : option Window -> Storage -> option SiteEmailData)
    (save : option Window -> SiteEmailData -> Storage -> Storage)
    (w : option Window) (now : Z) (resp : DeleteResponse) (st : Storage) : Storage :=
  match load w st with
  | Some (mkSiteData ds (Some a) lu) =>
      if isAccountExpired a now then
        let _ := deleteEmailAccount resp in save w (mkSiteData ds None lu) st
      else st
  | _ => st
  end.

Definition cleanupExpiredAccounts (w : option Window) (now : Z) (r1 r2 : DeleteResponse)
    (st : Storage) : Storage :=
  cleanup_at loadFiveMinEmailData saveFiveMinEmailData w now r2
    (cleanup_at loadEmailData saveEmailData w now r1 st).

Definition cleanupExpired5MinAccounts (w : option Window) (now : Z) (r : DeleteResponse)
    (st : Storage) : Storage :=
  cleanup_at loadFiveMinEmailData saveFiveMinEmailData w now r st.

(** ** Other address styles (lines 389-403) *)

(** [generateProfessionalEmailAccount(domain)] and
    [generateCasualEmailAccount(domain)]: a user name of ./name-generator
    (not among the sources, an input here), the domain and a strong
    password.  No page calls them. *)
Definition generateProfessionalEmailAccount (username domain : string) (rnd : nat -> Draw)
    : string * string :=
  (username +:+ "@" +:+ domain, generateStrongPassword rnd).

Definition generateCasualEmailAccount (username domain : string) (rnd : nat -> Draw)
    : string * string :=
  (username +:+ "@" +:+ domain, generateStrongPassword rnd).

(** ** Lemmas *)

(** The two site keys of a page never coincide. *)
Lemma site_keys_distinct w : getSiteKey w <> getFiveMinSiteKey w.
Proof.
  destruct w as [w|]; [|done]. unfold getSiteKey, getFiveMinSiteKey. intros E.
  apply (f_equal String.length) in E. rewrite !sanitize_key_length, !string_length_app in E.
  simpl in E. lia.
Qed.

Lemma load_save_same key w d st :
  w <> None -> load_at key w (save_at key w d st) = Some d.
Proof. destruct w; [|done]. intros _. simpl. by rewrite lookup_insert_eq. Qed.

Lemma load_save_other key key' w d st :
  key w <> key' w -> load_at key' w (save_at key w d st) = load_at key' w st.
Proof. destruct w; [|done]. intros Hne. simpl. by rewrite lookup_insert_ne. Qed.

(** A draw in [0, 1) picks an element of a non-empty list. *)
Lemma pick_domain (ds : list Domain) r :
  draw_ok r -> ds <> [] ->
  exists d, ds !! Z.to_nat (rand_index r (length ds)) = Some d /\ In d ds.
Proof.
  intros Hr Hne. destruct (rand_index_bounds r (length ds) Hr) as [Hlo Hhi].
  { destruct ds; [done|simpl; lia]. }
  destruct (lookup_lt_is_Some_2 ds (Z.to_nat (rand_index r (length ds)))) as [d Hd]; [lia|].
  exists d. split; [done|]. apply list_elem_of_In, list_elem_of_lookup. eauto.
Qed.

(** ** Theorems *)

(** C21. localStorage round trip and separation: on the client, what
    [saveEmailData] stores [loadEmailData] reads back, and the 5-minute
    record under its own key is untouched (and the other way round);
    [clearEmailData] forgets the record. *)
Theorem storage_roundtrip w d st :
  w <> None ->
  loadEmailData w (saveEmailData w d st) = Some d /\
  loadFiveMinEmailData w (saveEmailData w d st) = loadFiveMinEmailData w st /\
  loadFiveMinEmailData w (saveFiveMinEmailData w d st) = Some d /\
  loadEmailData w (saveFiveMinEmailData w d st) = loadEmailData w st /\
  loadEmailData w (clearEmailData w st) = None.
Proof.
  intros Hw. split; [by apply load_save_same|]. split.
  { apply load_save_other, site_keys_distinct. }
  split; [by apply load_save_same|]. split.
  { apply load_save_other. intros E. by apply (site_keys_distinct w). }
  destruct w; [|done]. unfold loadEmailData, clearEmailData, load_at, clear_at.
  by rewrite lookup_delete_eq.
Qed.

(** The 5-minute countdown: a 5-minute account expires exactly five
    minutes after its creation; from then on the remaining seconds lie
    in [0, 300], never increase, and are 0 once the account is expired. *)
Theorem five_min_countdown email pw t0 resp now now' :
  let a := createEmailAccount email pw true t0 resp in
  (t0 <= now <= now')%Z ->
  acc_expires_at a = Some (t0 + FIVE_MINUTES_MS)%Z /\
  (0 <= getTimeRemaining a now' <= getTimeRemaining a now)%Z /\
  (getTimeRemaining a now <= 300)%Z /\
  (isAccountExpired a now = true -> getTimeRemaining a now = 0%Z).
Proof.
  intros a Ht.
  assert (He : acc_expires_at a = Some (t0 + FIVE_MINUTES_MS)%Z) by (subst a; by destruct resp).
  unfold getTimeRemaining, isAccountExpired. rewrite He. unfold FIVE_MINUTES_MS.
  split; [done|]. split; [|split].
  - split; [lia|]. apply Z.max_le_compat_l, Z.div_le_mono; lia.
  - apply Z.max_lub; [lia|]. apply Z.div_le_upper_bound; lia.
  - intros Hlt%Z.ltb_lt. apply Z.max_l. apply Z.div_le_upper_bound; lia.
Qed.

(** The branches of [create_and_save]: an error leaves the storage as it
    was and says why; a success stores a new account on a listed domain. *)
Lemma create_and_save_spec save is5 w st inp :
  draw_ok (in_domain_draw inp) ->
  match create_and_save save is5 w st inp with
  | (inl a, st') =>
      exists ds d, loadDomains (in_domains inp) = DList ds /\ In d ds /\
        a = createEmailAccount (in_username inp +:+ "@" +:+ dm_name d)
              (generateStrongPassword (in_pw_rnd inp)) is5 (in_now inp) (in_create inp) /\
        st' = save w (mkSiteData ds (Some a) (in_now inp)) st
  | (inr e, st') =>
      st' = st /\
      (e = NoDomainsAvailable /\ loadDomains (in_domains inp) = DList [] \/
       e = DomainTypeError /\ loadDomains (in_domains inp) = DNotArray)
  end.
Proof.
  intros Hr. unfold create_and_save.
  destruct (loadDomains (in_domains inp)) as [[|d0 ds']|] eqn:Hl; [by auto|..|by auto].
  destruct (pick_domain (d0 :: ds') _ Hr) as (d & -> & Hin); [done|].
  eauto 6.
Qed.

(** The fields every branch of [createEmailAccount] fixes. *)
Lemma createEmailAccount_common email pw is5 now resp :
  let a := createEmailAccount email pw is5 now resp in
  acc_password a = pw /\ acc_created_at a = now /\
  acc_expires_at a = expiry_for is5 now /\ acc_is_5min a = Some is5.
Proof. by destruct resp. Qed.

(** [createEmailAccount] on every branch: the password, creation
    time, expiry (five minutes for a 5-minute account, none otherwise) and
    kind are the caller's; when the API fails or throws, a mock account is
    built with the requested address, domain id ["mock"] and the time as
    its id; on success the server's id, address and domain id are used
    when they are truthy. *)
Theorem createEmailAccount_spec email pw is5 now resp :
  let a := createEmailAccount email pw is5 now resp in
  acc_password a = pw /\ acc_created_at a = now /\
  acc_expires_at a = (if is5 then Some (now + 300000)%Z else None) /\
  acc_is_5min a = Some is5 /\
  match resp with
  | CreateOk id em did =>
      acc_id a = js_or id (pretty now) /\ acc_email a = js_or em email /\
      acc_domain_id a = js_or did ""
  | CreateFailed | CreateThrew =>
      acc_id a = pretty now /\ acc_email a = email /\ acc_domain_id a = "mock"
  end.
Proof.
  intros a. destruct (createEmailAccount_common email pw is5 now resp) as (? & ? & He & ?).
  fold a in He. rewrite He. unfold expiry_for, FIVE_MINUTES_MS.
  do 4 (split; [done|]). subst a. by destruct resp.
Qed.

Lemma save_other_regular w d st :
  loadFiveMinEmailData w (saveEmailData w d st) = loadFiveMinEmailData w st.
Proof. apply load_save_other, site_keys_distinct. Qed.

Lemma save_other_five_min w d st :
  loadEmailData w (saveFiveMinEmailData w d st) = loadEmailData w st.
Proof. apply load_save_other. intros E. by apply (site_keys_distinct w). Qed.

(** What the initialisations promise when they create an account. *)
Definition created_in (load : option Window -> Storage -> option SiteEmailData)
    (is5 : bool) (w : option Window) (inp : InitInputs) (a : EmailAccount) (st' : Storage) : Prop :=
  exists ds d, loadDomains (in_domains inp) = DList ds /\ In d ds /\
    load w st' = Some (mkSiteData ds (Some a) (in_now inp)) /\
    acc_created_at a = in_now inp /\ acc_expires_at a = expiry_for is5 (in_now inp) /\
    acc_password a = generateStrongPassword (in_pw_rnd inp) /\
    (in_create inp = CreateFailed \/ in_create inp = CreateThrew ->
     acc_email a = in_username inp +:+ "@" +:+ dm_name d).

(** What they promise when they fail. *)
Definition init_failed (inp : InitInputs) (e : InitError) : Prop :=
  e = NoDomainsAvailable /\ loadDomains (in_domains inp) = DList [] \/
  e = DomainTypeError /\ loadDomains (in_domains inp) = DNotArray.

(** [create_and_save] with the matching save and load keys. *)
Lemma create_and_save_load save load is5 w st inp
    (Hsl : forall d st, load w (save w d st) = Some d) :
  draw_ok (in_domain_draw inp) ->
  match create_and_save save is5 w st inp with
  | (inl a, st') => created_in load is5 w inp a st'
  | (inr e, st') => st' = st /\ init_failed inp e
  end.
Proof.
  intros Hr. pose proof (create_and_save_spec save is5 w st inp Hr) as Hc.
  destruct (create_and_save save is5 w st inp) as [[a|e] st']; [|done].
  destruct Hc as (ds & d & Hl & Hin & -> & ->).
  destruct (createEmailAccount_common (in_username inp +:+ "@" +:+ dm_name d)
              (generateStrongPassword (in_pw_rnd inp)) is5 (in_now inp) (in_create inp))
    as (Hp & Ht & He & _).
  exists ds, d. do 2 (split; [done|]). split; [apply Hsl|].
  do 3 (split; [done|]). by intros [-> | ->].
Qed.

(** ... and the record under the other key is left as it was. *)
Lemma create_and_save_other save load (other : option Window -> Storage -> option SiteEmailData) is5 w st inp
    (Hsl : forall d st, load w (save w d st) = Some d)
    (Hso : forall d st, other w (save w d st) = other w st) :
  draw_ok (in_domain_draw inp) ->
  match create_and_save save is5 w st inp with
  | (inl a, st') => created_in load is5 w inp a st' /\ other w st' = other w st
  | (inr e, st') => st' = st /\ init_failed inp e
  end.
Proof.
  intros Hr. pose proof (create_and_save_load save load is5 w st inp Hsl Hr) as Hn.
  pose proof (create_and_save_spec save is5 w st inp Hr) as Hc.
  destruct (create_and_save save is5 w st inp) as [[a|e] st']; [|done].
  split; [done|]. destruct Hc as (? & ? & _ & _ & _ & ->). apply Hso.
Qed.

(** C20. [initializeEmailAccount] in the browser, by what is stored:
    a stored account younger than 24 hours is returned, storage
    untouched; when there is none (no record, no account, or one at
    least 24 hours old) it creates an account on one of the loaded
    domains with a generated password and no expiry, and stores it under
    the regular key leaving the 5-minute record as it was, or fails,
    storage untouched, exactly when the domain list is empty ([No domains
    available]) or the API's [data] object has no [domains] field (a
    [TypeError]). *)
Theorem initializeEmailAccount_spec w st inp :
  w <> None -> draw_ok (in_domain_draw inp) ->
  (forall ds a lu, loadEmailData w st = Some (mkSiteData ds (Some a) lu) ->
     (in_now inp - acc_created_at a < MAX_AGE_MS)%Z ->
     initializeEmailAccount w st inp = (inl a, st)) /\
  ((forall ds a lu, loadEmailData w st = Some (mkSiteData ds (Some a) lu) ->
      (MAX_AGE_MS <= in_now inp - acc_created_at a)%Z) ->
   match initializeEmailAccount w st inp with
   | (inl a, st') =>
       created_in loadEmailData false w inp a st' /\
       loadFiveMinEmailData w st' = loadFiveMinEmailData w st
   | (inr e, st') => st' = st /\ init_failed inp e
   end).
Proof.
  intros Hw Hr. unfold initializeEmailAccount. split.
  - intros ds a lu Hl Hlt. rewrite Hl. by rewrite (proj2 (Z.ltb_lt _ _) Hlt).
  - intros Hold.
    pose proof (create_and_save_other saveEmailData loadEmailData loadFiveMinEmailData false w st inp
                  (fun d st => load_save_same getSiteKey w d st Hw) (save_other_regular w) Hr) as Hc.
    destruct (loadEmailData w st) as [[ds [a|] lu]|] eqn:Hl; [|exact Hc|exact Hc].
    by rewrite (proj2 (Z.ltb_ge _ _) (Hold ds a lu eq_refl)).
Qed.

(** [initialize5MinEmailAccount] in the browser: it returns the
    stored 5-minute account while it has not expired, storage untouched;
    otherwise it creates an account that expires five minutes after its
    creation and stores it under the 5-minute key, leaving the regular
    record as it was; it fails, storage untouched, on an empty domain list
    or a [data] object without [domains]. *)
Theorem initialize5MinEmailAccount_spec w st inp :
  w <> None -> draw_ok (in_domain_draw inp) ->
  (forall ds a lu, loadFiveMinEmailData w st = Some (mkSiteData ds (Some a) lu) ->
     isAccountExpired a (in_now inp) = false ->
     initialize5MinEmailAccount w st inp = (inl a, st)) /\
  ((forall ds a lu, loadFiveMinEmailData w st = Some (mkSiteData ds (Some a) lu) ->
      isAccountExpired a (in_now inp) = true) ->
   match initialize5MinEmailAccount w st inp with
   | (inl a, st') =>
       created_in loadFiveMinEmailData true w inp a st' /\ loadEmailData w st' = loadEmailData w st
   | (inr e, st') => st' = st /\ init_failed inp e
   end).
Proof.
  intros Hw Hr. unfold initialize5MinEmailAccount. split.
  - intros ds a lu Hl He. by rewrite Hl, He.
  - intros Hexp.
    pose proof (create_and_save_other saveFiveMinEmailData loadFiveMinEmailData loadEmailData true w st inp
                  (fun d st => load_save_same getFiveMinSiteKey w d st Hw) (save_other_five_min w) Hr) as Hc.
    destruct (loadFiveMinEmailData w st) as [[ds [a|] lu]|] eqn:Hl; [|exact Hc|exact Hc].
    by rewrite (Hexp ds a lu eq_refl).
Qed.

(** ** Clean-up *)

(** The record a clean-up leaves: the account is dropped when expired. *)
Definition cleaned (now : Z) (o : option SiteEmailData) : option SiteEmailData :=
  match o with
  | Some (mkSiteData ds (Some a) lu) =>
      if isAccountExpired a now then Some (mkSiteData ds None lu) else o
  | _ => o
  end.

Lemma cleanup_at_load load save (other : option Window -> Storage -> option SiteEmailData)
    w now r st
    (Hsl : forall d st, load w (save w d st) = Some d)
    (Hso : forall d st, other w (save w d st) = other w st) :
  load w (cleanup_at load save w now r st) = cleaned now (load w st) /\
  other w (cleanup_at load save w now r st) = other w st.
Proof.
  unfold cleanup_at, cleaned.
  destruct (load w st) as [[ds [a|] lu]|] eqn:Hl; [|split; auto..].
  case_if; cbv zeta; split; auto.
Qed.

Lemma load_none key st : load_at key None st = None.
Proof. done. Qed.

(** [cleanupExpiredAccounts] forgets exactly the expired accounts:
    after it, each of the two records holds what it held before, with its
    account set to [null] when that account had expired; nothing else of
    either record changes. *)
Theorem cleanupExpiredAccounts_spec w now r1 r2 st :
  let st' := cleanupExpiredAccounts w now r1 r2 st in
  loadEmailData w st' = cleaned now (loadEmailData w st) /\
  loadFiveMinEmailData w st' = cleaned now (loadFiveMinEmailData w st).
Proof.
  destruct w as [w|]; [|done]. unfold cleanupExpiredAccounts.
  destruct (cleanup_at_load loadEmailData saveEmailData loadFiveMinEmailData (Some w) now r1 st)
    as [H1 H2]; [intros; by apply load_save_same|apply save_other_regular|].
  destruct (cleanup_at_load loadFiveMinEmailData saveFiveMinEmailData loadEmailData (Some w) now r2
              (cleanup_at loadEmailData saveEmailData (Some w) now r1 st))
    as [H3 H4]; [intros; by apply load_save_same|apply save_other_five_min|].
  cbv zeta. rewrite H3, H4, H1, H2. done.
Qed.

(** A regular account is never removed by the clean-up: it has no
    expiry, so [isAccountExpired] is false at every time, and only the
    24-hour age test of [initializeEmailAccount] replaces it. *)
Theorem regular_account_never_cleaned w st email pw t0 resp ds lu now r1 r2 :
  let a := createEmailAccount email pw false t0 resp in
  loadEmailData w st = Some (mkSiteData ds (Some a) lu) ->
  loadEmailData w (cleanupExpiredAccounts w now r1 r2 st) = Some (mkSiteData ds (Some a) lu).
Proof.
  intros a Hl. rewrite (proj1 (cleanupExpiredAccounts_spec w now r1 r2 st)), Hl.
  unfold cleaned, isAccountExpired. subst a.
  by rewrite (proj1 (proj2 (proj2 (createEmailAccount_common email pw false t0 resp)))).
Qed.

(** C22. The countdown reaches 0 up to a second before the account
    expires: in the last second of a 5-minute account, [getTimeRemaining]
    is 0 (the page then says the email "has been automatically deleted"
    and leaves), but [isAccountExpired] is false, so
    [cleanupExpired5MinAccounts] keeps the account and
    [initialize5MinEmailAccount] hands it back. *)
Theorem countdown_zero_before_expiry w st email pw t0 resp ds lu now r inp :
  let a := createEmailAccount email pw true t0 resp in
  loadFiveMinEmailData w st = Some (mkSiteData ds (Some a) lu) ->
  (t0 + FIVE_MINUTES_MS - 1000 < now <= t0 + FIVE_MINUTES_MS)%Z ->
  in_now inp = now ->
  getTimeRemaining a now = 0%Z /\ isAccountExpired a now = false /\
  cleanupExpired5MinAccounts w now r st = st /\
  initialize5MinEmailAccount w st inp = (inl a, st).
Proof.
  intros a Hl Hnow Hin.
  assert (He : acc_expires_at a = Some (t0 + FIVE_MINUTES_MS)%Z)
    by exact (proj1 (proj2 (proj2 (createEmailAccount_common email pw true t0 resp)))).
  assert (Hx : isAccountExpired a now = false)
    by (unfold isAccountExpired; rewrite He; apply Z.ltb_ge; lia).
  split; [|split; [done|split]].
  - unfold getTimeRemaining. rewrite He. rewrite (Z.div_small (t0 + FIVE_MINUTES_MS - now) 1000); lia.
  - unfold cleanupExpired5MinAccounts, cleanup_at. by rewrite Hl, Hx.
  - unfold initialize5MinEmailAccount. by rewrite Hl, Hin, Hx.
Qed.

(** ** Witnesses *)

Definition half : Draw := Qmake 1 2.

Lemma half_ok : draw_ok half.
Proof. unfold draw_ok, half, Qle, Qlt. simpl. lia. Qed.

Definition site : option Window := Some (mkWindow "temp-mail.sendbun.com").

Definition demo_inputs (now : Z) (resp : DomainsResponse) : InitInputs :=
  mkInputs now resp half "john.smith" (fun _ => half) CreateThrew.

Definition demo_account : EmailAccount :=
  createEmailAccount "john.smith@sendbun.com" "Aa1!aaaaaaaa" true 0 CreateThrew.

Lemma generateStrongPassword_spec_witness :
  length (String.list_ascii_of_string (generateStrongPassword (fun _ => half))) = 12%nat.
Proof. exact (proj1 (generateStrongPassword_spec (fun _ => half) (fun _ => half_ok))). Defined.

Lemma storage_roundtrip_witness :
  loadEmailData site (saveEmailData site (mkSiteData fallback_domains None 0) ∅) =
    Some (mkSiteData fallback_domains None 0).
Proof. exact (proj1 (storage_roundtrip site _ ∅ ltac:(discriminate))). Defined.

Lemma five_min_countdown_witness :
  (getTimeRemaining demo_account 1000 <= 300)%Z.
Proof.
  exact (proj1 (proj2 (proj2 (five_min_countdown "john.smith@sendbun.com" "Aa1!aaaaaaaa" 0
                                CreateThrew 1000 2000 ltac:(lia))))).
Defined.

Lemma initializeEmailAccount_spec_witness :
  let a := createEmailAccount "x@sendbun.com" "pw" false 0 CreateThrew in
  let st := saveEmailData site (mkSiteData [] (Some a) 0) ∅ in
  initializeEmailAccount site st (demo_inputs 1000 DomainsThrew) = (inl a, st).
Proof.
  intros a st.
  exact (proj1 (initializeEmailAccount_spec site st (demo_inputs 1000 DomainsThrew) ltac:(discriminate) half_ok)
           [] a 0%Z ltac:(vm_compute; reflexivity) ltac:(vm_compute; reflexivity)).
Defined.

Lemma initialize5MinEmailAccount_spec_witness :
  match initialize5MinEmailAccount site ∅ (demo_inputs 0 (DomainsOk (DataArray []))) with
  | (inl a, st') =>
      created_in loadFiveMinEmailData true site (demo_inputs 0 (DomainsOk (DataArray []))) a st' /\
      loadEmailData site st' = loadEmailData site ∅
  | (inr e, st') => st' = ∅ /\ init_failed (demo_inputs 0 (DomainsOk (DataArray []))) e
  end.
Proof.
  exact (proj2 (initialize5MinEmailAccount_spec site ∅ (demo_inputs 0 (DomainsOk (DataArray [])))
                  ltac:(discriminate) half_ok)
           (fun ds a lu H => ltac:(vm_compute in H; discriminate H))).
Defined.

Lemma regular_account_never_cleaned_witness :
  let a := createEmailAccount "x@sendbun.com" "pw" false 0 CreateThrew in
  loadEmailData site (cleanupExpiredAccounts site 99000000000 DeleteOk DeleteOk
                        (saveEmailData site (mkSiteData [] (Some a) 0) ∅)) =
    Some (mkSiteData [] (Some a) 0).
Proof.
  exact (regular_account_never_cleaned site
           (saveEmailData site (mkSiteData [] (Some (createEmailAccount "x@sendbun.com" "pw" false 0 CreateThrew)) 0) ∅)
           "x@sendbun.com" "pw" 0 CreateThrew [] 0
           99000000000 DeleteOk DeleteOk eq_refl).
Defined.

Lemma countdown_zero_before_expiry_witness :
  let st := saveFiveMinEmailData site (mkSiteData [] (Some demo_account) 0) ∅ in
  getTimeRemaining demo_account 299500 = 0%Z /\ isAccountExpired demo_account 299500 = false /\
  cleanupExpired5MinAccounts site 299500 DeleteOk st = st /\
  initialize5MinEmailAccount site st (demo_inputs 299500 DomainsThrew) = (inl demo_account, st).
Proof.
  exact (countdown_zero_before_expiry site
           (saveFiveMinEmailData site (mkSiteData [] (Some demo_account) 0) ∅) "john.smith@sendbun.com" "Aa1!aaaaaaaa" 0 CreateThrew
           [] 0 299500 DeleteOk (demo_inputs 299500 DomainsThrew) eq_refl
           ltac:(unfold FIVE_MINUTES_MS; lia) eq_refl).
Defined.
