(* ===== verification/InboxView.v ===== *)
(** * InboxView: the inbox page's view handlers

    The rest of src/app/[locale]/inbox/page.tsx: the account the page
    reads from storage (lines 115-117), the effect that loads the inbox
    when the page number or folder changes (lines 328-343), the page
    change (lines 412-414), the message modal (lines 352-377), deletion
    (lines 433-460) and the search filter with its sender helpers (lines
    399-406 and 505-509).  The render and the header's buttons are in
    [InboxRender].

    JavaScript evaluates [getSenderName(email)] only when the subject does
    not match, and [from[0]] of an empty [from] list is [undefined], whose
    [.personal] throws; a filter that throws is [None]. *)

From S2P Require Import Prelude JsString EventLoop Dedup NotifClient InboxPage EmailService.

Module InboxView.

(** ** The account the page reads (lines 115-117, 157-158) *)

Definition inbox_env (w : option Window) (st : Storage) : Env :=
  match loadEmailData w st with
  | Some (mkSiteData _ (Some a) _) =>
      mkEnv (Some (acc_id a)) (Some (acc_email a)) (Some (acc_domain_id a))
  | _ => mkEnv None None None
  end.

(** ** Sender helpers and the search filter *)

(** [getSenderName]: [from.personal || from.mailbox || from.mail]; [None]
    when [from[0]] is [undefined]. *)
Definition getSenderName (e : Email) : option string :=
  match em_from_headers e with
  | [] => None
  | f :: _ => Some (js_or (Some (ea_personal f)) (js_or (Some (ea_mailbox f)) (ea_mail f)))
  end.

(** [getSenderEmail] *)
Definition getSenderEmail (e : Email) : option string :=
  match em_from_headers e with
  | [] => None
  | f :: _ => Some (ea_mail f)
  end.

(** The filter's callback, with the short-circuit of [||]. *)
Definition email_matches (term : string) (e : Email) : option bool :=
  let q := js_toLowerCase term in
  if js_includes (js_toLowerCase (em_subject e)) q then Some true
  else match getSenderName e with
       | None => None
       | Some n =>
           if js_includes (js_toLowerCase n) q then Some true
           else match getSenderEmail e with
                | None => None
                | Some m => Some (js_includes (js_toLowerCase m) q)
                end
       end.

(** [Array.prototype.filter] with a callback that may throw. *)
Fixpoint filter_throw {A} (f : A -> option bool) (l : list A) : option (list A) :=
  match l with
  | [] => Some []
  | x :: l' =>
      match f x with
      | None => None
      | Some b =>
          match filter_throw f l' with
          | None => None
          | Some r => Some (if b then x :: r else r)
          end
      end
  end.

(** [filteredEmails] *)
Definition filteredEmails (p : Page) : option (list Email) :=
  filter_throw (email_matches (pg_searchTerm p)) (pg_emails p).

(** ** Page change and the loading effect *)

(** [handlePageChange] *)
Definition handlePageChange (page : Z) (p : Page) : Page := set_currentPage page p.

(** The effect on [[currentPage, filterFolder]]: [checkEmailAccount]. *)
Definition checkEmailAccount (w : option Window) (st : Storage) (now : Z) (p : Page) : Page :=
  match loadEmailData w st with
  | Some (mkSiteData _ (Some _) _) =>
      loadEmails (inbox_env w st) now ContNone (set_hasEmailAccount true p)
  | _ => set_isLoading false (set_hasEmailAccount false p)
  end.

(** A page change followed by the effect it triggers. *)
Definition change_page (w : option Window) (st : Storage) (now : Z) (page : Z) (p : Page) : Page :=
  checkEmailAccount w st now (handlePageChange page p).

(** [handleRefresh] (lines 416-434): the "refreshing" toast, then
    [loadEmails] whose [.finally] dismisses it and shows "refreshed". *)
Definition handleRefresh (env : Env) (now : Z) (p : Page) : Page :=
  let t := length (pg_toasts p) in
  loadEmails env now (ContManualToast t) (add_toast (ToastRefreshing t) p).

(** ** The message modal (lines 352-377) *)

Inductive FullEmailResult :=
| FullOk (message : FullEmail) | FullFailed | FullThrew.

(** [loadFullEmail]: nothing without an account; otherwise the response
    opens the modal or shows a toast. *)
Definition loadFullEmail (env : Env) (res : FullEmailResult) (p : Page) : Page :=
  match js_present (env_accountId env) with
  | None => p
  | Some _ =>
      match res with
      | FullOk m => set_modalOpen true (set_fullEmail (Some m) p)
      | FullFailed => add_toast ToastFailedToLoadEmail p
      | FullThrew => add_toast ToastError p
      end
  end.

(** ** Deletion (lines 433-460) *)

Inductive DeleteEmailResult := DelOk | DelFailed | DelThrew.

(** The code after [await]: [emails] is the list the click handler closed
    over when the page was rendered, not the current one. *)
Definition handleDeleteEmail (emails : list Email) (emailId : Z) (res : DeleteEmailResult)
    (p : Page) : Page :=
  match res with
  | DelOk =>
      add_toast ToastEmailDeleted
        (set_fullEmail None (set_modalOpen false
           (set_emails (List.filter (fun e => negb (Z.eqb (em_id e) emailId)) emails) p)))
  | DelFailed => add_toast ToastDeleteFailed p
  | DelThrew => add_toast ToastError p
  end.

(** The modal's [onClose] as the page passes it (lines 721-724). *)
Definition onClose (p : Page) : Page := set_fullEmail None (set_modalOpen false p).

(** [handleDelete] of src/components/email-detail-modal.tsx (lines
    70-85): nothing without an email or account; otherwise await the
    page's [handleDeleteEmail] (which catches every error itself), then
    [onClose()]. *)
Definition modal_handleDelete (emails : list Email) (email : option FullEmail)
    (emailAccountId : option string) (res : DeleteEmailResult) (p : Page) : Page :=
  match email, js_present emailAccountId with
  | Some m, Some _ => onClose (handleDeleteEmail emails (fe_id m) res p)
  | _, _ => p
  end.

(** The search as the spec states it: the subject, the sender's name or
    the sender's address contains the term, ignoring case. *)
Definition search_hit (term : string) (e : Email) : bool :=
  let q := js_toLowerCase term in
  js_includes (js_toLowerCase (em_subject e)) q ||
  match getSenderName e, getSenderEmail e with
  | Some n, Some m => js_includes (js_toLowerCase n) q || js_includes (js_toLowerCase m) q
  | _, _ => false
  end.

(** ** Lemmas *)

Lemma filter_throw_none {A} (f : A -> option bool) l :
  filter_throw f l = None <-> exists x, In x l /\ f x = None.
Proof.
  induction l as [|x l IH]; simpl.
  - split; [done|]. by intros (? & [] & _).
  - destruct (f x) as [b|] eqn:Hx.
    + destruct (filter_throw f l) eqn:Hl.
      * split; [done|]. intros (y & [<-|Hy] & Hn); [congruence|].
        pose proof (proj2 IH (ex_intro _ y (conj Hy Hn))). congruence.
      * split; [|done]. intros _. destruct (proj1 IH eq_refl) as (y & ? & ?). eauto.
    + split; [|done]. eauto.
Qed.

Lemma filter_throw_some {A} (f : A -> option bool) (g : A -> bool) l :
  (forall x, In x l -> f x = Some (g x)) -> filter_throw f l = Some (List.filter g l).
Proof.
  induction l as [|x l IH]; simpl; [done|]. intros H.
  rewrite (H x (or_introl eq_refl)), IH by auto. by destruct (g x).
Qed.

Lemma js_includes_empty s : js_includes s "" = true.
Proof. by destruct s. Qed.

Lemma email_matches_none term e :
  email_matches term e = None <->
  em_from_headers e = [] /\
  js_includes (js_toLowerCase (em_subject e)) (js_toLowerCase term) = false.
Proof.
  unfold email_matches, getSenderName, getSenderEmail.
  destruct (js_includes _ _); destruct (em_from_headers e); simpl;
    try (case_if); intuition congruence.
Qed.

Lemma inbox_env_present w st id :
  js_present (env_accountId (inbox_env w st)) = Some id ->
  exists ds a lu, loadEmailData w st = Some (mkSiteData ds (Some a) lu) /\ acc_id a = id.
Proof.
  unfold inbox_env. destruct (loadEmailData w st) as [[ds [a|] lu]|]; simpl; try done.
  unfold js_present. case_if; [done|]. intros [= <-]. eauto.
Qed.

Lemma loadEmails_throttled env now k p :
  (now - pg_lastLoadTime p < LOAD_THROTTLE_MS)%Z -> loadEmails env now k p = run_cont k p.
Proof.
  intros Hlt. unfold loadEmails. destruct (js_present _); [|done].
  by rewrite (proj2 (Z.ltb_lt _ _) Hlt).
Qed.

(** ** Theorems *)

(** C32. Changing the page goes through the throttle: the page number
    is always updated, but within 2 s of the last load the effect issues
    no request and the list still shows the previous page's emails; with
    an account and 2 s elapsed it issues one request, for the new page. *)
Theorem change_page_spec w st now page p :
  let p' := change_page w st now page p in
  pg_currentPage p' = page /\
  ((now - pg_lastLoadTime p < LOAD_THROTTLE_MS)%Z ->
   pg_requests p' = pg_requests p /\ pg_emails p' = pg_emails p) /\
  (forall id, js_present (env_accountId (inbox_env w st)) = Some id ->
   (pg_lastLoadTime p + LOAD_THROTTLE_MS <= now)%Z ->
   pg_requests p' =
     pg_requests p ++ [mkRequest (pg_nextRequest p) (emails_url id (set_currentPage page p)) ContNone]).
Proof.
  unfold change_page, checkEmailAccount, handlePageChange. split; [|split].
  - destruct (loadEmailData w st) as [[? [?|] ?]|]; [|done|done].
    unfold loadEmails. destruct (js_present _); [|done]. by case_if.
  - intros Hlt. destruct (loadEmailData w st) as [[? [?|] ?]|]; [|done|done].
    by rewrite loadEmails_throttled.
  - intros id Hid Hle. destruct (inbox_env_present _ _ _ Hid) as (ds & a & lu & Hl & _).
    rewrite Hl. unfold loadEmails. rewrite Hid.
    replace (now - pg_lastLoadTime _ <? LOAD_THROTTLE_MS)%Z with false
      by (symmetry; apply Z.ltb_ge; simpl; lia). done.
Qed.

(** Deleting an email: on success the list becomes the list the
    handler closed over without that email, and the modal is closed and
    emptied; on failure or error only a toast is added. *)
Theorem handleDeleteEmail_spec emails emailId res p :
  let p' := handleDeleteEmail emails emailId res p in
  match res with
  | DelOk =>
      pg_emails p' = List.filter (fun e => negb (Z.eqb (em_id e) emailId)) emails /\
      (forall e, In e (pg_emails p') <-> In e emails /\ em_id e <> emailId) /\
      pg_modalOpen p' = false /\ pg_fullEmail p' = None
  | _ => pg_emails p' = pg_emails p /\ pg_modalOpen p' = pg_modalOpen p /\
         length (pg_toasts p') = S (length (pg_toasts p))
  end.
Proof.
  destruct res; simpl; rewrite ?length_app; simpl; try (split; [done|split; [done|lia]]).
  split; [done|]. split; [|done]. intros e.
  rewrite List.filter_In, negb_true_iff, Z.eqb_neq. done.
Qed.

(** The delete handler overwrites newer data: the list it filters
    is the one rendered when the user clicked; when a load completes
    between the click and the delete response, the newly loaded email
    disappears from the page. *)
Example delete_overwrites_newer_load :
  let r0 := mkRequest 0 (emails_url "42" initial_page) ContNone in
  let p0 := loadEmails_finish demo_env r0 (FetchSuccess (Some [mail 1 "old"]) None)
              (loadEmails demo_env 1000000 ContNone initial_page) in
  let snapshot := pg_emails p0 in
  let p1 := loadEmails_finish demo_env (mkRequest 1 (emails_url "42" p0) ContNone)
              (FetchSuccess (Some [mail 2 "new"; mail 1 "old"]) None)
              (loadEmails demo_env 1003000 ContNone p0) in
  let p2 := handleDeleteEmail snapshot 1 DelOk p1 in
  pg_emails p1 = [mail 2 "new"; mail 1 "old"] /\ pg_emails p2 = [].
Proof. vm_compute. split; reflexivity. Qed.

(** C30. The search filter throws exactly when some listed email has an
    empty [from] list and a subject that does not contain the term (the
    subject is tested first, so [getSenderName] is reached only then);
    when every email has a sender it keeps exactly the emails whose
    subject, sender name or sender address contains the term, ignoring
    case; an empty term keeps them all. *)
Theorem filteredEmails_spec p :
  (filteredEmails p = None <->
   exists e, In e (pg_emails p) /\ em_from_headers e = [] /\
             js_includes (js_toLowerCase (em_subject e)) (js_toLowerCase (pg_searchTerm p)) = false) /\
  (Forall (fun e => em_from_headers e <> []) (pg_emails p) ->
   filteredEmails p = Some (List.filter (search_hit (pg_searchTerm p)) (pg_emails p))) /\
  (pg_searchTerm p = "" -> filteredEmails p = Some (pg_emails p)).
Proof.
  unfold filteredEmails. split; [|split].
  - rewrite filter_throw_none. split.
    + intros (e & Hin & He%email_matches_none). eauto.
    + intros (e & Hin & He). exists e. split; [done|]. by apply email_matches_none.
  - intros Hf. apply filter_throw_some. intros e Hin.
    apply (proj1 (List.Forall_forall _ _) Hf) in Hin.
    unfold email_matches, search_hit, getSenderName, getSenderEmail.
    destruct (em_from_headers e); [done|].
    destruct (js_includes _ _); [done|]. simpl. by destruct (js_includes _ _).
  - intros Ht. rewrite <- (List.filter_true (pg_emails p)) at 2.
    apply filter_throw_some. intros e _. unfold email_matches. rewrite Ht.
    by rewrite js_includes_empty.
Qed.

(** C35. The detail modal closes whatever the deletion's outcome: the
    page's [handleDeleteEmail] never throws, so the modal's [catch] is
    unreachable and [onClose()] always runs; after a failed deletion the
    modal is closed, the email is still listed, and the last toast is
    "Delete failed". *)
Theorem modal_delete_always_closes emails m id res p :
  js_present id <> None ->
  let p' := modal_handleDelete emails (Some m) id res p in
  pg_modalOpen p' = false /\ pg_fullEmail p' = None /\
  (res = DelFailed -> pg_emails p' = pg_emails p /\ last (pg_toasts p') = Some ToastDeleteFailed).
Proof.
  intros Hid. unfold modal_handleDelete.
  destruct (js_present id); [|done]. split; [done|]. split; [done|].
  intros ->. split; [done|]. simpl. by rewrite last_snoc.
Qed.

(** ** Witnesses *)

Lemma modal_delete_always_closes_witness :
  pg_modalOpen (modal_handleDelete [mail 1 "a"]
                  (Some (mkFullEmail 1 "" [] "" "" "" "" 0 "0")) (Some "42") DelFailed
                  (set_modalOpen true loaded_page)) = false.
Proof.
  exact (proj1 (modal_delete_always_closes [mail 1 "a"] (mkFullEmail 1 "" [] "" "" "" "" 0 "0")
                  (Some "42") DelFailed (set_modalOpen true loaded_page) ltac:(discriminate))).
Defined.


Definition search_page : Page := set_searchTerm "HEL" (set_emails [mail 1 "hello"; mail 2 "bye"] initial_page).

Lemma filteredEmails_spec_witness : filteredEmails search_page = Some [mail 1 "hello"].
Proof.
  refine (eq_trans (proj1 (proj2 (filteredEmails_spec search_page)) _) eq_refl).
  repeat constructor; discriminate.
Defined.

Definition stored_site : Storage :=
  saveEmailData site (mkSiteData [] (Some (createEmailAccount "a@sendbun.com" "pw" false 0
                                            (CreateOk (Some "42") None (Some "1")))) 0) ∅.

Lemma change_page_spec_witness :
  pg_requests (change_page site stored_site 1001000 2 loaded_page) = pg_requests loaded_page.
Proof.
  exact (proj1 (proj1 (proj2 (change_page_spec site stored_site 1001000 2 loaded_page))
                  ltac:(vm_compute; reflexivity))).
Defined.

End InboxView.
