(* ===== verification/InboxSession.v ===== *)
(** * InboxSession: the regular inbox page as one event loop

    The inbox page (src/app/[locale]/inbox/page.tsx) is a host of React
    state, refs, timers and the notification client.  [InboxPage] models
    its handlers one by one; this file composes them the way React runs
    them.  A session holds the page ([Page]), the timers ([loop]) and the
    client; its events are a new-email message the client dispatches, the
    clock, the completion of a load, and a click that changes the page.

    The click is where React matters: [setCurrentPage(n)] with a new
    value re-renders the page; [loadEmails] (lines 129-188, its deps
    include [currentPage]) gets a new identity, so [debouncedRefresh]
    (lines 190-212, deps [[loadEmails]]) does, so the handler effect
    (lines 237-312, deps [[emailAccountId, currentEmail,
    debouncedRefresh]]) re-runs: its cleanup clears the pending refresh
    timer, the client's callbacks and the recent-notification set
    (lines 300-311), then its body registers the handler again (lines
    292-294); and the account-check effect (lines 328-343, deps
    [[currentPage, filterFolder]]) runs [checkEmailAccount].  React runs
    the cleanups before the bodies, in declaration order
    ([rerun_effects]).  A click on the current page sets the same value
    and re-renders nothing.  The handler effect returns early, with no
    cleanup, when there is no account.

    Theorems: from the mount, every pending refresh timer is the one
    the ref holds, whatever happens ([session_ref_inv]); a page click
    cancels the pending refresh, forgets the recent notifications and
    re-registers the handler once ([page_click_resets]); and when the
    click's own load is throttled, however long the clock runs no
    request is sent and the page shows the old page's emails under the
    new number ([page_click_never_loads]), so the refresh a notification
    asked for is lost ([page_click_loses_refresh]). *)

From S2P Require Import Prelude JsString EventLoop Dedup NotifClient InboxPage EmailService InboxView.
From stdpp Require Import gmap.

Module InboxSession.
Import InboxView.

Record Session := mkSession { ss_page : Page; ss_loop : loop TimerAction; ss_client : Client }.

Inductive SessionEvent :=
| SNotify (n : Notification) (t : Z)     (** the client runs [handleNewEmail] at [t] *)
| SClock (t : Z)                         (** time passes until [t] *)
| SLoaded (r : Request) (res : FetchResult)  (** a pending [fetch] settles *)
| SPageClick (page : Z).                 (** [handlePageChange(page)] *)

(** The account guard of the handler effect (line 238). *)
Definition has_session_account (env : Env) : bool :=
  match js_present (env_accountId env), js_present (env_email env) with
  | Some _, Some _ => true
  | _, _ => false
  end.

(** The commit after [currentPage] changed: the handler effect's
    cleanup and body, then the account check. *)
Definition rerun_effects (w : option Window) (st : Storage) (p : Page) (l : loop TimerAction)
    (c : Client) : Page * loop TimerAction * Client :=
  if has_session_account (inbox_env w st) then
    let '(p, l, c) := effect_cleanup p l c in
    (checkEmailAccount w st (lp_now l) p, l, register_handler c)
  else (checkEmailAccount w st (lp_now l) p, l, c).

(** The mount: the client is constructed (lines 214-235), the handler
    registered when there is an account, and the account checked. *)
Definition mount_session (w : option Window) (st : Storage) (url : string) (max : nat) (t0 : Z)
    : Session :=
  let c := construct url max in
  let c := if has_session_account (inbox_env w st) then register_handler c else c in
  mkSession (checkEmailAccount w st t0 initial_page) (initial_loop t0) c.

Definition session_step (w : option Window) (st : Storage) (e : SessionEvent) (s : Session)
    : Session :=
  let env := inbox_env w st in
  let '(mkSession p l c) := s in
  match e with
  | SNotify n t => let '(p, l) := notify env n t p l in mkSession p l c
  | SClock t => let '(p, l) := tick env t p l in mkSession p l c
  | SLoaded r res => mkSession (loadEmails_finish env r res p) l c
  | SPageClick n =>
      if Z.eqb n (pg_currentPage p) then s
      else let '(p, l, c) := rerun_effects w st (handlePageChange n p) l c in mkSession p l c
  end.

Fixpoint session_run (w : option Window) (st : Storage) (es : list SessionEvent) (s : Session)
    : Session :=
  match es with
  | [] => s
  | e :: es => session_run w st es (session_step w st e s)
  end.

(** Every pending refresh timer is the one the ref holds. *)
Definition ref_inv (s : Session) : Prop :=
  forall u, In u (lp_timers (ss_loop s)) -> tm_act u = RunRefresh ->
            pg_refreshTimeout (ss_page s) = Some (tm_id u).

(** No refresh timer is pending. *)
Definition no_refresh (l : loop TimerAction) : Prop :=
  forall u, In u (lp_timers l) -> tm_act u <> RunRefresh.

(** What the page has fetched and shows: the requests sent, the list
    and the page number. *)
Definition page_shown (p : Page) : list Request * list Email * Z :=
  (pg_requests p, pg_emails p, pg_currentPage p).

(** ** Lemmas *)

Lemma no_refresh_ids l : no_refresh l -> refresh_ids (lp_timers l) = [].
Proof.
  intros Hn. unfold refresh_ids. rewrite filter_all_false; [done|].
  intros u Hu. specialize (Hn u Hu). by destruct (tm_act u).
Qed.

(** The invariant only reads the ref and the timers: it survives a
    change of the page that keeps the ref, and the loss of timers. *)
Lemma ref_inv_mono p p' l l' c c' :
  pg_refreshTimeout p' = pg_refreshTimeout p ->
  (forall u, In u (lp_timers l') -> In u (lp_timers l)) ->
  ref_inv (mkSession p l c) -> ref_inv (mkSession p' l' c').
Proof. intros Hp Hl Hi u Hu Ha. simpl. rewrite Hp. apply Hi; [apply Hl, Hu|exact Ha]. Qed.

Lemma on_timer_refs env a p l :
  pg_refreshTimeout (on_timer env a p l).1 = pg_refreshTimeout p /\ (on_timer env a p l).2 = l.
Proof. destruct a; simpl; [done|]. split; [apply refresh_fire_refs|done]. Qed.

Lemma tick_ref_inv env t p l c c' :
  ref_inv (mkSession p l c) -> ref_inv (mkSession (tick env t p l).1 (tick env t p l).2 c').
Proof.
  unfold tick. generalize (S (length (lp_timers l))) as fuel. intros fuel.
  revert p l. induction fuel as [|f IH]; intros p l Hi; simpl.
  { exact (ref_inv_mono p p l l c c' eq_refl (fun u Hu => Hu) Hi). }
  destruct (next_due t l) as [u|].
  - destruct (on_timer_refs env (tm_act u) p (pop u l)) as [Hr Hl].
    destruct (on_timer env (tm_act u) p (pop u l)) as [p1 l1]. simpl in Hr, Hl. subst l1.
    apply IH. refine (ref_inv_mono p p1 l (pop u l) c c Hr _ Hi).
    intros v Hv. by apply in_remove_timer in Hv as [? _].
  - exact (ref_inv_mono p p l (set_now t l) c c' eq_refl (fun u Hu => Hu) Hi).
Qed.

Lemma handleNewEmail_ref_inv n p l c c' :
  ref_inv (mkSession p l c) ->
  ref_inv (mkSession (handleNewEmail n p l).1 (handleNewEmail n p l).2 c').
Proof.
  intros Hi. unfold handleNewEmail. case_if; [eapply ref_inv_mono; [done|done|exact Hi]|].
  cbn [setTimeout]. rewrite debouncedRefresh_eq. intros u Hu Ha. simpl in *.
  apply in_app_or in Hu as [Hu | [<- | []]]; [|done].
  exfalso. refine (clear_opt_no_refresh _ _ _ u Hu Ha).
  intros v Hv Hav. apply in_app_or in Hv as [Hv | [<- | []]]; [by apply Hi|done].
Qed.

Lemma loadEmails_finish_refs env r res p :
  pg_refreshTimeout (loadEmails_finish env r res p) = pg_refreshTimeout p.
Proof. unfold loadEmails_finish. destruct (rq_cont r), res; done. Qed.

Lemma checkEmailAccount_refs w st now p :
  pg_refreshTimeout (checkEmailAccount w st now p) = pg_refreshTimeout p.
Proof.
  unfold checkEmailAccount.
  destruct (loadEmailData w st) as [[? [?|] ?]|]; [|done|done].
  exact (proj2 (loadEmails_refs (inbox_env w st) now ContNone (set_hasEmailAccount true p))).
Qed.

(** The effect's cleanup leaves no refresh timer. *)
Lemma effect_cleanup_no_refresh p l c :
  ref_inv (mkSession p l c) ->
  forall u, In u (lp_timers (effect_cleanup p l c).1.2) -> tm_act u <> RunRefresh.
Proof.
  intros Hi u Hu. apply (clear_opt_no_refresh (pg_refreshTimeout p) (lp_timers l) Hi u).
  unfold effect_cleanup in Hu. simpl in Hu. by destruct (pg_refreshTimeout p).
Qed.

Lemma rerun_effects_ref_inv w st p l c c0 :
  ref_inv (mkSession p l c0) ->
  let '(p', l', c') := rerun_effects w st p l c in ref_inv (mkSession p' l' c').
Proof.
  intros Hi. unfold rerun_effects. case_if.
  - pose proof (effect_cleanup_no_refresh p l c Hi) as Hn.
    destruct (effect_cleanup p l c) as [[p1 l1] c1]. intros u Hu Ha. by destruct (Hn u Hu Ha).
  - eapply ref_inv_mono; [apply checkEmailAccount_refs|done|exact Hi].
Qed.

Lemma session_step_ref_inv w st e s : ref_inv s -> ref_inv (session_step w st e s).
Proof.
  destruct s as [p l c]. intros Hi. destruct e as [n t|t|r res|n]; cbn [session_step].
  - unfold notify. pose proof (tick_ref_inv (inbox_env w st) t p l c c Hi) as H1.
    destruct (tick _ t p l) as [p1 l1]. simpl in H1.
    pose proof (handleNewEmail_ref_inv n p1 l1 c c H1) as H2. by destruct (handleNewEmail n p1 l1).
  - pose proof (tick_ref_inv (inbox_env w st) t p l c c Hi) as H1. by destruct (tick _ t p l).
  - eapply ref_inv_mono; [apply loadEmails_finish_refs|done|exact Hi].
  - case_if; [done|].
    pose proof (rerun_effects_ref_inv w st (handlePageChange n p) l c c Hi) as H1.
    by destruct (rerun_effects _ _ _ _ _) as [[p1 l1] c1].
Qed.

Lemma mount_ref_inv w st url max t0 : ref_inv (mount_session w st url max t0).
Proof. intros u []. Qed.

Lemma session_run_ref_inv w st es s : ref_inv s -> ref_inv (session_run w st es s).
Proof. revert s. induction es as [|e es IH]; intros s Hi; [done|]. apply IH, session_step_ref_inv, Hi. Qed.

(** With no refresh pending, the clock only expires recent keys: it
    sends no request and changes neither the list nor the page. *)
Lemma tick_no_refresh_idle env t p l :
  no_refresh l -> no_refresh (tick env t p l).2 /\ page_shown (tick env t p l).1 = page_shown p.
Proof.
  intros Hn. unfold tick.
  destruct (advance_spec (on_timer env) (fun s l' => no_refresh l' /\ page_shown s = page_shown p)
              (S (length (lp_timers l))) t p l) as (s & l' & -> & [Hn' Hs] & _).
  - intros [k|] s l0; simpl; lia.
  - intros u s l0 [Hn0 Hs] Hd. apply next_due_some in Hd as [Hin _].
    destruct (tm_act u) as [k|] eqn:Ha; [|by destruct (Hn0 u Hin Ha)].
    split; [|exact Hs]. intros v Hv. apply in_remove_timer in Hv as [Hv _]. by apply Hn0.
  - lia.
  - by split.
  - by split.
Qed.

Lemma clock_run_idle w st ts s :
  no_refresh (ss_loop s) ->
  no_refresh (ss_loop (session_run w st (map SClock ts) s)) /\
  page_shown (ss_page (session_run w st (map SClock ts) s)) = page_shown (ss_page s).
Proof.
  revert s. induction ts as [|t ts IH]; intros [p l c] Hn; [done|].
  cbn [map session_run session_step].
  destruct (tick_no_refresh_idle (inbox_env w st) t p l Hn) as [Hn1 Hs1].
  destruct (tick _ t p l) as [p1 l1]. destruct (IH (mkSession p1 l1 c) Hn1) as [H1 H2].
  split; [exact H1|]. rewrite H2. exact Hs1.
Qed.

(** A click on another page less than [LOAD_THROTTLE_MS] after the last
    load: the refresh is gone and the account check's load is dropped. *)
Lemma page_click_throttled w st s n :
  ref_inv s -> n <> pg_currentPage (ss_page s) -> has_session_account (inbox_env w st) = true ->
  (lp_now (ss_loop s) - pg_lastLoadTime (ss_page s) < LOAD_THROTTLE_MS)%Z ->
  no_refresh (ss_loop (session_step w st (SPageClick n) s)) /\
  page_shown (ss_page (session_step w st (SPageClick n) s)) =
    (pg_requests (ss_page s), pg_emails (ss_page s), n).
Proof.
  destruct s as [p l c]. simpl. intros Hi Hn Ha Ht.
  replace (Z.eqb n (pg_currentPage p)) with false by (symmetry; by apply Z.eqb_neq).
  pose proof (effect_cleanup_no_refresh (handlePageChange n p) l c Hi) as Hnr.
  unfold rerun_effects. rewrite Ha. unfold effect_cleanup in *. simpl in *.
  split; [exact Hnr|].
  replace (lp_now _) with (lp_now l) by (by destruct (pg_refreshTimeout p)).
  unfold checkEmailAccount. destruct (loadEmailData w st) as [[? [?|] ?]|]; [|done|done].
  unfold loadEmails. destruct (js_present _); [|done].
  simpl. by rewrite (proj2 (Z.ltb_lt _ _) Ht).
Qed.

(** ** Theorems *)

(** C11. The debounce over the whole page: from the mount, through any
    sequence of notifications, clock steps, completed loads and page
    clicks, every pending refresh timer is the one [refreshTimeoutRef]
    holds, so at most one refresh is ever pending and the next
    [debouncedRefresh] or cleanup cancels it. *)
Theorem session_ref_inv w st url max t0 es :
  ref_inv (session_run w st es (mount_session w st url max t0)).
Proof. apply session_run_ref_inv, mount_ref_inv. Qed.

(** C12. A click that changes the page, with an account: the pending
    refresh is cancelled, the recent-notification set is emptied, the
    handler is the only registered callback again, and the page is the
    account check of the clicked page, which loads it unless the
    throttle drops the load. *)
Theorem page_click_resets w st s n :
  ref_inv s -> n <> pg_currentPage (ss_page s) -> has_session_account (inbox_env w st) = true ->
  let s' := session_step w st (SPageClick n) s in
  refresh_ids (lp_timers (ss_loop s')) = [] /\ pg_recent (ss_page s') = [] /\
  ss_page s' = checkEmailAccount w st (lp_now (ss_loop s)) (set_recent [] (handlePageChange n (ss_page s))) /\
  (isWebSocketAvailable (ss_client s) = true -> c_callbacks (ss_client s') = [HANDLE_NEW_EMAIL]).
Proof.
  destruct s as [p l c]. simpl. intros Hi Hn Ha.
  replace (Z.eqb n (pg_currentPage p)) with false by (symmetry; by apply Z.eqb_neq).
  pose proof (effect_cleanup_no_refresh (handlePageChange n p) l c Hi) as Hnr.
  unfold rerun_effects. rewrite Ha. unfold effect_cleanup in *. simpl in *.
  split; [|split; [|split; [by destruct (pg_refreshTimeout p)|]]].
  - exact (no_refresh_ids _ Hnr).
  - unfold checkEmailAccount. destruct (loadEmailData w st) as [[? [?|] ?]|];
      [|done|done].
    exact (proj1 (loadEmails_refs (inbox_env w st) _ ContNone (set_hasEmailAccount true _))).
  - intros Hav. change (api_callbacks (register_handler (api_clear c)) = [HANDLE_NEW_EMAIL]).
    unfold register_handler. rewrite law_on, law_clear; [done|].
    destruct (law_clear_keeps (api_clear c)) as [-> _]. destruct (law_clear_keeps c) as [-> _]. done.
Qed.

(** C13. After a click on another page less than [LOAD_THROTTLE_MS] after the
    last load, with an account, however long the clock runs: no refresh
    is pending, no request is ever sent, and the page shows the old
    page's emails under the new page number.  A notification whose
    refresh was pending when the click came is never fetched. *)
Theorem page_click_never_loads w st s n ts :
  ref_inv s -> n <> pg_currentPage (ss_page s) -> has_session_account (inbox_env w st) = true ->
  (lp_now (ss_loop s) - pg_lastLoadTime (ss_page s) < LOAD_THROTTLE_MS)%Z ->
  let s' := session_run w st (SPageClick n :: map SClock ts) s in
  refresh_ids (lp_timers (ss_loop s')) = [] /\ pg_requests (ss_page s') = pg_requests (ss_page s) /\
  pg_emails (ss_page s') = pg_emails (ss_page s) /\ pg_currentPage (ss_page s') = n.
Proof.
  intros Hi Hn Ha Ht. cbn zeta. cbn [session_run].
  destruct (page_click_throttled w st s n Hi Hn Ha Ht) as [H1 H2].
  destruct (clock_run_idle w st ts _ H1) as [H3 H4]. rewrite H2 in H4. unfold page_shown in H4.
  injection H4 as -> -> ->. split; [exact (no_refresh_ids _ H3)|done].
Qed.

(** ** The lost refresh *)

Definition acct : EmailAccount := createEmailAccount "john.smith@sendbun.com" "Aa1!aaaaaaaa" false 0 CreateThrew.
Definition acct_st : Storage := saveEmailData site (mkSiteData [] (Some acct) 0) ∅.

(** Mounted at 1000 s with one page of results loaded, then: a new
    email at 1001.5 s (a refresh is scheduled for 1002.5 s), a click on
    page 2 at 1001.8 s, and the clock runs to 1010 s. *)
Definition lost_refresh_run : Session :=
  let s := mount_session site acct_st "ws://localhost:8001" 5 1000000 in
  let r0 := hd (mkRequest 0 "" ContNone) (pg_requests (ss_page s)) in
  session_run site acct_st
    [SLoaded r0 (FetchSuccess (Some [mail 1 "old"])
                   (Some (mkPagination 1 10 12 2 true)));
     SNotify hi_mail 1001500; SClock 1001800; SPageClick 2; SClock 1010000] s.

(** The refresh the notification asked for is lost and page 2 is never
    loaded: the click came 1.8 s after the mount's load, inside the
    throttle, and its cleanup cancelled the pending refresh.  The page
    shows page 2 as current with page 1's emails, one request was ever
    sent, and the "new email" toast was shown. *)
Example page_click_loses_refresh :
  let p := ss_page lost_refresh_run in
  pg_currentPage p = 2%Z /\ pg_emails p = [mail 1 "old"] /\ pg_nextRequest p = 1%nat /\
  pg_requests p = [] /\ new_email_toasts p = ["a@b.com"] /\
  refresh_ids (lp_timers (ss_loop lost_refresh_run)) = [].
Proof. vm_compute. repeat split. Qed.

(** After the click the same notification is announced again: the
    cleanup emptied the recent set, so a repeat 1 s after the first
    (inside the 5 s window) is not recognised as a duplicate. *)
Example page_click_forgets_duplicates :
  let s := session_run site acct_st [SNotify hi_mail 1000500; SPageClick 2; SNotify hi_mail 1001500]
             (mount_session site acct_st "ws://localhost:8001" 5 1000000) in
  new_email_toasts (ss_page s) = ["a@b.com"; "a@b.com"] /\
  new_email_toasts (ss_page (session_run site acct_st [SNotify hi_mail 1000500; SNotify hi_mail 1001500]
             (mount_session site acct_st "ws://localhost:8001" 5 1000000))) = ["a@b.com"].
Proof. vm_compute. split; reflexivity. Qed.

(** ** Witnesses *)

Lemma page_click_resets_witness :
  let s := session_run site acct_st [SNotify hi_mail 1000500]
             (mount_session site acct_st "ws://localhost:8001" 5 1000000) in
  let s' := session_step site acct_st (SPageClick 2) s in
  refresh_ids (lp_timers (ss_loop s')) = [] /\ pg_recent (ss_page s') = [] /\
  ss_page s' = checkEmailAccount site acct_st (lp_now (ss_loop s)) (set_recent [] (handlePageChange 2 (ss_page s))) /\
  (isWebSocketAvailable (ss_client s) = true -> c_callbacks (ss_client s') = [HANDLE_NEW_EMAIL]).
Proof.
  intros s. apply (page_click_resets site acct_st s 2).
  - apply session_run_ref_inv, mount_ref_inv.
  - vm_compute. intros H. discriminate H.
  - vm_compute. reflexivity.
Defined.

Lemma page_click_never_loads_witness :
  let s := session_run site acct_st
             [SLoaded (hd (mkRequest 0 "" ContNone)
                          (pg_requests (ss_page (mount_session site acct_st "ws://localhost:8001" 5 1000000))))
                      (FetchSuccess (Some [mail 1 "old"]) (Some (mkPagination 1 10 12 2 true)));
              SNotify hi_mail 1001500; SClock 1001800]
             (mount_session site acct_st "ws://localhost:8001" 5 1000000) in
  let s' := session_run site acct_st (SPageClick 2 :: map SClock [1002500; 1010000]%Z) s in
  refresh_ids (lp_timers (ss_loop s')) = [] /\ pg_requests (ss_page s') = pg_requests (ss_page s) /\
  pg_emails (ss_page s') = pg_emails (ss_page s) /\ pg_currentPage (ss_page s') = 2%Z.
Proof.
  intros s. apply (page_click_never_loads site acct_st s 2 [1002500; 1010000]%Z).
  - apply session_run_ref_inv, mount_ref_inv.
  - vm_compute. intros H. discriminate H.
  - vm_compute. reflexivity.
  - vm_compute. reflexivity.
Defined.

End InboxSession.
