(* ===== verification/FiveMinHost.v ===== *)
(** * FiveMinHost: the notification host of the 5-minute inbox

    src/app/[locale]/5-minutes-temporary-email/inbox/page.tsx repeats the
    regular inbox's throttled [loadEmails] (lines 142-200), debounced
    refresh (lines 203-220) and [handleNewEmail] (lines 268-298), with
    two differences the model keeps: the debounced refresh dismisses its
    toast without the "Inbox refreshed" toast, and the new-email toast
    names an absent sender "Unknown sender".  The state, the timers and
    [debouncedRefresh] itself are those of [InboxPage].

    The two hosts are compared through [page_equiv] (same recent set,
    refresh ref, last load time, request counter, requests sent as ids
    and URLs, page and folder) and [host_equiv] (that and the same
    timers), with
    [Proper] instances for the handler and the invariant and the generic
    simulation [EventLoop.advance_sim]: from equivalent states, any
    sequence of timed notifications leaves them equivalent
    ([five_notify_all_equiv]), and the 5-minute host's toasts refine the
    spec's 5-second window like the regular host's
    ([five_handleNewEmail_window]). *)

From S2P Require Import Prelude JsString EventLoop Dedup NotifClient InboxPage.

Module FiveMinHost.

(** The caller's [.finally]: the debounced refresh only dismisses. *)
Definition five_run_cont (k : Continuation) (p : Page) : Page :=
  match k with
  | ContNone => p
  | ContRefreshToast t => add_toast (ToastDismiss t) p
  | ContManualToast t => add_toast ToastRefreshed (add_toast (ToastDismiss t) p)
  end.

(** [loadEmails] (lines 142-158): guard, throttle and request. *)
Definition five_loadEmails (env : Env) (now : Z) (k : Continuation) (p : Page) : Page :=
  match js_present (env_accountId env) with
  | None => five_run_cont k p
  | Some id =>
      if (now - pg_lastLoadTime p <? LOAD_THROTTLE_MS)%Z then five_run_cont k p
      else
        let r := mkRequest (pg_nextRequest p) (emails_url id p) k in
        set_nextRequest (S (pg_nextRequest p))
          (set_requests (pg_requests p ++ [r]) (set_isLoading true (set_lastLoadTime now p)))
  end.

(** The code after [await] (lines 158-199). *)
Definition five_loadEmails_finish (env : Env) (r : Request) (res : FetchResult) (p : Page) : Page :=
  let p := set_requests (remove_request (rq_id r) (pg_requests p)) p in
  let p :=
    match res with
    | FetchSuccess data pg => set_pagination pg (set_emails (default [] data) p)
    | FetchFailure =>
        add_toast (if is_mock env then ToastDemoMode else ToastFailedToLoadEmails)
          (set_pagination None (set_emails [] p))
    | FetchThrew =>
        add_toast (if is_mock env then ToastDemoMode else ToastError)
          (set_pagination None (set_emails [] p))
    end in
  five_run_cont (rq_cont r) (set_isLoading false p).

(** The debounced callback (lines 208-218). *)
Definition five_refresh_fire (env : Env) (p : Page) (now : Z) : Page :=
  let t := length (pg_toasts p) in
  five_loadEmails env now (ContRefreshToast t) (add_toast (ToastRefreshing t) p).

(** [handleNewEmail] (lines 268-298). *)
Definition five_handleNewEmail (n : Notification) (p : Page) (l : loop TimerAction)
    : Page * loop TimerAction :=
  if isDuplicate (pg_recent p) n then (p, l)
  else
    let key := notificationKey n (lp_now l) in
    let p := set_recent (set_add key (pg_recent p)) p in
    let '(_, l) := setTimeout NOTIFICATION_DEDUP_MS (DeleteKey key) l in
    let p := add_toast (ToastNewEmail (js_or (n_from n) "Unknown sender")) p in
    debouncedRefresh p l.

Definition five_on_timer (env : Env) (a : TimerAction) (p : Page) (l : loop TimerAction)
    : Page * loop TimerAction :=
  match a with
  | DeleteKey k => (set_recent (set_delete k (pg_recent p)) p, l)
  | RunRefresh => (five_refresh_fire env p (lp_now l), l)
  end.

(** Let the clock reach [t], running the callbacks due by then. *)
Definition five_tick (env : Env) (t : Z) (p : Page) (l : loop TimerAction) : Page * loop TimerAction :=
  advance (five_on_timer env) (S (length (lp_timers l))) t p l.

(** A "new email" message arrives at time [t]. *)
Definition five_notify (env : Env) (n : Notification) (t : Z) (p : Page) (l : loop TimerAction)
    : Page * loop TimerAction :=
  let '(p, l) := five_tick env t p l in five_handleNewEmail n p l.

Fixpoint five_notify_all (env : Env) (evs : list (Notification * Z)) (p : Page)
    (l : loop TimerAction) : Page * loop TimerAction :=
  match evs with
  | [] => (p, l)
  | (n, t) :: evs => let '(p, l) := five_notify env n t p l in five_notify_all env evs p l
  end.

(** ** Lemmas *)

(** What deduplication reads and writes. *)
Definition dedup_view (r : Page * loop TimerAction) : list string * option nat * loop TimerAction :=
  (pg_recent r.1, pg_refreshTimeout r.1, r.2).

Lemma add_toast_dedup t p l :
  dedup_view (debouncedRefresh (add_toast t p) l) = dedup_view (debouncedRefresh p l).
Proof. done. Qed.

(** The two hosts treat a notification the same way, toasts apart. *)
Lemma five_handleNewEmail_dedup n p l :
  dedup_view (five_handleNewEmail n p l) = dedup_view (handleNewEmail n p l).
Proof.
  unfold five_handleNewEmail, handleNewEmail. case_if; [done|].
  destruct (setTimeout _ _ _). by rewrite !add_toast_dedup.
Qed.

(** The two hosts' loads issue the same requests and differ only in the
    toasts of the caller's [.finally]. *)
Lemma five_loadEmails_requests env now k p :
  pg_requests (five_loadEmails env now k p) = pg_requests (loadEmails env now k p) /\
  pg_lastLoadTime (five_loadEmails env now k p) = pg_lastLoadTime (loadEmails env now k p).
Proof.
  unfold five_loadEmails, loadEmails, five_run_cont, run_cont.
  destruct (js_present _); [case_if|]; destruct k; done.
Qed.

(** The 5-minute refresh never shows "Inbox refreshed". *)
Lemma five_refresh_no_refreshed env p now :
  ~ In ToastRefreshed (pg_toasts p) ->
  ~ In ToastRefreshed (pg_toasts (five_refresh_fire env p now)).
Proof.
  intros Hp. unfold five_refresh_fire, five_loadEmails, five_run_cont.
  destruct (js_present _); [case_if|]; simpl; rewrite !in_app_iff; simpl; intuition congruence.
Qed.

(** ** The two hosts are equivalent on deduplication and loading *)

(** A request as the server sees it: its id and its URL (the caller's
    [.finally] only moves toasts). *)
Definition req_key (r : Request) : nat * string := (rq_id r, rq_url r).

(** What deduplication and loading read and write: the recent set, the
    refresh ref, the throttle's last load, the request counter, the
    requests sent, and the page and folder the URL names. *)
Definition host_view (p : Page)
    : list string * option nat * Z * nat * list (nat * string) * Z * string :=
  (pg_recent p, pg_refreshTimeout p, pg_lastLoadTime p, pg_nextRequest p,
   map req_key (pg_requests p), pg_currentPage p, pg_filterFolder p).

(** Pages that agree on it. *)
Definition page_equiv (p q : Page) : Prop := host_view p = host_view q.

(** Host states that agree on it and share the timer queue. *)
Definition host_equiv (x y : Page * loop TimerAction) : Prop := page_equiv x.1 y.1 /\ x.2 = y.2.

#[export] Instance page_equiv_equiv : Equivalence page_equiv.
Proof. unfold page_equiv. split; [done|intros ?? H; done|intros ??? H1 H2; congruence]. Qed.

#[export] Instance host_equiv_equiv : Equivalence host_equiv.
Proof.
  split; unfold host_equiv.
  - intros x. split; [reflexivity|done].
  - intros x y [? ?]. split; [by symmetry|done].
  - intros x y z [? ?] [? ?]. split; [by etransitivity|congruence].
Qed.

Lemma page_equiv_recent p q :
  page_equiv p q -> pg_recent p = pg_recent q /\ pg_refreshTimeout p = pg_refreshTimeout q.
Proof. unfold page_equiv, host_view. intros H. by injection H. Qed.

(** The deduplication invariant only sees what [page_equiv] compares. *)
Lemma dedup_inv_equiv D p q l : page_equiv p q -> dedup_inv D p l -> dedup_inv D q l.
Proof.
  intros [Hr Ht]%page_equiv_recent Hi.
  split; [rewrite <- Hr; apply Hi|rewrite <- Hr; apply Hi|apply Hi|apply Hi|apply Hi|apply Hi
         |rewrite <- Hr; apply Hi|apply Hi|rewrite <- Ht; apply Hi].
Qed.

#[export] Instance dedup_inv_proper D :
  Proper (page_equiv ==> eq ==> iff) (dedup_inv D).
Proof.
  intros p q H l ? <-. split; apply dedup_inv_equiv; [done|by symmetry].
Qed.

#[export] Instance handleNewEmail_proper n :
  Proper (page_equiv ==> eq ==> host_equiv) (handleNewEmail n).
Proof.
  intros p q H l ? <-. pose proof (page_equiv_recent p q H) as [Hr Ht].
  unfold handleNewEmail. rewrite Hr.
  case_if; [done|]. destruct (setTimeout _ _ _).
  rewrite !debouncedRefresh_eq. cbn [fst snd pg_refreshTimeout set_refreshTimeout set_recent add_toast set_toasts].
  rewrite Ht. split; [|done]. unfold page_equiv, host_view in *. simpl. congruence.
Qed.

(** The callers' [.finally] only moves toasts. *)
Lemma run_cont_view k p : host_view (run_cont k p) = host_view p.
Proof. by destruct k. Qed.

Lemma five_run_cont_view k p : host_view (five_run_cont k p) = host_view p.
Proof. by destruct k. Qed.

(** The two hosts' loads: the same guard, throttle, counter and URL,
    whatever their callers' [.finally]. *)
Lemma loadEmails_sim env now k5 k p5 p :
  page_equiv p5 p -> page_equiv (five_loadEmails env now k5 p5) (loadEmails env now k p).
Proof.
  intros H. unfold page_equiv in *. unfold five_loadEmails, loadEmails.
  pose proof H as H'. unfold host_view in H'. injection H' as Hr Ht Hll Hn Hq Hc Hf.
  destruct (js_present _) as [id|]; [rewrite Hll; case_if|];
    rewrite ?five_run_cont_view, ?run_cont_view; [exact H| |exact H].
  unfold host_view, emails_url. simpl. rewrite !map_app, Hq, Hr, Ht, Hn, Hc, Hf. reflexivity.
Qed.

Lemma five_handleNewEmail_sim n p5 p l :
  page_equiv p5 p -> host_equiv (five_handleNewEmail n p5 l) (handleNewEmail n p l).
Proof.
  intros H. etransitivity; [|exact (handleNewEmail_proper n p5 p H l l eq_refl)].
  unfold five_handleNewEmail, handleNewEmail. case_if; [done|].
  destruct (setTimeout _ _ _). rewrite !debouncedRefresh_eq. by split.
Qed.

(** The two hosts' callbacks keep [page_equiv] and leave the same queue. *)
Lemma on_timer_sim env a p5 p l :
  page_equiv p5 p ->
  page_equiv (five_on_timer env a p5 l).1 (on_timer env a p l).1 /\
  (five_on_timer env a p5 l).2 = (on_timer env a p l).2.
Proof.
  intros H. destruct a as [k|]; simpl; split; [|done| |done].
  - unfold page_equiv, host_view in *. simpl. congruence.
  - unfold five_refresh_fire, refresh_fire. by apply loadEmails_sim.
Qed.

Lemma five_tick_sim env t p5 p l :
  page_equiv p5 p -> host_equiv (five_tick env t p5 l) (tick env t p l).
Proof.
  intros H. unfold five_tick, tick.
  destruct (advance_sim _ _ page_equiv (on_timer_sim env) (S (length (lp_timers l))) t p5 p l H).
  by split.
Qed.

(** C15. The 5-minute inbox's host is equivalent to the regular
    inbox's for deduplication and loading: from pages that agree on the
    recent set, the refresh ref, the throttle's last load, the request
    counter, the requests sent (ids and URLs), the page and the folder,
    and with the same timers, any sequence of timed notifications leaves
    them agreeing on all of these, with the same timers: the two hosts
    accept and drop the same notifications and send the same requests
    at the same times.  Their toasts differ (the absent sender's name,
    the "refreshed" toast) and are compared with the spec separately
    ([five_handleNewEmail_window]). *)
Theorem five_notify_all_equiv env evs p5 p l :
  page_equiv p5 p -> host_equiv (five_notify_all env evs p5 l) (notify_all env evs p l).
Proof.
  revert p5 p l. induction evs as [|[n t] evs IH]; intros p5 p l H; simpl; [by split|].
  unfold five_notify, notify.
  destruct (five_tick_sim env t p5 p l H) as [H1 E1].
  destruct (five_tick env t p5 l) as [p5' l5'], (tick env t p l) as [p' l']. simpl in *. subst l5'.
  destruct (five_handleNewEmail_sim n p5' p' l' H1) as [H2 E2].
  destruct (five_handleNewEmail n p5' l'), (handleNewEmail n p' l'). simpl in *. subst. by apply IH.
Qed.

(** ** The 5-minute host's toasts *)

Lemma five_refresh_fire_news env p now :
  new_email_toasts (five_refresh_fire env p now) = new_email_toasts p.
Proof.
  unfold five_refresh_fire, five_loadEmails, five_run_cont, add_toast, new_email_toasts.
  destruct (js_present _); [case_if|]; simpl; rewrite ?omap_app; simpl; by rewrite ?app_nil_r.
Qed.

Lemma five_tick_news env t p l : new_email_toasts (five_tick env t p l).1 = new_email_toasts p.
Proof.
  unfold five_tick.
  destruct (advance_spec (five_on_timer env) (fun p' _ => new_email_toasts p' = new_email_toasts p)
              (S (length (lp_timers l))) t p l) as (p' & l' & -> & Hn & _); [| |lia|done|done].
  - intros a s l0. destruct a; simpl; lia.
  - intros u s l0 Hs _. destruct (tm_act u); simpl; [done|]. by rewrite five_refresh_fire_news.
Qed.

Lemma five_handleNewEmail_news n p l :
  new_email_toasts (five_handleNewEmail n p l).1 =
  new_email_toasts p ++
    (if isDuplicate (pg_recent p) n then [] else [js_or (n_from n) "Unknown sender"]).
Proof.
  unfold five_handleNewEmail. destruct (isDuplicate _ _); [by rewrite app_nil_r|].
  unfold setTimeout. cbv beta iota.
  rewrite debouncedRefresh_eq. unfold new_email_toasts. simpl. by rewrite omap_app.
Qed.

(** The 5-minute host shows a toast exactly for the notifications the
    regular host's invariant lets through: the run of [five_notify_all]
    against the abstract window, through the simulation. *)
Lemma five_notify_all_window env D evs p5 p l :
  page_equiv p5 p -> dedup_inv D p l -> times_from (lp_now l) evs = true ->
  forallb (fun e => hyphen_free e.1) evs = true ->
  new_email_toasts (five_notify_all env evs p5 l).1 =
  new_email_toasts p5 ++ map (fun n => js_or (n_from n) "Unknown sender") (window_run D evs).
Proof.
  revert D p5 p l. induction evs as [|[n t] evs IH]; intros D p5 p l He Hi Ht Hhf; simpl.
  { by rewrite app_nil_r. }
  apply andb_true_iff in Ht as [Ht Hts]. apply Z.leb_le in Ht.
  apply andb_true_iff in Hhf as [Hn Hhf]. simpl in Hn.
  unfold five_notify, notify.
  destruct (tick_inv env D t p l Hi Ht) as (Hi1 & Hnow1 & Hfut1 & _).
  pose proof (five_tick_news env t p5 l) as Hn1.
  destruct (five_tick_sim env t p5 p l He) as [He1 El].
  destruct (five_tick env t p5 l) as [p5' l5'], (tick env t p l) as [p1 l1]. simpl in *. subst l5'.
  rewrite <- Hnow1 in Hfut1.
  pose proof (isDuplicate_inv D p1 l1 n Hi1 Hfut1) as Hd.
  destruct (handle_inv D p1 l1 n Hi1 Hfut1 Hn) as (Hi2 & Hnow2 & _).
  pose proof (five_handleNewEmail_news n p5' l1) as Hn2.
  destruct (five_handleNewEmail_sim n p5' p1 l1 He1) as [He2 El2].
  rewrite (proj1 (page_equiv_recent _ _ He1)), Hd in Hn2.
  destruct (five_handleNewEmail n p5' l1) as [p5'' l5''], (handleNewEmail n p1 l1) as [p2 l2].
  simpl in *. subst l5''.
  rewrite IH with (D := if window_dup D n (lp_now l1) then D else D ++ [(n, lp_now l1)]) (p := p2);
    [|done|done|by rewrite Hnow2, Hnow1|done].
  rewrite Hn2, Hn1, Hnow1. destruct (window_dup D n t); simpl; by rewrite <- app_assoc.
Qed.

(** Refinement of the spec's 5-second window by the 5-minute
    inbox: for notifications whose sender and subject contain no hyphen,
    arriving at non-decreasing times, the "new email" toasts the
    5-minute inbox shows are exactly the notifications the abstract
    window [window_run] delivers, in order, an absent sender named
    "Unknown sender". *)
Theorem five_handleNewEmail_window env t0 evs :
  times_from t0 evs = true -> forallb (fun e => hyphen_free e.1) evs = true ->
  new_email_toasts (five_notify_all env evs initial_page (initial_loop t0)).1 =
  map (fun n => js_or (n_from n) "Unknown sender") (window_run [] evs).
Proof.
  intros Ht Hhf.
  by rewrite (five_notify_all_window env [] evs initial_page initial_page _ ltac:(done)
                (initial_inv t0) Ht Hhf).
Qed.

(** ** Witnesses *)

Lemma five_notify_all_equiv_witness :
  host_equiv (five_notify_all demo_env (scenario hi_mail) initial_page (initial_loop 0))
             (notify_all demo_env (scenario hi_mail) initial_page (initial_loop 0)).
Proof. exact (five_notify_all_equiv demo_env (scenario hi_mail) initial_page initial_page _ ltac:(done)). Defined.

Lemma five_handleNewEmail_window_witness :
  new_email_toasts (five_notify_all demo_env (scenario hi_mail) initial_page (initial_loop 0)).1 =
  ["a@b.com"; "a@b.com"].
Proof.
  rewrite (five_handleNewEmail_window demo_env 0 (scenario hi_mail) ltac:(reflexivity) ltac:(reflexivity)).
  reflexivity.
Defined.

End FiveMinHost.
