(* ===== verification/FiveMinPage.v ===== *)
(** * FiveMinPage: the 5-minute email page

    src/app/[locale]/5-minutes-temporary-email/page.tsx, lines 15-157:
    the page's state ([useState], lines 17-22) is the record [Five]; the
    mount handler [initializeAccount], the button handler
    [generateNewEmail], the one-second countdown interval with
    [handleAccountExpiry], and [formatTime] are functions of the page,
    the storage and the inputs of [initialize5MinEmailAccount].  The
    redirect [setTimeout(() => router.push('../'), 2000)] is counted in
    [f_redirects].

    Theorems: the "new email" button returns the current account while it
    is valid; every tick after the countdown reaches 0 repeats the expiry
    toast and redirect; after the demo fallback the countdown never runs;
    the inbox the page links to reads the regular record, not the
    5-minute one; the clock display has the form [m:ss]. *)

From S2P Require Import Prelude JsString EventLoop Dedup NotifClient InboxPage EmailService InboxView.
From stdpp Require Import gmap.

Module FiveMin.

Inductive FiveToast :=
| FTLoaded | FTCreated | FTNewCreated | FTDemoMode | FTExpired | FTCopied.

Record Five := mkFive {
  f_email : string;
  f_accountId : option string;
  f_isGenerating : bool;
  f_isLoading : bool;
  f_timeLeft : Z;                    (** seconds *)
  f_account : option EmailAccount;
  f_toasts : list FiveToast;
  f_redirects : nat                  (** scheduled [router.push('../')] *)
}.

Definition initial_five : Five := mkFive "" None false true 300 None [] 0.

Definition toast (t : FiveToast) (f : Five) : Five :=
  mkFive (f_email f) (f_accountId f) (f_isGenerating f) (f_isLoading f) (f_timeLeft f)
         (f_account f) (f_toasts f ++ [t]) (f_redirects f).

Definition set_loading (b : bool) (f : Five) : Five :=
  mkFive (f_email f) (f_accountId f) (f_isGenerating f) b (f_timeLeft f)
         (f_account f) (f_toasts f) (f_redirects f).

Definition set_generating (b : bool) (f : Five) : Five :=
  mkFive (f_email f) (f_accountId f) b (f_isLoading f) (f_timeLeft f)
         (f_account f) (f_toasts f) (f_redirects f).

Definition set_timeLeft (s : Z) (f : Five) : Five :=
  mkFive (f_email f) (f_accountId f) (f_isGenerating f) (f_isLoading f) s
         (f_account f) (f_toasts f) (f_redirects f).

(** [setAccount], [setEmail], [setAccountId], [setTimeLeft(getTimeRemaining(a))] *)
Definition show_account (a : EmailAccount) (now : Z) (f : Five) : Five :=
  mkFive (acc_email a) (Some (acc_id a)) (f_isGenerating f) (f_isLoading f)
         (getTimeRemaining a now) (Some a) (f_toasts f) (f_redirects f).

(** The demo fallback of both handlers: an address and id from
    [Date.now()], 300 seconds, and no account. *)
Definition show_mock (now : Z) (f : Five) : Five :=
  toast FTDemoMode
    (mkFive ("temp.5min." +:+ pretty now +:+ "@sendbun.com") (Some (pretty now))
            (f_isGenerating f) (f_isLoading f) 300 (f_account f) (f_toasts f) (f_redirects f)).

(** [initializeAccount] (lines 47-93). *)
Definition initializeAccount (w : option Window) (st : Storage) (r : DeleteResponse)
    (inp : InitInputs) (f : Five) : Five * Storage :=
  let now := in_now inp in
  let f := set_loading true f in
  let st := cleanupExpired5MinAccounts w now r st in
  match loadFiveMinEmailData w st with
  | Some (mkSiteData _ (Some a) _) =>
      if negb (isAccountExpired a now) then (set_loading false (toast FTLoaded (show_account a now f)), st)
      else
        match initialize5MinEmailAccount w st inp with
        | (inl a, st) => (set_loading false (toast FTCreated (show_account a now f)), st)
        | (inr _, st) => (set_loading false (show_mock now f), st)
        end
  | _ =>
      match initialize5MinEmailAccount w st inp with
      | (inl a, st) => (set_loading false (toast FTCreated (show_account a now f)), st)
      | (inr _, st) => (set_loading false (show_mock now f), st)
      end
  end.

(** [generateNewEmail] (lines 95-131). *)
Definition generateNewEmail (w : option Window) (st : Storage) (r : DeleteResponse)
    (inp : InitInputs) (f : Five) : Five * Storage :=
  let now := in_now inp in
  let f := set_generating true f in
  let st := match f_account f with
            | Some _ => cleanupExpired5MinAccounts w now r st
            | None => st
            end in
  match initialize5MinEmailAccount w st inp with
  | (inl a, st) => (set_generating false (toast FTNewCreated (show_account a now f)), st)
  | (inr _, st) => (set_generating false (show_mock now f), st)
  end.

(** [handleAccountExpiry] (lines 133-145). *)
Definition handleAccountExpiry (w : option Window) (now : Z) (r : DeleteResponse)
    (f : Five) (st : Storage) : Five * Storage :=
  let st := cleanupExpired5MinAccounts w now r st in
  let f := toast FTExpired f in
  (mkFive (f_email f) (f_accountId f) (f_isGenerating f) (f_isLoading f) (f_timeLeft f)
          (f_account f) (f_toasts f) (S (f_redirects f)), st).

(** One firing of the interval (lines 30-45); the interval exists only
    while the page has an account with an expiry. *)
Definition tick (w : option Window) (now : Z) (r : DeleteResponse) (f : Five) (st : Storage)
    : Five * Storage :=
  match f_account f with
  | Some a =>
      match acc_expires_at a with
      | Some _ =>
          let remaining := getTimeRemaining a now in
          let f := set_timeLeft remaining f in
          if (remaining <=? 0)%Z then handleAccountExpiry w now r f st else (f, st)
      | None => (f, st)
      end
  | None => (f, st)
  end.

(** The interval firing every second from [now], [k] times. *)
Fixpoint ticks (k : nat) (w : option Window) (now : Z) (r : DeleteResponse) (f : Five)
    (st : Storage) : Five * Storage :=
  match k with
  | O => (f, st)
  | S k => let '(f, st) := tick w now r f st in ticks k w (now + 1000)%Z r f st
  end.

(** [formatTime] (lines 154-158): [Math.floor(seconds / 60)] and
    [seconds % 60] padded to two digits. *)
Definition formatTime (seconds : Z) : string :=
  let mins := (seconds / 60)%Z in
  let secs := Z.rem seconds 60 in
  pretty mins +:+ ":" +:+ js_padStart 2 "0"%char (pretty secs).

(** The "open inbox" link of the page (line 254). *)
Definition openInbox_href (locale : string) : string := "/" +:+ locale +:+ "/inbox".

(** ** Lemmas *)

Lemma cleanup5_keeps w now r st ds a lu :
  loadFiveMinEmailData w st = Some (mkSiteData ds (Some a) lu) -> isAccountExpired a now = false ->
  cleanupExpired5MinAccounts w now r st = st.
Proof. intros Hl Hx. unfold cleanupExpired5MinAccounts, cleanup_at. by rewrite Hl, Hx. Qed.

Lemma init5_keeps w st inp ds a lu :
  loadFiveMinEmailData w st = Some (mkSiteData ds (Some a) lu) ->
  isAccountExpired a (in_now inp) = false ->
  initialize5MinEmailAccount w st inp = (inl a, st).
Proof. intros Hl Hx. unfold initialize5MinEmailAccount. by rewrite Hl, Hx. Qed.

(** The storage steps of the 5-minute flows never touch the regular
    record. *)
Lemma create_and_save_keeps_regular w st inp :
  loadEmailData w (create_and_save saveFiveMinEmailData true w st inp).2 = loadEmailData w st.
Proof.
  unfold create_and_save.
  destruct (loadDomains _) as [[|d ds]|]; simpl; try done.
  destruct (_ !! _); simpl; [apply save_other_five_min|done].
Qed.

Lemma init5_keeps_regular w st inp :
  loadEmailData w (initialize5MinEmailAccount w st inp).2 = loadEmailData w st.
Proof.
  unfold initialize5MinEmailAccount.
  destruct (loadFiveMinEmailData w st) as [[? [a|] ?]|]; try apply create_and_save_keeps_regular.
  case_if; [done|apply create_and_save_keeps_regular].
Qed.

Lemma cleanup5_keeps_regular w now r st :
  loadEmailData w (cleanupExpired5MinAccounts w now r st) = loadEmailData w st.
Proof.
  unfold cleanupExpired5MinAccounts, cleanup_at.
  destruct (loadFiveMinEmailData w st) as [[? [a|] ?]|]; try done.
  case_if; [apply save_other_five_min|done].
Qed.

Lemma tick_expired w now r f st a e :
  f_account f = Some a -> acc_expires_at a = Some e -> (e - now < 1000)%Z ->
  tick w now r f st =
    (mkFive (f_email f) (f_accountId f) (f_isGenerating f) (f_isLoading f) 0 (f_account f)
            (f_toasts f ++ [FTExpired]) (S (f_redirects f)),
     cleanupExpired5MinAccounts w now r st).
Proof.
  intros Ha He Hlt. unfold tick. rewrite Ha, He.
  assert (H0 : getTimeRemaining a now = 0%Z).
  { unfold getTimeRemaining. rewrite He. apply Z.max_l.
    destruct (Z.le_gt_cases (e - now) 0); [|rewrite Z.div_small]; try lia.
    apply Z.div_le_upper_bound; lia. }
  rewrite H0. destruct f; simpl in *; subst; reflexivity.
Qed.

Lemma initializeAccount_keeps_regular w st r inp f :
  loadEmailData w (initializeAccount w st r inp f).2 = loadEmailData w st.
Proof.
  unfold initializeAccount. cbv zeta.
  set (st1 := cleanupExpired5MinAccounts w (in_now inp) r st).
  assert (Hc : loadEmailData w st1 = loadEmailData w st) by apply cleanup5_keeps_regular.
  assert (Hi : loadEmailData w (initialize5MinEmailAccount w st1 inp).2 = loadEmailData w st)
    by (rewrite init5_keeps_regular; exact Hc).
  destruct (initialize5MinEmailAccount w st1 inp) as [[] st2].
  all: destruct (loadFiveMinEmailData w st1) as [[? [a|] ?]|]; try done.
  all: by destruct (negb _).
Qed.

Lemma generateNewEmail_keeps_regular w st r inp f :
  loadEmailData w (generateNewEmail w st r inp f).2 = loadEmailData w st.
Proof.
  unfold generateNewEmail. cbv zeta. simpl.
  destruct (f_account f).
  - assert (Hi := init5_keeps_regular w (cleanupExpired5MinAccounts w (in_now inp) r st) inp).
    rewrite cleanup5_keeps_regular in Hi.
    destruct (initialize5MinEmailAccount _ _ _) as [[] st2]; done.
  - assert (Hi := init5_keeps_regular w st inp).
    destruct (initialize5MinEmailAccount _ _ _) as [[] st2]; done.
Qed.

(** ** Theorems *)

(** C23. The "new email" button does not give a new email while the
    current one is valid: [generateNewEmail] only cleans up expired
    accounts, so [initialize5MinEmailAccount] finds the stored account and
    returns it; the page shows the same address and storage is unchanged,
    yet it announces a new email was created. *)
Theorem generateNewEmail_same_account w st r inp f ds a lu :
  f_account f = Some a ->
  loadFiveMinEmailData w st = Some (mkSiteData ds (Some a) lu) ->
  isAccountExpired a (in_now inp) = false ->
  let '(f', st') := generateNewEmail w st r inp f in
  f_account f' = Some a /\ f_email f' = acc_email a /\ st' = st /\
  f_toasts f' = f_toasts f ++ [FTNewCreated].
Proof.
  intros Ha Hl Hx. unfold generateNewEmail. simpl. rewrite Ha.
  rewrite (cleanup5_keeps _ _ _ _ _ _ _ Hl Hx), (init5_keeps _ _ _ _ _ _ Hl Hx). done.
Qed.

(** C24. Once the countdown shows 0 the interval keeps running: each of
    the next [k] ticks (one per second, until the page navigates away)
    shows another "Email expired!" toast and schedules another redirect,
    as soon as less than a second is left, before the account has
    actually expired. *)
Theorem expiry_repeats w now r f st a e k :
  f_account f = Some a -> acc_expires_at a = Some e -> (e - now < 1000)%Z ->
  let '(f', _) := ticks k w now r f st in
  f_toasts f' = f_toasts f ++ repeat FTExpired k /\ f_redirects f' = (f_redirects f + k)%nat /\
  f_account f' = f_account f.
Proof.
  revert now f st. induction k as [|k IH]; intros now f st Ha He Hlt; simpl.
  { by rewrite app_nil_r, Nat.add_0_r. }
  rewrite (tick_expired w now r f st a e Ha He Hlt).
  specialize (IH (now + 1000)%Z
               (mkFive (f_email f) (f_accountId f) (f_isGenerating f) (f_isLoading f) 0
                  (f_account f) (f_toasts f ++ [FTExpired]) (S (f_redirects f)))
               (cleanupExpired5MinAccounts w now r st) Ha He ltac:(lia)).
  destruct (ticks _ _ _ _ _ _) as [f' st']. simpl in IH.
  destruct IH as (-> & -> & ->). rewrite <- app_assoc. simpl. split; [done|]. split; [lia|done].
Qed.

(** C25. After the demo fallback the countdown never runs: when
    [initialize5MinEmailAccount] fails on the first visit, the page shows
    a mock address with 5:00 left and no account, and any number of
    interval ticks leave it unchanged. *)
Theorem demo_mode_frozen w st r inp e k now :
  loadFiveMinEmailData w (cleanupExpired5MinAccounts w (in_now inp) r st) = None ->
  (initialize5MinEmailAccount w (cleanupExpired5MinAccounts w (in_now inp) r st) inp).1 = inr e ->
  let '(f, st') := initializeAccount w st r inp initial_five in
  f_timeLeft f = 300%Z /\ f_account f = None /\ f_toasts f = [FTDemoMode] /\
  ticks k w now r f st' = (f, st').
Proof.
  intros Hl Hi. unfold initializeAccount. cbv zeta. rewrite Hl.
  destruct (initialize5MinEmailAccount _ _ _) as [[a|e'] st'] eqn:E; simpl in Hi; [done|].
  simpl. split; [done|]. split; [done|]. split; [done|].
  revert now. induction k as [|k IH]; intros now; [done|]. apply IH.
Qed.

(** C26. The page's "open inbox" link goes to [/{locale}/inbox], whose
    account is read from the regular record; the 5-minute flows never
    write that record, so the inbox shown is the regular account's (or
    none), not the 5-minute one. *)
Theorem five_min_link_shows_regular w st r inp f :
  InboxView.inbox_env w (initializeAccount w st r inp f).2 = InboxView.inbox_env w st /\
  InboxView.inbox_env w (generateNewEmail w st r inp f).2 = InboxView.inbox_env w st.
Proof.
  unfold InboxView.inbox_env.
  rewrite initializeAccount_keeps_regular, generateNewEmail_keeps_regular. done.
Qed.

(** The clock display: every value the countdown can show (0 to
    300 seconds) is printed as [m:ss], four characters with the colon
    second, and the two printed fields give back the seconds. *)
Theorem formatTime_countdown s :
  (0 <= s <= 300)%Z ->
  String.length (formatTime s) = 4%nat /\ String.get 1 (formatTime s) = Some ":"%char /\
  (s = 60 * (s / 60) + Z.rem s 60)%Z.
Proof.
  intros Hs. split; [|split]; [..|rewrite Z.rem_mod_nonneg by lia; apply Z.div_mod; lia].
  all: assert (Hall : forallb (fun n => Nat.eqb (String.length (formatTime (Z.of_nat n))) 4 &&
                               match String.get 1 (formatTime (Z.of_nat n)) with
                               | Some c => Ascii.eqb c ":" | None => false end)
                              (seq 0 301) = true) by (vm_compute; reflexivity).
  all: apply (proj1 (forallb_forall _ _)) with (x := Z.to_nat s) in Hall;
         [|apply in_seq; lia].
  all: rewrite Z2Nat.id in Hall by lia; apply andb_true_iff in Hall as [H1 H2].
  - by apply Nat.eqb_eq.
  - destruct (String.get 1 _) as [c|]; [|done]. apply Ascii.eqb_eq in H2. by subst.
Qed.

(** ** Witnesses *)

(** The page showing [demo_account] (created at 0, expiring at 300 s),
    stored under the 5-minute key. *)
Definition five_st : Storage := saveFiveMinEmailData site (mkSiteData [] (Some demo_account) 0) ∅.
Definition five_page : Five := show_account demo_account 60000 initial_five.

Lemma generateNewEmail_same_account_witness :
  let '(f', st') := generateNewEmail site five_st DeleteOk (demo_inputs 60000 DomainsThrew) five_page in
  f_account f' = Some demo_account /\ f_email f' = acc_email demo_account /\ st' = five_st /\
  f_toasts f' = f_toasts five_page ++ [FTNewCreated].
Proof.
  exact (generateNewEmail_same_account site five_st DeleteOk (demo_inputs 60000 DomainsThrew)
           five_page [] demo_account 0 eq_refl eq_refl eq_refl).
Defined.

Lemma expiry_repeats_witness :
  let '(f', _) := ticks 2 site 299500 DeleteOk five_page five_st in
  f_toasts f' = f_toasts five_page ++ repeat FTExpired 2 /\
  f_redirects f' = (f_redirects five_page + 2)%nat /\ f_account f' = f_account five_page.
Proof.
  exact (expiry_repeats site 299500 DeleteOk five_page five_st demo_account 300000 2
           eq_refl eq_refl ltac:(lia)).
Defined.

Lemma demo_mode_frozen_witness :
  let '(f, st') := initializeAccount site ∅ DeleteOk (demo_inputs 0 (DomainsOk (DataArray [])))
                     initial_five in
  f_timeLeft f = 300%Z /\ f_account f = None /\ f_toasts f = [FTDemoMode] /\
  ticks 5 site 1000 DeleteOk f st' = (f, st').
Proof.
  exact (demo_mode_frozen site ∅ DeleteOk (demo_inputs 0 (DomainsOk (DataArray [])))
           NoDomainsAvailable 5 1000 eq_refl eq_refl).
Defined.

Lemma formatTime_countdown_witness : String.length (formatTime 65) = 4%nat.
Proof. exact (proj1 (formatTime_countdown 65 ltac:(lia))). Defined.

End FiveMin.
