(* ===== verification/Generator.v ===== *)
(** * Generator: the home page's email generator

    src/components/email-generator.tsx, lines 13-197: the component's
    state (lines 14-19) is the record [Gen]; [initializeAccount] (the
    mount effect) and [generateNewAccount] (the button) are functions of
    the state, the storage and the inputs of [initializeEmailAccount].
    Toasts are the translation keys the code passes to [t].  [copyEmail]
    and the drawn card ([render]) close the file.

    Theorems: on mount a stored account is shown whatever its age, so the
    24-hour rule of [initializeEmailAccount] is not applied on the home
    page; the button always replaces the account (it clears the record
    first), and on failure the previous account is lost. *)

From S2P Require Import Prelude JsString EventLoop Dedup NotifClient InboxPage EmailService.
From stdpp Require Import gmap.

Module Generator.

Inductive GenToast :=
| GTEmailLoaded | GTDemoMode | GTEmailCreated | GTDemoModeFallback
| GTGeneratingNew | GTNewEmailCreated | GTEmailCopied.

Record Gen := mkGen {
  g_email : string;
  g_password : string;
  g_isLoading : bool;
  g_isGenerating : bool;
  g_error : option string;
  g_accountId : option string;
  g_toasts : list GenToast
}.

Definition initial_gen : Gen := mkGen "" "" true false None None [].

Definition gtoast (t : GenToast) (g : Gen) : Gen :=
  mkGen (g_email g) (g_password g) (g_isLoading g) (g_isGenerating g) (g_error g)
        (g_accountId g) (g_toasts g ++ [t]).

Definition set_flags (loading generating : bool) (err : option string) (g : Gen) : Gen :=
  mkGen (g_email g) (g_password g) loading generating err (g_accountId g) (g_toasts g).

(** [setEmail], [setPassword], [setAccountId] *)
Definition show (email pw id : string) (g : Gen) : Gen :=
  mkGen email pw (g_isLoading g) (g_isGenerating g) (g_error g) (Some id) (g_toasts g).

(** [err.message] of the two errors [initializeEmailAccount] throws. *)
Definition init_error_message (e : InitError) : string :=
  match e with
  | NoDomainsAvailable => "No domains available"
  | DomainTypeError => "Cannot read properties of undefined (reading 'name')"
  end.

(** The toast after a creation: demo mode for a mock account. *)
Definition created_toast (success : GenToast) (a : EmailAccount) : GenToast :=
  if String.eqb (acc_domain_id a) "mock" then GTDemoMode else success.

(** [initializeAccount] (lines 27-76). *)
Definition initializeAccount (w : option Window) (st : Storage) (inp : InitInputs) (g : Gen)
    : Gen * Storage :=
  let g := set_flags true (g_isGenerating g) None g in
  match loadEmailData w st with
  | Some (mkSiteData _ (Some a) _) =>
      (gtoast GTEmailLoaded (set_flags false (g_isGenerating g) (g_error g)
                               (show (acc_email a) (acc_password a) (acc_id a) g)), st)
  | _ =>
      match initializeEmailAccount w st inp with
      | (inl a, st') =>
          (set_flags false (g_isGenerating g) (g_error g)
             (gtoast (created_toast GTEmailCreated a) (show (acc_email a) (acc_password a) (acc_id a) g)),
           st')
      | (inr e, st') =>
          (set_flags false (g_isGenerating g) (Some (init_error_message e))
             (gtoast GTDemoModeFallback
                (show "temp.user.12345@sendbun.com" "temp123456" (pretty (in_now inp)) g)), st')
      end
  end.

(** [generateNewAccount] (lines 78-124). *)
Definition generateNewAccount (w : option Window) (st : Storage) (inp : InitInputs) (g : Gen)
    : Gen * Storage :=
  let g := gtoast GTGeneratingNew (set_flags (g_isLoading g) true None g) in
  let st := clearEmailData w st in
  match initializeEmailAccount w st inp with
  | (inl a, st') =>
      (set_flags (g_isLoading g) false (g_error g)
         (gtoast (created_toast GTNewEmailCreated a) (show (acc_email a) (acc_password a) (acc_id a) g)),
       st')
  | (inr e, st') =>
      (set_flags (g_isLoading g) false (Some (init_error_message e))
         (gtoast GTDemoModeFallback
            (show ("temp.user." +:+ pretty (in_now inp) +:+ "@sendbun.com") "temp123456"
                  (pretty (in_now inp)) g)), st')
  end.

(** [copyEmail] (lines 126-131): the shown address goes to the
    clipboard, with the "copied" toast. *)
Definition copyEmail (g : Gen) : string * Gen := (g_email g, gtoast GTEmailCopied g).

(** The drawn card: the loading card (lines 133-149), or the card
    (lines 151-196) with the error box when [error] is truthy, the
    address, the "generate" button ([disabled] and spinning while
    generating) and the "Open Inbox" link. *)
Inductive GenView :=
| GVLoading
| GVCard (error : option string) (email : string) (generate_disabled : bool) (spinning : bool)
         (inbox_href : string).

Definition render (locale : string) (g : Gen) : GenView :=
  if g_isLoading g then GVLoading
  else GVCard (js_present (g_error g)) (g_email g) (g_isGenerating g) (g_isGenerating g)
              ("/" +:+ locale +:+ "/inbox").

(** ** Lemmas *)

Lemma load_clear w st : loadEmailData w (clearEmailData w st) = None.
Proof.
  destruct w; [|done]. unfold loadEmailData, clearEmailData, load_at, clear_at.
  by rewrite lookup_delete_eq.
Qed.

(** With no record, [initializeEmailAccount] goes straight to creation. *)
Lemma initialize_no_record w st inp :
  loadEmailData w st = None ->
  initializeEmailAccount w st inp = create_and_save saveEmailData false w st inp.
Proof. intros Hl. unfold initializeEmailAccount. by rewrite Hl. Qed.

(** ** Theorems *)

(** On mount the generator shows any stored account, whatever its
    age: it reads the record itself and calls [initializeEmailAccount]
    only when there is none, so an account older than 24 hours is still
    restored, with storage unchanged. *)
Theorem initializeAccount_restores_any_age w st inp g ds a lu :
  loadEmailData w st = Some (mkSiteData ds (Some a) lu) ->
  let '(g', st') := initializeAccount w st inp g in
  g_email g' = acc_email a /\ g_password g' = acc_password a /\
  g_accountId g' = Some (acc_id a) /\ st' = st /\ g_toasts g' = g_toasts g ++ [GTEmailLoaded].
Proof. intros Hl. unfold initializeAccount. simpl. by rewrite Hl. Qed.

(** The "generate new" button always replaces the account: it
    clears the regular record first, so [initializeEmailAccount] creates a
    new account, shown and stored, with a "demo mode" toast exactly when
    the account is a mock one; when creation fails, the page shows a
    fallback address and the error, and the previous account is gone from
    storage. *)
Theorem generateNewAccount_spec w st inp g :
  w <> None -> draw_ok (in_domain_draw inp) ->
  let '(g', st') := generateNewAccount w st inp g in
  (exists a, created_in loadEmailData false w inp a st' /\
     g_email g' = acc_email a /\ g_password g' = acc_password a /\
     g_toasts g' = g_toasts g ++ [GTGeneratingNew;
                                  if String.eqb (acc_domain_id a) "mock" then GTDemoMode
                                  else GTNewEmailCreated]) \/
  (exists e, init_failed inp e /\ loadEmailData w st' = None /\
     g_email g' = "temp.user." +:+ pretty (in_now inp) +:+ "@sendbun.com" /\
     g_error g' = Some (init_error_message e)).
Proof.
  intros Hw Hr. unfold generateNewAccount. cbv zeta.
  rewrite initialize_no_record by apply load_clear.
  pose proof (create_and_save_load saveEmailData loadEmailData false w (clearEmailData w st) inp
                (fun d st => load_save_same getSiteKey w d st Hw) Hr) as Hc.
  destruct (create_and_save _ _ _ _ _) as [[a|e] st'].
  - left. exists a. split; [done|]. simpl. by rewrite <- app_assoc.
  - right. exists e. destruct Hc as [-> He]. split; [done|]. split; [apply load_clear|done].
Qed.

(** ** Witnesses *)

Definition old_account : EmailAccount :=
  createEmailAccount "john.smith@sendbun.com" "Aa1!aaaaaaaa" false 0 CreateThrew.

(** A record created two days before the visit is restored. *)
Lemma initializeAccount_restores_any_age_witness :
  let st := saveEmailData site (mkSiteData [] (Some old_account) 0) ∅ in
  let '(g', st') := initializeAccount site st (demo_inputs (2 * MAX_AGE_MS) DomainsThrew) initial_gen in
  g_email g' = acc_email old_account /\ g_password g' = acc_password old_account /\
  g_accountId g' = Some (acc_id old_account) /\ st' = st /\
  g_toasts g' = g_toasts initial_gen ++ [GTEmailLoaded].
Proof.
  exact (initializeAccount_restores_any_age site
           (saveEmailData site (mkSiteData [] (Some old_account) 0) ∅)
           (demo_inputs (2 * MAX_AGE_MS) DomainsThrew) initial_gen [] old_account 0 eq_refl).
Defined.

Lemma generateNewAccount_spec_witness :
  let '(g', st') := generateNewAccount site ∅ (demo_inputs 0 DomainsThrew) initial_gen in
  (exists a, created_in loadEmailData false site (demo_inputs 0 DomainsThrew) a st' /\
     g_email g' = acc_email a /\ g_password g' = acc_password a /\
     g_toasts g' = g_toasts initial_gen ++ [GTGeneratingNew;
                                  if String.eqb (acc_domain_id a) "mock" then GTDemoMode
                                  else GTNewEmailCreated]) \/
  (exists e, init_failed (demo_inputs 0 DomainsThrew) e /\ loadEmailData site st' = None /\
     g_email g' = "temp.user." +:+ pretty (in_now (demo_inputs 0 DomainsThrew)) +:+ "@sendbun.com" /\
     g_error g' = Some (init_error_message e)).
Proof. exact (generateNewAccount_spec site ∅ (demo_inputs 0 DomainsThrew) initial_gen
                ltac:(discriminate) half_ok). Defined.

End Generator.
