(* ===== verification/FiveMinInbox.v ===== *)
(** * FiveMinInbox: the countdown and account check of the 5-minute inbox

    src/app/[locale]/5-minutes-temporary-email/inbox/page.tsx shares its
    loading, notification and view code with the regular inbox (modelled
    in [InboxPage] and [InboxView]); what it adds is the account check
    that polls storage every 200 ms for up to 10 attempts (lines 336-374)
    and the countdown effect (lines 376-419) that decrements [timeLeft]
    once a second and removes the expired account from storage.

    [timeLeft] is a JavaScript number that is [NaN] when the stored
    account has no [expires_at] ([new Date(undefined).getTime()]); it is
    [option Z], [None] standing for [NaN], with JavaScript's comparisons
    (every comparison with [NaN] is false).  React's [setTimeLeft] with an
    updater re-renders, and so re-runs the effect on [[timeLeft]], only
    when the value changes.

    Theorems: the account is never removed before its expiry; ticking
    once a second from the mount, it is removed within the remaining
    seconds plus one tick, with exactly one "Account expired" toast; the
    polling makes at most 11 checks, and 2 when the account is there. *)

From S2P Require Import Prelude JsString EmailService.
From stdpp Require Import gmap.

Module FiveMinInbox.

(** A JavaScript number of the countdown: [None] is [NaN]. *)
Abbreviation JsNum := (option Z).

Inductive FIToast := FIAccountExpired | FIAccountRefreshed | FINoAccount.

Record FInbox := mkFInbox {
  fi_hasEmailAccount : bool;
  fi_isLoading : bool;
  fi_timeLeft : JsNum;
  fi_interval : bool;          (** the countdown interval is set *)
  fi_polling : bool;           (** the account polling interval is set *)
  fi_attempts : nat;
  fi_checks : nat;             (** calls of [checkEmailAccount] *)
  fi_loads : nat;              (** calls of [loadEmails] *)
  fi_toasts : list FIToast
}.

Definition initial_finbox : FInbox := mkFInbox false true (Some 0%Z) false false 0 0 0 [].

(** [Math.max(0, Math.floor((expiryTime - now) / 1000))], [NaN] without
    an expiry. *)
Definition remaining_of (a : EmailAccount) (now : Z) : JsNum :=
  match acc_expires_at a with
  | Some e => Some (Z.max 0 ((e - now) / 1000))
  | None => None
  end.

Definition with_time (v : JsNum) (fi : FInbox) : FInbox :=
  mkFInbox (fi_hasEmailAccount fi) (fi_isLoading fi) v (fi_interval fi) (fi_polling fi)
           (fi_attempts fi) (fi_checks fi) (fi_loads fi) (fi_toasts fi).

Definition with_interval (b : bool) (fi : FInbox) : FInbox :=
  mkFInbox (fi_hasEmailAccount fi) (fi_isLoading fi) (fi_timeLeft fi) b (fi_polling fi)
           (fi_attempts fi) (fi_checks fi) (fi_loads fi) (fi_toasts fi).

Definition with_toast (t : FIToast) (fi : FInbox) : FInbox :=
  mkFInbox (fi_hasEmailAccount fi) (fi_isLoading fi) (fi_timeLeft fi) (fi_interval fi)
           (fi_polling fi) (fi_attempts fi) (fi_checks fi) (fi_loads fi) (fi_toasts fi ++ [t]).

Definition with_polling (b : bool) (attempts : nat) (fi : FInbox) : FInbox :=
  mkFInbox (fi_hasEmailAccount fi) (fi_isLoading fi) (fi_timeLeft fi) (fi_interval fi) b
           attempts (fi_checks fi) (fi_loads fi) (fi_toasts fi).

(** The account the page reads (lines 128-130): the 5-minute record's
    id and address. *)
Definition five_inbox_env (w : option Window) (st : Storage) : option string * option string :=
  match loadFiveMinEmailData w st with
  | Some (mkSiteData _ (Some a) _) => (Some (acc_id a), Some (acc_email a))
  | _ => (None, None)
  end.

(** ** The account check (lines 342-357) *)

Definition checkEmailAccount (w : option Window) (st : Storage) (now : Z) (fi : FInbox) : FInbox :=
  let fi := mkFInbox (fi_hasEmailAccount fi) (fi_isLoading fi) (fi_timeLeft fi) (fi_interval fi)
              (fi_polling fi) (fi_attempts fi) (S (fi_checks fi)) (fi_loads fi) (fi_toasts fi) in
  match loadFiveMinEmailData w st with
  | Some (mkSiteData _ (Some a) _) =>
      mkFInbox true (fi_isLoading fi) (remaining_of a now) (fi_interval fi) false
               (fi_attempts fi) (fi_checks fi) (S (fi_loads fi)) (fi_toasts fi)
  | _ =>
      mkFInbox false false (fi_timeLeft fi) (fi_interval fi) (fi_polling fi)
               (fi_attempts fi) (fi_checks fi) (fi_loads fi) (fi_toasts fi)
  end.

(** The effect body: the initial check, then the polling interval is set
    whatever the check found ([polling] is still [null] when the first
    check runs, so its [clearInterval] does nothing). *)
Definition mount_check (w : option Window) (st : Storage) (now : Z) (fi : FInbox) : FInbox :=
  with_polling true 0 (checkEmailAccount w st now fi).

(** One firing of the polling interval (every 200 ms). *)
Definition poll_fire (w : option Window) (st : Storage) (now : Z) (fi : FInbox) : FInbox :=
  if fi_polling fi then
    let attempts := S (fi_attempts fi) in
    if (10 <? attempts)%nat then with_polling false attempts fi
    else checkEmailAccount w st now (with_polling true attempts fi)
  else fi.

(** ** The countdown (lines 376-419) *)

Definition expired_at (e now : Z) : bool := (e <=? now)%Z.

(** The effect on [[timeLeft]]: with a stored expiring account, either
    clear an expired account now, or set the interval. *)
Definition countdown_effect (w : option Window) (st : Storage) (now : Z) (fi : FInbox)
    : FInbox * Storage :=
  match loadFiveMinEmailData w st with
  | Some (mkSiteData _ (Some a) _) =>
      match acc_expires_at a with
      | Some e =>
          let le0 := match fi_timeLeft fi with Some v => (v <=? 0)%Z | None => false end in
          if le0 && expired_at e now then
            (with_toast FIAccountExpired (with_interval false fi), clearFiveMinEmailData w st)
          else (with_interval true fi, st)
      | None => (with_interval false fi, st)
      end
  | _ => (with_interval false fi, st)
  end.

(** The updater passed to [setTimeLeft] by the interval, with its side
    effects on storage and toasts. *)
Definition countdown_update (w : option Window) (st : Storage) (now : Z) (prev : JsNum)
    (fi : FInbox) : JsNum * FInbox * Storage :=
  match prev with
  | Some v =>
      if (v <=? 1)%Z then
        match loadFiveMinEmailData w st with
        | Some (mkSiteData _ (Some a) _) =>
            match acc_expires_at a with
            | Some e =>
                if expired_at e now
                then (Some 0%Z, with_toast FIAccountExpired fi, clearFiveMinEmailData w st)
                else (Some 0%Z, fi, st)
            | None => (Some 0%Z, fi, st)
            end
        | _ => (Some 0%Z, fi, st)
        end
      else (Some (v - 1)%Z, fi, st)
  | None => (None, fi, st)
  end.

Definition same_num (a b : JsNum) : bool :=
  match a, b with Some x, Some y => Z.eqb x y | _, _ => false end.

(** One firing of the countdown interval at time [now]: the update, and,
    when the value changed, the re-render that clears the interval and
    runs the effect again. *)
Definition countdown_tick (w : option Window) (now : Z) (fi : FInbox) (st : Storage)
    : FInbox * Storage :=
  if fi_interval fi then
    let '(v, fi', st') := countdown_update w st now (fi_timeLeft fi) fi in
    if same_num v (fi_timeLeft fi) then (fi', st')
    else countdown_effect w st' now (with_time v fi')
  else (fi, st).

(** The countdown interval firing at [now], [now + 1000], ... *)
Fixpoint countdown_run (k : nat) (w : option Window) (now : Z) (fi : FInbox) (st : Storage)
    : FInbox * Storage :=
  match k with
  | O => (fi, st)
  | S k => let '(fi, st) := countdown_tick w now fi st in countdown_run k w (now + 1000)%Z fi st
  end.

(** The page mounted at [t0]: the account check, then the countdown
    effect for the [timeLeft] it set. *)
Definition mount (w : option Window) (st : Storage) (t0 : Z) : FInbox * Storage :=
  countdown_effect w st t0 (mount_check w st t0 initial_finbox).

(** The polling interval firing [k] times, every 200 ms from [now]. *)
Fixpoint poll_run (k : nat) (w : option Window) (st : Storage) (now : Z) (fi : FInbox) : FInbox :=
  match k with
  | O => fi
  | S k => poll_run k w st (now + 200)%Z (poll_fire w st now fi)
  end.

(** ** Lemmas *)

(** The 5-minute record holds an account expiring at [e]. *)
Definition stored (w : option Window) (st : Storage) (a : EmailAccount) (e : Z) : Prop :=
  (exists ds lu, loadFiveMinEmailData w st = Some (mkSiteData ds (Some a) lu)) /\
  acc_expires_at a = Some e.

Lemma expired_at_true e now : (e <= now)%Z -> expired_at e now = true.
Proof. intros H. by apply Z.leb_le. Qed.

Lemma expired_at_false e now : (now < e)%Z -> expired_at e now = false.
Proof. intros H. by apply Z.leb_gt. Qed.

(** The counting state: interval set, [v] seconds shown. *)
Definition counting (v : Z) (fi : FInbox) : FInbox := with_interval true (with_time (Some v) fi).

Lemma counting_idem v v' fi : counting v (counting v' fi) = counting v fi.
Proof. by destruct fi. Qed.

Lemma countdown_run_app j k w now fi st :
  countdown_run (j + k) w now fi st =
  let '(fi', st') := countdown_run j w now fi st in
  countdown_run k w (now + 1000 * Z.of_nat j)%Z fi' st'.
Proof.
  revert now fi st. induction j as [|j IH]; intros now fi st; simpl.
  - by rewrite Z.add_0_r.
  - destruct (countdown_tick w now fi st) as [fi1 st1]. rewrite IH.
    destruct (countdown_run j _ _ _ _). f_equal. lia.
Qed.

(** A tick that changes nothing leaves every later run unchanged. *)
Lemma countdown_run_fixed k w now fi st :
  (forall t, countdown_tick w t fi st = (fi, st)) -> countdown_run k w now fi st = (fi, st).
Proof.
  intros Hf. revert now. induction k as [|k IH]; intros now; simpl; [done|].
  by rewrite Hf.
Qed.

(** Above 1 the tick decrements and keeps the interval. *)
Lemma tick_dec w st a e now v fi :
  stored w st a e -> (2 <= v)%Z ->
  countdown_tick w now (counting v fi) st = (counting (v - 1) fi, st).
Proof.
  intros [(ds & lu & Hl) He] Hv. unfold countdown_tick. simpl.
  replace (v <=? 1)%Z with false by (symmetry; apply Z.leb_gt; lia).
  unfold countdown_effect. rewrite Hl, He. simpl.
  replace (v - 1 <=? 0)%Z with false by (symmetry; apply Z.leb_gt; lia).
  replace (Z.eqb (v - 1) v) with false by (symmetry; apply Z.eqb_neq; lia).
  by destruct fi.
Qed.

Lemma countdown_run_dec w st a e now v fi j :
  stored w st a e -> (Z.of_nat j + 1 <= v)%Z ->
  countdown_run j w now (counting v fi) st = (counting (v - Z.of_nat j) fi, st).
Proof.
  intros Hs. revert now v. induction j as [|j IH]; intros now v Hj; simpl.
  { by rewrite Z.sub_0_r. }
  rewrite (tick_dec _ _ _ _ _ _ _ Hs) by lia. rewrite IH by lia.
  do 2 f_equal. lia.
Qed.

(** With the record gone, a counting state at 0 is fixed. *)
Lemma tick_gone w st t fi :
  loadFiveMinEmailData w st = None -> countdown_tick w t (counting 0 fi) st = (counting 0 fi, st).
Proof. intros Hl. unfold countdown_tick. simpl. by rewrite Hl. Qed.

Lemma load_clear5 w st : loadFiveMinEmailData w (clearFiveMinEmailData w st) = None.
Proof.
  destruct w; [|done]. unfold loadFiveMinEmailData, clearFiveMinEmailData, load_at, clear_at.
  by rewrite lookup_delete_eq.
Qed.

(** At 0, the tick after the expiry clears the record and toasts once. *)
Lemma tick_zero_expired w st a e now fi :
  stored w st a e -> (e <= now)%Z ->
  countdown_tick w now (counting 0 fi) st =
    (with_toast FIAccountExpired (counting 0 fi), clearFiveMinEmailData w st).
Proof.
  intros [(ds & lu & Hl) He] Hle. unfold countdown_tick. simpl. rewrite Hl, He.
  rewrite expired_at_true by done. reflexivity.
Qed.

(** At 1, the tick goes to 0; before the expiry the interval stays set. *)
Lemma tick_one w st a e now fi :
  stored w st a e -> (now < e)%Z ->
  countdown_tick w now (counting 1 fi) st = (counting 0 fi, st).
Proof.
  intros [(ds & lu & Hl) He] Hlt. unfold countdown_tick. simpl. rewrite Hl, He.
  rewrite expired_at_false by done. simpl.
  unfold countdown_effect. rewrite Hl, He. simpl.
  rewrite expired_at_false by done. by destruct fi.
Qed.

Lemma tick_one_expired w st a e now fi :
  stored w st a e -> (e <= now)%Z ->
  countdown_tick w now (counting 1 fi) st =
    (with_interval false (with_time (Some 0%Z) (with_toast FIAccountExpired (counting 1 fi))),
     clearFiveMinEmailData w st).
Proof.
  intros [(ds & lu & Hl) He] Hle. unfold countdown_tick. simpl. rewrite Hl, He.
  rewrite expired_at_true by done. simpl.
  unfold countdown_effect. by rewrite load_clear5.
Qed.

Lemma toast_counting t v fi : with_toast t (counting v fi) = counting v (with_toast t fi).
Proof. by destruct fi. Qed.

Lemma tick_idle w t fi st : fi_interval fi = false -> countdown_tick w t fi st = (fi, st).
Proof. intros H. unfold countdown_tick. by rewrite H. Qed.

(** Before the expiry no tick touches the storage. *)
Lemma tick_keeps w st a e now fi :
  stored w st a e -> (now < e)%Z -> (countdown_tick w now fi st).2 = st.
Proof.
  intros Hs Hlt. pose proof Hs as [(ds & lu & Hl) He].
  assert (Heff : forall fi', (countdown_effect w st now fi').2 = st).
  { intros fi'. unfold countdown_effect. rewrite Hl, He, expired_at_false by done.
    by rewrite andb_false_r. }
  unfold countdown_tick. destruct (fi_interval fi); [|done].
  unfold countdown_update. destruct (fi_timeLeft fi) as [v|]; simpl; [|apply Heff].
  destruct (v <=? 1)%Z.
  - rewrite Hl, He, expired_at_false by done. by destruct (same_num _ _).
  - by destruct (same_num _ _).
Qed.

(** The mount of a page whose stored account has not expired: counting
    down from the remaining seconds, no toast, storage as it was. *)
Lemma mount_counting w st a e t0 :
  stored w st a e -> (t0 < e)%Z ->
  exists fb, mount w st t0 = (counting ((e - t0) / 1000) fb, st) /\ fi_toasts fb = [].
Proof.
  intros [(ds & lu & Hl) He] Hlt. unfold mount.
  set (fb := mount_check w st t0 initial_finbox).
  assert (Ht : fi_timeLeft fb = Some ((e - t0) / 1000)%Z).
  { subst fb. unfold mount_check, checkEmailAccount. rewrite Hl. simpl.
    unfold remaining_of. rewrite He. f_equal. apply Z.max_r, Z.div_pos; lia. }
  exists fb. split; [|subst fb; unfold mount_check, checkEmailAccount; by rewrite Hl].
  unfold countdown_effect. rewrite Hl, He, Ht, (expired_at_false e t0 Hlt).
  rewrite andb_false_r. destruct fb; simpl in Ht; subst. done.
Qed.

Lemma poll_run_app j k w st now fi :
  poll_run (j + k) w st now fi = poll_run k w st (now + 200 * Z.of_nat j) (poll_run j w st now fi).
Proof.
  revert now fi. induction j as [|j IH]; intros now fi; simpl; [by rewrite Z.add_0_r|].
  rewrite IH. f_equal. lia.
Qed.

(** Whether the 5-minute record holds an account. *)
Definition has_account (w : option Window) (st : Storage) : bool :=
  match loadFiveMinEmailData w st with Some (mkSiteData _ (Some _) _) => true | _ => false end.

Lemma poll_run_idle k w st now fi : fi_polling fi = false -> poll_run k w st now fi = fi.
Proof.
  revert now. induction k as [|k IH]; intros now H; simpl; [done|].
  unfold poll_fire. rewrite H. by apply IH.
Qed.

Lemma check_absent w st now fi :
  has_account w st = false ->
  checkEmailAccount w st now fi =
    mkFInbox false false (fi_timeLeft fi) (fi_interval fi) (fi_polling fi) (fi_attempts fi)
             (S (fi_checks fi)) (fi_loads fi) (fi_toasts fi).
Proof.
  unfold has_account, checkEmailAccount.
  by destruct (loadFiveMinEmailData w st) as [[? [?|] ?]|].
Qed.

Lemma poll_run_absent j w st now fi :
  has_account w st = false -> fi_polling fi = true -> (fi_attempts fi + j <= 10)%nat ->
  let fi' := poll_run j w st now fi in
  fi_polling fi' = true /\ fi_attempts fi' = (fi_attempts fi + j)%nat /\
  fi_checks fi' = (fi_checks fi + j)%nat.
Proof.
  intros Ha. revert now fi. induction j as [|j IH]; intros now fi Hp Hj; simpl.
  { rewrite !Nat.add_0_r. done. }
  unfold poll_fire. rewrite Hp.
  replace (10 <? S (fi_attempts fi))%nat with false by (symmetry; apply Nat.ltb_ge; lia).
  rewrite check_absent by done.
  match goal with |- context [poll_run j w st ?t ?f] =>
    destruct (IH t f eq_refl ltac:(simpl; lia)) as (H1 & H2 & H3) end.
  cbv zeta. simpl in *. split; [done|]. split; lia.
Qed.

(** ** Theorems *)

(** C27. The 5-minute inbox never removes the account early: while
    every tick of the countdown falls before the account's expiry, the
    storage is left as it was, whatever the page's state. *)
Theorem countdown_never_early w st a e now fi k :
  stored w st a e -> (now + 1000 * Z.of_nat k <= e)%Z ->
  (countdown_run k w now fi st).2 = st.
Proof.
  intros Hs. revert now fi. induction k as [|k IH]; intros now fi Hk; simpl; [done|].
  pose proof (tick_keeps w st a e now fi Hs ltac:(lia)) as Hst.
  destruct (countdown_tick w now fi st) as [fi1 st1]. simpl in Hst. subst st1.
  apply IH. lia.
Qed.

(** C28. The 5-minute inbox removes the account once it expires: from
    the mount at [t0] before the expiry, with the countdown ticking once
    a second, after [floor((e - t0) / 1000) + 1] ticks, and at every later
    tick, the record is gone and exactly one "Account expired" toast has
    been shown. *)
Theorem countdown_clears_once w st a e t0 k :
  stored w st a e -> (t0 < e)%Z ->
  ((e - t0) / 1000 + 1 <= Z.of_nat k)%Z ->
  let '(fi, st') := countdown_run k w (t0 + 1000) (mount w st t0).1 (mount w st t0).2 in
  loadFiveMinEmailData w st' = None /\ fi_toasts fi = [FIAccountExpired].
Proof.
  intros Hs Hlt Hk. destruct (mount_counting w st a e t0 Hs Hlt) as (fb & -> & Hfb). simpl.
  set (N := ((e - t0) / 1000)%Z) in *.
  assert (HN : (0 <= N /\ 1000 * N <= e - t0 < 1000 * N + 1000)%Z).
  { subst N. pose proof (Z.mul_div_le (e - t0) 1000). pose proof (Z.mod_pos_bound (e - t0) 1000).
    pose proof (Z.div_mod (e - t0) 1000). split; [apply Z.div_pos|]; lia. }
  (* the last tick that changes anything, and the state after it *)
  assert (Hend : exists j fi', (Z.of_nat j <= N + 1)%Z /\
            countdown_run j w (t0 + 1000) (counting N fb) st = (fi', clearFiveMinEmailData w st) /\
            fi_toasts fi' = [FIAccountExpired] /\
            forall t, countdown_tick w t fi' (clearFiveMinEmailData w st) = (fi', clearFiveMinEmailData w st)).
  { destruct (Z.eq_dec N 0%Z) as [HN0|HN0].
    - exists 1%nat, (counting 0 (with_toast FIAccountExpired fb)). simpl. rewrite HN0.
      rewrite (tick_zero_expired w st a e) by (done || lia). rewrite toast_counting.
      split; [lia|]. split; [done|]. split; [by rewrite Hfb|].
      intros t. apply tick_gone, load_clear5.
    - assert (Hdec := countdown_run_dec w st a e (t0 + 1000) N fb (Z.to_nat (N - 1)) Hs ltac:(lia)).
      rewrite Z2Nat.id in Hdec by lia. replace (N - (N - 1))%Z with 1%Z in Hdec by lia.
      destruct (Z_le_gt_dec e (t0 + 1000 * N)) as [Hx|Hx].
      + exists (Z.to_nat (N - 1) + 1)%nat,
          (with_interval false (with_time (Some 0%Z) (with_toast FIAccountExpired (counting 1 fb)))).
        rewrite countdown_run_app, Hdec. simpl.
        rewrite (tick_one_expired w st a e) by (done || (rewrite Z2Nat.id; lia)).
        split; [lia|]. split; [done|]. split; [by rewrite Hfb|].
        intros t. by apply tick_idle.
      + exists (Z.to_nat (N - 1) + 2)%nat, (counting 0 (with_toast FIAccountExpired fb)).
        rewrite countdown_run_app, Hdec. simpl.
        rewrite (tick_one w st a e) by (done || (rewrite Z2Nat.id; lia)).
        rewrite (tick_zero_expired w st a e) by (done || (rewrite Z2Nat.id; lia)).
        rewrite toast_counting.
        split; [lia|]. split; [done|]. split; [by rewrite Hfb|].
        intros t. apply tick_gone, load_clear5. }
  destruct Hend as (j & fi' & Hj & Hrun & Ht & Hfix).
  replace k with (j + (k - j))%nat by lia.
  rewrite countdown_run_app, Hrun, countdown_run_fixed by done.
  split; [apply load_clear5|done].
Qed.

Lemma mount_check_init w st now :
  let fi := mount_check w st now initial_finbox in
  fi_polling fi = true /\ fi_attempts fi = 0%nat /\ fi_checks fi = 1%nat.
Proof.
  unfold mount_check, checkEmailAccount.
  by destruct (loadFiveMinEmailData w st) as [[? [?|] ?]|].
Qed.

(** With the account present, the first firing finds it and stops. *)
Lemma poll_present k w st now fi0 :
  has_account w st = true -> fi_polling fi0 = true -> fi_attempts fi0 = 0%nat ->
  fi_checks (poll_run (S k) w st now fi0) = S (fi_checks fi0) /\
  fi_polling (poll_run (S k) w st now fi0) = false.
Proof.
  intros Ha Hp Hat. cbn [poll_run]. unfold poll_fire. rewrite Hp, Hat.
  cbn [Nat.ltb Nat.leb negb]. unfold has_account in Ha. unfold checkEmailAccount.
  destruct (loadFiveMinEmailData w st) as [[? [?|] ?]|]; try done.
  rewrite poll_run_idle by done. done.
Qed.

(** Without it, the eleventh firing clears the interval. *)
Lemma poll_absent_stop k w st now fi0 :
  has_account w st = false -> fi_polling fi0 = true -> fi_attempts fi0 = 0%nat ->
  fi_checks (poll_run (10 + S k) w st now fi0) = (fi_checks fi0 + 10)%nat /\
  fi_polling (poll_run (10 + S k) w st now fi0) = false.
Proof.
  intros Ha Hp Hat. rewrite poll_run_app.
  destruct (poll_run_absent 10 w st now fi0 Ha Hp ltac:(lia)) as (H1 & H2 & H3).
  revert H1 H2 H3. generalize (poll_run 10 w st now fi0). intros fi10 H1 H2 H3.
  cbn [poll_run]. unfold poll_fire. rewrite H1, H2, Hat.
  replace (10 <? S (0 + 10))%nat with true by reflexivity.
  rewrite poll_run_idle by done. done.
Qed.

(** C29. The account polling of the 5-minute inbox stops: from the
    mount, the storage is checked once, then at each of the 200 ms
    firings until the account is found or ten attempts are made; so there
    are two checks when the account is there (the interval is set after
    the first check has found it) and eleven when it never appears, after
    which the interval is cleared. *)
Theorem poll_checks w st now k :
  let fi := poll_run k w st (now + 200) (mount_check w st now initial_finbox) in
  fi_checks fi = (1 + (if has_account w st then Nat.min k 1 else Nat.min k 10))%nat /\
  (11 <= k -> fi_polling fi = false).
Proof.
  cbv zeta. destruct (mount_check_init w st now) as (Hp & Hat & Hc).
  revert Hp Hat Hc. generalize (mount_check w st now initial_finbox). intros fi0 Hp Hat Hc.
  destruct (has_account w st) eqn:Ha.
  - destruct k as [|k]; [cbn [poll_run]; rewrite Hc; split; [done|lia]|].
    destruct (poll_present k w st (now + 200) fi0 Ha Hp Hat) as [-> ->].
    rewrite Hc. split; [lia|done].
  - destruct (Nat.le_gt_cases k 10) as [Hk|Hk].
    + destruct (poll_run_absent k w st (now + 200) _ Ha Hp ltac:(lia)) as (_ & _ & H3).
      split; [rewrite H3; lia|lia].
    + replace k with (10 + S (k - 11))%nat by lia.
      destruct (poll_absent_stop (k - 11) w st (now + 200) fi0 Ha Hp Hat) as [-> ->].
      rewrite Hc. split; [lia|done].
Qed.

(** ** Witnesses *)

(** [demo_account] (expiring at 300 s) stored under the 5-minute key. *)
Definition inbox_st : Storage := saveFiveMinEmailData site (mkSiteData [] (Some demo_account) 0) ∅.

Lemma demo_stored : stored site inbox_st demo_account 300000.
Proof. split; [by exists [], 0%Z|reflexivity]. Qed.

Lemma countdown_never_early_witness :
  (countdown_run 4 site 295000 (mount site inbox_st 294500).1 inbox_st).2 = inbox_st.
Proof.
  exact (countdown_never_early site inbox_st demo_account 300000 295000 _ 4 demo_stored
           ltac:(simpl; lia)).
Defined.

(** Mounted 2.5 s before the expiry: three ticks clear the record. *)
Lemma countdown_clears_once_witness :
  let '(fi, st') := countdown_run 3 site (297500 + 1000) (mount site inbox_st 297500).1
                      (mount site inbox_st 297500).2 in
  loadFiveMinEmailData site st' = None /\ fi_toasts fi = [FIAccountExpired].
Proof.
  exact (countdown_clears_once site inbox_st demo_account 300000 297500 3 demo_stored
           ltac:(lia) ltac:(vm_compute; discriminate)).
Defined.

Lemma poll_checks_witness :
  fi_checks (poll_run 12 site ∅ 200 (mount_check site ∅ 0 initial_finbox)) = 11%nat.
Proof. exact (proj1 (poll_checks site ∅ 0 12)). Defined.

End FiveMinInbox.
