(* ===== verification/Locale.v ===== *)
(** * Locale: the locale fallback of the layout and the language switch

    [app/[locale]/layout.tsx] (line 31) falls back to English for a locale
    segment it does not support; [components/language-switcher.tsx]
    (lines 14-31) and [components/footer.tsx] (lines 21-34) switch
    language by removing the first occurrence of ["/" + locale] from the
    path and prefixing the new locale.  The file models these as string
    functions and proves that the fallback always yields a supported
    locale, that switching language and back restores the path, and that
    a path whose segment is not the active locale keeps that segment. *)

From S2P Require Import Prelude JsString.

Module Locale.

(** [['en','es']] *)
Definition SUPPORTED : list string := ["en"; "es"].

(** [(['en','es'].includes(locale) ? locale : 'en')] *)
Definition safeLocale (locale : string) : string :=
  if existsb (String.eqb locale) SUPPORTED then locale else "en".

(** The [languages] table of the switcher and the footer. *)
Record Language := mkLanguage { lang_code : string; lang_name : string }.

Definition languages : list Language :=
  [mkLanguage "en" "English"; mkLanguage "es" "Español"].

(** [languages.find(lang => lang.code === locale)] *)
Definition currentLanguage (locale : string) : option Language :=
  List.find (fun l => String.eqb (lang_code l) locale) languages.

(** [s.replace(pat, rep)] with a string pattern: the first occurrence
    only. *)
Fixpoint js_replace_first (s pat rep : string) : string :=
  if String.prefix pat s then rep +:+ String.substring (String.length pat) (String.length s) s
  else match s with
       | EmptyString => s
       | String c s' => String c (js_replace_first s' pat rep)
       end.

(** [handleLanguageChange(newLocale)] *)
Definition handleLanguageChange (locale pathname newLocale : string) : string :=
  let pathWithoutLocale := js_or (Some (js_replace_first pathname ("/" +:+ locale) "")) "/" in
  "/" +:+ newLocale +:+ pathWithoutLocale.

(** The footer's copy of the same handler. *)
Definition footer_handleLanguageChange (locale pathname newLocale : string) : string :=
  let pathWithoutLocale := js_or (Some (js_replace_first pathname ("/" +:+ locale) "")) "/" in
  "/" +:+ newLocale +:+ pathWithoutLocale.

(** The header's [navigation] (components/header.tsx, lines 22-26). *)
Definition navigation (locale : string) : list string :=
  ["/" +:+ locale; "/" +:+ locale +:+ "/inbox"; "/" +:+ locale +:+ "/5-minutes-temporary-email"].

(** ** Lemmas *)

Lemma prefix_app p r : String.prefix p (p +:+ r) = true.
Proof. induction p as [|c p IH]; simpl; [by destruct r|]. by destruct (ascii_dec c c). Qed.

Lemma substring_0_ge k r : (String.length r <= k)%nat -> String.substring 0 k r = r.
Proof.
  revert k. induction r as [|c r IH]; intros [|k] Hk; simpl in *; try done; [lia|].
  f_equal. apply IH. lia.
Qed.

Lemma substring_skip p r k :
  String.substring (String.length p) k (p +:+ r) = String.substring 0 k r.
Proof. induction p as [|c p IH]; simpl; [done|]. apply IH. Qed.

Lemma substring_app p r :
  String.substring (String.length p) (String.length (p +:+ r)) (p +:+ r) = r.
Proof. rewrite substring_skip. apply substring_0_ge. rewrite string_length_app. lia. Qed.

(** Removing a leading pattern. *)
Lemma js_replace_first_head p r rep :
  js_replace_first (p +:+ r) p rep = rep +:+ r.
Proof.
  destruct p as [|c p]; simpl.
  - assert (E : js_replace_first r "" rep = rep +:+ String.substring 0 (String.length r) r)
      by (destruct r; reflexivity).
    rewrite E, substring_0_ge; done.
  - pose proof (prefix_app (String c p) r) as Hp. simpl in Hp |- *. rewrite Hp.
    f_equal. rewrite substring_skip. apply substring_0_ge. rewrite string_length_app. lia.
Qed.

Lemma handleLanguageChange_head l rest l' :
  rest <> EmptyString ->
  handleLanguageChange l ("/" +:+ l +:+ rest) l' = "/" +:+ l' +:+ rest.
Proof.
  intros Hr. unfold handleLanguageChange.
  rewrite (string_app_assoc "/" l rest), js_replace_first_head. change ("" +:+ rest) with rest.
  by rewrite js_or_some_nonempty.
Qed.

(** ** Theorems *)

(** Switching language and back restores the path: from
    ["/l/rest"] the switch to [l'] goes to ["/l'/rest"] and the switch
    back to ["/l/rest"]; the home page ["/l"] goes to ["/l'/"], after
    which the switches alternate between ["/l'/"] and ["/l/"]. *)
Theorem language_switch_roundtrip l l' r :
  let path := "/" +:+ l +:+ String "/" r in
  handleLanguageChange l path l' = "/" +:+ l' +:+ String "/" r /\
  handleLanguageChange l' (handleLanguageChange l path l') l = path /\
  handleLanguageChange l ("/" +:+ l) l' = "/" +:+ l' +:+ "/" /\
  handleLanguageChange l' ("/" +:+ l' +:+ "/") l = "/" +:+ l +:+ "/".
Proof.
  intros path. subst path.
  assert (Hne : String "/" r <> EmptyString) by done.
  split; [by apply handleLanguageChange_head|].
  split; [rewrite !handleLanguageChange_head; done|].
  split; [|by apply handleLanguageChange_head].
  unfold handleLanguageChange.
  assert (E : js_replace_first ("/" +:+ l) ("/" +:+ l) "" = "")
    by (rewrite <- (string_app_nil_r ("/" +:+ l)) at 1; apply js_replace_first_head).
  by rewrite E.
Qed.

(** The layout always renders a supported locale: [safeLocale] is
    one of ["en"] and ["es"], keeps a supported locale, and the switcher
    finds a language entry for it. *)
Theorem safeLocale_supported l :
  In (safeLocale l) SUPPORTED /\ (In l SUPPORTED -> safeLocale l = l) /\
  exists lang, currentLanguage (safeLocale l) = Some lang /\ lang_code lang = safeLocale l.
Proof.
  unfold safeLocale, SUPPORTED, currentLanguage. simpl.
  destruct (String.eqb_spec l "en") as [->|Hen]; simpl.
  { split; [auto|]. split; [done|]. eexists; split; reflexivity. }
  destruct (String.eqb_spec l "es") as [->|Hes]; simpl.
  { split; [auto|]. split; [done|]. eexists; split; reflexivity. }
  split; [auto|]. split; [intros [?|[?|[]]]; congruence|]. eexists; split; reflexivity.
Qed.

(** A path whose locale segment is not the active one keeps it: on
    ["/fr/inbox"] the layout falls back to ["en"], and switching to
    Spanish goes to ["/es/fr/inbox"]. *)
Example unsupported_locale_switch :
  safeLocale "fr" = "en" /\ handleLanguageChange (safeLocale "fr") "/fr/inbox" "es" = "/es/fr/inbox".
Proof. split; reflexivity. Qed.

(** Witnesses. *)
Lemma safeLocale_supported_witness : safeLocale "es" = "es".
Proof. exact (proj1 (proj2 (safeLocale_supported "es")) (or_intror (or_introl eq_refl))). Defined.

End Locale.
