(* ===== verification/StorageWf.v ===== *)
(** * StorageWf: the shape of the two localStorage records

    The two records of src/lib/email-service.ts are written by five
    places of the program: the home page's generator
    (src/components/email-generator.tsx: [initializeAccount],
    [generateNewAccount]), the 5-minute page
    (src/app/[locale]/5-minutes-temporary-email/page.tsx:
    [initializeAccount], [generateNewEmail], the countdown [tick]) and
    the 5-minute inbox (its countdown and its mount effect).  [app_step]
    is one of them run on the storage, or a write of another script of
    the origin (another key, or text that does not parse under ours).

    The invariant [storage_wf] says what [EmailAccount]'s optional fields
    hold in each record: under the regular key an account with
    [is5Min = false] and no [expires_at]; under the 5-minute key one with
    [is5Min = true] expiring five minutes after its creation.  Every step
    keeps it, so it holds in every storage reachable from an empty one;
    the 5-minute inbox's [NaN] countdown is then unreachable. *)

From S2P Require Import Prelude JsString EmailService Generator FiveMinPage FiveMinInbox.
From stdpp Require Import gmap relations.

Module StorageWf.

(** ** The invariant *)

Definition account_wfb (is5 : bool) (a : EmailAccount) : bool :=
  bool_decide (acc_is_5min a = Some is5 /\ acc_expires_at a = expiry_for is5 (acc_created_at a)).

(** A record is well formed when its account, if any, is. *)
Definition slot_wf (is5 : bool) (o : option SiteEmailData) : bool :=
  match o with
  | Some (mkSiteData _ (Some a) _) => account_wfb is5 a
  | _ => true
  end.

Definition storage_wf (w : option Window) (st : Storage) : bool :=
  slot_wf false (loadEmailData w st) && slot_wf true (loadFiveMinEmailData w st).

(** ** The writers of the storage *)

Inductive app_step (w : option Window) : Storage -> Storage -> Prop :=
| step_generator_mount st inp g :
    app_step w st (Generator.initializeAccount w st inp g).2
| step_generator_new st inp g :
    app_step w st (Generator.generateNewAccount w st inp g).2
| step_five_mount st r inp f :
    app_step w st (FiveMin.initializeAccount w st r inp f).2
| step_five_new st r inp f :
    app_step w st (FiveMin.generateNewEmail w st r inp f).2
| step_five_tick st now r f :
    app_step w st (FiveMin.tick w now r f st).2
| step_inbox_mount st t0 :
    app_step w st (FiveMinInbox.mount w st t0).2
| step_inbox_countdown st now fi :
    app_step w st (FiveMinInbox.countdown_tick w now fi st).2
| step_cleanup st now r1 r2 :
    app_step w st (cleanupExpiredAccounts w now r1 r2 st)
| step_foreign st k v :
    k <> getSiteKey w -> k <> getFiveMinSiteKey w -> app_step w st (<[k := v]> st)
| step_corrupt st k text :
    app_step w st (<[k := StoredGarbage text]> st).

(** ** Lemmas *)

Lemma createEmailAccount_wf email pw is5 now resp :
  account_wfb is5 (createEmailAccount email pw is5 now resp) = true.
Proof. unfold account_wfb. apply bool_decide_eq_true. by destruct resp. Qed.

Lemma slot_save key w d st b :
  slot_wf b (Some d) = true -> slot_wf b (load_at key w (save_at key w d st)) = true.
Proof. destruct w; [|done]. intros H. by rewrite load_save_same. Qed.

Lemma slot_clear key w st b : slot_wf b (load_at key w (clear_at key w st)) = true.
Proof. destruct w; [|done]. simpl. by rewrite lookup_delete_eq. Qed.

Lemma load_clear_other key key' w st :
  key w <> key' w -> load_at key' w (clear_at key w st) = load_at key' w st.
Proof. destruct w; [|done]. intros Hne. simpl. by rewrite lookup_delete_ne. Qed.

Lemma load_insert_other key w k v st :
  k <> key w -> load_at key w (<[k := v]> st) = load_at key w st.
Proof. destruct w; [|done]. intros Hne. simpl. by rewrite lookup_insert_ne. Qed.

Lemma slot_garbage key w k text st b :
  slot_wf b (load_at key w st) = true ->
  slot_wf b (load_at key w (<[k := StoredGarbage text]> st)) = true.
Proof.
  destruct w; [|done]. simpl. destruct (decide (k = key (Some w))) as [->|Hne].
  - by rewrite lookup_insert_eq.
  - by rewrite lookup_insert_ne.
Qed.

Lemma save_regular_wf w d st :
  slot_wf false (Some d) = true -> storage_wf w st = true ->
  storage_wf w (saveEmailData w d st) = true.
Proof.
  unfold storage_wf. intros Hd (_ & H5)%andb_true_iff. rewrite save_other_regular, H5.
  apply andb_true_intro. split; [exact (slot_save getSiteKey w d st false Hd)|done].
Qed.

Lemma save_five_wf w d st :
  slot_wf true (Some d) = true -> storage_wf w st = true ->
  storage_wf w (saveFiveMinEmailData w d st) = true.
Proof.
  unfold storage_wf. intros Hd (Hr & _)%andb_true_iff. rewrite save_other_five_min, Hr.
  exact (slot_save getFiveMinSiteKey w d st true Hd).
Qed.

Lemma clear_regular_wf w st : storage_wf w st = true -> storage_wf w (clearEmailData w st) = true.
Proof.
  unfold storage_wf. intros (_ & H5)%andb_true_iff.
  apply andb_true_intro. split; [exact (slot_clear getSiteKey w st false)|].
  change (slot_wf true (load_at getFiveMinSiteKey w (clear_at getSiteKey w st)) = true).
  rewrite load_clear_other; [exact H5|apply site_keys_distinct].
Qed.

Lemma clear_five_wf w st : storage_wf w st = true -> storage_wf w (clearFiveMinEmailData w st) = true.
Proof.
  unfold storage_wf. intros (Hr & _)%andb_true_iff.
  apply andb_true_intro. split; [|exact (slot_clear getFiveMinSiteKey w st true)].
  change (slot_wf false (load_at getSiteKey w (clear_at getFiveMinSiteKey w st)) = true).
  rewrite load_clear_other; [exact Hr|intros E; by apply (site_keys_distinct w)].
Qed.

Lemma create_and_save_regular_wf w st inp r st' :
  create_and_save saveEmailData false w st inp = (r, st') ->
  storage_wf w st = true -> storage_wf w st' = true.
Proof.
  unfold create_and_save. intros E Hw. repeat case_match; simplify_eq; try done.
  apply save_regular_wf; [apply createEmailAccount_wf|done].
Qed.

Lemma create_and_save_five_wf w st inp r st' :
  create_and_save saveFiveMinEmailData true w st inp = (r, st') ->
  storage_wf w st = true -> storage_wf w st' = true.
Proof.
  unfold create_and_save. intros E Hw. repeat case_match; simplify_eq; try done.
  apply save_five_wf; [apply createEmailAccount_wf|done].
Qed.

Lemma initializeEmailAccount_wf w st inp r st' :
  initializeEmailAccount w st inp = (r, st') -> storage_wf w st = true -> storage_wf w st' = true.
Proof.
  unfold initializeEmailAccount. intros E Hw.
  repeat case_match; simplify_eq; eauto using create_and_save_regular_wf.
Qed.

Lemma initialize5MinEmailAccount_wf w st inp r st' :
  initialize5MinEmailAccount w st inp = (r, st') -> storage_wf w st = true -> storage_wf w st' = true.
Proof.
  unfold initialize5MinEmailAccount. intros E Hw.
  repeat case_match; simplify_eq; eauto using create_and_save_five_wf.
Qed.

Lemma cleanupExpired5MinAccounts_wf w now r st :
  storage_wf w st = true -> storage_wf w (cleanupExpired5MinAccounts w now r st) = true.
Proof.
  unfold cleanupExpired5MinAccounts, cleanup_at. intros Hw.
  repeat case_match; simplify_eq; try done. by apply save_five_wf.
Qed.

Lemma cleanupExpiredAccounts_wf w now r1 r2 st :
  storage_wf w st = true -> storage_wf w (cleanupExpiredAccounts w now r1 r2 st) = true.
Proof.
  intros Hw. apply cleanupExpired5MinAccounts_wf.
  unfold cleanup_at. repeat case_match; simplify_eq; try done. by apply save_regular_wf.
Qed.

#[local] Hint Resolve initializeEmailAccount_wf initialize5MinEmailAccount_wf
  cleanupExpired5MinAccounts_wf clear_regular_wf clear_five_wf : dm.

(** Every writer keeps the invariant. *)
Lemma app_step_wf w st st' : app_step w st st' -> storage_wf w st = true -> storage_wf w st' = true.
Proof.
  intros Hs Hw. destruct Hs as [st inp g|st inp g|st r inp f|st r inp f|st now r f|st t0
                               |st now fi|st now r1 r2|st k v Hk1 Hk2|st k text].
  - unfold Generator.initializeAccount. repeat case_match; simplify_eq/=; eauto with dm.
  - unfold Generator.generateNewAccount. repeat case_match; simplify_eq/=; eauto with dm.
  - unfold FiveMin.initializeAccount. repeat case_match; simplify_eq/=; eauto with dm.
  - unfold FiveMin.generateNewEmail. repeat case_match; simplify_eq/=; eauto with dm.
  - unfold FiveMin.tick, FiveMin.handleAccountExpiry. repeat case_match; simplify_eq/=; eauto with dm.
  - unfold FiveMinInbox.mount, FiveMinInbox.countdown_effect. repeat case_match; simplify_eq/=; eauto with dm.
  - unfold FiveMinInbox.countdown_tick, FiveMinInbox.countdown_update, FiveMinInbox.countdown_effect.
    repeat case_match; simplify_eq/=; eauto 6 with dm.
  - by apply cleanupExpiredAccounts_wf.
  - unfold storage_wf, loadEmailData, loadFiveMinEmailData.
    by rewrite !load_insert_other by done.
  - unfold storage_wf in *. apply andb_true_iff in Hw as [Hr H5].
    unfold loadEmailData, loadFiveMinEmailData in *. by rewrite !slot_garbage.
Qed.

Lemma storage_wf_empty w : storage_wf w ∅ = true.
Proof. by destruct w. Qed.

Lemma rtc_app_step_wf w st st' :
  rtc (app_step w) st st' -> storage_wf w st = true -> storage_wf w st' = true.
Proof. induction 1; eauto using app_step_wf. Qed.

(** ** Theorems *)

(** C16. The shape of the stored accounts: in every storage the program
    can reach from an empty one, whatever the server answers, the draws
    and the clock, and whatever other scripts of the origin write, the
    regular record's account has [is5Min = false] and no [expires_at],
    and the 5-minute record's account has [is5Min = true] and expires
    exactly [FIVE_MINUTES_MS] after its [created_at]. *)
Theorem reachable_storage_wf w st : rtc (app_step w) ∅ st -> storage_wf w st = true.
Proof. intros H. apply (rtc_app_step_wf w ∅ st H), storage_wf_empty. Qed.

Lemma five_slot_expiry w st a ds lu :
  storage_wf w st = true -> loadFiveMinEmailData w st = Some (mkSiteData ds (Some a) lu) ->
  acc_expires_at a = Some (acc_created_at a + FIVE_MINUTES_MS)%Z.
Proof.
  unfold storage_wf. intros (_ & H5)%andb_true_iff Hl. rewrite Hl in H5.
  apply bool_decide_eq_true in H5 as [_ ->]. done.
Qed.

(** The 5-minute inbox never shows the [NaN] countdown: in a
    reachable storage, when its account check finds the 5-minute
    account, [timeLeft] becomes the whole seconds left until five
    minutes after the account's creation, floored at 0 (a number, never
    [NaN]). *)
Theorem inbox_timeLeft_defined w st now fi :
  rtc (app_step w) ∅ st -> FiveMinInbox.has_account w st = true ->
  exists ds a lu, loadFiveMinEmailData w st = Some (mkSiteData ds (Some a) lu) /\
    FiveMinInbox.fi_timeLeft (FiveMinInbox.checkEmailAccount w st now fi) =
      Some (Z.max 0 ((acc_created_at a + FIVE_MINUTES_MS - now) / 1000)).
Proof.
  intros Hr Hh. pose proof (rtc_app_step_wf w ∅ st Hr (storage_wf_empty w)) as Hw.
  unfold FiveMinInbox.has_account in Hh. unfold FiveMinInbox.checkEmailAccount.
  destruct (loadFiveMinEmailData w st) as [[ds [a|] lu]|] eqn:Hl; try done.
  exists ds, a, lu. split; [done|]. simpl. unfold FiveMinInbox.remaining_of.
  by rewrite (five_slot_expiry w st a ds lu Hw Hl).
Qed.

(** ** Witnesses *)

(** The storage after the 5-minute page's button, on a fresh origin. *)
Definition five_created : Storage :=
  (FiveMin.generateNewEmail site ∅ DeleteOk (demo_inputs 0 DomainsThrew) FiveMin.initial_five).2.

Lemma five_created_reachable : rtc (app_step site) ∅ five_created.
Proof. apply rtc_once, step_five_new. Qed.

Lemma reachable_storage_wf_witness : storage_wf site five_created = true.
Proof. exact (reachable_storage_wf site five_created five_created_reachable). Defined.

Lemma inbox_timeLeft_defined_witness :
  FiveMinInbox.has_account site five_created = true /\
  exists ds a lu, loadFiveMinEmailData site five_created = Some (mkSiteData ds (Some a) lu) /\
    FiveMinInbox.fi_timeLeft (FiveMinInbox.checkEmailAccount site five_created 1000 FiveMinInbox.initial_finbox) =
      Some (Z.max 0 ((acc_created_at a + FIVE_MINUTES_MS - 1000) / 1000)).
Proof.
  assert (H : FiveMinInbox.has_account site five_created = true) by (vm_compute; reflexivity).
  split; [exact H|].
  exact (inbox_timeLeft_defined site five_created 1000 FiveMinInbox.initial_finbox
           five_created_reachable H).
Defined.

End StorageWf.
