(* ===== verification/InboxRender.v ===== *)
(** * InboxRender: what the inbox page renders, and its pagination

    The JSX of src/app/[locale]/inbox/page.tsx (lines 502-716) as a
    function of the page's state: the search filter computed before the
    early return (line 502), the "no account" card (lines 508-532), the
    account header with the WebSocket indicator (lines 537-580), the list
    card with its count and status badge (lines 583-603), the list body
    (lines 624-675), and the pagination bar (lines 679-716).  A render
    that throws is [None].  Translated texts are [Tr key].

    The user can only click what is rendered: a pagination click is
    resolved against the rendered bar, and leads to [handlePageChange]
    and the effect it triggers ([InboxView.change_page]).  The two
    buttons of the header ([copyEmailAddress], lines 471-478, and
    [refreshEmailAccount], lines 480-500) are handlers of their own, as
    are [copyEmailId] (lines 462-469, never wired), a row's click
    ([handleEmailClick], lines 408-410) and the dialog's close and
    delete (lines 718-729); the mount effect asking for the notification
    permission is [requests_permission] (lines 345-350).

    Theorems: the page number never drops below 1 whatever the user and
    the server do; a click on a rendered bar whose data belongs to the
    current page stays within [1, totalPages], but with stale data (a
    throttled or pending load) "Next" goes past the last page; the two
    WebSocket indicators follow the client's status, and a REST-only
    client shows "No WS" forever. *)

From S2P Require Import Prelude JsString EventLoop Dedup NotifClient InboxPage EmailService InboxView.
From stdpp Require Import list.

Module InboxRender.
Import InboxView.

(** ** Rendered data *)

(** A text node: a literal, or [t(key)]. *)
Inductive Text := Lit (s : string) | Tr (key : string).

(** [s || fallback] for a string [s]. *)
Definition or_text (s : string) (fallback : Text) : Text :=
  if String.eqb s "" then fallback else Lit s.

(** The three branches of [formatDate] (lines 378-397): a time of day
    under 24 hours, a weekday under 7 days, otherwise month and day.
    [diffInHours < 24] is compared on milliseconds, where it is exact. *)
Inductive DateFmt := FmtTime (d : Z) | FmtWeekday (d : Z) | FmtMonthDay (d : Z).

Definition formatDate (now date : Z) : DateFmt :=
  if (now - date <? 24 * 3600000)%Z then FmtTime date
  else if (now - date <? 168 * 3600000)%Z then FmtWeekday date
  else FmtMonthDay date.

(** One row of the list (lines 636-672). *)
Record Row := mkRow {
  row_key : Z;
  row_sender : string;
  row_unread : bool;
  row_attachment : bool;
  row_subject : Text;
  row_preview : Text;
  row_date : DateFmt;
  row_folder : string
}.

Definition render_row (noSubject noPreview : Text) (now : Z) (e : Email) : option Row :=
  match getSenderName e with
  | None => None
  | Some n =>
      Some (mkRow (em_id e) n (String.eqb (em_is_seen e) "0") (em_have_attachments e)
                  (or_text (em_subject e) noSubject) (or_text (em_body e) noPreview)
                  (formatDate now (em_date e)) (em_folder e))
  end.

Inductive ListView := LVLoading | LVEmpty | LVRows (rows : list Row).

(** The list body (lines 624-675); the texts shown for an empty subject
    and body are parameters. *)
Definition list_view (noSubject noPreview : Text) (now : Z) (isLoading : bool) (fe : list Email)
    : option ListView :=
  if isLoading then Some LVLoading
  else match fe with
       | [] => Some LVEmpty
       | _ => LVRows <$> mapM (render_row noSubject noPreview now) fe
       end.

(** The WebSocket indicator of the header (lines 550-567) and the badge
    of the list card (lines 594-598). *)
Inductive WsLabel := WsNoWs | WsLive | WsConnecting.

Definition ws_indicator (s : ConnectionStatus) : WsLabel :=
  if negb (isEnabled s) then WsNoWs else if isConnected s then WsLive else WsConnecting.

Definition ws_badge (s : ConnectionStatus) : option WsLabel :=
  if isEnabled s then Some (if isConnected s then WsLive else WsConnecting) else None.

(** [pagination?.totalItems || 0] (line 591). *)
Definition email_count (p : Page) : Z :=
  match pg_pagination p with Some d => pd_totalItems d | None => 0%Z end.

(** The pagination bar (lines 679-716): "previous" disabled on page 1,
    one button per page with the current one highlighted, "next"
    disabled when the server said there is no next page. *)
Record Pager := mkPager {
  pv_prev_disabled : bool;
  pv_pages : list (Z * bool);
  pv_next_disabled : bool
}.

Definition pager (p : Page) : option Pager :=
  match pg_pagination p with
  | Some d =>
      if (1 <? pd_totalPages d)%Z then
        Some (mkPager (Z.eqb (pg_currentPage p) 1)
                      (map (fun i => (i, Z.eqb (pg_currentPage p) i)) (seqZ 1 (pd_totalPages d)))
                      (negb (pd_hasNextPage d)))
      else None
  | None => None
  end.

Inductive View :=
| VNoAccount
| VMain (email : option string) (ws : WsLabel) (count : Z) (badge : option WsLabel)
        (list : ListView) (bar : option Pager).

(** The whole render: [filteredEmails] runs first, so it may throw even
    on the "no account" card. *)
Definition render (w : option Window) (st : Storage) (now : Z) (p : Page) : option View :=
  match filteredEmails p with
  | None => None
  | Some fe =>
      if negb (pg_hasEmailAccount p) then Some VNoAccount
      else match list_view (Tr "inbox.noSubject") (Tr "inbox.noPreview") now (pg_isLoading p) fe with
           | None => None
           | Some lv =>
               Some (VMain (env_email (inbox_env w st)) (ws_indicator (pg_wsStatus p)) (email_count p)
                           (ws_badge (pg_wsStatus p)) lv (pager p))
           end
  end.

(** ** Pagination clicks *)

Inductive PagerClick := ClickPrev | ClickPage (n : Z) | ClickNext.

(** The page a click on the rendered bar asks for; [None] when the
    button is not there or is disabled. *)
Definition pager_target (c : PagerClick) (v : option View) (current : Z) : option Z :=
  match v with
  | Some (VMain _ _ _ _ _ (Some bar)) =>
      match c with
      | ClickPrev => if pv_prev_disabled bar then None else Some (current - 1)%Z
      | ClickPage n => if existsb (fun b => Z.eqb b.1 n) (pv_pages bar) then Some n else None
      | ClickNext => if pv_next_disabled bar then None else Some (current + 1)%Z
      end
  | _ => None
  end.

Definition pager_click (w : option Window) (st : Storage) (now : Z) (c : PagerClick) (p : Page)
    : Page :=
  match pager_target c (render w st now p) (pg_currentPage p) with
  | Some n => change_page w st now n p
  | None => p
  end.

(** Whether the rendered bar's "next" button is enabled. *)
Definition next_enabled (w : option Window) (st : Storage) (now : Z) (p : Page) : bool :=
  match render w st now p with
  | Some (VMain _ _ _ _ _ (Some bar)) => negb (pv_next_disabled bar)
  | _ => false
  end.

(** [data?.currentAccount] of the account check (line 332). *)
Definition account_stored (w : option Window) (st : Storage) : bool :=
  match loadEmailData w st with Some (mkSiteData _ (Some _) _) => true | _ => false end.

(** ** The header buttons *)

Inductive Notice := NoticeEmailCopied | NoticeIdCopied | NoticeAccountRefreshed | NoticeNoAccount.

(** [copyEmailAddress]: the clipboard write and its toast, when the
    address is not empty. *)
Definition copyEmailAddress (w : option Window) (st : Storage) : option (string * Notice) :=
  match js_present (env_email (inbox_env w st)) with
  | Some em => Some (em, NoticeEmailCopied)
  | None => None
  end.

(** [copyEmailId] (lines 462-469): the account id and its toast, when
    there is one; no element of the render calls it. *)
Definition copyEmailId (w : option Window) (st : Storage) : option (string * Notice) :=
  match js_present (env_accountId (inbox_env w st)) with
  | Some id => Some (id, NoticeIdCopied)
  | None => None
  end.

(** The mount effect of lines 345-350: [Notification.requestPermission()]
    runs when the browser has the API and the permission is still
    ["default"].  Nothing in src/ creates a system notification: new
    mail is announced by toasts only. *)
Inductive Permission := PermDefault | PermGranted | PermDenied.

Definition requests_permission (has_api : bool) (perm : Permission) : bool :=
  has_api && match perm with PermDefault => true | _ => false end.

(** [handleEmailClick] (lines 408-410), a row's [onClick] (line 640):
    the message is loaded into the dialog. *)
Definition handleEmailClick (env : Env) (res : FullEmailResult) (p : Page) : Page :=
  loadFullEmail env res p.

(** [refreshEmailAccount]: it reads the record twice; the second read
    sees the same storage, so its test always holds. *)
Definition refreshEmailAccount (w : option Window) (st : Storage) (now : Z) (p : Page)
    : Page * option Notice :=
  match loadEmailData w st with
  | Some (mkSiteData _ (Some _) _) =>
      let p := set_hasEmailAccount true p in
      match loadEmailData w st with
      | Some (mkSiteData _ (Some _) _) =>
          (loadEmails (inbox_env w st) now ContNone (set_hasEmailAccount true p),
           Some NoticeAccountRefreshed)
      | _ => (p, None)
      end
  | _ => (set_hasEmailAccount false p, Some NoticeNoAccount)
  end.

(** ** What the user and the server do to the page *)

Inductive UiEvent :=
| UiClick (c : PagerClick) (now : Z)
| UiLoaded (r : Request) (res : FetchResult)
| UiSearch (term : string)
| UiRefresh (now : Z)
| UiRefreshAccount (now : Z)
| UiOpenEmail (res : FullEmailResult)
| UiCloseModal
| UiDeleteInModal (res : DeleteEmailResult).

Definition ui_step (w : option Window) (st : Storage) (e : UiEvent) (p : Page) : Page :=
  match e with
  | UiClick c now => pager_click w st now c p
  | UiLoaded r res => loadEmails_finish (inbox_env w st) r res p
  | UiSearch term => set_searchTerm term p
  | UiRefresh now => handleRefresh (inbox_env w st) now p
  | UiRefreshAccount now => (refreshEmailAccount w st now p).1
  | UiOpenEmail res => handleEmailClick (inbox_env w st) res p
  | UiCloseModal => onClose p
  | UiDeleteInModal res =>
      modal_handleDelete (pg_emails p) (pg_fullEmail p) (env_accountId (inbox_env w st)) res p
  end.

Fixpoint ui_run (w : option Window) (st : Storage) (evs : list UiEvent) (p : Page) : Page :=
  match evs with
  | [] => p
  | e :: evs => ui_run w st evs (ui_step w st e p)
  end.

(** ** Lemmas *)

Lemma filter_throw_Some {A} (f : A -> option bool) l r :
  filter_throw f l = Some r ->
  (forall x, In x l -> f x <> None) /\ (forall x, In x r <-> In x l /\ f x = Some true).
Proof.
  revert r. induction l as [|y l IH]; intros r; simpl.
  - intros [= <-]. split; [done|]. intros x. simpl. tauto.
  - destruct (f y) as [b|] eqn:Hy; [|done].
    destruct (filter_throw f l) as [r'|]; [|done]. intros [= <-].
    destruct (IH r' eq_refl) as [Hn Hr]. split.
    + intros x [<-|Hx]; [congruence|auto].
    + intros x. destruct b; simpl; rewrite Hr; split; intuition (subst; try congruence; auto).
Qed.

Lemma mapM_None {A B} (f : A -> option B) l :
  mapM f l = None <-> exists x, In x l /\ f x = None.
Proof.
  induction l as [|x l IH]; simpl.
  - split; [done|]. by intros (? & [] & _).
  - destruct (f x) eqn:Hx; simpl.
    + destruct (mapM f l) eqn:Hl; simpl.
      * split; [done|]. intros (y & [<-|Hy] & Hn); [congruence|].
        pose proof (proj2 IH (ex_intro _ y (conj Hy Hn))). congruence.
      * split; [|done]. intros _. destruct (proj1 IH eq_refl) as (y & ? & ?). eauto.
    + split; [|done]. eauto.
Qed.

Lemma render_row_none ns np now e : render_row ns np now e = None <-> em_from_headers e = [].
Proof. unfold render_row, getSenderName. by destruct (em_from_headers e). Qed.

(** The bar the user clicks is the one [pager] computed. *)
Lemma render_bar w st now p e ws n b lv bar :
  render w st now p = Some (VMain e ws n b lv (Some bar)) -> pager p = Some bar.
Proof.
  unfold render. destruct (filteredEmails p); [|done].
  destruct (negb _); [done|]. destruct (list_view _ _ _); [|done]. by intros [= _ _ _ _ _ ->].
Qed.

Lemma pager_some p bar :
  pager p = Some bar ->
  exists d, pg_pagination p = Some d /\ (1 < pd_totalPages d)%Z /\
    pv_prev_disabled bar = Z.eqb (pg_currentPage p) 1 /\
    map fst (pv_pages bar) = seqZ 1 (pd_totalPages d) /\
    pv_next_disabled bar = negb (pd_hasNextPage d).
Proof.
  unfold pager. destruct (pg_pagination p) as [d|]; [|done].
  destruct (1 <? pd_totalPages d)%Z eqn:Ht; [|done]. intros [= <-].
  exists d. rewrite Z.ltb_lt in Ht. do 3 (split; [done|]). split; [|done].
  simpl. rewrite map_map. simpl. by rewrite map_id.
Qed.

Lemma in_pages bar n :
  existsb (fun b => Z.eqb b.1 n) (pv_pages bar) = true -> In n (map fst (pv_pages bar)).
Proof.
  intros (b & Hb & Heq)%existsb_exists. apply Z.eqb_eq in Heq. subst n.
  by apply in_map.
Qed.

(** What a click asks for, read off the rendered bar. *)
Lemma pager_target_spec w st now c p n :
  pager_target c (render w st now p) (pg_currentPage p) = Some n ->
  exists d, pg_pagination p = Some d /\ (1 < pd_totalPages d)%Z /\
    match c with
    | ClickPrev => pg_currentPage p <> 1%Z /\ n = (pg_currentPage p - 1)%Z
    | ClickPage m => n = m /\ (1 <= m <= pd_totalPages d)%Z
    | ClickNext => pd_hasNextPage d = true /\ n = (pg_currentPage p + 1)%Z
    end.
Proof.
  unfold pager_target. destruct (render w st now p) as [[|e ws k b lv [bar|]]|] eqn:Hr; try done.
  destruct (pager_some p bar (render_bar _ _ _ _ _ _ _ _ _ _ Hr)) as (d & Hd & Ht & Hp & Hs & Hn).
  intros Hc. exists d. do 2 (split; [done|]). destruct c as [|m|].
  - rewrite Hp in Hc. destruct (Z.eqb_spec (pg_currentPage p) 1); [done|]. by injection Hc.
  - destruct (existsb _ _) eqn:He; [|done]. injection Hc as <-. split; [done|].
    apply in_pages in He. rewrite Hs in He. apply list_elem_of_In, elem_of_seqZ in He. lia.
  - rewrite Hn in Hc. destruct (pd_hasNextPage d); [|done]. by injection Hc.
Qed.

Lemma run_cont_currentPage k p : pg_currentPage (run_cont k p) = pg_currentPage p.
Proof. by destruct k. Qed.

Lemma loadEmails_currentPage env now k p : pg_currentPage (loadEmails env now k p) = pg_currentPage p.
Proof.
  unfold loadEmails. destruct (js_present _); [case_if|]; by rewrite ?run_cont_currentPage.
Qed.

Lemma change_page_currentPage w st now n p : pg_currentPage (change_page w st now n p) = n.
Proof.
  unfold change_page, checkEmailAccount, handlePageChange.
  destruct (loadEmailData w st) as [[? [?|] ?]|]; by rewrite ?loadEmails_currentPage.
Qed.

Lemma ui_step_currentPage w st e p :
  pg_currentPage (ui_step w st e p) = pg_currentPage p \/
  exists c now n, e = UiClick c now /\
    pager_target c (render w st now p) (pg_currentPage p) = Some n /\
    pg_currentPage (ui_step w st e p) = n.
Proof.
  destruct e as [c now|r res|term|now|now|res| |res]; cbn [ui_step].
  - unfold pager_click. destruct (pager_target _ _ _) as [n|] eqn:Ht; [|by left].
    right. exists c, now, n. by rewrite change_page_currentPage.
  - left. unfold loadEmails_finish. rewrite run_cont_currentPage. by destruct res.
  - by left.
  - left. unfold handleRefresh. by rewrite loadEmails_currentPage.
  - left. unfold refreshEmailAccount.
    destruct (loadEmailData w st) as [[? [?|] ?]|]; cbn [fst]; by rewrite ?loadEmails_currentPage.
  - left. unfold handleEmailClick, loadFullEmail. destruct (js_present _); [|done]. by destruct res.
  - by left.
  - left. unfold modal_handleDelete.
    destruct (pg_fullEmail p), (js_present (env_accountId (inbox_env w st))); try done.
    by destruct res.
Qed.

Section Poll.
Context {C : Type} `{NotificationApiLaws C}.

(** A status poll copies the client's availability into the page and
    keeps it in the client it leaves. *)
Lemma updateConnectionStatus_enabled env p c :
  isEnabled (pg_wsStatus (updateConnectionStatus env p c).1) = api_available c /\
  api_available (updateConnectionStatus env p c).2 = api_available c.
Proof.
  unfold updateConnectionStatus. rewrite <- !law_status_enabled.
  destruct (js_present (env_accountId env)), (js_present (env_email env)); try case_if;
    split; try done; simpl.
  by rewrite law_join_status, law_authenticate_status.
Qed.

Lemma poll_n_enabled k env p c :
  isEnabled (pg_wsStatus (poll_n (S k) env p c).1) = api_available c.
Proof.
  revert p c. induction k as [|k IH]; intros p c; simpl.
  - destruct (updateConnectionStatus env p c) as [p' c'] eqn:E.
    pose proof (updateConnectionStatus_enabled env p c) as [H1 _]. by rewrite E in H1.
  - destruct (updateConnectionStatus env p c) as [p' c'] eqn:E.
    pose proof (updateConnectionStatus_enabled env p c) as [_ H2]. rewrite E in H2. simpl in H2.
    rewrite <- H2. apply IH.
Qed.

End Poll.

Lemma ws_labels_disabled s : isEnabled s = false -> ws_indicator s = WsNoWs /\ ws_badge s = None.
Proof. unfold ws_indicator, ws_badge. by intros ->. Qed.

Lemma list_view_none ns np now fe :
  list_view ns np now false fe = None <-> exists e, In e fe /\ em_from_headers e = [].
Proof.
  unfold list_view. destruct fe as [|e fe].
  - split; [done|]. by intros (? & [] & _).
  - transitivity (exists x, In x (e :: fe) /\ render_row ns np now x = None).
    + rewrite <- mapM_None. by destruct (mapM _ _).
    + by setoid_rewrite render_row_none.
Qed.

(** ** Theorems *)

(** C33. The page number stays positive: from a page number of at least
    1, whatever the user clicks on the rendered pagination bar, searches
    or refreshes, and whatever the server answers, in any order, the
    page number is still at least 1 ("previous" is disabled on page 1,
    the page buttons are 1..totalPages, "next" only increases it). *)
Theorem currentPage_positive w st evs p :
  (1 <= pg_currentPage p)%Z -> (1 <= pg_currentPage (ui_run w st evs p))%Z.
Proof.
  revert p. induction evs as [|e evs IH]; intros p Hp; simpl; [done|]. apply IH.
  destruct (ui_step_currentPage w st e p) as [->|(c & now & n & -> & Ht & ->)]; [done|].
  destruct (pager_target_spec w st now c p n Ht) as (d & _ & _ & Hc).
  destruct c; lia.
Qed.

(** Clicks on a bar that describes the current page stay in range:
    when the pagination data is the current page's ([hasNextPage]
    exactly when it is not the last), a click on the rendered bar
    leaves the page number between 1 and [totalPages]. *)
Theorem pager_click_in_range w st now c p d :
  pg_pagination p = Some d ->
  pd_hasNextPage d = (pg_currentPage p <? pd_totalPages d)%Z ->
  (1 <= pg_currentPage p <= pd_totalPages d)%Z ->
  (1 <= pg_currentPage (pager_click w st now c p) <= pd_totalPages d)%Z.
Proof.
  intros Hd Hn Hr. unfold pager_click.
  destruct (pager_target c (render w st now p) (pg_currentPage p)) as [n|] eqn:Ht; [|done].
  rewrite change_page_currentPage.
  destruct (pager_target_spec w st now c p n Ht) as (d' & Hd' & _ & Hc).
  rewrite Hd in Hd'. injection Hd' as <-.
  destruct c; [lia|lia|]. destruct Hc as [Hnext ->]. rewrite Hn in Hnext.
  apply Z.ltb_lt in Hnext. lia.
Qed.

(** The "next" target reads only the bar's [next] flag. *)
Lemma pager_target_next w st now p m :
  pager_target ClickNext (render w st now p) m = if next_enabled w st now p then Some (m + 1)%Z else None.
Proof.
  unfold next_enabled, pager_target.
  destruct (render w st now p) as [[|e ws k b lv [bar|]]|]; [done| |done|done].
  by destruct (pv_next_disabled bar).
Qed.

(** Moving to another page keeps the "next" button as it was: the list
    and the flag do not read the page number. *)
Lemma next_enabled_moved w st now n p :
  pg_hasEmailAccount p = true ->
  next_enabled w st now (set_hasEmailAccount true (set_currentPage n p)) = next_enabled w st now p.
Proof.
  intros Ha. unfold next_enabled, render.
  change (filteredEmails (set_hasEmailAccount true (set_currentPage n p))) with (filteredEmails p).
  destruct (filteredEmails p) as [fe|]; [|done].
  change (pg_hasEmailAccount (set_hasEmailAccount true (set_currentPage n p))) with true.
  rewrite Ha. change (pg_isLoading (set_hasEmailAccount true (set_currentPage n p))) with (pg_isLoading p).
  destruct (list_view _ _ _ _ _); [|done]. unfold pager. simpl.
  destruct (pg_pagination p); [|done]. by case_if.
Qed.

(** A page change inside the throttle, with an account stored: the page
    number changes and nothing is loaded. *)
Lemma change_page_throttled w st now n p :
  account_stored w st = true -> (now - pg_lastLoadTime p < LOAD_THROTTLE_MS)%Z ->
  change_page w st now n p = set_hasEmailAccount true (set_currentPage n p).
Proof.
  intros Hs Ht. unfold account_stored in Hs. unfold change_page, checkEmailAccount, handlePageChange.
  destruct (loadEmailData w st) as [[? [?|] ?]|]; [|done|done].
  unfold loadEmails. destruct (js_present _); [|done]. simpl. by rewrite (proj2 (Z.ltb_lt _ _) Ht).
Qed.

Lemma set_hasEmailAccount_same p n :
  pg_hasEmailAccount p = true -> set_hasEmailAccount true (set_currentPage n p) = set_currentPage n p.
Proof. intros Ha. unfold set_hasEmailAccount, set_currentPage. simpl. by rewrite Ha. Qed.

(** Clicks on an enabled "next" inside the throttle: each adds one to
    the page number and changes nothing else. *)
Lemma next_clicks w st ts p :
  account_stored w st = true -> pg_hasEmailAccount p = true ->
  Forall (fun t => next_enabled w st t p = true /\ (t - pg_lastLoadTime p < LOAD_THROTTLE_MS)%Z) ts ->
  ui_run w st (map (UiClick ClickNext) ts) p =
    set_currentPage (pg_currentPage p + Z.of_nat (length ts)) p.
Proof.
  intros Hs. revert p. induction ts as [|t ts IH]; intros p Ha Hf.
  - destruct p. simpl. by rewrite Z.add_0_r.
  - inversion Hf as [|? ? [He Ht] Hf']; subst. cbn [map ui_run ui_step]. unfold pager_click.
    rewrite pager_target_next, He, change_page_throttled, set_hasEmailAccount_same by done.
    replace (pg_currentPage p + Z.of_nat (length (t :: ts)))%Z
      with (pg_currentPage p + 1 + Z.of_nat (length ts))%Z by (cbn [length]; lia).
    rewrite IH; [reflexivity|done|].
    eapply Forall_impl; [exact Hf'|]. intros t' [He' Ht']. split; [|exact Ht'].
    by rewrite <- set_hasEmailAccount_same, next_enabled_moved by done.
Qed.

(** C34. But "next" trusts stale data: with an account stored, clicks
    on an enabled "next" within the 2-second throttle each add one to
    the page number and load nothing, so the requests, the list and the
    pagination stay those of the page last loaded; as many clicks as
    there are pages left, plus one, move the page number past the last
    page. *)
Theorem next_overshoots_last_page w st ts p :
  account_stored w st = true -> pg_hasEmailAccount p = true ->
  Forall (fun t => next_enabled w st t p = true /\ (t - pg_lastLoadTime p < LOAD_THROTTLE_MS)%Z) ts ->
  let q := ui_run w st (map (UiClick ClickNext) ts) p in
  pg_currentPage q = (pg_currentPage p + Z.of_nat (length ts))%Z /\
  pg_requests q = pg_requests p /\ pg_emails q = pg_emails p /\ pg_pagination q = pg_pagination p /\
  (forall d, pg_pagination p = Some d ->
     (pd_totalPages d - pg_currentPage p < Z.of_nat (length ts))%Z -> (pd_totalPages d < pg_currentPage q)%Z).
Proof.
  intros Hs Ha Hf. cbn zeta. rewrite (next_clicks w st ts p Hs Ha Hf). cbn.
  do 4 (split; [done|]). intros d _ Hd. lia.
Qed.

(** C31. The list crashes on a sender-less email: with an account and
    the list loaded, the page fails to render exactly when some loaded
    email has an empty [from] list, whatever the search term (an email
    the term skips makes the filter throw; one it keeps makes its row's
    [getSenderName] throw). *)
Theorem render_crash_spec w st now p :
  pg_hasEmailAccount p = true -> pg_isLoading p = false ->
  render w st now p = None <-> exists e, In e (pg_emails p) /\ em_from_headers e = [].
Proof.
  intros Ha Hl. unfold render. rewrite Ha, Hl. cbn [negb].
  destruct (filteredEmails p) as [fe|] eqn:Hf.
  - destruct (filter_throw_Some _ _ _ Hf) as [Hn Hin].
    destruct (list_view _ _ now false fe) eqn:Hv.
    + split; [discriminate|]. intros (e & He & Hfr). exfalso.
      assert (Hm : email_matches (pg_searchTerm p) e = Some true).
      { destruct (email_matches _ e) as [[]|] eqn:Hm; [done| |exfalso; exact (Hn e He Hm)].
        revert Hm. unfold email_matches, getSenderName. rewrite Hfr.
        destruct (js_includes _ _); discriminate. }
      assert (Hv' : list_view (Tr "inbox.noSubject") (Tr "inbox.noPreview") now false fe = None) by (apply list_view_none; exists e; by rewrite Hin).
      congruence.
    + split; [|intros; reflexivity]. intros _. apply list_view_none in Hv as (e & He & Hfr).
      exists e. split; [|done]. by apply Hin.
  - split; [|intros; reflexivity]. intros _. apply filter_throw_none in Hf as (e & He & Hm).
    apply email_matches_none in Hm as [Hfr _]. eauto.
Qed.

(** A REST-only notification URL shows "No WS" for good: whatever
    the client went through, after any number of status polls both the
    header indicator and the list card's badge say there is no
    WebSocket (the indicator reads "No WS", the badge is absent). *)
Theorem rest_client_shows_no_ws url max evs k env p :
  is_rest_url url = true ->
  let s := pg_wsStatus (poll_n (S k) env p (run evs (construct url max))).1 in
  ws_indicator s = WsNoWs /\ ws_badge s = None.
Proof.
  intros Hr s. apply ws_labels_disabled. subst s. rewrite poll_n_enabled.
  simpl. unfold isWebSocketAvailable. rewrite run_enabled. simpl. by rewrite Hr.
Qed.

(** ** Witnesses *)

Definition demo_pagination : PaginationData := mkPagination 1 10 15 2 true.

(** Mounted with an account at 1000 s, page 1 of 2 loaded. *)
Definition demo_mounted : Page := checkEmailAccount site stored_site 1000000 initial_page.

Definition demo_loaded : Page :=
  ui_run site stored_site
    [UiLoaded (mkRequest 0 (emails_url "42" demo_mounted) ContNone)
       (FetchSuccess (Some [mail 1 "a"]) (Some demo_pagination))] demo_mounted.

Definition demo_events : list UiEvent :=
  [UiClick ClickNext 1003000; UiClick (ClickPage 1) 1006000; UiClick ClickPrev 1009000].

Lemma next_overshoots_last_page_witness :
  let ts := [1000500; 1000800]%Z in
  let q := ui_run site stored_site (map (UiClick ClickNext) ts) demo_loaded in
  pg_currentPage q = (pg_currentPage demo_loaded + Z.of_nat (length ts))%Z /\
  pg_requests q = pg_requests demo_loaded /\ pg_emails q = pg_emails demo_loaded /\
  pg_pagination q = pg_pagination demo_loaded /\
  (forall d, pg_pagination demo_loaded = Some d ->
     (pd_totalPages d - pg_currentPage demo_loaded < Z.of_nat (length ts))%Z ->
     (pd_totalPages d < pg_currentPage q)%Z).
Proof.
  exact (next_overshoots_last_page site stored_site [1000500; 1000800]%Z demo_loaded
           ltac:(vm_compute; reflexivity) ltac:(vm_compute; reflexivity)
           ltac:(repeat constructor; vm_compute; reflexivity)).
Defined.

Lemma currentPage_positive_witness :
  (1 <= pg_currentPage (ui_run site stored_site demo_events demo_loaded))%Z.
Proof.
  exact (currentPage_positive site stored_site demo_events demo_loaded
           ltac:(vm_compute; discriminate)).
Defined.

Lemma pager_click_in_range_witness :
  (1 <= pg_currentPage (pager_click site stored_site 1003000 ClickNext demo_loaded) <= 2)%Z.
Proof.
  exact (pager_click_in_range site stored_site 1003000 ClickNext demo_loaded demo_pagination
           ltac:(vm_compute; reflexivity) ltac:(vm_compute; reflexivity)
           ltac:(vm_compute; split; discriminate)).
Defined.

(** An email whose [from] list is empty. *)
Definition anonymous : Email := mkEmail 7 "inbox" "0" [] "" "hi" 0 false.

Lemma render_crash_spec_witness :
  render site stored_site 1003000 (set_emails [anonymous] demo_loaded) = None.
Proof.
  exact (proj2 (render_crash_spec site stored_site 1003000 (set_emails [anonymous] demo_loaded)
                  ltac:(vm_compute; reflexivity) ltac:(vm_compute; reflexivity))
           (ex_intro _ anonymous (conj (or_introl eq_refl) eq_refl))).
Defined.

Lemma rest_client_shows_no_ws_witness :
  ws_indicator (pg_wsStatus (poll_n 3 demo_env initial_page
                  (run [EvOpen; EvAuthenticate "42"] (construct rest_url 5))).1) = WsNoWs.
Proof.
  exact (proj1 (rest_client_shows_no_ws rest_url 5 [EvOpen; EvAuthenticate "42"] 2 demo_env
                  initial_page ltac:(vm_compute; reflexivity))).
Defined.

End InboxRender.
