(* ===== verification/FiveMinRender.v ===== *)
(** * FiveMinRender: the 5-minute inbox's handlers and render

    src/app/[locale]/5-minutes-temporary-email/inbox/page.tsx repeats the
    regular inbox's code with English texts in place of translation keys.
    Where the code is the same up to those texts, the model of the copy
    is the regular one: the data interfaces (lines 46-103), the throttle
    and deduplication constants (lines 137, 139), the WebSocket effect
    and its URL (lines 222-243), the status poll and
    the handler registration (lines 250-265, 300-302), the two cleanups
    (lines 308-319, 323-334),
    the message modal's loader (lines 427-451), [formatDate] (lines
    453-472), the sender helpers (lines 474-481), the page change (lines
    487-489), a row's click (lines 483-485), deletion (lines 511-535),
    the search filter (lines 584-588), the pagination bar (lines 766-803)
    and the dialog's [onClose] (lines 808-811).  What differs is modelled here: [handleRefresh] over the
    5-minute [loadEmails] (lines 491-509), the clipboard handlers (lines
    537-553), [refreshEmailAccount], which also recomputes the countdown
    (lines 555-582), [formatTime] on a JavaScript number (lines 421-425),
    and the render (lines 590-819) with its timer badge.

    The render reads the account check's part of the state ([FInbox]:
    [hasEmailAccount], [isLoading], [timeLeft]) and the list's part
    ([Page]: emails, pagination, search term, WebSocket status).

    Theorems: in every storage the program reaches, the timer badge
    shows the whole minutes and seconds left, red under a minute, after
    the account check and after the account refresh; it never reads
    "NaN:NaN", which it does for a stored account without an expiry. *)

From S2P Require Import Prelude JsString EventLoop Dedup NotifClient InboxPage EmailService InboxView FiveMinHost FiveMinPage FiveMinInbox StorageWf InboxRender.
From stdpp Require Import gmap relations.

Module FiveMinRender.
Import InboxView FiveMinHost FiveMinInbox StorageWf InboxRender.

(** ** Copies of the regular inbox's code *)

Definition five_updateConnectionStatus {C} `{NotificationApi C} := @updateConnectionStatus C _.
Definition five_register_handler {C} `{NotificationApi C} := @register_handler C _.
Definition five_effect_cleanup := effect_cleanup.
Definition five_unmount_cleanup := unmount_cleanup.
Definition five_loadFullEmail := loadFullEmail.
Definition five_getSenderName := getSenderName.
Definition five_getSenderEmail := getSenderEmail.
Definition five_handlePageChange := handlePageChange.
Definition five_handleDeleteEmail := handleDeleteEmail.
Definition five_filteredEmails := filteredEmails.
Definition five_formatDate := formatDate.
Definition five_wsUrl := wsUrl.
Definition five_ws_init := ws_init.
Definition five_LOAD_THROTTLE_MS := LOAD_THROTTLE_MS.
Definition five_NOTIFICATION_DEDUP_MS := NOTIFICATION_DEDUP_MS.
Definition five_EmailAddress := EmailAddress.
Definition five_Email := Email.
Definition five_FullEmail := FullEmail.
Definition five_PaginationData := PaginationData.
Definition five_handleEmailClick := handleEmailClick.
Definition five_onClose := onClose.
Definition five_pager := pager.

(** ** What differs *)

(** [handleRefresh]: the toast, then the 5-minute [loadEmails], whose
    [.finally] dismisses it and shows "Inbox refreshed". *)
Definition five_handleRefresh (env : Env) (now : Z) (p : Page) : Page :=
  let t := length (pg_toasts p) in
  five_loadEmails env now (ContManualToast t) (add_toast (ToastRefreshing t) p).

(** [copyEmailId] and [copyEmailAddress]: the text written to the
    clipboard, when it is not empty ([copyEmailId] is not wired to any
    button of the render). *)
Definition copyEmailId (w : option Window) (st : Storage) : option string :=
  js_present (five_inbox_env w st).1.

Definition copyEmailAddress (w : option Window) (st : Storage) : option string :=
  js_present (five_inbox_env w st).2.

Definition with_has (b : bool) (fi : FInbox) : FInbox :=
  mkFInbox b (fi_isLoading fi) (fi_timeLeft fi) (fi_interval fi) (fi_polling fi)
           (fi_attempts fi) (fi_checks fi) (fi_loads fi) (fi_toasts fi).

Definition with_load (fi : FInbox) : FInbox :=
  mkFInbox (fi_hasEmailAccount fi) (fi_isLoading fi) (fi_timeLeft fi) (fi_interval fi)
           (fi_polling fi) (fi_attempts fi) (fi_checks fi) (S (fi_loads fi)) (fi_toasts fi).

(** [refreshEmailAccount]: the record is read twice; the countdown is
    recomputed from [expires_at!], [NaN] when it is absent. *)
Definition refreshEmailAccount (w : option Window) (st : Storage) (now : Z) (fi : FInbox) : FInbox :=
  match loadFiveMinEmailData w st with
  | Some (mkSiteData _ (Some _) _) =>
      let fi := with_has true fi in
      match loadFiveMinEmailData w st with
      | Some (mkSiteData _ (Some a) _) =>
          with_toast FIAccountRefreshed (with_load (with_time (remaining_of a now) (with_has true fi)))
      | _ => fi
      end
  | _ => with_toast FINoAccount (with_has false fi)
  end.

(** [formatTime] on a JavaScript number: [Math.floor(NaN / 60)] and
    [NaN % 60] are [NaN], printed "NaN", which [padStart(2, '0')]
    leaves as it is. *)
Definition formatTime (t : JsNum) : string :=
  match t with
  | Some v => FiveMin.formatTime v
  | None => "NaN:NaN"
  end.

(** [timeLeft < 60 ? "destructive" : "secondary"]: false for [NaN]. *)
Definition timer_destructive (t : JsNum) : bool :=
  match t with Some v => (v <? 60)%Z | None => false end.

(** ** The render (lines 584-819) *)

Inductive FiveView :=
| FVNoAccount
| FVMain (email : option string) (timer : string) (timer_red : bool) (ws : WsLabel) (count : Z)
         (badge : option WsLabel) (list : ListView) (bar : option Pager).

Definition render (w : option Window) (st : Storage) (now : Z) (fi : FInbox) (p : Page)
    : option FiveView :=
  match five_filteredEmails p with
  | None => None
  | Some fe =>
      if negb (fi_hasEmailAccount fi) then Some FVNoAccount
      else match list_view (Lit "(No subject)") (Lit "No preview available") now (fi_isLoading fi) fe with
           | None => None
           | Some lv =>
               Some (FVMain (five_inbox_env w st).2 (formatTime (fi_timeLeft fi))
                            (timer_destructive (fi_timeLeft fi)) (ws_indicator (pg_wsStatus p))
                            (email_count p) (ws_badge (pg_wsStatus p)) lv (five_pager p))
           end
  end.

(** The timer badge of a rendered page. *)
Definition timer_of (v : option FiveView) : option (string * bool) :=
  match v with
  | Some (FVMain _ t red _ _ _ _ _) => Some (t, red)
  | _ => None
  end.

(** ** Lemmas *)

Lemma render_timer w st now fi p :
  fi_hasEmailAccount fi = true ->
  render w st now fi p = None \/
  timer_of (render w st now fi p) = Some (formatTime (fi_timeLeft fi), timer_destructive (fi_timeLeft fi)).
Proof.
  intros Ha. unfold render. rewrite Ha. cbn [negb].
  destruct (five_filteredEmails p); [|by left].
  destruct (list_view _ _ _ _ _); [by right|by left].
Qed.

Lemma refreshEmailAccount_found w st now fi ds a lu :
  loadFiveMinEmailData w st = Some (mkSiteData ds (Some a) lu) ->
  fi_hasEmailAccount (refreshEmailAccount w st now fi) = true /\
  fi_timeLeft (refreshEmailAccount w st now fi) = remaining_of a now.
Proof. intros Hl. unfold refreshEmailAccount. by rewrite Hl. Qed.

Lemma checkEmailAccount_found w st now fi ds a lu :
  loadFiveMinEmailData w st = Some (mkSiteData ds (Some a) lu) ->
  fi_hasEmailAccount (checkEmailAccount w st now fi) = true /\
  fi_timeLeft (checkEmailAccount w st now fi) = remaining_of a now.
Proof. intros Hl. unfold checkEmailAccount. by rewrite Hl. Qed.

(** ** Theorems *)

(** The timer badge in every reachable storage: when the account
    check or the account refresh finds the 5-minute account, the page
    renders (unless its list throws) a badge with the whole minutes and
    seconds left until five minutes after the account's creation,
    floored at 0, red exactly under one minute; it never reads
    "NaN:NaN". *)
Theorem timer_badge_time_left w st now fi p :
  rtc (app_step w) ∅ st -> has_account w st = true ->
  exists ds a lu, loadFiveMinEmailData w st = Some (mkSiteData ds (Some a) lu) /\
    let v := Z.max 0 ((acc_created_at a + FIVE_MINUTES_MS - now) / 1000) in
    forall fi', fi' = checkEmailAccount w st now fi \/ fi' = refreshEmailAccount w st now fi ->
      fi_timeLeft fi' = Some v /\
      (render w st now fi' p = None \/
       timer_of (render w st now fi' p) = Some (FiveMin.formatTime v, (v <? 60)%Z)).
Proof.
  intros Hr Hh.
  destruct (inbox_timeLeft_defined w st now fi Hr Hh) as (ds & a & lu & Hl & Ht).
  exists ds, a, lu. split; [done|]. intros v fi' Hfi.
  assert (Hfi' : fi_hasEmailAccount fi' = true /\ fi_timeLeft fi' = Some v).
  { destruct (checkEmailAccount_found w st now fi ds a lu Hl) as [Hc1 Hc2].
    destruct Hfi as [-> | ->]; [done|].
    destruct (refreshEmailAccount_found w st now fi ds a lu Hl) as [-> ->]. by rewrite <- Hc2. }
  destruct Hfi' as [Ha Hv]. split; [done|].
  destruct (render_timer w st now fi' p Ha) as [? | ->]; [by left|right]. by rewrite Hv.
Qed.

(** A 5-minute record whose account has no [expires_at] (a shape no
    reachable storage has) makes the refresh show "NaN:NaN", not red. *)
Example refresh_without_expiry_shows_NaN :
  let st := saveFiveMinEmailData site
              (mkSiteData [] (Some (createEmailAccount "a@sendbun.com" "pw" false 0 CreateThrew)) 0) ∅ in
  timer_of (render site st 0 (refreshEmailAccount site st 0 initial_finbox) (set_isLoading false initial_page)) =
    Some ("NaN:NaN", false).
Proof. vm_compute. reflexivity. Qed.

(** ** Witnesses *)

Lemma timer_badge_time_left_witness :
  exists ds a lu, loadFiveMinEmailData site five_created = Some (mkSiteData ds (Some a) lu) /\
    let v := Z.max 0 ((acc_created_at a + FIVE_MINUTES_MS - 1000) / 1000) in
    forall fi', fi' = checkEmailAccount site five_created 1000 initial_finbox \/
                fi' = refreshEmailAccount site five_created 1000 initial_finbox ->
      fi_timeLeft fi' = Some v /\
      (render site five_created 1000 fi' initial_page = None \/
       timer_of (render site five_created 1000 fi' initial_page) =
         Some (FiveMin.formatTime v, (v <? 60)%Z)).
Proof.
  exact (timer_badge_time_left site five_created 1000 initial_finbox initial_page
           five_created_reachable ltac:(vm_compute; reflexivity)).
Defined.

End FiveMinRender.
