(* ===== verification/FiveMinPageView.v ===== *)
(** * FiveMinPageView: what the 5-minute page renders

    src/app/[locale]/5-minutes-temporary-email/page.tsx, lines 147-381:
    the copy button's handler, the page's static tables ([useCases],
    [features]) and the render, which shows a loading card while
    [isLoading] (lines 179-195) and otherwise the countdown card (lines
    197-266) and the static sections.  The countdown is coloured by the
    time left (line 229); the same [formatTime] is printed in the clock
    and in the expiry warning.

    Theorems: the clock and the warning always print the same time, in
    one of three colours by the time left; once the page is rendered the
    "Open Inbox" button is enabled and its spinner branch is never
    shown (the loading state returns the loading card before it). *)

From S2P Require Import Prelude JsString EmailService FiveMinPage InboxRender.

Module FiveMinView.
Import FiveMin InboxRender.

(** [copyEmail] (lines 147-152): the address is written to the
    clipboard, empty or not, and the "copied" toast is shown. *)
Definition copyEmail (f : Five) : string * Five := (f_email f, toast FTCopied f).

(** [useCases] (lines 160-167). *)
Definition useCases : list string :=
  ["Quick account verification"; "One-time downloads"; "Newsletter signups";
   "Testing forms"; "Avoiding spam"; "Privacy protection"].

Inductive Icon := IClock | IShield | IMail.

Record Feature := mkFeature { ft_icon : Icon; ft_title : string; ft_description : string }.

(** [features] (lines 169-177). *)
Definition features : list Feature :=
  [mkFeature IClock "Auto-Expires in 5 Minutes" "Perfect for quick tasks and immediate verification";
   mkFeature IShield "Maximum Privacy" "No traces left after expiration";
   mkFeature IMail "Instant Delivery" "Receive emails immediately"].

(** The clock's colour (line 229): [timeLeft <= 60], then
    [timeLeft <= 120], otherwise the light one. *)
Inductive TimerColor := ColorDark | ColorMid | ColorLight.

Definition timer_color (timeLeft : Z) : TimerColor :=
  if (timeLeft <=? 60)%Z then ColorDark else if (timeLeft <=? 120)%Z then ColorMid else ColorLight.

(** The countdown card: the address, the clock and its colour, the
    warning's time, and the "Open Inbox" link with its button's
    [disabled] flag and spinner. *)
Record Countdown := mkCountdown {
  cd_email : string;
  cd_clock : string;
  cd_color : TimerColor;
  cd_warning_time : string;
  cd_inbox_href : string;
  cd_button_disabled : bool;
  cd_button_spinner : bool
}.

Inductive PageView :=
| PVLoading
| PVMain (card : Countdown) (features : list Feature) (useCases : list string).

(** The render (lines 179-381). *)
Definition render (locale : string) (f : Five) : PageView :=
  if f_isLoading f then PVLoading
  else PVMain (mkCountdown (f_email f) (formatTime (f_timeLeft f)) (timer_color (f_timeLeft f))
                           (formatTime (f_timeLeft f)) (openInbox_href locale)
                           (f_isLoading f) (f_isLoading f))
              features useCases.

(** ** Theorems *)

(** The rendered countdown card: when the page is not loading, the
    clock and the expiry warning print the same [formatTime] of the
    time left, coloured dark up to 60 s, mid up to 120 s and light
    above; the "Open Inbox" button links to [/{locale}/inbox] and is
    enabled without a spinner (its spinner branch is dead code). *)
Theorem render_countdown locale f :
  f_isLoading f = false ->
  exists card, render locale f = PVMain card features useCases /\
    cd_clock card = formatTime (f_timeLeft f) /\ cd_warning_time card = cd_clock card /\
    (cd_color card = ColorDark <-> (f_timeLeft f <= 60)%Z) /\
    (cd_color card = ColorMid <-> (60 < f_timeLeft f <= 120)%Z) /\
    (cd_color card = ColorLight <-> (120 < f_timeLeft f)%Z) /\
    cd_inbox_href card = "/" +:+ locale +:+ "/inbox" /\
    cd_button_disabled card = false /\ cd_button_spinner card = false.
Proof.
  intros Hl. unfold render. rewrite Hl. eexists. split; [reflexivity|]. cbn.
  do 2 (split; [done|]). unfold timer_color.
  destruct (Z.leb_spec (f_timeLeft f) 60); [|destruct (Z.leb_spec (f_timeLeft f) 120)];
    (split; [|split; [|split]]); try done; split; intros; try discriminate; try lia.
Qed.

(** ** Witnesses *)

Lemma render_countdown_witness :
  exists card, render "es" (set_loading false five_page) = PVMain card features useCases /\
    cd_clock card = formatTime (f_timeLeft (set_loading false five_page)) /\ cd_warning_time card = cd_clock card /\
    (cd_color card = ColorDark <-> (f_timeLeft (set_loading false five_page) <= 60)%Z) /\
    (cd_color card = ColorMid <-> (60 < f_timeLeft (set_loading false five_page) <= 120)%Z) /\
    (cd_color card = ColorLight <-> (120 < f_timeLeft (set_loading false five_page))%Z) /\
    cd_inbox_href card = "/" +:+ "es" +:+ "/inbox" /\
    cd_button_disabled card = false /\ cd_button_spinner card = false.
Proof. exact (render_countdown "es" (set_loading false five_page) ltac:(vm_compute; reflexivity)). Defined.

End FiveMinView.
