(* ===== verification/HomePage.v ===== *)
(** * HomePage: the home page

    src/app/[locale]/page.tsx is a server component that renders static
    content: a hero with the email generator (modelled in [Generator]),
    the [benefits] and [testimonials] tables (lines 13-33), statistics, a
    long explanatory section and a call to action whose [Link] has the
    relative [href="inbox"] (line 298).  [generateStaticParams] (lines
    309-311) lists one page per locale of [i18n.ts], a file outside
    src/, which is a parameter here.  The three static pages (about,
    privacy, terms) and the layout's shell, whose language and message
    catalogue come from [Locale.safeLocale], are here as well.

    The page is a list of nodes: translated texts [Tr key] and literals
    [Lit s], icons, cards, the generator, quotes and links.  Theorems:
    the page embeds the generator once and has exactly one link, the
    relative "inbox"; every testimonial shows five stars; no translation
    key is rendered twice. *)

From S2P Require Import Prelude JsString InboxRender Locale.

Module HomePage.
Import InboxRender.

Inductive Icon :=
| IShield | IClock | IRefreshCw | IMail | IUsers | ICheckCircle | IStar
| IBookOpen | IHelpCircle | ISettings | IAlertTriangle.

#[local] Set Warnings "-register-all".

Inductive Node :=
| NText (t : Text)
| NIcon (i : Icon)
| NGenerator                              (** [<EmailGenerator />] *)
| NQuote (t : Text)                       (** ["{content}"] *)
| NCard (children : list Node)
| NLink (href : string) (children : list Node).

Record Benefit := mkBenefit { bn_icon : Icon; bn_title : Text; bn_description : Text }.

(** [benefits] (lines 13-22). *)
Definition benefits : list Benefit :=
  [mkBenefit IShield (Tr "home.privacyProtection") (Tr "home.privacyProtectionDescription");
   mkBenefit IClock (Tr "home.autoExpiration") (Tr "home.autoExpirationDescription");
   mkBenefit IRefreshCw (Tr "home.instantGeneration") (Tr "home.instantGenerationDescription");
   mkBenefit IMail (Tr "home.realInbox") (Tr "home.realInboxDescription")].

Record Testimonial := mkTestimonial {
  tm_name : Text; tm_role : Text; tm_content : Text; tm_rating : nat
}.

(** [testimonials] (lines 24-33). *)
Definition testimonials : list Testimonial :=
  [mkTestimonial (Tr "testimonials.sarahChen.name") (Tr "testimonials.sarahChen.role")
                 (Tr "testimonials.sarahChen.content") 5;
   mkTestimonial (Tr "testimonials.mikeJohnson.name") (Tr "testimonials.mikeJohnson.role")
                 (Tr "testimonials.mikeJohnson.content") 5;
   mkTestimonial (Tr "testimonials.emmaDavis.name") (Tr "testimonials.emmaDavis.role")
                 (Tr "testimonials.emmaDavis.content") 5].

Definition tr (k : string) : Node := NText (Tr k).

(** The hero (lines 37-71). *)
Definition hero : list Node :=
  [NIcon IUsers; tr "home.trustedBy"; tr "home.title"; tr "home.subtitle"; NGenerator;
   NIcon ICheckCircle; tr "home.noRegistration"; NIcon ICheckCircle; tr "home.anonymous";
   NIcon ICheckCircle; tr "home.autoDelete"].

(** One card per benefit (lines 73-97). *)
Definition benefit_card (b : Benefit) : Node :=
  NCard [NIcon (bn_icon b); NText (bn_title b); NText (bn_description b)].

Definition benefits_section : list Node :=
  [tr "home.whyChoose"; tr "home.whyChooseDescription"] ++ map benefit_card benefits.

(** The statistics (lines 99-117). *)
Definition stats_section : list Node :=
  [NText (Lit "2M+"); tr "home.activeUsers"; NText (Lit "50M+"); tr "home.emailsGenerated";
   NText (Lit "99.9%"); tr "home.uptime"].

(** One card per testimonial, [[...Array(rating)]] stars first
    (lines 119-146). *)
Definition testimonial_card (t : Testimonial) : Node :=
  NCard (repeat (NIcon IStar) (tm_rating t) ++
         [NQuote (tm_content t); NText (tm_name t); NText (tm_role t)]).

Definition testimonials_section : list Node :=
  [tr "home.whatUsersSay"; tr "home.whatUsersSayDescription"] ++ map testimonial_card testimonials.

(** The explanatory section (lines 148-289). *)
Definition tech_section : list Node :=
  [tr "techSection.title"; tr "techSection.intro"; tr "techSection.problem";
   NIcon IBookOpen; tr "techSection.whatIsTitle"; tr "techSection.whatIsDescription";
   tr "techSection.whatIsDescription2";
   NIcon IHelpCircle; tr "techSection.whyNeedTitle"; tr "techSection.whyNeedDescription";
   tr "techSection.whyNeedDescription2"; tr "techSection.legitimateReasons";
   NCard [tr "techSection.reason1Title"; tr "techSection.reason1"];
   NCard [tr "techSection.reason2Title"; tr "techSection.reason2"];
   NCard [tr "techSection.reason3Title"; tr "techSection.reason3"];
   NCard [tr "techSection.reason4Title"; tr "techSection.reason4"];
   NIcon ISettings; tr "techSection.howToChooseTitle"; tr "techSection.howToChooseDescription";
   NIcon ICheckCircle; tr "techSection.criteria1"; NIcon ICheckCircle; tr "techSection.criteria2";
   NIcon ICheckCircle; tr "techSection.criteria3"; NIcon ICheckCircle; tr "techSection.criteria4";
   NIcon ICheckCircle; tr "techSection.criteria5"; NIcon ICheckCircle; tr "techSection.criteria6";
   NIcon IMail; tr "techSection.howToUseTitle"; tr "techSection.howToUseDescription";
   tr "techSection.howToUseDescription2"; tr "techSection.howToUseDescription3";
   NIcon IAlertTriangle; tr "techSection.conclusionTitle"; tr "techSection.conclusion"].

(** The call to action (lines 291-304): a relative link. *)
Definition cta_href : string := "inbox".

Definition cta_section : list Node :=
  [tr "home.readyToProtect"; tr "home.readyToProtectDescription";
   NLink cta_href [tr "home.getStartedNow"]].

(** The page (lines 35-307). *)
Definition home_page : list Node :=
  hero ++ benefits_section ++ stats_section ++ testimonials_section ++ tech_section ++ cta_section.

(** [generateStaticParams()] over the [locales] of [i18n.ts]. *)
Record Params := mkParams { params_locale : string }.

Definition generateStaticParams (locales : list string) : list Params := map mkParams locales.

(** The static pages: a title and a body each
    (src/app/[locale]/about/page.tsx, privacy/page.tsx, terms/page.tsx,
    lines 3-12). *)
Definition about_page : list Node := [tr "pages.about.title"; tr "pages.about.body"].
Definition privacy_page : list Node := [tr "pages.privacy.title"; tr "pages.privacy.body"].
Definition terms_page : list Node := [tr "pages.terms.title"; tr "pages.terms.body"].

(** The message catalogues of src/messages/index.ts: [messagesMap]. *)
Definition messagesMap : list string := ["en"; "es"].

(** The page shell of src/app/[locale]/layout.tsx (lines 25-58): the
    [lang] attribute and the catalogue come from [safeLocale]; the
    toaster is at the top right for 4 s. *)
Record Layout := mkLayout {
  ly_lang : string;
  ly_messages : option string;     (** [messagesMap[safeLocale]] *)
  ly_toast_position : string;
  ly_toast_duration : Z
}.

Definition layout (locale : string) : Layout :=
  let safe := Locale.safeLocale locale in
  mkLayout safe (if existsb (String.eqb safe) messagesMap then Some safe else None) "top-right" 4000.

(** ** What a page shows *)

Fixpoint node_links (n : Node) : list string :=
  match n with
  | NCard cs => (fix go cs := match cs with [] => [] | c :: cs => node_links c ++ go cs end) cs
  | NLink h cs => h :: (fix go cs := match cs with [] => [] | c :: cs => node_links c ++ go cs end) cs
  | _ => []
  end.

Fixpoint node_keys (n : Node) : list string :=
  match n with
  | NText (Tr k) | NQuote (Tr k) => [k]
  | NCard cs | NLink _ cs =>
      (fix go cs := match cs with [] => [] | c :: cs => node_keys c ++ go cs end) cs
  | _ => []
  end.

Fixpoint node_count (p : Node -> bool) (n : Node) : nat :=
  (if p n then 1 else 0) +
  match n with
  | NCard cs | NLink _ cs =>
      (fix go cs := match cs with [] => 0 | c :: cs => node_count p c + go cs end) cs
  | _ => 0
  end.

Definition is_generator (n : Node) : bool := match n with NGenerator => true | _ => false end.
Definition is_star (n : Node) : bool := match n with NIcon IStar => true | _ => false end.

Definition page_links (ns : list Node) : list string := concat (map node_links ns).
Definition page_keys (ns : list Node) : list string := concat (map node_keys ns).
Definition page_count (p : Node -> bool) (ns : list Node) : nat := list_sum (map (node_count p) ns).

Fixpoint nodupb (l : list string) : bool :=
  match l with [] => true | x :: l => negb (existsb (String.eqb x) l) && nodupb l end.

Lemma nodupb_NoDup l : nodupb l = true -> List.NoDup l.
Proof.
  induction l as [|x l IH]; simpl; [constructor|].
  intros (Hx & Hl)%andb_true_iff. constructor; [|auto].
  intros Hin. apply negb_true_iff in Hx.
  assert (existsb (String.eqb x) l = true) by (apply existsb_exists; exists x; by rewrite String.eqb_refl).
  congruence.
Qed.

Lemma layout_messages l : ly_messages (layout l) = Some (Locale.safeLocale l).
Proof.
  unfold layout. simpl. destruct (Locale.safeLocale_supported l) as (Hin & _).
  destruct Hin as [<-|[<-|[]]]; reflexivity.
Qed.

(** ** Theorems *)

(** The home page's content: it embeds the email generator once;
    its only link is the relative "inbox" of the call to action; each
    testimonial card shows five stars (fifteen in all); and no
    translation key is rendered twice. *)
Theorem home_page_content :
  page_count is_generator home_page = 1%nat /\ page_links home_page = [cta_href] /\
  map (fun t => node_count is_star (testimonial_card t)) testimonials = [5; 5; 5]%nat /\
  page_count is_star home_page = 15%nat /\ List.NoDup (page_keys home_page).
Proof.
  split; [reflexivity|]. split; [reflexivity|]. split; [reflexivity|]. split; [reflexivity|].
  apply nodupb_NoDup. vm_compute. reflexivity.
Qed.

End HomePage.
