(* ===== verification/Routing.v ===== *)
(** * Routing: where the app's links and redirects lead

    The pages under src/app/[locale] are the routes [app_routes]:
    [/{locale}], [/{locale}/inbox], [/{locale}/5-minutes-temporary-email]
    and its [/inbox], [/{locale}/about], [/{locale}/privacy] and
    [/{locale}/terms].  The app navigates with [Link href] and
    [router.push], which resolve their argument against the current URL
    the way the URL standard does: an absolute path is taken as it is, a
    fragment keeps the page, and a relative path replaces the last
    segment of the current path, with ["."] and [".."] segments removed
    ([resolve]).

    The links: the header (src/components/header.tsx, lines 22-39), the
    footer (src/components/footer.tsx, lines 54-120), the home page's
    call to action ([HomePage.cta_href]), the "no account" cards of the
    two inboxes (inbox/page.tsx line 520, 5-minute inbox line 602), the
    5-minute page's "Open Inbox" ([FiveMin.openInbox_href]) and the
    redirect after expiry ([router.push('../')], 5-minute page line
    143).

    Theorem: for every locale segment, the header's, the cards' and the
    "Open Inbox" links lead to pages of the app under that locale; the
    home page's call to action leads to [/inbox] and the expiry redirect
    to [/], both outside the locale, where src/app has no page; four
    footer links lead to routes that have no page. *)

From S2P Require Import Prelude JsString Locale FiveMinPage HomePage.

Module Routing.

(** ** URL resolution *)

(** Path segments after dot-segment removal, in order; a final ["."] or
    [".."] leaves an empty last segment (a trailing slash). *)
Fixpoint remove_dots (acc : list string) (segs : list string) : list string :=
  match segs with
  | [] => rev acc
  | s :: rest =>
      let acc' := if String.eqb s ".." then tl acc
                  else if String.eqb s "." then acc else s :: acc in
      match rest with
      | [] => if String.eqb s ".." || String.eqb s "." then rev ("" :: acc') else rev acc'
      | _ => remove_dots acc' rest
      end
  end.

Definition path_of (segs : list string) : string := "/" +:+ js_join "/" segs.

(** The path a [Link href] or [router.push(href)] leads to from the page
    at path [base]. *)
Definition resolve (base href : string) : string :=
  if String.prefix "/" href then path_of (remove_dots [] (tl (js_split "/" href)))
  else if String.prefix "#" href then base
  else path_of (remove_dots [] (removelast (tl (js_split "/" base)) ++ js_split "/" href)).

(** ** The pages and the links *)

(** The page files under src/app/[locale], as paths below the locale. *)
Definition app_routes : list (list string) :=
  [[]; ["inbox"]; ["5-minutes-temporary-email"]; ["5-minutes-temporary-email"; "inbox"];
   ["about"]; ["privacy"]; ["terms"]].

Definition list_eqb (a b : list string) : bool := bool_decide (a = b).

(** The page a path is served by: the [[locale]] parameter (its first
    segment, not empty) and a route of [app_routes]; [None] when no page
    of src/app matches. *)
Definition route_of (path : string) : option (string * list string) :=
  match tl (js_split "/" path) with
  | l :: rest =>
      if negb (String.eqb l "") && existsb (list_eqb rest) app_routes then Some (l, rest) else None
  | [] => None
  end.

(** The header's logo link and its navigation (header.tsx, lines
    22-39). *)
Definition header_links (locale : string) : list string := ("/" +:+ locale) :: Locale.navigation locale.

(** The footer's links, in order (footer.tsx, lines 54-120). *)
Definition footer_links (locale : string) : list string :=
  ["/" +:+ locale +:+ "/features/auto_expiration"; "/" +:+ locale +:+ "/features/custom_domain";
   "/" +:+ locale +:+ "/features/email_forwarding"; "/" +:+ locale +:+ "/5-minutes-temporary-email";
   "#"; "#"; "/" +:+ locale +:+ "/about"; "/" +:+ locale +:+ "/privacy";
   "/" +:+ locale +:+ "/terms"; "/" +:+ locale +:+ "/contact"].

(** The regular inbox's "no account" card (inbox/page.tsx, line 520). *)
Definition inbox_noaccount_href (locale : string) : string := "/" +:+ locale.

(** The 5-minute inbox's "no account" card (line 602). *)
Definition five_noaccount_href (locale : string) : string :=
  "/" +:+ locale +:+ "/5-minutes-temporary-email".

(** [router.push('../')] after the 5-minute account expires (5-minute
    page, line 143). *)
Definition expiry_redirect_href : string := "../".

(** The pages' own paths. *)
Definition home_path (locale : string) : string := "/" +:+ locale.
Definition five_path (locale : string) : string := "/" +:+ locale +:+ "/5-minutes-temporary-email".

(** ** Lemmas *)

(** A path segment the links put in a path: no slash, not empty, not a
    dot segment. *)
Definition seg_ok (s : string) : bool :=
  negb (has_char "/" s) && negb (String.eqb s "") && negb (String.eqb s ".") &&
  negb (String.eqb s "..").

Lemma split_join segs :
  Forall (fun s => seg_ok s = true) segs -> segs <> [] ->
  js_split "/" (js_join "/" segs) = segs.
Proof.
  induction segs as [|s segs IH]; [done|]. intros Hf _.
  apply Forall_cons in Hf as [Hs Hf].
  assert (Hc : has_char "/" s = false) by (unfold seg_ok in Hs; destruct (has_char "/" s); done).
  unfold js_join. rewrite concat_cons. destruct segs as [|t segs].
  - rewrite string_app_nil_r. by apply js_split_nosep.
  - rewrite js_split_app by done. f_equal. by apply IH.
Qed.

Lemma split_path segs :
  Forall (fun s => seg_ok s = true) segs -> segs <> [] ->
  js_split "/" (path_of segs) = "" :: segs.
Proof.
  intros Hf Hne. unfold path_of. change ("/" +:+ js_join "/" segs) with ("" +:+ String "/" (js_join "/" segs)).
  rewrite js_split_app by done. by rewrite split_join.
Qed.

Lemma remove_dots_clean acc segs :
  Forall (fun s => seg_ok s = true) segs -> remove_dots acc segs = rev acc ++ segs.
Proof.
  revert acc. induction segs as [|s segs IH]; intros acc Hf; simpl; [by rewrite app_nil_r|].
  apply Forall_cons in Hf as [Hs Hf].
  assert (Hd : String.eqb s ".." = false /\ String.eqb s "." = false)
    by (unfold seg_ok in Hs; repeat (apply andb_true_iff in Hs as [Hs ?%negb_true_iff]); done).
  destruct Hd as [-> ->]. simpl. destruct segs as [|t segs]; [done|].
  rewrite IH by done. simpl. by rewrite <- app_assoc.
Qed.

(** An absolute link of clean segments leads where it says. *)
Lemma resolve_abs base segs :
  Forall (fun s => seg_ok s = true) segs -> segs <> [] -> resolve base (path_of segs) = path_of segs.
Proof.
  intros Hf Hne. unfold resolve.
  replace (String.prefix "/" (path_of segs)) with true by (unfold path_of; by destruct (js_join _ _)).
  rewrite split_path by done. simpl. by rewrite remove_dots_clean.
Qed.

Lemma route_path l rest :
  Forall (fun s => seg_ok s = true) (l :: rest) ->
  route_of (path_of (l :: rest)) = if existsb (list_eqb rest) app_routes then Some (l, rest) else None.
Proof.
  intros Hf. unfold route_of. rewrite split_path by done. simpl.
  apply Forall_cons in Hf as [Hl _].
  assert (He : String.eqb l "" = false)
    by (unfold seg_ok in Hl; repeat (apply andb_true_iff in Hl as [Hl ?%negb_true_iff]); done).
  by rewrite He.
Qed.

Lemma link_route base l rest :
  Forall (fun s => seg_ok s = true) (l :: rest) ->
  route_of (resolve base (path_of (l :: rest))) =
    if existsb (list_eqb rest) app_routes then Some (l, rest) else None.
Proof. intros Hf. rewrite resolve_abs by done. by apply route_path. Qed.

Ltac segs_ok :=
  first [discriminate
        |repeat (apply List.Forall_cons; [first [assumption | reflexivity]|]); apply List.Forall_nil].

(** ** Theorems *)

(** C38. Where the links lead, for every locale segment [l]: from any
    page, the header's three links and logo, the two "no account" cards
    and the 5-minute page's "Open Inbox" reach the pages of the app under
    [l]; the home page's call to action ([href="inbox"]) reaches
    [/inbox], which src/app serves as the home page with the locale
    "inbox" (English by the layout's fallback), and the redirect after a
    5-minute expiry ([router.push('../')]) reaches [/], where src/app
    has no page; from the home page the footer's three feature links
    and its contact link reach no page. *)
Theorem app_links l base :
  seg_ok l = true ->
  map (fun h => route_of (resolve base h))
      (header_links l ++ [inbox_noaccount_href l; five_noaccount_href l; FiveMin.openInbox_href l]) =
    [Some (l, []); Some (l, []); Some (l, ["inbox"]); Some (l, ["5-minutes-temporary-email"]);
     Some (l, []); Some (l, ["5-minutes-temporary-email"]); Some (l, ["inbox"])] /\
  resolve (home_path l) HomePage.cta_href = "/inbox" /\ route_of "/inbox" = Some ("inbox", []) /\
  Locale.safeLocale "inbox" = "en" /\
  resolve (five_path l) expiry_redirect_href = "/" /\ route_of "/" = None /\
  map (fun h => route_of (resolve (home_path l) h)) (footer_links l) =
    [None; None; None; Some (l, ["5-minutes-temporary-email"]); Some (l, []); Some (l, []);
     Some (l, ["about"]); Some (l, ["privacy"]); Some (l, ["terms"]); None].
Proof.
  intros Hl.
  assert (Hd : String.eqb l ".." = false /\ String.eqb l "." = false)
    by (unfold seg_ok in Hl; repeat (apply andb_true_iff in Hl as [Hl ?%negb_true_iff]); done).
  split; [|split; [|split; [reflexivity|split; [reflexivity|split; [|split; [reflexivity|]]]]]].
  - change (header_links l ++ [inbox_noaccount_href l; five_noaccount_href l; FiveMin.openInbox_href l])
      with [path_of [l]; path_of [l]; path_of [l; "inbox"]; path_of [l; "5-minutes-temporary-email"];
            path_of [l]; path_of [l; "5-minutes-temporary-email"]; path_of [l; "inbox"]].
    cbn [map]. rewrite !link_route by segs_ok. reflexivity.
  - change (home_path l) with (path_of [l]). unfold resolve. cbn [String.prefix].
    rewrite split_path by segs_ok. reflexivity.
  - change (five_path l) with (path_of [l; "5-minutes-temporary-email"]). unfold resolve.
    cbn [String.prefix]. rewrite split_path by segs_ok. cbn. destruct Hd as [-> ->]. reflexivity.
  - change (footer_links l) with
      [path_of [l; "features"; "auto_expiration"]; path_of [l; "features"; "custom_domain"];
       path_of [l; "features"; "email_forwarding"]; path_of [l; "5-minutes-temporary-email"];
       "#"; "#"; path_of [l; "about"]; path_of [l; "privacy"]; path_of [l; "terms"];
       path_of [l; "contact"]].
    change (home_path l) with (path_of [l]). cbn [map].
    assert (Hh : resolve (path_of [l]) "#" = path_of [l]) by reflexivity.
    rewrite Hh, !link_route by segs_ok.
    replace (route_of (path_of [l])) with (Some (l, @nil string))
      by (symmetry; rewrite route_path by segs_ok; reflexivity).
    reflexivity.
Qed.

(** ** Witnesses *)

Lemma app_links_witness :
  resolve (home_path "es") HomePage.cta_href = "/inbox" /\
  resolve (five_path "es") expiry_redirect_href = "/".
Proof.
  destruct (app_links "es" "/es/about" ltac:(reflexivity)) as (_ & H1 & _ & _ & H2 & _).
  exact (conj H1 H2).
Defined.

End Routing.
