(* ===== verification/EmailModal.v ===== *)
(** * EmailModal: the email detail dialog

    src/components/email-detail-modal.tsx renders the message the page
    loaded ([FullEmail]) in a dialog; its delete handler is
    [InboxView.modal_handleDelete].  The render (lines 86-183) shows the
    subject or "(No subject)", the sender as
    [_from[0].personal || _from[0].mail || from] (twice: under the title
    and in the metadata), the recipient, the date, the read status, and
    the body: the HTML when there is some, otherwise the text or
    [t('emailModal.noContent')], or a spinner while loading.  The delete
    button is disabled while deleting or without a message.  Dates are
    timestamps here, so [email?.date] is falsy only without a message.

    Theorems: the dialog never fails to show a sender, even for a
    message whose sender list is empty (unlike the list, whose
    [getSenderName] throws); and for a sender with an address, the
    dialog and the list row name the same sender exactly when the
    sender has a display name, or its mailbox name is empty or is the
    whole address. *)

From S2P Require Import Prelude JsString EventLoop Dedup NotifClient InboxPage EmailService InboxView InboxRender.

Module EmailModal.
Import InboxView InboxRender.

(** [email?._from?.[0]?.personal || email?._from?.[0]?.mail || email?.from]:
    [undefined] (nothing shown) without a message. *)
Definition modal_sender (email : option FullEmail) : option string :=
  match email with
  | None => None
  | Some m =>
      match fe_from_list m with
      | [] => Some (fe_from m)
      | f :: _ => Some (js_or (Some (ea_personal f)) (js_or (Some (ea_mail f)) (fe_from m)))
      end
  end.

Inductive Body := BodyLoading | BodyHtml (html : string) | BodyText (t : Text).

Record ModalView := mkModalView {
  mv_open : bool;
  mv_title : Text;
  mv_sender : option string;
  mv_delete_disabled : bool;
  mv_delete_spinner : bool;
  mv_meta_from : option string;
  mv_to : option string;
  mv_date : option Z;
  mv_read : Text;
  mv_body : Body
}.

(** The render (lines 86-183). *)
Definition render (isOpen : bool) (email : option FullEmail) (isLoading isDeleting : bool)
    : ModalView :=
  let subject := match email with Some m => fe_subject m | None => "" end in
  let seen := match email with Some m => String.eqb (fe_is_seen m) "1" | None => false end in
  mkModalView isOpen (or_text subject (Lit "(No subject)")) (modal_sender email)
    (isDeleting || match email with None => true | Some _ => false end) isDeleting
    (modal_sender email) (option_map fe_to email) (option_map fe_date email)
    (if seen then Tr "emailModal.read" else Tr "emailModal.unread")
    (if isLoading then BodyLoading
     else match email with
          | Some m => if String.eqb (fe_html m) "" then BodyText (or_text (fe_body m) (Tr "emailModal.noContent"))
                      else BodyHtml (fe_html m)
          | None => BodyText (Tr "emailModal.noContent")
          end).

(** The dialog's props (lines 49-56) without the two callbacks, which
    are the page's [onClose] and [handleDeleteEmail]. *)
Record ModalProps := mkProps {
  mp_isOpen : bool;
  mp_email : option FullEmail;
  mp_isLoading : bool;
  mp_emailAccountId : option string
}.

(** The props the inbox passes (inbox/page.tsx, lines 719-729); the
    5-minute inbox passes the same (lines 806-816).  [isLoadingEmail] is
    [false] between two events: loading a message is one step of the
    model ([InboxView.loadFullEmail]). *)
Definition page_modal (env : Env) (p : Page) : ModalProps :=
  mkProps (pg_modalOpen p) (pg_fullEmail p) false (env_accountId env).

Definition five_page_modal := page_modal.

Definition render_props (mp : ModalProps) (isDeleting : bool) : ModalView :=
  render (mp_isOpen mp) (mp_email mp) (mp_isLoading mp) isDeleting.

(** The part of the page the dialog reads. *)
Definition modal_of (p : Page) : bool * option FullEmail := (pg_modalOpen p, pg_fullEmail p).

(** The dialog is open only with a message. *)
Definition modal_inv (p : Page) : Prop := pg_modalOpen p = true -> pg_fullEmail p <> None.

(** ** Lemmas *)

Lemma js_or_nonempty s d : s <> "" -> js_or (Some s) d = s.
Proof. intros Hs. unfold js_or. by destruct (String.eqb_spec s ""). Qed.

Lemma js_or_empty d : js_or (Some "") d = d.
Proof. done. Qed.

(** The handlers that leave the dialog alone. *)
Lemma modal_inv_of p p' : modal_of p' = modal_of p -> modal_inv p -> modal_inv p'.
Proof. unfold modal_of, modal_inv. intros [= -> ->]. done. Qed.

Lemma run_cont_modal k p : modal_of (run_cont k p) = modal_of p.
Proof. by destruct k. Qed.

Lemma loadEmails_modal env now k p : modal_of (loadEmails env now k p) = modal_of p.
Proof. unfold loadEmails. destruct (js_present _); [case_if|]; by rewrite ?run_cont_modal. Qed.

Lemma loadEmails_finish_modal env r res p : modal_of (loadEmails_finish env r res p) = modal_of p.
Proof. unfold loadEmails_finish. rewrite run_cont_modal. by destruct res. Qed.

Lemma checkEmailAccount_modal w st now p : modal_of (InboxView.checkEmailAccount w st now p) = modal_of p.
Proof.
  unfold InboxView.checkEmailAccount.
  destruct (loadEmailData w st) as [[? [?|] ?]|]; by rewrite ?loadEmails_modal.
Qed.

Lemma pager_click_modal w st now c p : modal_of (pager_click w st now c p) = modal_of p.
Proof.
  unfold pager_click. destruct (pager_target _ _ _); [|done].
  unfold change_page. by rewrite checkEmailAccount_modal.
Qed.

Lemma refreshEmailAccount_modal w st now p : modal_of (refreshEmailAccount w st now p).1 = modal_of p.
Proof.
  unfold refreshEmailAccount.
  destruct (loadEmailData w st) as [[? [?|] ?]|]; cbn [fst]; by rewrite ?loadEmails_modal.
Qed.

#[local] Hint Resolve run_cont_modal loadEmails_modal loadEmails_finish_modal checkEmailAccount_modal
  pager_click_modal refreshEmailAccount_modal : dm.

(** Every event of the page keeps the dialog's invariant. *)
Lemma ui_step_modal_inv w st e p : modal_inv p -> modal_inv (ui_step w st e p).
Proof.
  intros Hi. destruct e as [c now|r res|term|now|now|res| |res]; cbn [ui_step];
    try (refine (modal_inv_of p _ _ Hi);
         solve [eauto with dm | done | unfold handleRefresh; by rewrite loadEmails_modal]).
  - unfold handleEmailClick, loadFullEmail. destruct (js_present _); [|done].
    destruct res; [by intros ?| |]; exact (modal_inv_of p _ eq_refl Hi).
  - by intros ?.
  - unfold modal_handleDelete.
    destruct (pg_fullEmail p), (js_present (env_accountId (inbox_env w st)));
      first [exact Hi | by intros ?].
Qed.

(** ** Theorems *)

(** C36. The dialog and the list name a sender differently: for a
    message whose first sender has an address, the dialog's sender (the
    display name, else the address) is the list row's (the display
    name, else the mailbox name, else the address) exactly when the
    display name is not empty, or the mailbox name is empty or equal to
    the address; and the dialog always shows a sender, falling back to
    the [from] text when the sender list is empty, where the list's
    [getSenderName] throws. *)
Theorem modal_list_sender e m f fs :
  em_from_headers e = f :: fs -> fe_from_list m = f :: fs -> ea_mail f <> "" ->
  (getSenderName e = modal_sender (Some m) <->
   ea_personal f <> "" \/ ea_mailbox f = "" \/ ea_mailbox f = ea_mail f) /\
  (forall m', fe_from_list m' = [] -> modal_sender (Some m') = Some (fe_from m')) /\
  (forall e', em_from_headers e' = [] -> getSenderName e' = None).
Proof.
  intros He Hm Hmail. split.
  - unfold getSenderName, modal_sender. rewrite He, Hm.
    destruct (String.eqb_spec (ea_personal f) "") as [Hp|Hp].
    + rewrite Hp, !js_or_empty, (js_or_nonempty (ea_mail f)) by done.
      destruct (String.eqb_spec (ea_mailbox f) "") as [Hb|Hb].
      * rewrite Hb, js_or_empty. split; [by right; left|done].
      * rewrite js_or_nonempty by done. split.
        -- intros [= E]. by right; right.
        -- intros [?|[?|E]]; [done|done|by rewrite E].
    + rewrite !(js_or_nonempty (ea_personal f)) by done. split; [by left|done].
  - split; [intros m' Hm'; unfold modal_sender; by rewrite Hm'|].
    intros e' He'. unfold getSenderName. by rewrite He'.
Qed.

(** Opening and closing the dialog from the list: with an account, a
    row's click whose load succeeds opens the dialog on that message
    (its subject or "(No subject)", the dialog's sender, delete
    enabled); a load that fails leaves the dialog as it was; closing it
    leaves a closed dialog with no message and delete disabled. *)
Theorem dialog_open_close env m p :
  js_present (env_accountId env) <> None ->
  let v := render_props (page_modal env (handleEmailClick env (FullOk m) p)) false in
  let v' := render_props (page_modal env (onClose (handleEmailClick env (FullOk m) p))) false in
  mv_open v = true /\ mv_title v = or_text (fe_subject m) (Lit "(No subject)") /\
  mv_sender v = modal_sender (Some m) /\ mv_delete_disabled v = false /\
  page_modal env (handleEmailClick env FullFailed p) = page_modal env p /\
  mv_open v' = false /\ mv_sender v' = None /\ mv_delete_disabled v' = true.
Proof.
  intros Hid. unfold handleEmailClick, loadFullEmail.
  destruct (js_present (env_accountId env)) as [id|]; [|done].
  repeat split.
Qed.

(** C37. The dialog through any sequence of the inbox's events (page
    clicks, loads, searches, refreshes, opening a row, closing and
    deleting in the dialog): from a page whose dialog is open only with
    a message, it stays so, and whenever the dialog is drawn open it
    shows that message's sender with its delete button enabled. *)
Theorem dialog_invariant w st evs p :
  modal_inv p ->
  let p' := ui_run w st evs p in
  modal_inv p' /\
  (pg_modalOpen p' = true -> exists m, pg_fullEmail p' = Some m /\
     let v := render_props (page_modal (inbox_env w st) p') false in
     mv_open v = true /\ mv_delete_disabled v = false /\ mv_sender v = modal_sender (Some m)).
Proof.
  intros Hi p'. assert (Hp : modal_inv p').
  { subst p'. revert p Hi. induction evs as [|e evs IH]; intros p Hi; [done|].
    apply IH, ui_step_modal_inv, Hi. }
  split; [done|]. intros Ho. destruct (pg_fullEmail p') as [m|] eqn:Hm; [|by destruct (Hp Ho)].
  exists m. split; [done|]. unfold render_props, page_modal, render. simpl. by rewrite Ho, Hm.
Qed.

(** ** Witnesses *)


(** A sender without a display name: the list shows the mailbox name,
    the dialog the address. *)
Definition john : EmailAddress := mkAddress "john@x.com" "x.com" "john@x.com" "john" "".

Lemma modal_list_sender_witness :
  getSenderName (mkEmail 1 "inbox" "0" [john] "" "hi" 0 false) = Some "john" /\
  modal_sender (Some (mkFullEmail 1 "me@y.com" [john] "john@x.com" "" "" "hi" 0 "0")) = Some "john@x.com" /\
  ~ (ea_personal john <> "" \/ ea_mailbox john = "" \/ ea_mailbox john = ea_mail john).
Proof.
  pose proof (modal_list_sender (mkEmail 1 "inbox" "0" [john] "" "hi" 0 false)
                (mkFullEmail 1 "me@y.com" [john] "john@x.com" "" "" "hi" 0 "0") john []
                eq_refl eq_refl ltac:(discriminate)) as [H _].
  split; [reflexivity|]. split; [reflexivity|].
  intros Hc. apply H in Hc. discriminate Hc.
Defined.

Lemma dialog_open_close_witness :
  let env := mkEnv (Some "acc") (Some "me@y.com") (Some "d") in
  let m := mkFullEmail 1 "me@y.com" [john] "john@x.com" "" "" "hi" 0 "0" in
  let v := render_props (page_modal env (handleEmailClick env (FullOk m) initial_page)) false in
  let v' := render_props (page_modal env (onClose (handleEmailClick env (FullOk m) initial_page))) false in
  mv_open v = true /\ mv_title v = or_text (fe_subject m) (Lit "(No subject)") /\
  mv_sender v = modal_sender (Some m) /\ mv_delete_disabled v = false /\
  page_modal env (handleEmailClick env FullFailed initial_page) = page_modal env initial_page /\
  mv_open v' = false /\ mv_sender v' = None /\ mv_delete_disabled v' = true.
Proof.
  exact (dialog_open_close (mkEnv (Some "acc") (Some "me@y.com") (Some "d"))
           (mkFullEmail 1 "me@y.com" [john] "john@x.com" "" "" "hi" 0 "0") initial_page
           ltac:(discriminate)).
Defined.

(** From the page on mount, a row's click and a failed deletion. *)
Lemma dialog_invariant_witness :
  let env := mkEnv (Some "acc") (Some "me@y.com") (Some "d") in
  let p' := ui_run site ∅ [UiOpenEmail (FullOk (mkFullEmail 1 "me@y.com" [john] "john@x.com" "" "" "hi" 0 "0"));
                          UiDeleteInModal DelFailed] initial_page in
  modal_inv p' /\
  (pg_modalOpen p' = true -> exists m, pg_fullEmail p' = Some m /\
     let v := render_props (page_modal (inbox_env site ∅) p') false in
     mv_open v = true /\ mv_delete_disabled v = false /\ mv_sender v = modal_sender (Some m)).
Proof. exact (dialog_invariant site ∅ _ initial_page ltac:(discriminate)). Defined.

End EmailModal.
