(* ===== verification/Header.v ===== *)
(** * Header: the site header's mobile menu and theme toggle

    src/components/header.tsx (lines 12-102) keeps one piece of React
    state, [isOpen], the mobile navigation sheet, and reads the theme of
    next-themes through [useTheme()].  The layout (layout.tsx, line 40)
    mounts the theme provider with [defaultTheme="system"] and
    [enableSystem]: the stored theme is ["system"], ["light"] or
    ["dark"], and the page is drawn in the system's colour scheme while
    it is ["system"].  The toggle (line 60) sets
    [theme === "dark" ? "light" : "dark"]; the sheet (lines 66-97) opens
    and closes through [onOpenChange] and each of its links closes it
    (line 76).  The same [navigation] list (lines 22-26) is drawn in the
    desktop bar (lines 36-57) and in the sheet.

    The abstract specification [Spec] is what the header promises a
    visitor: the toggle flips the colour scheme on screen, the sheet
    follows [onOpenChange], a link closes it.  [header_refines] shows the
    header implements it from every explicit theme, and that from
    ["system"] on a dark system the first click stutters: the stored
    theme becomes ["dark"] and nothing on screen changes. *)

From S2P Require Import Prelude JsString EventLoop Dedup NotifClient InboxPage EmailService InboxView Locale InboxRender.

Module Header.
Import InboxRender.

(** The stored theme of next-themes. *)
Inductive Theme := ThemeSystem | ThemeLight | ThemeDark.

(** A colour scheme: the system's preference, or what is drawn. *)
Inductive Scheme := Light | Dark.

#[export] Instance Theme_eq_dec : EqDecision Theme.
Proof. solve_decision. Defined.
#[export] Instance Scheme_eq_dec : EqDecision Scheme.
Proof. solve_decision. Defined.

(** The header's state: [isOpen] (line 13) and the [theme] of
    [useTheme()] (line 14). *)
Record HeaderState := mkHeader { h_isOpen : bool; h_theme : Theme }.

(** The state on mount: the sheet is closed; the theme is the stored
    one, ["system"] on a first visit. *)
Definition initial_header (stored : Theme) : HeaderState := mkHeader false stored.

(** [setTheme(theme === "dark" ? "light" : "dark")] (line 60). *)
Definition toggle_theme (t : Theme) : Theme :=
  match t with ThemeDark => ThemeLight | _ => ThemeDark end.

(** The scheme drawn for a stored theme: the system's while
    ["system"] ([enableSystem]). *)
Definition resolved (pref : Scheme) (t : Theme) : Scheme :=
  match t with ThemeSystem => pref | ThemeLight => Light | ThemeDark => Dark end.

(** What the visitor does: the theme button, the sheet's
    [onOpenChange(b)] (its trigger opens it; its overlay and Escape close
    it), and a link of the sheet. *)
Inductive HeaderEvent := ClickTheme | OpenChange (b : bool) | SheetLink (i : nat).

Definition header_step (h : HeaderState) (e : HeaderEvent) : HeaderState :=
  match e with
  | ClickTheme => mkHeader (h_isOpen h) (toggle_theme (h_theme h))
  | OpenChange b => mkHeader b (h_theme h)
  | SheetLink _ => mkHeader false (h_theme h)
  end.

Definition header_run (h : HeaderState) (es : list HeaderEvent) : HeaderState :=
  fold_left header_step es h.

(** The navigation items: [t(...)] names and [navigation]'s hrefs. *)
Definition nav_items (locale : string) : list (Text * string) :=
  combine [Tr "navigation.home"; Tr "navigation.inbox"; Tr "navigation.fiveMinEmail"]
          (Locale.navigation locale).

(** The drawn header (lines 28-102): the logo's link, the desktop bar,
    the sheet's items when it is open, and the icon the theme button
    shows (the sun in light, the moon in dark, by the [dark:] classes). *)
Record HeaderView := mkHeaderView {
  hv_logo_href : string;
  hv_desktop : list (Text * string);
  hv_sheet : option (list (Text * string));
  hv_icon : Scheme
}.

Definition render (pref : Scheme) (locale : string) (h : HeaderState) : HeaderView :=
  mkHeaderView ("/" +:+ locale) (nav_items locale)
    (if h_isOpen h then Some (nav_items locale) else None) (resolved pref (h_theme h)).

(** ** The specification *)

Module Spec.

(** What the visitor sees: the scheme drawn and whether the sheet is
    open. *)
Record State := mkState { s_scheme : Scheme; s_open : bool }.

Definition flip (s : Scheme) : Scheme := match s with Light => Dark | Dark => Light end.

(** One step of the specification; [None] is a stutter. *)
Definition step (s : State) (e : option HeaderEvent) : State :=
  match e with
  | None => s
  | Some ClickTheme => mkState (flip (s_scheme s)) (s_open s)
  | Some (OpenChange b) => mkState (s_scheme s) b
  | Some (SheetLink _) => mkState (s_scheme s) false
  end.

Definition run (s : State) (es : list (option HeaderEvent)) : State := fold_left step es s.

End Spec.

(** The abstraction: what the header draws. *)
Definition abs (pref : Scheme) (h : HeaderState) : Spec.State :=
  Spec.mkState (resolved pref (h_theme h)) (h_isOpen h).

(** The specification's label for a step of the header: the step
    itself, except the theme click that changes nothing on screen,
    which stutters. *)
Definition label (pref : Scheme) (h : HeaderState) (e : HeaderEvent) : option HeaderEvent :=
  match e, h_theme h, pref with
  | ClickTheme, ThemeSystem, Dark => None
  | _, _, _ => Some e
  end.

(** The labels of a run. *)
Fixpoint labels (pref : Scheme) (h : HeaderState) (es : list HeaderEvent) : list (option HeaderEvent) :=
  match es with
  | [] => []
  | e :: es => label pref h e :: labels pref (header_step h e) es
  end.

(** ** Lemmas *)

Lemma toggle_explicit t : toggle_theme t <> ThemeSystem.
Proof. by destruct t. Qed.

Lemma header_step_explicit h e :
  h_theme h <> ThemeSystem -> h_theme (header_step h e) <> ThemeSystem.
Proof. destruct e; simpl; auto using toggle_explicit. Qed.

(** One step of the header is one step of the specification. *)
Lemma abs_step pref h e : abs pref (header_step h e) = Spec.step (abs pref h) (label pref h e).
Proof. destruct h as [o t], e, t, pref; reflexivity. Qed.

Lemma abs_run pref h es : abs pref (header_run h es) = Spec.run (abs pref h) (labels pref h es).
Proof.
  revert h. induction es as [|e es IH]; intros h; [done|].
  unfold header_run in *. simpl. rewrite IH, abs_step. done.
Qed.

(** From an explicit theme no step stutters. *)
Lemma labels_explicit pref h es :
  h_theme h <> ThemeSystem -> labels pref h es = map Some es.
Proof.
  revert h. induction es as [|e es IH]; intros h Ht; [done|]. simpl.
  rewrite IH by (by apply header_step_explicit). f_equal.
  unfold label. by destruct e, (h_theme h), pref.
Qed.

(** ** Theorems *)

(** C40. The header refines its specification: every run of the header,
    seen through what it draws, is a run of the specification with the
    same events, except that the theme click on the stored theme
    ["system"] with a dark system stutters; from an explicit theme no
    event stutters; and once the theme has been clicked it is explicit,
    so at most the first click of a visit stutters. *)
Theorem header_refines pref h es :
  abs pref (header_run h es) = Spec.run (abs pref h) (labels pref h es) /\
  (h_theme h <> ThemeSystem -> labels pref h es = map Some es) /\
  (labels pref h (ClickTheme :: es) = None :: map Some es <-> h_theme h = ThemeSystem /\ pref = Dark).
Proof.
  split; [apply abs_run|]. split; [apply labels_explicit|].
  assert (Hl : labels pref h (ClickTheme :: es) =
               label pref h ClickTheme :: map Some es)
    by (simpl; f_equal; apply labels_explicit, toggle_explicit).
  rewrite Hl. unfold label.
  destruct (h_theme h), pref; intuition congruence.
Qed.

(** The sheet and the theme button as drawn: the sheet lists the
    desktop bar's items exactly while it is open, and a link of the
    sheet closes it; the button's icon changes with a click exactly when
    the stored theme is explicit or the system is light. *)
Theorem render_header pref locale h i :
  hv_sheet (render pref locale h) = (if h_isOpen h then Some (hv_desktop (render pref locale h)) else None) /\
  hv_sheet (render pref locale (header_step h (SheetLink i))) = None /\
  (hv_icon (render pref locale (header_step h ClickTheme)) <> hv_icon (render pref locale h) <->
   h_theme h <> ThemeSystem \/ pref = Light).
Proof.
  split; [reflexivity|]. split; [reflexivity|]. simpl.
  destruct (h_theme h), pref; simpl; intuition congruence.
Qed.

(** ** Witnesses *)

(** A first visit on a dark system: the first click changes nothing
    drawn, the second one switches to light. *)
Example first_click_on_dark_system :
  hv_icon (render Dark "en" (initial_header ThemeSystem)) = Dark /\
  hv_icon (render Dark "en" (header_run (initial_header ThemeSystem) [ClickTheme])) = Dark /\
  hv_icon (render Dark "en" (header_run (initial_header ThemeSystem) [ClickTheme; ClickTheme])) = Light.
Proof. repeat split. Qed.

Lemma header_refines_witness :
  labels Dark (initial_header ThemeSystem) [ClickTheme; ClickTheme] = [None; Some ClickTheme].
Proof. exact (proj2 (proj2 (proj2 (header_refines Dark (initial_header ThemeSystem) [ClickTheme]))) (conj eq_refl eq_refl)). Defined.

End Header.
