(* ===== verification/LanguageMenu.v ===== *)
(** * LanguageMenu: the two language menus and where they lead

    The language is switched from two menus with the same code: the
    floating switcher (src/components/language-switcher.tsx, lines
    14-61) and the footer's menu (src/components/footer.tsx, lines 22-34
    and 122-151).  Each draws a button named after [currentLanguage] and
    one item per entry of its [languages] table, highlighted when its
    code is the active locale, whose click pushes
    [handleLanguageChange(code)].  The active locale is the provider's,
    [safeLocale] of the URL's segment (layout.tsx, lines 31-39), and the
    path is the whole URL path ([usePathname()]).

    Next.js (outside src/, with its default [trailingSlash: false])
    redirects a path with a trailing slash to the path without it;
    [served] is the route of a path after that redirect.

    Theorems: the footer's menu is the switcher's; on every page of the
    app under a supported locale both menus name and highlight that
    language only, and each item leads to the same page in its
    language; on a path whose locale segment is not supported, the
    items lead to pages that do not exist or that are English again. *)

From S2P Require Import Prelude JsString Locale FiveMinPage HomePage Routing.

Module LanguageMenu.
Import Locale Routing.

(** The footer's own [languages] table (lines 22-25). *)
Definition footer_languages : list Language :=
  [mkLanguage "en" "English"; mkLanguage "es" "Español"].

(** The footer's [currentLanguage] (line 34). *)
Definition footer_currentLanguage (locale : string) : option Language :=
  List.find (fun l => String.eqb (lang_code l) locale) footer_languages.

(** A menu item: its language, whether it is highlighted
    ([locale === language.code ? 'bg-accent' : '']) and the path its
    click pushes. *)
Record MenuItem := mkItem { mi_language : Language; mi_active : bool; mi_target : string }.

Record MenuView := mkMenu { mv_button : option Language; mv_items : list MenuItem }.

(** The switcher's render (lines 33-61). *)
Definition switcher (locale pathname : string) : MenuView :=
  mkMenu (currentLanguage locale)
    (map (fun lg => mkItem lg (String.eqb locale (lang_code lg))
                      (handleLanguageChange locale pathname (lang_code lg))) languages).

(** The footer's language section (lines 122-151). *)
Definition footer_menu (locale pathname : string) : MenuView :=
  mkMenu (footer_currentLanguage locale)
    (map (fun lg => mkItem lg (String.eqb locale (lang_code lg))
                      (footer_handleLanguageChange locale pathname (lang_code lg))) footer_languages).

(** The trailing-slash redirect of Next.js: a path whose last segment
    is empty is served as the path without it. *)
Definition strip_slash (segs : list string) : list string :=
  if (1 <? length segs)%nat && String.eqb (List.last segs "") "" then removelast segs else segs.

Definition served (p : string) : option (string * list string) :=
  route_of (path_of (strip_slash (tl (js_split "/" p)))).

(** The items a menu highlights. *)
Definition active_codes (m : MenuView) : list string :=
  map (fun i => lang_code (mi_language i)) (filter mi_active (mv_items m)).

(** ** Lemmas *)

Lemma js_join_cons sep s ss :
  ss <> [] -> js_join sep (s :: ss) = s +:+ String sep (js_join sep ss).
Proof. intros Hne. unfold js_join. rewrite concat_cons. by destruct ss. Qed.

Lemma seg_ok_nonempty s : seg_ok s = true -> s <> "".
Proof. unfold seg_ok. intros H ->. done. Qed.

(** A path of the app with its locale segment replaced. *)
Lemma switch_path l rest c :
  rest <> [] ->
  handleLanguageChange l (path_of (l :: rest)) c = path_of (c :: rest).
Proof.
  intros Hne. unfold path_of. rewrite !js_join_cons by done.
  rewrite (string_app_assoc "/" l).
  apply (handleLanguageChange_head l (String "/" (js_join "/" rest)) c). done.
Qed.

Lemma switch_home l c : handleLanguageChange l (path_of [l]) c = path_of [c] +:+ "/".
Proof.
  unfold handleLanguageChange, path_of. cbn [js_join String.concat].
  assert (E : js_replace_first ("/" +:+ l) ("/" +:+ l) "" = "")
    by (rewrite <- (string_app_nil_r ("/" +:+ l)) at 1; apply js_replace_first_head).
  by rewrite E.
Qed.

Lemma seg_ok_nosep s : seg_ok s = true -> has_char "/" s = false.
Proof. unfold seg_ok. by destruct (has_char "/" s). Qed.

Lemma last_seg_ok segs :
  Forall (fun s => seg_ok s = true) segs -> segs <> [] -> String.eqb (List.last segs "") "" = false.
Proof.
  induction 1 as [|s segs Hs Hf IH]; [done|]. intros _.
  destruct segs as [|t segs].
  - simpl. apply String.eqb_neq. by apply seg_ok_nonempty.
  - by apply IH.
Qed.

(** A clean path is served as it is. *)
Lemma served_path l rest :
  Forall (fun s => seg_ok s = true) (l :: rest) ->
  served (path_of (l :: rest)) = route_of (path_of (l :: rest)).
Proof.
  intros Hf. unfold served. rewrite split_path by done. cbn [tl].
  unfold strip_slash. by rewrite last_seg_ok, andb_false_r.
Qed.

(** The home page of a locale with a trailing slash is served as the
    home page. *)
Lemma served_home c :
  seg_ok c = true -> served (path_of [c] +:+ "/") = route_of (path_of [c]).
Proof.
  intros Hc. unfold served.
  change (path_of [c] +:+ "/") with ("" +:+ String "/" (c +:+ String "/" "")).
  rewrite !js_split_app by (done || by apply seg_ok_nosep). reflexivity.
Qed.

(** ** Lemmas on the targets *)

Lemma switch_served l rest c :
  Forall (fun s => seg_ok s = true) (l :: rest) -> seg_ok c = true ->
  served (handleLanguageChange l (path_of (l :: rest)) c) = route_of (path_of (c :: rest)).
Proof.
  intros Hf Hc. destruct rest as [|r rest].
  - rewrite switch_home. by apply served_home.
  - rewrite switch_path by done. apply served_path.
    apply Forall_cons in Hf as [_ Hf]. by apply List.Forall_cons.
Qed.

(** The footer's menu is the switcher's. *)
Lemma footer_menu_switcher locale pathname : footer_menu locale pathname = switcher locale pathname.
Proof. reflexivity. Qed.

(** The side conditions on segments: each is a clean segment, by
    computation or by hypothesis. *)
Ltac clean_segs :=
  first [reflexivity | assumption
        | repeat (apply List.Forall_cons; [first [assumption | reflexivity]|]);
          first [assumption | apply List.Forall_nil]].

(** ** Theorems *)

(** C39. The language menus on the pages of the app: on any page of
    [app_routes] under a supported locale [l], the footer's menu is the
    switcher's, its button names [l], [l] is the only highlighted item,
    and every item leads to the same page in the item's language. *)
Theorem language_menus l rest :
  In l SUPPORTED -> Forall (fun s => seg_ok s = true) rest -> existsb (list_eqb rest) app_routes = true ->
  let path := path_of (l :: rest) in
  let m := switcher (safeLocale l) path in
  route_of path = Some (l, rest) /\ footer_menu (safeLocale l) path = m /\
  option_map lang_code (mv_button m) = Some l /\ active_codes m = [l] /\
  Forall (fun i => served (mi_target i) = Some (lang_code (mi_language i), rest)) (mv_items m).
Proof.
  intros Hl Hr He path m.
  assert (Hs : safeLocale l = l) by (apply (proj1 (proj2 (safeLocale_supported l))), Hl).
  subst path m. rewrite Hs.
  destruct Hl as [<- | [<- | []]];
    (split; [rewrite route_path by clean_segs; by rewrite He|]);
    (split; [apply footer_menu_switcher|]); (split; [done|]); (split; [done|]);
    repeat (apply List.Forall_cons; [cbn [mi_target mi_language lang_code];
                                     rewrite switch_served, route_path, He by clean_segs; done|]);
    apply List.Forall_nil.
Qed.

(** On a path whose locale segment is not supported, the page is
    English and the menus do not lead to its Spanish version: from
    ["/fr/inbox"] both items lead to paths no page serves, and from
    ["/en-US/inbox"] the Spanish item replaces the ["/en"] inside the
    segment and leads to ["/es-US/inbox"], English again. *)
Example unsupported_locale_menus :
  served "/fr/inbox" = Some ("fr", ["inbox"]) /\ safeLocale "fr" = "en" /\
  map mi_target (mv_items (switcher "en" "/fr/inbox")) = ["/en/fr/inbox"; "/es/fr/inbox"] /\
  map (fun i => served (mi_target i)) (mv_items (switcher "en" "/fr/inbox")) = [None; None] /\
  map mi_target (mv_items (switcher "en" "/en-US/inbox")) = ["/en-US/inbox"; "/es-US/inbox"] /\
  served "/es-US/inbox" = Some ("es-US", ["inbox"]) /\ safeLocale "es-US" = "en".
Proof. repeat split; vm_compute; reflexivity. Qed.

(** ** Witnesses *)

Lemma language_menus_witness :
  let m := switcher (safeLocale "es") (path_of ["es"; "inbox"]) in
  route_of (path_of ["es"; "inbox"]) = Some ("es", ["inbox"]) /\
  footer_menu (safeLocale "es") (path_of ["es"; "inbox"]) = m /\
  option_map lang_code (mv_button m) = Some "es" /\ active_codes m = ["es"] /\
  Forall (fun i => served (mi_target i) = Some (lang_code (mi_language i), ["inbox"])) (mv_items m).
Proof.
  exact (language_menus "es" ["inbox"] (or_intror (or_introl eq_refl))
           ltac:(segs_ok) ltac:(reflexivity)).
Defined.

End LanguageMenu.
