(* ===== verification/AppFlows.v ===== *)
(** * AppFlows: what one page stores and the next page reads

    The pages share nothing but localStorage.  The home page's generator
    ([Generator.initializeAccount], email-generator.tsx lines 28-79)
    creates or restores the regular account and its "Open Inbox" link
    leads to the inbox, whose account check ([InboxView.checkEmailAccount],
    inbox/page.tsx lines 328-343) reads the record back.  The 5-minute
    page ([FiveMin.initializeAccount], lines 47-93) does the same with
    the 5-minute record, read back by the 5-minute inbox
    ([FiveMinInbox.checkEmailAccount], lines 342-357).  The two visits
    are [home_then_inbox] and [five_then_inbox].

    Theorems: when the generator shows an account, the inbox opens that
    account; when creation fails, the generator shows a made-up address
    with the error and the inbox says there is no account.  The
    5-minute page and the 5-minute inbox show the same address and the
    same countdown at the same instant; when creation fails the page
    counts down 300 seconds for a made-up address the inbox does not
    know. *)

From S2P Require Import Prelude JsString EventLoop Dedup NotifClient InboxPage EmailService InboxView FiveMinPage Generator FiveMinInbox StorageWf InboxRender.
From stdpp Require Import gmap relations.

Module AppFlows.
Import InboxView Generator FiveMin FiveMinInbox StorageWf InboxRender.

(** No current account in a loaded record. *)
Definition no_account (r : option SiteEmailData) : Prop :=
  forall ds a lu, r <> Some (mkSiteData ds (Some a) lu).

(** ** The generator's mount *)

Lemma initialize_no_account w st inp :
  no_account (loadEmailData w st) ->
  initializeEmailAccount w st inp = create_and_save saveEmailData false w st inp.
Proof.
  intros Hn. unfold initializeEmailAccount.
  destruct (loadEmailData w st) as [[ds [a|] lu]|]; [|done|done]. by destruct (Hn ds a lu).
Qed.

(** What the generator's mount leaves: the account it shows is the
    stored one, or creation failed, storage is unchanged and holds no
    account. *)
Lemma gen_mount_cases w st inp g :
  w <> None -> draw_ok (in_domain_draw inp) ->
  let '(g', st') := Generator.initializeAccount w st inp g in
  g_isLoading g' = false /\ g_isGenerating g' = g_isGenerating g /\
  ((exists ds a lu, loadEmailData w st' = Some (mkSiteData ds (Some a) lu) /\
      g_email g' = acc_email a /\ g_error g' = None) \/
   (exists e, init_failed inp e /\ st' = st /\ no_account (loadEmailData w st) /\
      g_email g' = "temp.user.12345@sendbun.com" /\ g_error g' = Some (init_error_message e))).
Proof.
  intros Hw Hr. unfold Generator.initializeAccount. cbv zeta.
  destruct (loadEmailData w st) as [[ds [a|] lu]|] eqn:Hl.
  { split; [done|]. split; [done|]. left. by exists ds, a, lu. }
  all: assert (Hn : no_account (loadEmailData w st)) by (rewrite Hl; by intros ???);
       rewrite initialize_no_account by done;
       pose proof (create_and_save_load saveEmailData loadEmailData false w st inp
                     (fun d st => load_save_same getSiteKey w d st Hw) Hr) as Hc;
       destruct (create_and_save _ _ _ _ _) as [[a|e] st'];
       (split; [done|]); (split; [done|]).
  all: first [ left; destruct Hc as (ds' & d & _ & _ & Hl' & _); by exists ds', a, (in_now inp)
             | right; destruct Hc as [-> He]; by exists e ].
Qed.

(** ** The 5-minute page's mount *)

(** The clean-up leaves no expired 5-minute account. *)
Lemma cleanup5_fresh w now r st ds a lu :
  w <> None ->
  loadFiveMinEmailData w (cleanupExpired5MinAccounts w now r st) = Some (mkSiteData ds (Some a) lu) ->
  isAccountExpired a now = false.
Proof.
  intros Hw. unfold cleanupExpired5MinAccounts, cleanup_at.
  destruct (loadFiveMinEmailData w st) as [[ds0 [a0|] lu0]|] eqn:Hl; [|by rewrite Hl..].
  destruct (isAccountExpired a0 now) eqn:Hx.
  - rewrite (proj1 (proj2 (proj2 (storage_roundtrip w _ st Hw)))). done.
  - rewrite Hl. by intros [= -> ->].
Qed.

Lemma initialize5_no_account w st inp :
  no_account (loadFiveMinEmailData w st) ->
  initialize5MinEmailAccount w st inp = create_and_save saveFiveMinEmailData true w st inp.
Proof.
  intros Hn. unfold initialize5MinEmailAccount.
  destruct (loadFiveMinEmailData w st) as [[ds [a|] lu]|]; [|done|done]. by destruct (Hn ds a lu).
Qed.

(** What the 5-minute page's mount leaves: the account it shows is the
    stored one, counted down from that instant, or creation failed and
    the stored record holds no account. *)
Lemma five_mount_cases w st r inp f :
  w <> None -> draw_ok (in_domain_draw inp) ->
  let '(f', st') := FiveMin.initializeAccount w st r inp f in
  (exists ds a lu, loadFiveMinEmailData w st' = Some (mkSiteData ds (Some a) lu) /\
     f_email f' = acc_email a /\ f_timeLeft f' = getTimeRemaining a (in_now inp)) \/
  (exists e, init_failed inp e /\ no_account (loadFiveMinEmailData w st') /\
     f_email f' = "temp.5min." +:+ pretty (in_now inp) +:+ "@sendbun.com" /\ f_timeLeft f' = 300%Z).
Proof.
  intros Hw Hr. unfold FiveMin.initializeAccount. cbv zeta.
  set (st0 := cleanupExpired5MinAccounts w (in_now inp) r st).
  destruct (loadFiveMinEmailData w st0) as [[ds [a|] lu]|] eqn:Hl.
  { rewrite (cleanup5_fresh w (in_now inp) r st ds a lu Hw Hl). left. by exists ds, a, lu. }
  all: assert (Hn : no_account (loadFiveMinEmailData w st0)) by (rewrite Hl; by intros ???);
       rewrite initialize5_no_account by done;
       pose proof (create_and_save_load saveFiveMinEmailData loadFiveMinEmailData true w st0 inp
                     (fun d st => load_save_same getFiveMinSiteKey w d st Hw) Hr) as Hc;
       destruct (create_and_save _ _ _ _ _) as [[a|e] st'].
  all: first [ left; destruct Hc as (ds' & d & _ & _ & Hl' & _); by exists ds', a, (in_now inp)
             | right; destruct Hc as [-> He]; by exists e ].
Qed.

(** The inbox's count of an account with an expiry is the page's. *)
Lemma remaining_of_getTimeRemaining a now e :
  acc_expires_at a = Some e -> remaining_of a now = Some (getTimeRemaining a now).
Proof. intros He. unfold remaining_of, getTimeRemaining. by rewrite He. Qed.

Lemma js_present_error e : js_present (Some (init_error_message e)) = Some (init_error_message e).
Proof. by destruct e. Qed.

(** ** The two visits *)

(** The home page, then the inbox its generator links to
    (email-generator.tsx, lines 182-187): the generator's mount, then
    the inbox's account check on the storage the mount leaves. *)
Definition home_then_inbox (w : option Window) (st : Storage) (inp : InitInputs) (now : Z)
    : Gen * Storage * Page :=
  let '(g, st') := Generator.initializeAccount w st inp initial_gen in
  (g, st', InboxView.checkEmailAccount w st' now initial_page).

(** The 5-minute page, then the 5-minute inbox at the same instant
    (opened by its URL: no link of the app leads there). *)
Definition five_then_inbox (w : option Window) (st : Storage) (r : DeleteResponse) (inp : InitInputs)
    (fi : FInbox) : Five * Storage * FInbox :=
  let '(f, st') := FiveMin.initializeAccount w st r inp initial_five in
  (f, st', FiveMinInbox.checkEmailAccount w st' (in_now inp) fi).

(** ** Theorems *)

(** C17. From the home page to the inbox: after the generator's mount, the
    card shows the account the inbox then opens (same address, no error
    box, the generate button enabled); or creation failed, the card
    shows the address "temp.user.12345@sendbun.com" with the error, and
    the inbox, finding no account in storage, draws its "no account"
    card. *)
Theorem generator_then_inbox w st inp now locale :
  w <> None -> draw_ok (in_domain_draw inp) ->
  let '(g, st', p) := home_then_inbox w st inp now in
  (Generator.render locale g = GVCard None (g_email g) false false ("/" +:+ locale +:+ "/inbox") /\
   pg_hasEmailAccount p = true /\ env_email (inbox_env w st') = Some (g_email g)) \/
  (exists e, init_failed inp e /\
   Generator.render locale g =
     GVCard (Some (init_error_message e)) "temp.user.12345@sendbun.com" false false ("/" +:+ locale +:+ "/inbox") /\
   pg_hasEmailAccount p = false /\ InboxRender.render w st' now p = Some VNoAccount).
Proof.
  intros Hw Hr. unfold home_then_inbox. pose proof (gen_mount_cases w st inp initial_gen Hw Hr) as Hc.
  destruct (Generator.initializeAccount _ _ _ _) as [g st']. destruct Hc as (Hld & Hgen & Hc).
  unfold Generator.render. rewrite Hld, Hgen.
  destruct Hc as [(ds & a & lu & Hl & He & Herr) | (e & Hf & -> & Hn & He & Herr)].
  - left. rewrite Herr. split; [done|]. unfold InboxView.checkEmailAccount, inbox_env. rewrite Hl, He.
    split; [|done]. unfold loadEmails. repeat case_match; reflexivity.
  - right. exists e. rewrite Herr, He, js_present_error. do 2 (split; [done|]).
    unfold InboxView.checkEmailAccount.
    destruct (loadEmailData w st) as [[ds [a|] lu]|]; [by destruct (Hn ds a lu)| |]; done.
Qed.

(** C18. From the 5-minute page to the 5-minute inbox, in any storage the
    program reaches: after the page's mount, the inbox's account check
    at the same instant finds the account the page shows, with the
    same address and the same seconds left; or creation failed, the page
    counts down 300 seconds for the address
    ["temp.5min." + Date.now() + "@sendbun.com"], and the inbox finds no
    account. *)
Theorem five_page_then_inbox w st r inp fi :
  w <> None -> draw_ok (in_domain_draw inp) -> rtc (app_step w) ∅ st ->
  let '(f, st', fi') := five_then_inbox w st r inp fi in
  (fi_hasEmailAccount fi' = true /\ (five_inbox_env w st').2 = Some (f_email f) /\
   fi_timeLeft fi' = Some (f_timeLeft f)) \/
  (exists e, init_failed inp e /\ f_email f = "temp.5min." +:+ pretty (in_now inp) +:+ "@sendbun.com" /\
   f_timeLeft f = 300%Z /\ fi_hasEmailAccount fi' = false).
Proof.
  intros Hw Hr Hreach. unfold five_then_inbox.
  assert (Hwf : storage_wf w (FiveMin.initializeAccount w st r inp initial_five).2 = true)
    by (eapply rtc_app_step_wf; [eapply rtc_r; [exact Hreach|constructor]|apply storage_wf_empty]).
  pose proof (five_mount_cases w st r inp initial_five Hw Hr) as Hc.
  destruct (FiveMin.initializeAccount _ _ _ _ _) as [f st']. simpl in Hwf.
  unfold FiveMinInbox.checkEmailAccount, five_inbox_env.
  destruct Hc as [(ds & a & lu & Hl & He & Ht) | (e & Hf & Hn & He & Ht)].
  - left. rewrite Hl, He, Ht. split; [done|]. split; [done|].
    eapply remaining_of_getTimeRemaining, five_slot_expiry; eauto.
  - right. exists e. do 3 (split; [done|]).
    destruct (loadFiveMinEmailData w st') as [[ds [a|] lu]|]; [by destruct (Hn ds a lu)| |]; done.
Qed.

(** ** Witnesses *)

Lemma generator_then_inbox_witness :
  let '(g, st', p) := home_then_inbox site ∅ (demo_inputs 0 DomainsThrew) 0 in
  (Generator.render "es" g = GVCard None (g_email g) false false ("/" +:+ "es" +:+ "/inbox") /\
   pg_hasEmailAccount p = true /\ env_email (inbox_env site st') = Some (g_email g)) \/
  (exists e, init_failed (demo_inputs 0 DomainsThrew) e /\
   Generator.render "es" g =
     GVCard (Some (init_error_message e)) "temp.user.12345@sendbun.com" false false ("/" +:+ "es" +:+ "/inbox") /\
   pg_hasEmailAccount p = false /\ InboxRender.render site st' 0 p = Some VNoAccount).
Proof. exact (generator_then_inbox site ∅ (demo_inputs 0 DomainsThrew) 0 "es" ltac:(discriminate) half_ok). Defined.

Lemma five_page_then_inbox_witness :
  let '(f, st', fi') := five_then_inbox site ∅ DeleteOk (demo_inputs 0 DomainsThrew) initial_finbox in
  (fi_hasEmailAccount fi' = true /\ (five_inbox_env site st').2 = Some (f_email f) /\
   fi_timeLeft fi' = Some (f_timeLeft f)) \/
  (exists e, init_failed (demo_inputs 0 DomainsThrew) e /\
   f_email f = "temp.5min." +:+ pretty (in_now (demo_inputs 0 DomainsThrew)) +:+ "@sendbun.com" /\
   f_timeLeft f = 300%Z /\ fi_hasEmailAccount fi' = false).
Proof.
  exact (five_page_then_inbox site ∅ DeleteOk (demo_inputs 0 DomainsThrew) initial_finbox
           ltac:(discriminate) half_ok (rtc_refl _ _)).
Defined.

End AppFlows.
