(* ===== verification/Frame.v ===== *)
(** * Frame: the layout around every page and the footer's render

    Every page of src/app/[locale] is drawn inside the layout
    (src/app/[locale]/layout.tsx, lines 24-58): the provider of the
    locale [safeLocale] and its catalogue, the theme provider, the
    header, the page, the footer, the toaster and the floating language
    switcher.  The layout also exports the page's [metadata] (lines
    18-22).  The footer (src/components/footer.tsx, lines 16-161) draws
    the logo, the description, three social icons, three columns of
    links, its language menu and the copyright line.

    [footer_render] is the footer as a view; [frame] is the layout with
    the header, footer and switcher it mounts, all reading the same
    [useLocale()], the provider's [safeLocale].  The theorems show that
    the footer's links are the ones [Routing.app_links] resolves, that
    its language menu is the floating switcher on every page, and that
    the three social icons are styled as clickable ([cursor-pointer])
    but lead nowhere. *)

From S2P Require Import Prelude JsString EventLoop Dedup NotifClient InboxPage EmailService InboxView Locale InboxRender FiveMinPage HomePage Routing Header LanguageMenu.

Module Frame.
Import InboxRender Locale.

(** The page's [metadata] (lines 18-22). *)
Record Metadata := mkMetadata { md_title : string; md_description : string; md_generator : string }.

Definition metadata : Metadata :=
  mkMetadata "TempMail - Temporary Email Service"
    "Generate temporary email addresses for privacy and security" "v0.dev".

(** A social icon (lines 47-51): its name, whether it carries the
    [cursor-pointer] class, and where a click leads ([None]: no link
    and no handler). *)
Record Icon := mkIcon { ic_name : string; ic_pointer : bool; ic_href : option string }.

(** A column of links: its heading and its links with their texts. *)
Record Column := mkColumn { sc_title : Text; sc_links : list (Text * string) }.

Record FooterView := mkFooterView {
  fv_logo : string;
  fv_description : Text;
  fv_social : list Icon;
  fv_sections : list Column;
  fv_language_title : Text;
  fv_menu : LanguageMenu.MenuView;
  fv_copyright : Text
}.

(** The three icons (lines 47-51): [<Twitter/>], [<Github/>] and
    [<Linkedin/>] with no [Link] around them and no [onClick]. *)
Definition social_icons : list Icon :=
  [mkIcon "Twitter" true None; mkIcon "Github" true None; mkIcon "Linkedin" true None].

(** The three columns of links (lines 54-120). *)
Definition footer_sections (locale : string) : list Column :=
  [mkColumn (Tr "footer.features")
     [(Tr "footer.autoExpiration", "/" +:+ locale +:+ "/features/auto_expiration");
      (Tr "footer.customDomain", "/" +:+ locale +:+ "/features/custom_domain");
      (Tr "footer.emailForwarding", "/" +:+ locale +:+ "/features/email_forwarding")];
   mkColumn (Tr "footer.services")
     [(Tr "footer.fiveMinEmail", "/" +:+ locale +:+ "/5-minutes-temporary-email");
      (Tr "footer.tenMinEmail", "#");
      (Tr "footer.oneHourEmail", "#")];
   mkColumn (Tr "footer.company")
     [(Tr "footer.about", "/" +:+ locale +:+ "/about");
      (Tr "footer.privacyPolicy", "/" +:+ locale +:+ "/privacy");
      (Tr "footer.termsOfService", "/" +:+ locale +:+ "/terms");
      (Tr "footer.contact", "/" +:+ locale +:+ "/contact")]].

(** The footer's render (lines 36-161), for the provider's [locale]
    and the URL's [pathname]. *)
Definition footer_render (locale pathname : string) : FooterView :=
  mkFooterView "/logo.png" (Tr "footer.description") social_icons (footer_sections locale)
    (Tr "footer.language") (LanguageMenu.footer_menu locale pathname) (Tr "footer.copyright").

(** The hrefs of the footer's columns, in order. *)
Definition footer_hrefs (f : FooterView) : list string :=
  flat_map (fun s => map snd (sc_links s)) (fv_sections f).

(** The toaster's props (lines 46-51). *)
Record Toaster := mkToaster { to_position : string; to_richColors : bool; to_closeButton : bool; to_duration : Z }.

(** What the layout draws around a page (lines 36-58): the [lang] of
    the document, the header, the footer, the toaster and the floating
    switcher.  [pref] is the system's colour scheme and [h] the header's
    state, as in [Header]. *)
Record FrameView := mkFrame {
  fr_lang : string;
  fr_messages : option string;
  fr_header : Header.HeaderView;
  fr_footer : FooterView;
  fr_toaster : Toaster;
  fr_switcher : LanguageMenu.MenuView
}.

Definition frame (pref : Header.Scheme) (h : Header.HeaderState) (locale pathname : string) : FrameView :=
  let ly := HomePage.layout locale in
  let safe := HomePage.ly_lang ly in
  mkFrame safe (HomePage.ly_messages ly) (Header.render pref safe h) (footer_render safe pathname)
    (mkToaster (HomePage.ly_toast_position ly) true true (HomePage.ly_toast_duration ly))
    (LanguageMenu.switcher safe pathname).

(** ** Theorems *)

(** The footer's links are the list [Routing.app_links] resolves. *)
Theorem footer_targets locale pathname :
  footer_hrefs (footer_render locale pathname) = Routing.footer_links locale.
Proof. reflexivity. Qed.

(** The social icons look clickable and do nothing: every icon of the
    footer has the pointer cursor and no target. *)
Theorem social_icons_inert locale pathname :
  length (fv_social (footer_render locale pathname)) = 3%nat /\
  Forall (fun i => ic_pointer i = true /\ ic_href i = None) (fv_social (footer_render locale pathname)).
Proof. split; [reflexivity|]. repeat constructor. Qed.

(** The layout on any URL: the document's language is the provider's
    supported locale, with its catalogue; the header's logo and the
    footer's links use it; and the footer's language menu is the
    floating switcher, so the page carries two identical menus. *)
Theorem frame_spec pref h locale pathname :
  let f := frame pref h locale pathname in
  fr_lang f = safeLocale locale /\ In (fr_lang f) SUPPORTED /\ fr_messages f = Some (fr_lang f) /\
  Header.hv_logo_href (fr_header f) = "/" +:+ fr_lang f /\
  footer_hrefs (fr_footer f) = Routing.footer_links (fr_lang f) /\
  fv_menu (fr_footer f) = fr_switcher f.
Proof.
  cbn zeta. unfold frame, HomePage.layout. cbn [HomePage.ly_lang HomePage.ly_messages fr_lang fr_messages].
  destruct (safeLocale_supported locale) as [Hs _].
  split; [done|]. split; [done|]. split.
  - destruct Hs as [<- | [<- | []]]; reflexivity.
  - split; [reflexivity|]. split; [apply footer_targets|]. apply LanguageMenu.footer_menu_switcher.
Qed.

End Frame.
